(** * cpuid: the decode engine of [cpuid.c], embedded and verified

    The development follows the C source function by function.  Unsigned
    32-bit quantities are integers of [Z] with the wrap-around written out
    where the source can wrap; C strings are [string]; fixed [char] arrays
    that the source fills with [memcpy] are lists of characters; the
    [code_stash_t] accumulator is a record threaded through the functions
    that mutate it in C. *)

From Stdlib Require Import ZArith String Ascii List Bool Lia DecimalString.
Import ListNotations.

Open Scope string_scope.
Open Scope Z_scope.

(* ================================================================== *)
(** ** Machine words and the bit-field macros                          *)
(* ================================================================== *)

Definition cstring := string.

(** [unsigned int] arithmetic wraps modulo 2^32. *)
Definition u32 (x : Z) : Z := x mod 2 ^ 32.

(** An [unsigned int] handed to a [%d] conversion is read back as [int]. *)
Definition as_int (x : Z) : Z :=
  let w := u32 x in if w <? 2 ^ 31 then w else w - 2 ^ 32.

(** C's [/] on [unsigned int]: a zero divisor is a trap (SIGFPE on x86),
    so the quotient is partial. *)
Definition udiv (a b : Z) : option Z :=
  if b =? 0 then None else Some (a / b).

Definition BPI : Z := 32.
Definition POWER2 (power : Z) : Z := Z.shiftl 1 power.
Definition RIGHTMASK (width : Z) : Z :=
  if width >=? BPI then 0xffffffff else POWER2 width - 1.
Definition BIT_EXTRACT_LE (value start after : Z) : Z :=
  Z.shiftr (Z.land value (RIGHTMASK after)) start.

Definition WORD_EAX : nat := 0%nat.
Definition WORD_EBX : nat := 1%nat.
Definition WORD_ECX : nat := 2%nat.
Definition WORD_EDX : nat := 3%nat.
Definition WORD_NUM : nat := 4%nat.

(** The four result registers of one cpuid query, [words[WORD_NUM]]. *)
Definition word (words : list Z) (i : nat) : Z := nth i words 0.

Definition __F (v : Z) : Z := Z.land v 0x0ff00f00.
Definition __M (v : Z) : Z := Z.land v 0x000f00f0.
Definition __FM (v : Z) : Z := Z.land v 0x0fff0ff0.
Definition __FMS (v : Z) : Z := Z.land v 0x0fff0fff.

Definition __TF (v : Z) : Z := Z.land v 0x0ff03f00.
Definition __TFM (v : Z) : Z := Z.land v 0x0fff3ff0.
Definition __TFMS (v : Z) : Z := Z.land v 0x0fff3fff.

Definition _T (v : Z) : Z := Z.shiftl v 12.
Definition _F (v : Z) : Z := Z.shiftl v 8.
Definition _M (v : Z) : Z := Z.shiftl v 4.
Definition _S (v : Z) : Z := v.
Definition _XF (v : Z) : Z := Z.shiftl v 20.
Definition _XM (v : Z) : Z := Z.shiftl v 16.

Definition __B (v : Z) : Z := Z.land v 0x000000ff.
Definition _B (v : Z) : Z := v.

Definition _FM (xf f xm m : Z) : Z := _XF xf + _F f + _XM xm + _M m.
Definition _FMS (xf f xm m s : Z) : Z :=
  _XF xf + _F f + _XM xm + _M m + _S s.

(* ================================================================== *)
(** ** [bits_needed]: the inline assembly, instruction by instruction  *)
(* ================================================================== *)

Module Asm.

(** The registers the two [asm] blocks touch.  [rax] and [rcx] are kept
    as 64-bit values; [ax] and [cx] are their low 16 bits. *)
Record regs := mkRegs { rax : Z; rcx : Z; result : Z; ZF : bool }.

Definition low16 (r : Z) : Z := Z.land r 0xffff.
Definition low32 (r : Z) : Z := Z.land r 0xffffffff.
Definition wrap64 (r : Z) : Z := r mod 2 ^ 64.

(** [movq %[v],%%rax] *)
Definition movq_v_rax (v : Z) (r : regs) : regs :=
  mkRegs (wrap64 v) (rcx r) (result r) (ZF r).
(** [movq $0,%%rcx] *)
Definition movq_0_rcx (r : regs) : regs :=
  mkRegs (rax r) 0 (result r) (ZF r).
(** [movl $0,%[result]] *)
Definition movl_0_result (r : regs) : regs :=
  mkRegs (rax r) (rcx r) 0 (ZF r).
(** [decq %%rax] *)
Definition decq_rax (r : regs) : regs :=
  let x := wrap64 (rax r - 1) in
  mkRegs x (rcx r) (result r) (x =? 0).
(** [bsr %%ax,%%cx]: a zero source sets ZF and leaves [cx] alone;
    otherwise [cx] receives the index of the highest set bit of [ax]. *)
Definition bsr_ax_cx (r : regs) : regs :=
  let src := low16 (rax r) in
  if src =? 0 then mkRegs (rax r) (rcx r) (result r) true
  else mkRegs (rax r)
              (Z.lor (Z.land (rcx r) (Z.lnot 0xffff)) (Z.log2 src))
              (result r) false.
(** [incq %%rcx] *)
Definition incq_rcx (r : regs) : regs :=
  let x := wrap64 (rcx r + 1) in
  mkRegs (rax r) x (result r) (x =? 0).
(** [movl %%ecx,%[result]] *)
Definition movl_ecx_result (r : regs) : regs :=
  mkRegs (rax r) (rcx r) (low32 (rcx r)) (ZF r).

(** The 32-bit variants of the [#else] block. *)
Definition movl_0_ecx (r : regs) : regs :=
  mkRegs (rax r) 0 (result r) (ZF r).
Definition movl_v_eax (v : Z) (r : regs) : regs :=
  mkRegs (low32 v) (rcx r) (result r) (ZF r).
Definition decl_eax (r : regs) : regs :=
  let x := low32 (rax r - 1) in
  mkRegs x (rcx r) (result r) (x =? 0).
Definition incl_ecx (r : regs) : regs :=
  let x := low32 (rcx r + 1) in
  mkRegs (rax r) x (result r) (x =? 0).

Definition init : regs := mkRegs 0 0 0 false.

End Asm.

(** [static int bits_needed(unsigned long v)], the [__x86_64] block.
    [jz 1f] skips the last two instructions when [bsr] found no bit. *)
Definition bits_needed (v : Z) : Z :=
  let r := Asm.movq_v_rax v Asm.init in
  let r := Asm.movq_0_rcx r in
  let r := Asm.movl_0_result r in
  let r := Asm.decq_rax r in
  let r := Asm.bsr_ax_cx r in
  if Asm.ZF r then Asm.result r
  else
    let r := Asm.incq_rcx r in
    let r := Asm.movl_ecx_result r in
    Asm.result r.

(** The same function as compiled for 32-bit targets (the [#else] block). *)
Definition bits_needed_ilp32 (v : Z) : Z :=
  let r := Asm.movl_v_eax v Asm.init in
  let r := Asm.movl_0_ecx r in
  let r := Asm.movl_0_result r in
  let r := Asm.decl_eax r in
  let r := Asm.bsr_ax_cx r in
  if Asm.ZF r then Asm.result r
  else
    let r := Asm.incl_ecx r in
    let r := Asm.movl_ecx_result r in
    Asm.result r.
(* ================================================================== *)
(** ** The data model: [vendor_t], [hypervisor_t], [code_stash_t]       *)
(* ================================================================== *)

Inductive vendor_t : Set :=
  | VENDOR_UNKNOWN
  | VENDOR_INTEL
  | VENDOR_AMD
  | VENDOR_CYRIX
  | VENDOR_VIA
  | VENDOR_TRANSMETA
  | VENDOR_UMC
  | VENDOR_NEXGEN
  | VENDOR_RISE
  | VENDOR_SIS
  | VENDOR_NSC
  | VENDOR_VORTEX
  | VENDOR_RDC
  | VENDOR_HYGON
  | VENDOR_ZHAOXIN.

Definition vendor_eqb (a b : vendor_t) : bool :=
  match a, b with
  | VENDOR_UNKNOWN, VENDOR_UNKNOWN => true
  | VENDOR_INTEL, VENDOR_INTEL => true
  | VENDOR_AMD, VENDOR_AMD => true
  | VENDOR_CYRIX, VENDOR_CYRIX => true
  | VENDOR_VIA, VENDOR_VIA => true
  | VENDOR_TRANSMETA, VENDOR_TRANSMETA => true
  | VENDOR_UMC, VENDOR_UMC => true
  | VENDOR_NEXGEN, VENDOR_NEXGEN => true
  | VENDOR_RISE, VENDOR_RISE => true
  | VENDOR_SIS, VENDOR_SIS => true
  | VENDOR_NSC, VENDOR_NSC => true
  | VENDOR_VORTEX, VENDOR_VORTEX => true
  | VENDOR_RDC, VENDOR_RDC => true
  | VENDOR_HYGON, VENDOR_HYGON => true
  | VENDOR_ZHAOXIN, VENDOR_ZHAOXIN => true
  | _, _ => false
  end.

Inductive hypervisor_t : Set :=
  | HYPERVISOR_UNKNOWN
  | HYPERVISOR_VMWARE
  | HYPERVISOR_XEN
  | HYPERVISOR_KVM
  | HYPERVISOR_MICROSOFT.

(** [struct mp]: the multi-processing synthesis.  [method] is a nullable
    string; the two counts are [unsigned int]. *)
Record struct_mp : Set := {
  mp_method : option cstring;
  mp_cores : Z;
  mp_hyperthreads : Z
}.

(** [struct br]: what [decode_brand_string] read off the brand string.
    The three anonymous member structs (Intel, AMD, Cyrix) are laid out
    one after the other, so their fields are all distinct members. *)
Record struct_br : Set := {
  br_mobile : bool;
  br_celeron : bool;  (* Intel *)
  br_core : bool;
  br_pentium : bool;
  br_xeon_mp : bool;
  br_xeon : bool;
  br_pentium_m : bool;
  br_pentium_d : bool;
  br_extreme : bool;
  br_generic : bool;
  br_scalable : bool;
  br_u_line : bool;
  br_y_line : bool;
  br_i_10000 : bool;
  br_athlon_lv : bool;  (* AMD *)
  br_athlon_xp : bool;
  br_duron : bool;
  br_athlon : bool;
  br_sempron : bool;
  br_phenom : bool;
  br_series : bool;
  br_a_series : bool;
  br_c_series : bool;
  br_e_series : bool;
  br_g_series : bool;
  br_r_series : bool;
  br_z_series : bool;
  br_geode : bool;
  br_turion : bool;
  br_neo : bool;
  br_athlon_fx : bool;
  br_athlon_mp : bool;
  br_duron_mp : bool;
  br_opteron : bool;
  br_fx : bool;
  br_firepro : bool;
  br_ultra : bool;
  br_t_suffix : bool;
  br_ryzen : bool;
  br_epyc : bool;
  br_embedded : bool;
  br_cores : Z;
  br_mediagx : bool  (* Cyrix *)
}.

(** [struct bri]: what [decode_brand_id_stash] read off the brand id. *)
Record struct_bri : Set := {
  bri_desktop_pentium : bool;
  bri_desktop_celeron : bool;
  bri_mobile_pentium : bool;
  bri_mobile_pentium_m : bool;
  bri_mobile_celeron : bool;
  bri_xeon_mp : bool;
  bri_xeon : bool
}.

(** A zero-filled [char] array, as an initializer [""] leaves it. *)
Definition char_array (n : nat) : list ascii := repeat "000"%char n.

(** The string a [char] array holds: the characters before the first NUL. *)
Fixpoint c_str (buf : list ascii) : cstring :=
  match buf with
  | [] => EmptyString
  | c :: rest => if Ascii.eqb c "000" then EmptyString else String c (c_str rest)
  end.

(** [code_stash_t], in the order of the C declaration.  [override_brand]
    is only ever written by [sprintf] from its start, so it is kept as
    the string it holds; the arrays filled by [memcpy] are kept as arrays. *)
Record code_stash_t : Set := {
  vendor : vendor_t;
  saw_4 : bool;
  saw_b : bool;
  saw_1f : bool;
  val_0_eax : Z;
  val_1_eax : Z;
  val_1_ebx : Z;
  val_1_ecx : Z;
  val_1_edx : Z;
  val_4_eax : Z;
  val_b_eax : list Z;
  val_b_ebx : list Z;
  val_1f_eax : list Z;
  val_1f_ebx : list Z;
  val_1f_ecx : list Z;
  val_80000001_eax : Z;
  val_80000001_ebx : Z;
  val_80000001_ecx : Z;
  val_80000001_edx : Z;
  val_80000008_ecx : Z;
  val_8000001e_ebx : Z;
  transmeta_proc_rev : Z;
  brand : list ascii;
  transmeta_info : list ascii;
  override_brand : cstring;
  soc_brand : list ascii;
  hypervisor : hypervisor_t;
  mp : struct_mp;
  br : struct_br;
  bri : struct_bri;
  L2_4w_1Mor2M : bool;
  L2_4w_512K : bool;
  L2_4w_256K : bool;
  L2_8w_1Mor2M : bool;
  L2_8w_512K : bool;
  L2_8w_256K : bool;
  L2_2M : bool;
  L2_6M : bool;
  L3 : bool;
  L2_256K : bool;
  L2_512K : bool
}.

Definition NIL_BR : struct_br :=
  {| br_mobile := false;
     br_celeron := false;
     br_core := false;
     br_pentium := false;
     br_xeon_mp := false;
     br_xeon := false;
     br_pentium_m := false;
     br_pentium_d := false;
     br_extreme := false;
     br_generic := false;
     br_scalable := false;
     br_u_line := false;
     br_y_line := false;
     br_i_10000 := false;
     br_athlon_lv := false;
     br_athlon_xp := false;
     br_duron := false;
     br_athlon := false;
     br_sempron := false;
     br_phenom := false;
     br_series := false;
     br_a_series := false;
     br_c_series := false;
     br_e_series := false;
     br_g_series := false;
     br_r_series := false;
     br_z_series := false;
     br_geode := false;
     br_turion := false;
     br_neo := false;
     br_athlon_fx := false;
     br_athlon_mp := false;
     br_duron_mp := false;
     br_opteron := false;
     br_fx := false;
     br_firepro := false;
     br_ultra := false;
     br_t_suffix := false;
     br_ryzen := false;
     br_epyc := false;
     br_embedded := false;
     br_cores := 0;
     br_mediagx := false |}.

Definition NIL_BRI : struct_bri :=
  {| bri_desktop_pentium := false;
     bri_desktop_celeron := false;
     bri_mobile_pentium := false;
     bri_mobile_pentium_m := false;
     bri_mobile_celeron := false;
     bri_xeon_mp := false;
     bri_xeon := false |}.

Definition NIL_STASH : code_stash_t :=
  {| vendor := VENDOR_UNKNOWN;
     saw_4 := false;
     saw_b := false;
     saw_1f := false;
     val_0_eax := 0;
     val_1_eax := 0;
     val_1_ebx := 0;
     val_1_ecx := 0;
     val_1_edx := 0;
     val_4_eax := 0;
     val_b_eax := [0; 0];
     val_b_ebx := [0; 0];
     val_1f_eax := [0; 0; 0; 0; 0; 0];
     val_1f_ebx := [0; 0; 0; 0; 0; 0];
     val_1f_ecx := [0; 0; 0; 0; 0; 0];
     val_80000001_eax := 0;
     val_80000001_ebx := 0;
     val_80000001_ecx := 0;
     val_80000001_edx := 0;
     val_80000008_ecx := 0;
     val_8000001e_ebx := 0;
     transmeta_proc_rev := 0;
     brand := char_array (48 + 1);
     transmeta_info := char_array (64 + 1);
     override_brand := EmptyString;
     soc_brand := char_array (48 + 1);
     hypervisor := HYPERVISOR_UNKNOWN;
     mp := {| mp_method := None; mp_cores := u32 (-1); mp_hyperthreads := u32 (-1) |};
     br := NIL_BR;
     bri := NIL_BRI;
     L2_4w_1Mor2M := false;
     L2_4w_512K := false;
     L2_4w_256K := false;
     L2_8w_1Mor2M := false;
     L2_8w_512K := false;
     L2_8w_256K := false;
     L2_2M := false;
     L2_6M := false;
     L3 := false;
     L2_256K := false;
     L2_512K := false |}.

(** *** Field assignment

    [set_f v s] is the stash after [s->f = v]. *)

Definition set_mp_method (v : option cstring) (s : struct_mp) : struct_mp :=
  {| mp_method := v; mp_cores := mp_cores s;
     mp_hyperthreads := mp_hyperthreads s |}.

Definition set_mp_cores (v : Z) (s : struct_mp) : struct_mp :=
  {| mp_method := mp_method s; mp_cores := v;
     mp_hyperthreads := mp_hyperthreads s |}.

Definition set_mp_hyperthreads (v : Z) (s : struct_mp) : struct_mp :=
  {| mp_method := mp_method s; mp_cores := mp_cores s; mp_hyperthreads := v
     |}.

Definition set_bri_desktop_pentium (v : bool) (s : struct_bri) : struct_bri :=
  {| bri_desktop_pentium := v; bri_desktop_celeron := bri_desktop_celeron s;
     bri_mobile_pentium := bri_mobile_pentium s;
     bri_mobile_pentium_m := bri_mobile_pentium_m s;
     bri_mobile_celeron := bri_mobile_celeron s;
     bri_xeon_mp := bri_xeon_mp s; bri_xeon := bri_xeon s |}.

Definition set_bri_desktop_celeron (v : bool) (s : struct_bri) : struct_bri :=
  {| bri_desktop_pentium := bri_desktop_pentium s; bri_desktop_celeron := v;
     bri_mobile_pentium := bri_mobile_pentium s;
     bri_mobile_pentium_m := bri_mobile_pentium_m s;
     bri_mobile_celeron := bri_mobile_celeron s;
     bri_xeon_mp := bri_xeon_mp s; bri_xeon := bri_xeon s |}.

Definition set_bri_mobile_pentium (v : bool) (s : struct_bri) : struct_bri :=
  {| bri_desktop_pentium := bri_desktop_pentium s;
     bri_desktop_celeron := bri_desktop_celeron s; bri_mobile_pentium := v;
     bri_mobile_pentium_m := bri_mobile_pentium_m s;
     bri_mobile_celeron := bri_mobile_celeron s;
     bri_xeon_mp := bri_xeon_mp s; bri_xeon := bri_xeon s |}.

Definition set_bri_mobile_pentium_m (v : bool) (s : struct_bri) : struct_bri :=
  {| bri_desktop_pentium := bri_desktop_pentium s;
     bri_desktop_celeron := bri_desktop_celeron s;
     bri_mobile_pentium := bri_mobile_pentium s; bri_mobile_pentium_m := v;
     bri_mobile_celeron := bri_mobile_celeron s;
     bri_xeon_mp := bri_xeon_mp s; bri_xeon := bri_xeon s |}.

Definition set_bri_mobile_celeron (v : bool) (s : struct_bri) : struct_bri :=
  {| bri_desktop_pentium := bri_desktop_pentium s;
     bri_desktop_celeron := bri_desktop_celeron s;
     bri_mobile_pentium := bri_mobile_pentium s;
     bri_mobile_pentium_m := bri_mobile_pentium_m s;
     bri_mobile_celeron := v; bri_xeon_mp := bri_xeon_mp s;
     bri_xeon := bri_xeon s |}.

Definition set_bri_xeon_mp (v : bool) (s : struct_bri) : struct_bri :=
  {| bri_desktop_pentium := bri_desktop_pentium s;
     bri_desktop_celeron := bri_desktop_celeron s;
     bri_mobile_pentium := bri_mobile_pentium s;
     bri_mobile_pentium_m := bri_mobile_pentium_m s;
     bri_mobile_celeron := bri_mobile_celeron s; bri_xeon_mp := v;
     bri_xeon := bri_xeon s |}.

Definition set_bri_xeon (v : bool) (s : struct_bri) : struct_bri :=
  {| bri_desktop_pentium := bri_desktop_pentium s;
     bri_desktop_celeron := bri_desktop_celeron s;
     bri_mobile_pentium := bri_mobile_pentium s;
     bri_mobile_pentium_m := bri_mobile_pentium_m s;
     bri_mobile_celeron := bri_mobile_celeron s;
     bri_xeon_mp := bri_xeon_mp s; bri_xeon := v |}.

Definition set_vendor (v : vendor_t) (s : code_stash_t) : code_stash_t :=
  {| vendor := v; saw_4 := saw_4 s; saw_b := saw_b s; saw_1f := saw_1f s;
     val_0_eax := val_0_eax s; val_1_eax := val_1_eax s;
     val_1_ebx := val_1_ebx s; val_1_ecx := val_1_ecx s;
     val_1_edx := val_1_edx s; val_4_eax := val_4_eax s;
     val_b_eax := val_b_eax s; val_b_ebx := val_b_ebx s;
     val_1f_eax := val_1f_eax s; val_1f_ebx := val_1f_ebx s;
     val_1f_ecx := val_1f_ecx s; val_80000001_eax := val_80000001_eax s;
     val_80000001_ebx := val_80000001_ebx s;
     val_80000001_ecx := val_80000001_ecx s;
     val_80000001_edx := val_80000001_edx s;
     val_80000008_ecx := val_80000008_ecx s;
     val_8000001e_ebx := val_8000001e_ebx s;
     transmeta_proc_rev := transmeta_proc_rev s; brand := brand s;
     transmeta_info := transmeta_info s; override_brand := override_brand s;
     soc_brand := soc_brand s; hypervisor := hypervisor s; mp := mp s;
     br := br s; bri := bri s; L2_4w_1Mor2M := L2_4w_1Mor2M s;
     L2_4w_512K := L2_4w_512K s; L2_4w_256K := L2_4w_256K s;
     L2_8w_1Mor2M := L2_8w_1Mor2M s; L2_8w_512K := L2_8w_512K s;
     L2_8w_256K := L2_8w_256K s; L2_2M := L2_2M s; L2_6M := L2_6M s;
     L3 := L3 s; L2_256K := L2_256K s; L2_512K := L2_512K s |}.

Definition set_saw_4 (v : bool) (s : code_stash_t) : code_stash_t :=
  {| vendor := vendor s; saw_4 := v; saw_b := saw_b s; saw_1f := saw_1f s;
     val_0_eax := val_0_eax s; val_1_eax := val_1_eax s;
     val_1_ebx := val_1_ebx s; val_1_ecx := val_1_ecx s;
     val_1_edx := val_1_edx s; val_4_eax := val_4_eax s;
     val_b_eax := val_b_eax s; val_b_ebx := val_b_ebx s;
     val_1f_eax := val_1f_eax s; val_1f_ebx := val_1f_ebx s;
     val_1f_ecx := val_1f_ecx s; val_80000001_eax := val_80000001_eax s;
     val_80000001_ebx := val_80000001_ebx s;
     val_80000001_ecx := val_80000001_ecx s;
     val_80000001_edx := val_80000001_edx s;
     val_80000008_ecx := val_80000008_ecx s;
     val_8000001e_ebx := val_8000001e_ebx s;
     transmeta_proc_rev := transmeta_proc_rev s; brand := brand s;
     transmeta_info := transmeta_info s; override_brand := override_brand s;
     soc_brand := soc_brand s; hypervisor := hypervisor s; mp := mp s;
     br := br s; bri := bri s; L2_4w_1Mor2M := L2_4w_1Mor2M s;
     L2_4w_512K := L2_4w_512K s; L2_4w_256K := L2_4w_256K s;
     L2_8w_1Mor2M := L2_8w_1Mor2M s; L2_8w_512K := L2_8w_512K s;
     L2_8w_256K := L2_8w_256K s; L2_2M := L2_2M s; L2_6M := L2_6M s;
     L3 := L3 s; L2_256K := L2_256K s; L2_512K := L2_512K s |}.

Definition set_saw_b (v : bool) (s : code_stash_t) : code_stash_t :=
  {| vendor := vendor s; saw_4 := saw_4 s; saw_b := v; saw_1f := saw_1f s;
     val_0_eax := val_0_eax s; val_1_eax := val_1_eax s;
     val_1_ebx := val_1_ebx s; val_1_ecx := val_1_ecx s;
     val_1_edx := val_1_edx s; val_4_eax := val_4_eax s;
     val_b_eax := val_b_eax s; val_b_ebx := val_b_ebx s;
     val_1f_eax := val_1f_eax s; val_1f_ebx := val_1f_ebx s;
     val_1f_ecx := val_1f_ecx s; val_80000001_eax := val_80000001_eax s;
     val_80000001_ebx := val_80000001_ebx s;
     val_80000001_ecx := val_80000001_ecx s;
     val_80000001_edx := val_80000001_edx s;
     val_80000008_ecx := val_80000008_ecx s;
     val_8000001e_ebx := val_8000001e_ebx s;
     transmeta_proc_rev := transmeta_proc_rev s; brand := brand s;
     transmeta_info := transmeta_info s; override_brand := override_brand s;
     soc_brand := soc_brand s; hypervisor := hypervisor s; mp := mp s;
     br := br s; bri := bri s; L2_4w_1Mor2M := L2_4w_1Mor2M s;
     L2_4w_512K := L2_4w_512K s; L2_4w_256K := L2_4w_256K s;
     L2_8w_1Mor2M := L2_8w_1Mor2M s; L2_8w_512K := L2_8w_512K s;
     L2_8w_256K := L2_8w_256K s; L2_2M := L2_2M s; L2_6M := L2_6M s;
     L3 := L3 s; L2_256K := L2_256K s; L2_512K := L2_512K s |}.

Definition set_saw_1f (v : bool) (s : code_stash_t) : code_stash_t :=
  {| vendor := vendor s; saw_4 := saw_4 s; saw_b := saw_b s; saw_1f := v;
     val_0_eax := val_0_eax s; val_1_eax := val_1_eax s;
     val_1_ebx := val_1_ebx s; val_1_ecx := val_1_ecx s;
     val_1_edx := val_1_edx s; val_4_eax := val_4_eax s;
     val_b_eax := val_b_eax s; val_b_ebx := val_b_ebx s;
     val_1f_eax := val_1f_eax s; val_1f_ebx := val_1f_ebx s;
     val_1f_ecx := val_1f_ecx s; val_80000001_eax := val_80000001_eax s;
     val_80000001_ebx := val_80000001_ebx s;
     val_80000001_ecx := val_80000001_ecx s;
     val_80000001_edx := val_80000001_edx s;
     val_80000008_ecx := val_80000008_ecx s;
     val_8000001e_ebx := val_8000001e_ebx s;
     transmeta_proc_rev := transmeta_proc_rev s; brand := brand s;
     transmeta_info := transmeta_info s; override_brand := override_brand s;
     soc_brand := soc_brand s; hypervisor := hypervisor s; mp := mp s;
     br := br s; bri := bri s; L2_4w_1Mor2M := L2_4w_1Mor2M s;
     L2_4w_512K := L2_4w_512K s; L2_4w_256K := L2_4w_256K s;
     L2_8w_1Mor2M := L2_8w_1Mor2M s; L2_8w_512K := L2_8w_512K s;
     L2_8w_256K := L2_8w_256K s; L2_2M := L2_2M s; L2_6M := L2_6M s;
     L3 := L3 s; L2_256K := L2_256K s; L2_512K := L2_512K s |}.

Definition set_val_0_eax (v : Z) (s : code_stash_t) : code_stash_t :=
  {| vendor := vendor s; saw_4 := saw_4 s; saw_b := saw_b s;
     saw_1f := saw_1f s; val_0_eax := v; val_1_eax := val_1_eax s;
     val_1_ebx := val_1_ebx s; val_1_ecx := val_1_ecx s;
     val_1_edx := val_1_edx s; val_4_eax := val_4_eax s;
     val_b_eax := val_b_eax s; val_b_ebx := val_b_ebx s;
     val_1f_eax := val_1f_eax s; val_1f_ebx := val_1f_ebx s;
     val_1f_ecx := val_1f_ecx s; val_80000001_eax := val_80000001_eax s;
     val_80000001_ebx := val_80000001_ebx s;
     val_80000001_ecx := val_80000001_ecx s;
     val_80000001_edx := val_80000001_edx s;
     val_80000008_ecx := val_80000008_ecx s;
     val_8000001e_ebx := val_8000001e_ebx s;
     transmeta_proc_rev := transmeta_proc_rev s; brand := brand s;
     transmeta_info := transmeta_info s; override_brand := override_brand s;
     soc_brand := soc_brand s; hypervisor := hypervisor s; mp := mp s;
     br := br s; bri := bri s; L2_4w_1Mor2M := L2_4w_1Mor2M s;
     L2_4w_512K := L2_4w_512K s; L2_4w_256K := L2_4w_256K s;
     L2_8w_1Mor2M := L2_8w_1Mor2M s; L2_8w_512K := L2_8w_512K s;
     L2_8w_256K := L2_8w_256K s; L2_2M := L2_2M s; L2_6M := L2_6M s;
     L3 := L3 s; L2_256K := L2_256K s; L2_512K := L2_512K s |}.

Definition set_val_1_eax (v : Z) (s : code_stash_t) : code_stash_t :=
  {| vendor := vendor s; saw_4 := saw_4 s; saw_b := saw_b s;
     saw_1f := saw_1f s; val_0_eax := val_0_eax s; val_1_eax := v;
     val_1_ebx := val_1_ebx s; val_1_ecx := val_1_ecx s;
     val_1_edx := val_1_edx s; val_4_eax := val_4_eax s;
     val_b_eax := val_b_eax s; val_b_ebx := val_b_ebx s;
     val_1f_eax := val_1f_eax s; val_1f_ebx := val_1f_ebx s;
     val_1f_ecx := val_1f_ecx s; val_80000001_eax := val_80000001_eax s;
     val_80000001_ebx := val_80000001_ebx s;
     val_80000001_ecx := val_80000001_ecx s;
     val_80000001_edx := val_80000001_edx s;
     val_80000008_ecx := val_80000008_ecx s;
     val_8000001e_ebx := val_8000001e_ebx s;
     transmeta_proc_rev := transmeta_proc_rev s; brand := brand s;
     transmeta_info := transmeta_info s; override_brand := override_brand s;
     soc_brand := soc_brand s; hypervisor := hypervisor s; mp := mp s;
     br := br s; bri := bri s; L2_4w_1Mor2M := L2_4w_1Mor2M s;
     L2_4w_512K := L2_4w_512K s; L2_4w_256K := L2_4w_256K s;
     L2_8w_1Mor2M := L2_8w_1Mor2M s; L2_8w_512K := L2_8w_512K s;
     L2_8w_256K := L2_8w_256K s; L2_2M := L2_2M s; L2_6M := L2_6M s;
     L3 := L3 s; L2_256K := L2_256K s; L2_512K := L2_512K s |}.

Definition set_val_1_ebx (v : Z) (s : code_stash_t) : code_stash_t :=
  {| vendor := vendor s; saw_4 := saw_4 s; saw_b := saw_b s;
     saw_1f := saw_1f s; val_0_eax := val_0_eax s; val_1_eax := val_1_eax s;
     val_1_ebx := v; val_1_ecx := val_1_ecx s; val_1_edx := val_1_edx s;
     val_4_eax := val_4_eax s; val_b_eax := val_b_eax s;
     val_b_ebx := val_b_ebx s; val_1f_eax := val_1f_eax s;
     val_1f_ebx := val_1f_ebx s; val_1f_ecx := val_1f_ecx s;
     val_80000001_eax := val_80000001_eax s;
     val_80000001_ebx := val_80000001_ebx s;
     val_80000001_ecx := val_80000001_ecx s;
     val_80000001_edx := val_80000001_edx s;
     val_80000008_ecx := val_80000008_ecx s;
     val_8000001e_ebx := val_8000001e_ebx s;
     transmeta_proc_rev := transmeta_proc_rev s; brand := brand s;
     transmeta_info := transmeta_info s; override_brand := override_brand s;
     soc_brand := soc_brand s; hypervisor := hypervisor s; mp := mp s;
     br := br s; bri := bri s; L2_4w_1Mor2M := L2_4w_1Mor2M s;
     L2_4w_512K := L2_4w_512K s; L2_4w_256K := L2_4w_256K s;
     L2_8w_1Mor2M := L2_8w_1Mor2M s; L2_8w_512K := L2_8w_512K s;
     L2_8w_256K := L2_8w_256K s; L2_2M := L2_2M s; L2_6M := L2_6M s;
     L3 := L3 s; L2_256K := L2_256K s; L2_512K := L2_512K s |}.

Definition set_val_1_ecx (v : Z) (s : code_stash_t) : code_stash_t :=
  {| vendor := vendor s; saw_4 := saw_4 s; saw_b := saw_b s;
     saw_1f := saw_1f s; val_0_eax := val_0_eax s; val_1_eax := val_1_eax s;
     val_1_ebx := val_1_ebx s; val_1_ecx := v; val_1_edx := val_1_edx s;
     val_4_eax := val_4_eax s; val_b_eax := val_b_eax s;
     val_b_ebx := val_b_ebx s; val_1f_eax := val_1f_eax s;
     val_1f_ebx := val_1f_ebx s; val_1f_ecx := val_1f_ecx s;
     val_80000001_eax := val_80000001_eax s;
     val_80000001_ebx := val_80000001_ebx s;
     val_80000001_ecx := val_80000001_ecx s;
     val_80000001_edx := val_80000001_edx s;
     val_80000008_ecx := val_80000008_ecx s;
     val_8000001e_ebx := val_8000001e_ebx s;
     transmeta_proc_rev := transmeta_proc_rev s; brand := brand s;
     transmeta_info := transmeta_info s; override_brand := override_brand s;
     soc_brand := soc_brand s; hypervisor := hypervisor s; mp := mp s;
     br := br s; bri := bri s; L2_4w_1Mor2M := L2_4w_1Mor2M s;
     L2_4w_512K := L2_4w_512K s; L2_4w_256K := L2_4w_256K s;
     L2_8w_1Mor2M := L2_8w_1Mor2M s; L2_8w_512K := L2_8w_512K s;
     L2_8w_256K := L2_8w_256K s; L2_2M := L2_2M s; L2_6M := L2_6M s;
     L3 := L3 s; L2_256K := L2_256K s; L2_512K := L2_512K s |}.

Definition set_val_1_edx (v : Z) (s : code_stash_t) : code_stash_t :=
  {| vendor := vendor s; saw_4 := saw_4 s; saw_b := saw_b s;
     saw_1f := saw_1f s; val_0_eax := val_0_eax s; val_1_eax := val_1_eax s;
     val_1_ebx := val_1_ebx s; val_1_ecx := val_1_ecx s; val_1_edx := v;
     val_4_eax := val_4_eax s; val_b_eax := val_b_eax s;
     val_b_ebx := val_b_ebx s; val_1f_eax := val_1f_eax s;
     val_1f_ebx := val_1f_ebx s; val_1f_ecx := val_1f_ecx s;
     val_80000001_eax := val_80000001_eax s;
     val_80000001_ebx := val_80000001_ebx s;
     val_80000001_ecx := val_80000001_ecx s;
     val_80000001_edx := val_80000001_edx s;
     val_80000008_ecx := val_80000008_ecx s;
     val_8000001e_ebx := val_8000001e_ebx s;
     transmeta_proc_rev := transmeta_proc_rev s; brand := brand s;
     transmeta_info := transmeta_info s; override_brand := override_brand s;
     soc_brand := soc_brand s; hypervisor := hypervisor s; mp := mp s;
     br := br s; bri := bri s; L2_4w_1Mor2M := L2_4w_1Mor2M s;
     L2_4w_512K := L2_4w_512K s; L2_4w_256K := L2_4w_256K s;
     L2_8w_1Mor2M := L2_8w_1Mor2M s; L2_8w_512K := L2_8w_512K s;
     L2_8w_256K := L2_8w_256K s; L2_2M := L2_2M s; L2_6M := L2_6M s;
     L3 := L3 s; L2_256K := L2_256K s; L2_512K := L2_512K s |}.

Definition set_val_4_eax (v : Z) (s : code_stash_t) : code_stash_t :=
  {| vendor := vendor s; saw_4 := saw_4 s; saw_b := saw_b s;
     saw_1f := saw_1f s; val_0_eax := val_0_eax s; val_1_eax := val_1_eax s;
     val_1_ebx := val_1_ebx s; val_1_ecx := val_1_ecx s;
     val_1_edx := val_1_edx s; val_4_eax := v; val_b_eax := val_b_eax s;
     val_b_ebx := val_b_ebx s; val_1f_eax := val_1f_eax s;
     val_1f_ebx := val_1f_ebx s; val_1f_ecx := val_1f_ecx s;
     val_80000001_eax := val_80000001_eax s;
     val_80000001_ebx := val_80000001_ebx s;
     val_80000001_ecx := val_80000001_ecx s;
     val_80000001_edx := val_80000001_edx s;
     val_80000008_ecx := val_80000008_ecx s;
     val_8000001e_ebx := val_8000001e_ebx s;
     transmeta_proc_rev := transmeta_proc_rev s; brand := brand s;
     transmeta_info := transmeta_info s; override_brand := override_brand s;
     soc_brand := soc_brand s; hypervisor := hypervisor s; mp := mp s;
     br := br s; bri := bri s; L2_4w_1Mor2M := L2_4w_1Mor2M s;
     L2_4w_512K := L2_4w_512K s; L2_4w_256K := L2_4w_256K s;
     L2_8w_1Mor2M := L2_8w_1Mor2M s; L2_8w_512K := L2_8w_512K s;
     L2_8w_256K := L2_8w_256K s; L2_2M := L2_2M s; L2_6M := L2_6M s;
     L3 := L3 s; L2_256K := L2_256K s; L2_512K := L2_512K s |}.

Definition set_val_b_eax (v : list Z) (s : code_stash_t) : code_stash_t :=
  {| vendor := vendor s; saw_4 := saw_4 s; saw_b := saw_b s;
     saw_1f := saw_1f s; val_0_eax := val_0_eax s; val_1_eax := val_1_eax s;
     val_1_ebx := val_1_ebx s; val_1_ecx := val_1_ecx s;
     val_1_edx := val_1_edx s; val_4_eax := val_4_eax s; val_b_eax := v;
     val_b_ebx := val_b_ebx s; val_1f_eax := val_1f_eax s;
     val_1f_ebx := val_1f_ebx s; val_1f_ecx := val_1f_ecx s;
     val_80000001_eax := val_80000001_eax s;
     val_80000001_ebx := val_80000001_ebx s;
     val_80000001_ecx := val_80000001_ecx s;
     val_80000001_edx := val_80000001_edx s;
     val_80000008_ecx := val_80000008_ecx s;
     val_8000001e_ebx := val_8000001e_ebx s;
     transmeta_proc_rev := transmeta_proc_rev s; brand := brand s;
     transmeta_info := transmeta_info s; override_brand := override_brand s;
     soc_brand := soc_brand s; hypervisor := hypervisor s; mp := mp s;
     br := br s; bri := bri s; L2_4w_1Mor2M := L2_4w_1Mor2M s;
     L2_4w_512K := L2_4w_512K s; L2_4w_256K := L2_4w_256K s;
     L2_8w_1Mor2M := L2_8w_1Mor2M s; L2_8w_512K := L2_8w_512K s;
     L2_8w_256K := L2_8w_256K s; L2_2M := L2_2M s; L2_6M := L2_6M s;
     L3 := L3 s; L2_256K := L2_256K s; L2_512K := L2_512K s |}.

Definition set_val_b_ebx (v : list Z) (s : code_stash_t) : code_stash_t :=
  {| vendor := vendor s; saw_4 := saw_4 s; saw_b := saw_b s;
     saw_1f := saw_1f s; val_0_eax := val_0_eax s; val_1_eax := val_1_eax s;
     val_1_ebx := val_1_ebx s; val_1_ecx := val_1_ecx s;
     val_1_edx := val_1_edx s; val_4_eax := val_4_eax s;
     val_b_eax := val_b_eax s; val_b_ebx := v; val_1f_eax := val_1f_eax s;
     val_1f_ebx := val_1f_ebx s; val_1f_ecx := val_1f_ecx s;
     val_80000001_eax := val_80000001_eax s;
     val_80000001_ebx := val_80000001_ebx s;
     val_80000001_ecx := val_80000001_ecx s;
     val_80000001_edx := val_80000001_edx s;
     val_80000008_ecx := val_80000008_ecx s;
     val_8000001e_ebx := val_8000001e_ebx s;
     transmeta_proc_rev := transmeta_proc_rev s; brand := brand s;
     transmeta_info := transmeta_info s; override_brand := override_brand s;
     soc_brand := soc_brand s; hypervisor := hypervisor s; mp := mp s;
     br := br s; bri := bri s; L2_4w_1Mor2M := L2_4w_1Mor2M s;
     L2_4w_512K := L2_4w_512K s; L2_4w_256K := L2_4w_256K s;
     L2_8w_1Mor2M := L2_8w_1Mor2M s; L2_8w_512K := L2_8w_512K s;
     L2_8w_256K := L2_8w_256K s; L2_2M := L2_2M s; L2_6M := L2_6M s;
     L3 := L3 s; L2_256K := L2_256K s; L2_512K := L2_512K s |}.

Definition set_val_1f_eax (v : list Z) (s : code_stash_t) : code_stash_t :=
  {| vendor := vendor s; saw_4 := saw_4 s; saw_b := saw_b s;
     saw_1f := saw_1f s; val_0_eax := val_0_eax s; val_1_eax := val_1_eax s;
     val_1_ebx := val_1_ebx s; val_1_ecx := val_1_ecx s;
     val_1_edx := val_1_edx s; val_4_eax := val_4_eax s;
     val_b_eax := val_b_eax s; val_b_ebx := val_b_ebx s; val_1f_eax := v;
     val_1f_ebx := val_1f_ebx s; val_1f_ecx := val_1f_ecx s;
     val_80000001_eax := val_80000001_eax s;
     val_80000001_ebx := val_80000001_ebx s;
     val_80000001_ecx := val_80000001_ecx s;
     val_80000001_edx := val_80000001_edx s;
     val_80000008_ecx := val_80000008_ecx s;
     val_8000001e_ebx := val_8000001e_ebx s;
     transmeta_proc_rev := transmeta_proc_rev s; brand := brand s;
     transmeta_info := transmeta_info s; override_brand := override_brand s;
     soc_brand := soc_brand s; hypervisor := hypervisor s; mp := mp s;
     br := br s; bri := bri s; L2_4w_1Mor2M := L2_4w_1Mor2M s;
     L2_4w_512K := L2_4w_512K s; L2_4w_256K := L2_4w_256K s;
     L2_8w_1Mor2M := L2_8w_1Mor2M s; L2_8w_512K := L2_8w_512K s;
     L2_8w_256K := L2_8w_256K s; L2_2M := L2_2M s; L2_6M := L2_6M s;
     L3 := L3 s; L2_256K := L2_256K s; L2_512K := L2_512K s |}.

Definition set_val_1f_ebx (v : list Z) (s : code_stash_t) : code_stash_t :=
  {| vendor := vendor s; saw_4 := saw_4 s; saw_b := saw_b s;
     saw_1f := saw_1f s; val_0_eax := val_0_eax s; val_1_eax := val_1_eax s;
     val_1_ebx := val_1_ebx s; val_1_ecx := val_1_ecx s;
     val_1_edx := val_1_edx s; val_4_eax := val_4_eax s;
     val_b_eax := val_b_eax s; val_b_ebx := val_b_ebx s;
     val_1f_eax := val_1f_eax s; val_1f_ebx := v;
     val_1f_ecx := val_1f_ecx s; val_80000001_eax := val_80000001_eax s;
     val_80000001_ebx := val_80000001_ebx s;
     val_80000001_ecx := val_80000001_ecx s;
     val_80000001_edx := val_80000001_edx s;
     val_80000008_ecx := val_80000008_ecx s;
     val_8000001e_ebx := val_8000001e_ebx s;
     transmeta_proc_rev := transmeta_proc_rev s; brand := brand s;
     transmeta_info := transmeta_info s; override_brand := override_brand s;
     soc_brand := soc_brand s; hypervisor := hypervisor s; mp := mp s;
     br := br s; bri := bri s; L2_4w_1Mor2M := L2_4w_1Mor2M s;
     L2_4w_512K := L2_4w_512K s; L2_4w_256K := L2_4w_256K s;
     L2_8w_1Mor2M := L2_8w_1Mor2M s; L2_8w_512K := L2_8w_512K s;
     L2_8w_256K := L2_8w_256K s; L2_2M := L2_2M s; L2_6M := L2_6M s;
     L3 := L3 s; L2_256K := L2_256K s; L2_512K := L2_512K s |}.

Definition set_val_1f_ecx (v : list Z) (s : code_stash_t) : code_stash_t :=
  {| vendor := vendor s; saw_4 := saw_4 s; saw_b := saw_b s;
     saw_1f := saw_1f s; val_0_eax := val_0_eax s; val_1_eax := val_1_eax s;
     val_1_ebx := val_1_ebx s; val_1_ecx := val_1_ecx s;
     val_1_edx := val_1_edx s; val_4_eax := val_4_eax s;
     val_b_eax := val_b_eax s; val_b_ebx := val_b_ebx s;
     val_1f_eax := val_1f_eax s; val_1f_ebx := val_1f_ebx s;
     val_1f_ecx := v; val_80000001_eax := val_80000001_eax s;
     val_80000001_ebx := val_80000001_ebx s;
     val_80000001_ecx := val_80000001_ecx s;
     val_80000001_edx := val_80000001_edx s;
     val_80000008_ecx := val_80000008_ecx s;
     val_8000001e_ebx := val_8000001e_ebx s;
     transmeta_proc_rev := transmeta_proc_rev s; brand := brand s;
     transmeta_info := transmeta_info s; override_brand := override_brand s;
     soc_brand := soc_brand s; hypervisor := hypervisor s; mp := mp s;
     br := br s; bri := bri s; L2_4w_1Mor2M := L2_4w_1Mor2M s;
     L2_4w_512K := L2_4w_512K s; L2_4w_256K := L2_4w_256K s;
     L2_8w_1Mor2M := L2_8w_1Mor2M s; L2_8w_512K := L2_8w_512K s;
     L2_8w_256K := L2_8w_256K s; L2_2M := L2_2M s; L2_6M := L2_6M s;
     L3 := L3 s; L2_256K := L2_256K s; L2_512K := L2_512K s |}.

Definition set_val_80000001_eax (v : Z) (s : code_stash_t) : code_stash_t :=
  {| vendor := vendor s; saw_4 := saw_4 s; saw_b := saw_b s;
     saw_1f := saw_1f s; val_0_eax := val_0_eax s; val_1_eax := val_1_eax s;
     val_1_ebx := val_1_ebx s; val_1_ecx := val_1_ecx s;
     val_1_edx := val_1_edx s; val_4_eax := val_4_eax s;
     val_b_eax := val_b_eax s; val_b_ebx := val_b_ebx s;
     val_1f_eax := val_1f_eax s; val_1f_ebx := val_1f_ebx s;
     val_1f_ecx := val_1f_ecx s; val_80000001_eax := v;
     val_80000001_ebx := val_80000001_ebx s;
     val_80000001_ecx := val_80000001_ecx s;
     val_80000001_edx := val_80000001_edx s;
     val_80000008_ecx := val_80000008_ecx s;
     val_8000001e_ebx := val_8000001e_ebx s;
     transmeta_proc_rev := transmeta_proc_rev s; brand := brand s;
     transmeta_info := transmeta_info s; override_brand := override_brand s;
     soc_brand := soc_brand s; hypervisor := hypervisor s; mp := mp s;
     br := br s; bri := bri s; L2_4w_1Mor2M := L2_4w_1Mor2M s;
     L2_4w_512K := L2_4w_512K s; L2_4w_256K := L2_4w_256K s;
     L2_8w_1Mor2M := L2_8w_1Mor2M s; L2_8w_512K := L2_8w_512K s;
     L2_8w_256K := L2_8w_256K s; L2_2M := L2_2M s; L2_6M := L2_6M s;
     L3 := L3 s; L2_256K := L2_256K s; L2_512K := L2_512K s |}.

Definition set_val_80000001_ebx (v : Z) (s : code_stash_t) : code_stash_t :=
  {| vendor := vendor s; saw_4 := saw_4 s; saw_b := saw_b s;
     saw_1f := saw_1f s; val_0_eax := val_0_eax s; val_1_eax := val_1_eax s;
     val_1_ebx := val_1_ebx s; val_1_ecx := val_1_ecx s;
     val_1_edx := val_1_edx s; val_4_eax := val_4_eax s;
     val_b_eax := val_b_eax s; val_b_ebx := val_b_ebx s;
     val_1f_eax := val_1f_eax s; val_1f_ebx := val_1f_ebx s;
     val_1f_ecx := val_1f_ecx s; val_80000001_eax := val_80000001_eax s;
     val_80000001_ebx := v; val_80000001_ecx := val_80000001_ecx s;
     val_80000001_edx := val_80000001_edx s;
     val_80000008_ecx := val_80000008_ecx s;
     val_8000001e_ebx := val_8000001e_ebx s;
     transmeta_proc_rev := transmeta_proc_rev s; brand := brand s;
     transmeta_info := transmeta_info s; override_brand := override_brand s;
     soc_brand := soc_brand s; hypervisor := hypervisor s; mp := mp s;
     br := br s; bri := bri s; L2_4w_1Mor2M := L2_4w_1Mor2M s;
     L2_4w_512K := L2_4w_512K s; L2_4w_256K := L2_4w_256K s;
     L2_8w_1Mor2M := L2_8w_1Mor2M s; L2_8w_512K := L2_8w_512K s;
     L2_8w_256K := L2_8w_256K s; L2_2M := L2_2M s; L2_6M := L2_6M s;
     L3 := L3 s; L2_256K := L2_256K s; L2_512K := L2_512K s |}.

Definition set_val_80000001_ecx (v : Z) (s : code_stash_t) : code_stash_t :=
  {| vendor := vendor s; saw_4 := saw_4 s; saw_b := saw_b s;
     saw_1f := saw_1f s; val_0_eax := val_0_eax s; val_1_eax := val_1_eax s;
     val_1_ebx := val_1_ebx s; val_1_ecx := val_1_ecx s;
     val_1_edx := val_1_edx s; val_4_eax := val_4_eax s;
     val_b_eax := val_b_eax s; val_b_ebx := val_b_ebx s;
     val_1f_eax := val_1f_eax s; val_1f_ebx := val_1f_ebx s;
     val_1f_ecx := val_1f_ecx s; val_80000001_eax := val_80000001_eax s;
     val_80000001_ebx := val_80000001_ebx s; val_80000001_ecx := v;
     val_80000001_edx := val_80000001_edx s;
     val_80000008_ecx := val_80000008_ecx s;
     val_8000001e_ebx := val_8000001e_ebx s;
     transmeta_proc_rev := transmeta_proc_rev s; brand := brand s;
     transmeta_info := transmeta_info s; override_brand := override_brand s;
     soc_brand := soc_brand s; hypervisor := hypervisor s; mp := mp s;
     br := br s; bri := bri s; L2_4w_1Mor2M := L2_4w_1Mor2M s;
     L2_4w_512K := L2_4w_512K s; L2_4w_256K := L2_4w_256K s;
     L2_8w_1Mor2M := L2_8w_1Mor2M s; L2_8w_512K := L2_8w_512K s;
     L2_8w_256K := L2_8w_256K s; L2_2M := L2_2M s; L2_6M := L2_6M s;
     L3 := L3 s; L2_256K := L2_256K s; L2_512K := L2_512K s |}.

Definition set_val_80000001_edx (v : Z) (s : code_stash_t) : code_stash_t :=
  {| vendor := vendor s; saw_4 := saw_4 s; saw_b := saw_b s;
     saw_1f := saw_1f s; val_0_eax := val_0_eax s; val_1_eax := val_1_eax s;
     val_1_ebx := val_1_ebx s; val_1_ecx := val_1_ecx s;
     val_1_edx := val_1_edx s; val_4_eax := val_4_eax s;
     val_b_eax := val_b_eax s; val_b_ebx := val_b_ebx s;
     val_1f_eax := val_1f_eax s; val_1f_ebx := val_1f_ebx s;
     val_1f_ecx := val_1f_ecx s; val_80000001_eax := val_80000001_eax s;
     val_80000001_ebx := val_80000001_ebx s;
     val_80000001_ecx := val_80000001_ecx s; val_80000001_edx := v;
     val_80000008_ecx := val_80000008_ecx s;
     val_8000001e_ebx := val_8000001e_ebx s;
     transmeta_proc_rev := transmeta_proc_rev s; brand := brand s;
     transmeta_info := transmeta_info s; override_brand := override_brand s;
     soc_brand := soc_brand s; hypervisor := hypervisor s; mp := mp s;
     br := br s; bri := bri s; L2_4w_1Mor2M := L2_4w_1Mor2M s;
     L2_4w_512K := L2_4w_512K s; L2_4w_256K := L2_4w_256K s;
     L2_8w_1Mor2M := L2_8w_1Mor2M s; L2_8w_512K := L2_8w_512K s;
     L2_8w_256K := L2_8w_256K s; L2_2M := L2_2M s; L2_6M := L2_6M s;
     L3 := L3 s; L2_256K := L2_256K s; L2_512K := L2_512K s |}.

Definition set_val_80000008_ecx (v : Z) (s : code_stash_t) : code_stash_t :=
  {| vendor := vendor s; saw_4 := saw_4 s; saw_b := saw_b s;
     saw_1f := saw_1f s; val_0_eax := val_0_eax s; val_1_eax := val_1_eax s;
     val_1_ebx := val_1_ebx s; val_1_ecx := val_1_ecx s;
     val_1_edx := val_1_edx s; val_4_eax := val_4_eax s;
     val_b_eax := val_b_eax s; val_b_ebx := val_b_ebx s;
     val_1f_eax := val_1f_eax s; val_1f_ebx := val_1f_ebx s;
     val_1f_ecx := val_1f_ecx s; val_80000001_eax := val_80000001_eax s;
     val_80000001_ebx := val_80000001_ebx s;
     val_80000001_ecx := val_80000001_ecx s;
     val_80000001_edx := val_80000001_edx s; val_80000008_ecx := v;
     val_8000001e_ebx := val_8000001e_ebx s;
     transmeta_proc_rev := transmeta_proc_rev s; brand := brand s;
     transmeta_info := transmeta_info s; override_brand := override_brand s;
     soc_brand := soc_brand s; hypervisor := hypervisor s; mp := mp s;
     br := br s; bri := bri s; L2_4w_1Mor2M := L2_4w_1Mor2M s;
     L2_4w_512K := L2_4w_512K s; L2_4w_256K := L2_4w_256K s;
     L2_8w_1Mor2M := L2_8w_1Mor2M s; L2_8w_512K := L2_8w_512K s;
     L2_8w_256K := L2_8w_256K s; L2_2M := L2_2M s; L2_6M := L2_6M s;
     L3 := L3 s; L2_256K := L2_256K s; L2_512K := L2_512K s |}.

Definition set_val_8000001e_ebx (v : Z) (s : code_stash_t) : code_stash_t :=
  {| vendor := vendor s; saw_4 := saw_4 s; saw_b := saw_b s;
     saw_1f := saw_1f s; val_0_eax := val_0_eax s; val_1_eax := val_1_eax s;
     val_1_ebx := val_1_ebx s; val_1_ecx := val_1_ecx s;
     val_1_edx := val_1_edx s; val_4_eax := val_4_eax s;
     val_b_eax := val_b_eax s; val_b_ebx := val_b_ebx s;
     val_1f_eax := val_1f_eax s; val_1f_ebx := val_1f_ebx s;
     val_1f_ecx := val_1f_ecx s; val_80000001_eax := val_80000001_eax s;
     val_80000001_ebx := val_80000001_ebx s;
     val_80000001_ecx := val_80000001_ecx s;
     val_80000001_edx := val_80000001_edx s;
     val_80000008_ecx := val_80000008_ecx s; val_8000001e_ebx := v;
     transmeta_proc_rev := transmeta_proc_rev s; brand := brand s;
     transmeta_info := transmeta_info s; override_brand := override_brand s;
     soc_brand := soc_brand s; hypervisor := hypervisor s; mp := mp s;
     br := br s; bri := bri s; L2_4w_1Mor2M := L2_4w_1Mor2M s;
     L2_4w_512K := L2_4w_512K s; L2_4w_256K := L2_4w_256K s;
     L2_8w_1Mor2M := L2_8w_1Mor2M s; L2_8w_512K := L2_8w_512K s;
     L2_8w_256K := L2_8w_256K s; L2_2M := L2_2M s; L2_6M := L2_6M s;
     L3 := L3 s; L2_256K := L2_256K s; L2_512K := L2_512K s |}.

Definition set_transmeta_proc_rev (v : Z) (s : code_stash_t) : code_stash_t :=
  {| vendor := vendor s; saw_4 := saw_4 s; saw_b := saw_b s;
     saw_1f := saw_1f s; val_0_eax := val_0_eax s; val_1_eax := val_1_eax s;
     val_1_ebx := val_1_ebx s; val_1_ecx := val_1_ecx s;
     val_1_edx := val_1_edx s; val_4_eax := val_4_eax s;
     val_b_eax := val_b_eax s; val_b_ebx := val_b_ebx s;
     val_1f_eax := val_1f_eax s; val_1f_ebx := val_1f_ebx s;
     val_1f_ecx := val_1f_ecx s; val_80000001_eax := val_80000001_eax s;
     val_80000001_ebx := val_80000001_ebx s;
     val_80000001_ecx := val_80000001_ecx s;
     val_80000001_edx := val_80000001_edx s;
     val_80000008_ecx := val_80000008_ecx s;
     val_8000001e_ebx := val_8000001e_ebx s; transmeta_proc_rev := v;
     brand := brand s; transmeta_info := transmeta_info s;
     override_brand := override_brand s; soc_brand := soc_brand s;
     hypervisor := hypervisor s; mp := mp s; br := br s; bri := bri s;
     L2_4w_1Mor2M := L2_4w_1Mor2M s; L2_4w_512K := L2_4w_512K s;
     L2_4w_256K := L2_4w_256K s; L2_8w_1Mor2M := L2_8w_1Mor2M s;
     L2_8w_512K := L2_8w_512K s; L2_8w_256K := L2_8w_256K s;
     L2_2M := L2_2M s; L2_6M := L2_6M s; L3 := L3 s; L2_256K := L2_256K s;
     L2_512K := L2_512K s |}.

Definition set_brand (v : list ascii) (s : code_stash_t) : code_stash_t :=
  {| vendor := vendor s; saw_4 := saw_4 s; saw_b := saw_b s;
     saw_1f := saw_1f s; val_0_eax := val_0_eax s; val_1_eax := val_1_eax s;
     val_1_ebx := val_1_ebx s; val_1_ecx := val_1_ecx s;
     val_1_edx := val_1_edx s; val_4_eax := val_4_eax s;
     val_b_eax := val_b_eax s; val_b_ebx := val_b_ebx s;
     val_1f_eax := val_1f_eax s; val_1f_ebx := val_1f_ebx s;
     val_1f_ecx := val_1f_ecx s; val_80000001_eax := val_80000001_eax s;
     val_80000001_ebx := val_80000001_ebx s;
     val_80000001_ecx := val_80000001_ecx s;
     val_80000001_edx := val_80000001_edx s;
     val_80000008_ecx := val_80000008_ecx s;
     val_8000001e_ebx := val_8000001e_ebx s;
     transmeta_proc_rev := transmeta_proc_rev s; brand := v;
     transmeta_info := transmeta_info s; override_brand := override_brand s;
     soc_brand := soc_brand s; hypervisor := hypervisor s; mp := mp s;
     br := br s; bri := bri s; L2_4w_1Mor2M := L2_4w_1Mor2M s;
     L2_4w_512K := L2_4w_512K s; L2_4w_256K := L2_4w_256K s;
     L2_8w_1Mor2M := L2_8w_1Mor2M s; L2_8w_512K := L2_8w_512K s;
     L2_8w_256K := L2_8w_256K s; L2_2M := L2_2M s; L2_6M := L2_6M s;
     L3 := L3 s; L2_256K := L2_256K s; L2_512K := L2_512K s |}.

Definition set_transmeta_info (v : list ascii) (s : code_stash_t) : code_stash_t :=
  {| vendor := vendor s; saw_4 := saw_4 s; saw_b := saw_b s;
     saw_1f := saw_1f s; val_0_eax := val_0_eax s; val_1_eax := val_1_eax s;
     val_1_ebx := val_1_ebx s; val_1_ecx := val_1_ecx s;
     val_1_edx := val_1_edx s; val_4_eax := val_4_eax s;
     val_b_eax := val_b_eax s; val_b_ebx := val_b_ebx s;
     val_1f_eax := val_1f_eax s; val_1f_ebx := val_1f_ebx s;
     val_1f_ecx := val_1f_ecx s; val_80000001_eax := val_80000001_eax s;
     val_80000001_ebx := val_80000001_ebx s;
     val_80000001_ecx := val_80000001_ecx s;
     val_80000001_edx := val_80000001_edx s;
     val_80000008_ecx := val_80000008_ecx s;
     val_8000001e_ebx := val_8000001e_ebx s;
     transmeta_proc_rev := transmeta_proc_rev s; brand := brand s;
     transmeta_info := v; override_brand := override_brand s;
     soc_brand := soc_brand s; hypervisor := hypervisor s; mp := mp s;
     br := br s; bri := bri s; L2_4w_1Mor2M := L2_4w_1Mor2M s;
     L2_4w_512K := L2_4w_512K s; L2_4w_256K := L2_4w_256K s;
     L2_8w_1Mor2M := L2_8w_1Mor2M s; L2_8w_512K := L2_8w_512K s;
     L2_8w_256K := L2_8w_256K s; L2_2M := L2_2M s; L2_6M := L2_6M s;
     L3 := L3 s; L2_256K := L2_256K s; L2_512K := L2_512K s |}.

Definition set_override_brand (v : cstring) (s : code_stash_t) : code_stash_t :=
  {| vendor := vendor s; saw_4 := saw_4 s; saw_b := saw_b s;
     saw_1f := saw_1f s; val_0_eax := val_0_eax s; val_1_eax := val_1_eax s;
     val_1_ebx := val_1_ebx s; val_1_ecx := val_1_ecx s;
     val_1_edx := val_1_edx s; val_4_eax := val_4_eax s;
     val_b_eax := val_b_eax s; val_b_ebx := val_b_ebx s;
     val_1f_eax := val_1f_eax s; val_1f_ebx := val_1f_ebx s;
     val_1f_ecx := val_1f_ecx s; val_80000001_eax := val_80000001_eax s;
     val_80000001_ebx := val_80000001_ebx s;
     val_80000001_ecx := val_80000001_ecx s;
     val_80000001_edx := val_80000001_edx s;
     val_80000008_ecx := val_80000008_ecx s;
     val_8000001e_ebx := val_8000001e_ebx s;
     transmeta_proc_rev := transmeta_proc_rev s; brand := brand s;
     transmeta_info := transmeta_info s; override_brand := v;
     soc_brand := soc_brand s; hypervisor := hypervisor s; mp := mp s;
     br := br s; bri := bri s; L2_4w_1Mor2M := L2_4w_1Mor2M s;
     L2_4w_512K := L2_4w_512K s; L2_4w_256K := L2_4w_256K s;
     L2_8w_1Mor2M := L2_8w_1Mor2M s; L2_8w_512K := L2_8w_512K s;
     L2_8w_256K := L2_8w_256K s; L2_2M := L2_2M s; L2_6M := L2_6M s;
     L3 := L3 s; L2_256K := L2_256K s; L2_512K := L2_512K s |}.

Definition set_soc_brand (v : list ascii) (s : code_stash_t) : code_stash_t :=
  {| vendor := vendor s; saw_4 := saw_4 s; saw_b := saw_b s;
     saw_1f := saw_1f s; val_0_eax := val_0_eax s; val_1_eax := val_1_eax s;
     val_1_ebx := val_1_ebx s; val_1_ecx := val_1_ecx s;
     val_1_edx := val_1_edx s; val_4_eax := val_4_eax s;
     val_b_eax := val_b_eax s; val_b_ebx := val_b_ebx s;
     val_1f_eax := val_1f_eax s; val_1f_ebx := val_1f_ebx s;
     val_1f_ecx := val_1f_ecx s; val_80000001_eax := val_80000001_eax s;
     val_80000001_ebx := val_80000001_ebx s;
     val_80000001_ecx := val_80000001_ecx s;
     val_80000001_edx := val_80000001_edx s;
     val_80000008_ecx := val_80000008_ecx s;
     val_8000001e_ebx := val_8000001e_ebx s;
     transmeta_proc_rev := transmeta_proc_rev s; brand := brand s;
     transmeta_info := transmeta_info s; override_brand := override_brand s;
     soc_brand := v; hypervisor := hypervisor s; mp := mp s; br := br s;
     bri := bri s; L2_4w_1Mor2M := L2_4w_1Mor2M s;
     L2_4w_512K := L2_4w_512K s; L2_4w_256K := L2_4w_256K s;
     L2_8w_1Mor2M := L2_8w_1Mor2M s; L2_8w_512K := L2_8w_512K s;
     L2_8w_256K := L2_8w_256K s; L2_2M := L2_2M s; L2_6M := L2_6M s;
     L3 := L3 s; L2_256K := L2_256K s; L2_512K := L2_512K s |}.

Definition set_hypervisor (v : hypervisor_t) (s : code_stash_t) : code_stash_t :=
  {| vendor := vendor s; saw_4 := saw_4 s; saw_b := saw_b s;
     saw_1f := saw_1f s; val_0_eax := val_0_eax s; val_1_eax := val_1_eax s;
     val_1_ebx := val_1_ebx s; val_1_ecx := val_1_ecx s;
     val_1_edx := val_1_edx s; val_4_eax := val_4_eax s;
     val_b_eax := val_b_eax s; val_b_ebx := val_b_ebx s;
     val_1f_eax := val_1f_eax s; val_1f_ebx := val_1f_ebx s;
     val_1f_ecx := val_1f_ecx s; val_80000001_eax := val_80000001_eax s;
     val_80000001_ebx := val_80000001_ebx s;
     val_80000001_ecx := val_80000001_ecx s;
     val_80000001_edx := val_80000001_edx s;
     val_80000008_ecx := val_80000008_ecx s;
     val_8000001e_ebx := val_8000001e_ebx s;
     transmeta_proc_rev := transmeta_proc_rev s; brand := brand s;
     transmeta_info := transmeta_info s; override_brand := override_brand s;
     soc_brand := soc_brand s; hypervisor := v; mp := mp s; br := br s;
     bri := bri s; L2_4w_1Mor2M := L2_4w_1Mor2M s;
     L2_4w_512K := L2_4w_512K s; L2_4w_256K := L2_4w_256K s;
     L2_8w_1Mor2M := L2_8w_1Mor2M s; L2_8w_512K := L2_8w_512K s;
     L2_8w_256K := L2_8w_256K s; L2_2M := L2_2M s; L2_6M := L2_6M s;
     L3 := L3 s; L2_256K := L2_256K s; L2_512K := L2_512K s |}.

Definition set_mp (v : struct_mp) (s : code_stash_t) : code_stash_t :=
  {| vendor := vendor s; saw_4 := saw_4 s; saw_b := saw_b s;
     saw_1f := saw_1f s; val_0_eax := val_0_eax s; val_1_eax := val_1_eax s;
     val_1_ebx := val_1_ebx s; val_1_ecx := val_1_ecx s;
     val_1_edx := val_1_edx s; val_4_eax := val_4_eax s;
     val_b_eax := val_b_eax s; val_b_ebx := val_b_ebx s;
     val_1f_eax := val_1f_eax s; val_1f_ebx := val_1f_ebx s;
     val_1f_ecx := val_1f_ecx s; val_80000001_eax := val_80000001_eax s;
     val_80000001_ebx := val_80000001_ebx s;
     val_80000001_ecx := val_80000001_ecx s;
     val_80000001_edx := val_80000001_edx s;
     val_80000008_ecx := val_80000008_ecx s;
     val_8000001e_ebx := val_8000001e_ebx s;
     transmeta_proc_rev := transmeta_proc_rev s; brand := brand s;
     transmeta_info := transmeta_info s; override_brand := override_brand s;
     soc_brand := soc_brand s; hypervisor := hypervisor s; mp := v;
     br := br s; bri := bri s; L2_4w_1Mor2M := L2_4w_1Mor2M s;
     L2_4w_512K := L2_4w_512K s; L2_4w_256K := L2_4w_256K s;
     L2_8w_1Mor2M := L2_8w_1Mor2M s; L2_8w_512K := L2_8w_512K s;
     L2_8w_256K := L2_8w_256K s; L2_2M := L2_2M s; L2_6M := L2_6M s;
     L3 := L3 s; L2_256K := L2_256K s; L2_512K := L2_512K s |}.

Definition set_br (v : struct_br) (s : code_stash_t) : code_stash_t :=
  {| vendor := vendor s; saw_4 := saw_4 s; saw_b := saw_b s;
     saw_1f := saw_1f s; val_0_eax := val_0_eax s; val_1_eax := val_1_eax s;
     val_1_ebx := val_1_ebx s; val_1_ecx := val_1_ecx s;
     val_1_edx := val_1_edx s; val_4_eax := val_4_eax s;
     val_b_eax := val_b_eax s; val_b_ebx := val_b_ebx s;
     val_1f_eax := val_1f_eax s; val_1f_ebx := val_1f_ebx s;
     val_1f_ecx := val_1f_ecx s; val_80000001_eax := val_80000001_eax s;
     val_80000001_ebx := val_80000001_ebx s;
     val_80000001_ecx := val_80000001_ecx s;
     val_80000001_edx := val_80000001_edx s;
     val_80000008_ecx := val_80000008_ecx s;
     val_8000001e_ebx := val_8000001e_ebx s;
     transmeta_proc_rev := transmeta_proc_rev s; brand := brand s;
     transmeta_info := transmeta_info s; override_brand := override_brand s;
     soc_brand := soc_brand s; hypervisor := hypervisor s; mp := mp s;
     br := v; bri := bri s; L2_4w_1Mor2M := L2_4w_1Mor2M s;
     L2_4w_512K := L2_4w_512K s; L2_4w_256K := L2_4w_256K s;
     L2_8w_1Mor2M := L2_8w_1Mor2M s; L2_8w_512K := L2_8w_512K s;
     L2_8w_256K := L2_8w_256K s; L2_2M := L2_2M s; L2_6M := L2_6M s;
     L3 := L3 s; L2_256K := L2_256K s; L2_512K := L2_512K s |}.

Definition set_bri (v : struct_bri) (s : code_stash_t) : code_stash_t :=
  {| vendor := vendor s; saw_4 := saw_4 s; saw_b := saw_b s;
     saw_1f := saw_1f s; val_0_eax := val_0_eax s; val_1_eax := val_1_eax s;
     val_1_ebx := val_1_ebx s; val_1_ecx := val_1_ecx s;
     val_1_edx := val_1_edx s; val_4_eax := val_4_eax s;
     val_b_eax := val_b_eax s; val_b_ebx := val_b_ebx s;
     val_1f_eax := val_1f_eax s; val_1f_ebx := val_1f_ebx s;
     val_1f_ecx := val_1f_ecx s; val_80000001_eax := val_80000001_eax s;
     val_80000001_ebx := val_80000001_ebx s;
     val_80000001_ecx := val_80000001_ecx s;
     val_80000001_edx := val_80000001_edx s;
     val_80000008_ecx := val_80000008_ecx s;
     val_8000001e_ebx := val_8000001e_ebx s;
     transmeta_proc_rev := transmeta_proc_rev s; brand := brand s;
     transmeta_info := transmeta_info s; override_brand := override_brand s;
     soc_brand := soc_brand s; hypervisor := hypervisor s; mp := mp s;
     br := br s; bri := v; L2_4w_1Mor2M := L2_4w_1Mor2M s;
     L2_4w_512K := L2_4w_512K s; L2_4w_256K := L2_4w_256K s;
     L2_8w_1Mor2M := L2_8w_1Mor2M s; L2_8w_512K := L2_8w_512K s;
     L2_8w_256K := L2_8w_256K s; L2_2M := L2_2M s; L2_6M := L2_6M s;
     L3 := L3 s; L2_256K := L2_256K s; L2_512K := L2_512K s |}.

Definition set_L2_4w_1Mor2M (v : bool) (s : code_stash_t) : code_stash_t :=
  {| vendor := vendor s; saw_4 := saw_4 s; saw_b := saw_b s;
     saw_1f := saw_1f s; val_0_eax := val_0_eax s; val_1_eax := val_1_eax s;
     val_1_ebx := val_1_ebx s; val_1_ecx := val_1_ecx s;
     val_1_edx := val_1_edx s; val_4_eax := val_4_eax s;
     val_b_eax := val_b_eax s; val_b_ebx := val_b_ebx s;
     val_1f_eax := val_1f_eax s; val_1f_ebx := val_1f_ebx s;
     val_1f_ecx := val_1f_ecx s; val_80000001_eax := val_80000001_eax s;
     val_80000001_ebx := val_80000001_ebx s;
     val_80000001_ecx := val_80000001_ecx s;
     val_80000001_edx := val_80000001_edx s;
     val_80000008_ecx := val_80000008_ecx s;
     val_8000001e_ebx := val_8000001e_ebx s;
     transmeta_proc_rev := transmeta_proc_rev s; brand := brand s;
     transmeta_info := transmeta_info s; override_brand := override_brand s;
     soc_brand := soc_brand s; hypervisor := hypervisor s; mp := mp s;
     br := br s; bri := bri s; L2_4w_1Mor2M := v;
     L2_4w_512K := L2_4w_512K s; L2_4w_256K := L2_4w_256K s;
     L2_8w_1Mor2M := L2_8w_1Mor2M s; L2_8w_512K := L2_8w_512K s;
     L2_8w_256K := L2_8w_256K s; L2_2M := L2_2M s; L2_6M := L2_6M s;
     L3 := L3 s; L2_256K := L2_256K s; L2_512K := L2_512K s |}.

Definition set_L2_4w_512K (v : bool) (s : code_stash_t) : code_stash_t :=
  {| vendor := vendor s; saw_4 := saw_4 s; saw_b := saw_b s;
     saw_1f := saw_1f s; val_0_eax := val_0_eax s; val_1_eax := val_1_eax s;
     val_1_ebx := val_1_ebx s; val_1_ecx := val_1_ecx s;
     val_1_edx := val_1_edx s; val_4_eax := val_4_eax s;
     val_b_eax := val_b_eax s; val_b_ebx := val_b_ebx s;
     val_1f_eax := val_1f_eax s; val_1f_ebx := val_1f_ebx s;
     val_1f_ecx := val_1f_ecx s; val_80000001_eax := val_80000001_eax s;
     val_80000001_ebx := val_80000001_ebx s;
     val_80000001_ecx := val_80000001_ecx s;
     val_80000001_edx := val_80000001_edx s;
     val_80000008_ecx := val_80000008_ecx s;
     val_8000001e_ebx := val_8000001e_ebx s;
     transmeta_proc_rev := transmeta_proc_rev s; brand := brand s;
     transmeta_info := transmeta_info s; override_brand := override_brand s;
     soc_brand := soc_brand s; hypervisor := hypervisor s; mp := mp s;
     br := br s; bri := bri s; L2_4w_1Mor2M := L2_4w_1Mor2M s;
     L2_4w_512K := v; L2_4w_256K := L2_4w_256K s;
     L2_8w_1Mor2M := L2_8w_1Mor2M s; L2_8w_512K := L2_8w_512K s;
     L2_8w_256K := L2_8w_256K s; L2_2M := L2_2M s; L2_6M := L2_6M s;
     L3 := L3 s; L2_256K := L2_256K s; L2_512K := L2_512K s |}.

Definition set_L2_4w_256K (v : bool) (s : code_stash_t) : code_stash_t :=
  {| vendor := vendor s; saw_4 := saw_4 s; saw_b := saw_b s;
     saw_1f := saw_1f s; val_0_eax := val_0_eax s; val_1_eax := val_1_eax s;
     val_1_ebx := val_1_ebx s; val_1_ecx := val_1_ecx s;
     val_1_edx := val_1_edx s; val_4_eax := val_4_eax s;
     val_b_eax := val_b_eax s; val_b_ebx := val_b_ebx s;
     val_1f_eax := val_1f_eax s; val_1f_ebx := val_1f_ebx s;
     val_1f_ecx := val_1f_ecx s; val_80000001_eax := val_80000001_eax s;
     val_80000001_ebx := val_80000001_ebx s;
     val_80000001_ecx := val_80000001_ecx s;
     val_80000001_edx := val_80000001_edx s;
     val_80000008_ecx := val_80000008_ecx s;
     val_8000001e_ebx := val_8000001e_ebx s;
     transmeta_proc_rev := transmeta_proc_rev s; brand := brand s;
     transmeta_info := transmeta_info s; override_brand := override_brand s;
     soc_brand := soc_brand s; hypervisor := hypervisor s; mp := mp s;
     br := br s; bri := bri s; L2_4w_1Mor2M := L2_4w_1Mor2M s;
     L2_4w_512K := L2_4w_512K s; L2_4w_256K := v;
     L2_8w_1Mor2M := L2_8w_1Mor2M s; L2_8w_512K := L2_8w_512K s;
     L2_8w_256K := L2_8w_256K s; L2_2M := L2_2M s; L2_6M := L2_6M s;
     L3 := L3 s; L2_256K := L2_256K s; L2_512K := L2_512K s |}.

Definition set_L2_8w_1Mor2M (v : bool) (s : code_stash_t) : code_stash_t :=
  {| vendor := vendor s; saw_4 := saw_4 s; saw_b := saw_b s;
     saw_1f := saw_1f s; val_0_eax := val_0_eax s; val_1_eax := val_1_eax s;
     val_1_ebx := val_1_ebx s; val_1_ecx := val_1_ecx s;
     val_1_edx := val_1_edx s; val_4_eax := val_4_eax s;
     val_b_eax := val_b_eax s; val_b_ebx := val_b_ebx s;
     val_1f_eax := val_1f_eax s; val_1f_ebx := val_1f_ebx s;
     val_1f_ecx := val_1f_ecx s; val_80000001_eax := val_80000001_eax s;
     val_80000001_ebx := val_80000001_ebx s;
     val_80000001_ecx := val_80000001_ecx s;
     val_80000001_edx := val_80000001_edx s;
     val_80000008_ecx := val_80000008_ecx s;
     val_8000001e_ebx := val_8000001e_ebx s;
     transmeta_proc_rev := transmeta_proc_rev s; brand := brand s;
     transmeta_info := transmeta_info s; override_brand := override_brand s;
     soc_brand := soc_brand s; hypervisor := hypervisor s; mp := mp s;
     br := br s; bri := bri s; L2_4w_1Mor2M := L2_4w_1Mor2M s;
     L2_4w_512K := L2_4w_512K s; L2_4w_256K := L2_4w_256K s;
     L2_8w_1Mor2M := v; L2_8w_512K := L2_8w_512K s;
     L2_8w_256K := L2_8w_256K s; L2_2M := L2_2M s; L2_6M := L2_6M s;
     L3 := L3 s; L2_256K := L2_256K s; L2_512K := L2_512K s |}.

Definition set_L2_8w_512K (v : bool) (s : code_stash_t) : code_stash_t :=
  {| vendor := vendor s; saw_4 := saw_4 s; saw_b := saw_b s;
     saw_1f := saw_1f s; val_0_eax := val_0_eax s; val_1_eax := val_1_eax s;
     val_1_ebx := val_1_ebx s; val_1_ecx := val_1_ecx s;
     val_1_edx := val_1_edx s; val_4_eax := val_4_eax s;
     val_b_eax := val_b_eax s; val_b_ebx := val_b_ebx s;
     val_1f_eax := val_1f_eax s; val_1f_ebx := val_1f_ebx s;
     val_1f_ecx := val_1f_ecx s; val_80000001_eax := val_80000001_eax s;
     val_80000001_ebx := val_80000001_ebx s;
     val_80000001_ecx := val_80000001_ecx s;
     val_80000001_edx := val_80000001_edx s;
     val_80000008_ecx := val_80000008_ecx s;
     val_8000001e_ebx := val_8000001e_ebx s;
     transmeta_proc_rev := transmeta_proc_rev s; brand := brand s;
     transmeta_info := transmeta_info s; override_brand := override_brand s;
     soc_brand := soc_brand s; hypervisor := hypervisor s; mp := mp s;
     br := br s; bri := bri s; L2_4w_1Mor2M := L2_4w_1Mor2M s;
     L2_4w_512K := L2_4w_512K s; L2_4w_256K := L2_4w_256K s;
     L2_8w_1Mor2M := L2_8w_1Mor2M s; L2_8w_512K := v;
     L2_8w_256K := L2_8w_256K s; L2_2M := L2_2M s; L2_6M := L2_6M s;
     L3 := L3 s; L2_256K := L2_256K s; L2_512K := L2_512K s |}.

Definition set_L2_8w_256K (v : bool) (s : code_stash_t) : code_stash_t :=
  {| vendor := vendor s; saw_4 := saw_4 s; saw_b := saw_b s;
     saw_1f := saw_1f s; val_0_eax := val_0_eax s; val_1_eax := val_1_eax s;
     val_1_ebx := val_1_ebx s; val_1_ecx := val_1_ecx s;
     val_1_edx := val_1_edx s; val_4_eax := val_4_eax s;
     val_b_eax := val_b_eax s; val_b_ebx := val_b_ebx s;
     val_1f_eax := val_1f_eax s; val_1f_ebx := val_1f_ebx s;
     val_1f_ecx := val_1f_ecx s; val_80000001_eax := val_80000001_eax s;
     val_80000001_ebx := val_80000001_ebx s;
     val_80000001_ecx := val_80000001_ecx s;
     val_80000001_edx := val_80000001_edx s;
     val_80000008_ecx := val_80000008_ecx s;
     val_8000001e_ebx := val_8000001e_ebx s;
     transmeta_proc_rev := transmeta_proc_rev s; brand := brand s;
     transmeta_info := transmeta_info s; override_brand := override_brand s;
     soc_brand := soc_brand s; hypervisor := hypervisor s; mp := mp s;
     br := br s; bri := bri s; L2_4w_1Mor2M := L2_4w_1Mor2M s;
     L2_4w_512K := L2_4w_512K s; L2_4w_256K := L2_4w_256K s;
     L2_8w_1Mor2M := L2_8w_1Mor2M s; L2_8w_512K := L2_8w_512K s;
     L2_8w_256K := v; L2_2M := L2_2M s; L2_6M := L2_6M s; L3 := L3 s;
     L2_256K := L2_256K s; L2_512K := L2_512K s |}.

Definition set_L2_2M (v : bool) (s : code_stash_t) : code_stash_t :=
  {| vendor := vendor s; saw_4 := saw_4 s; saw_b := saw_b s;
     saw_1f := saw_1f s; val_0_eax := val_0_eax s; val_1_eax := val_1_eax s;
     val_1_ebx := val_1_ebx s; val_1_ecx := val_1_ecx s;
     val_1_edx := val_1_edx s; val_4_eax := val_4_eax s;
     val_b_eax := val_b_eax s; val_b_ebx := val_b_ebx s;
     val_1f_eax := val_1f_eax s; val_1f_ebx := val_1f_ebx s;
     val_1f_ecx := val_1f_ecx s; val_80000001_eax := val_80000001_eax s;
     val_80000001_ebx := val_80000001_ebx s;
     val_80000001_ecx := val_80000001_ecx s;
     val_80000001_edx := val_80000001_edx s;
     val_80000008_ecx := val_80000008_ecx s;
     val_8000001e_ebx := val_8000001e_ebx s;
     transmeta_proc_rev := transmeta_proc_rev s; brand := brand s;
     transmeta_info := transmeta_info s; override_brand := override_brand s;
     soc_brand := soc_brand s; hypervisor := hypervisor s; mp := mp s;
     br := br s; bri := bri s; L2_4w_1Mor2M := L2_4w_1Mor2M s;
     L2_4w_512K := L2_4w_512K s; L2_4w_256K := L2_4w_256K s;
     L2_8w_1Mor2M := L2_8w_1Mor2M s; L2_8w_512K := L2_8w_512K s;
     L2_8w_256K := L2_8w_256K s; L2_2M := v; L2_6M := L2_6M s; L3 := L3 s;
     L2_256K := L2_256K s; L2_512K := L2_512K s |}.

Definition set_L2_6M (v : bool) (s : code_stash_t) : code_stash_t :=
  {| vendor := vendor s; saw_4 := saw_4 s; saw_b := saw_b s;
     saw_1f := saw_1f s; val_0_eax := val_0_eax s; val_1_eax := val_1_eax s;
     val_1_ebx := val_1_ebx s; val_1_ecx := val_1_ecx s;
     val_1_edx := val_1_edx s; val_4_eax := val_4_eax s;
     val_b_eax := val_b_eax s; val_b_ebx := val_b_ebx s;
     val_1f_eax := val_1f_eax s; val_1f_ebx := val_1f_ebx s;
     val_1f_ecx := val_1f_ecx s; val_80000001_eax := val_80000001_eax s;
     val_80000001_ebx := val_80000001_ebx s;
     val_80000001_ecx := val_80000001_ecx s;
     val_80000001_edx := val_80000001_edx s;
     val_80000008_ecx := val_80000008_ecx s;
     val_8000001e_ebx := val_8000001e_ebx s;
     transmeta_proc_rev := transmeta_proc_rev s; brand := brand s;
     transmeta_info := transmeta_info s; override_brand := override_brand s;
     soc_brand := soc_brand s; hypervisor := hypervisor s; mp := mp s;
     br := br s; bri := bri s; L2_4w_1Mor2M := L2_4w_1Mor2M s;
     L2_4w_512K := L2_4w_512K s; L2_4w_256K := L2_4w_256K s;
     L2_8w_1Mor2M := L2_8w_1Mor2M s; L2_8w_512K := L2_8w_512K s;
     L2_8w_256K := L2_8w_256K s; L2_2M := L2_2M s; L2_6M := v; L3 := L3 s;
     L2_256K := L2_256K s; L2_512K := L2_512K s |}.

Definition set_L3 (v : bool) (s : code_stash_t) : code_stash_t :=
  {| vendor := vendor s; saw_4 := saw_4 s; saw_b := saw_b s;
     saw_1f := saw_1f s; val_0_eax := val_0_eax s; val_1_eax := val_1_eax s;
     val_1_ebx := val_1_ebx s; val_1_ecx := val_1_ecx s;
     val_1_edx := val_1_edx s; val_4_eax := val_4_eax s;
     val_b_eax := val_b_eax s; val_b_ebx := val_b_ebx s;
     val_1f_eax := val_1f_eax s; val_1f_ebx := val_1f_ebx s;
     val_1f_ecx := val_1f_ecx s; val_80000001_eax := val_80000001_eax s;
     val_80000001_ebx := val_80000001_ebx s;
     val_80000001_ecx := val_80000001_ecx s;
     val_80000001_edx := val_80000001_edx s;
     val_80000008_ecx := val_80000008_ecx s;
     val_8000001e_ebx := val_8000001e_ebx s;
     transmeta_proc_rev := transmeta_proc_rev s; brand := brand s;
     transmeta_info := transmeta_info s; override_brand := override_brand s;
     soc_brand := soc_brand s; hypervisor := hypervisor s; mp := mp s;
     br := br s; bri := bri s; L2_4w_1Mor2M := L2_4w_1Mor2M s;
     L2_4w_512K := L2_4w_512K s; L2_4w_256K := L2_4w_256K s;
     L2_8w_1Mor2M := L2_8w_1Mor2M s; L2_8w_512K := L2_8w_512K s;
     L2_8w_256K := L2_8w_256K s; L2_2M := L2_2M s; L2_6M := L2_6M s;
     L3 := v; L2_256K := L2_256K s; L2_512K := L2_512K s |}.

Definition set_L2_256K (v : bool) (s : code_stash_t) : code_stash_t :=
  {| vendor := vendor s; saw_4 := saw_4 s; saw_b := saw_b s;
     saw_1f := saw_1f s; val_0_eax := val_0_eax s; val_1_eax := val_1_eax s;
     val_1_ebx := val_1_ebx s; val_1_ecx := val_1_ecx s;
     val_1_edx := val_1_edx s; val_4_eax := val_4_eax s;
     val_b_eax := val_b_eax s; val_b_ebx := val_b_ebx s;
     val_1f_eax := val_1f_eax s; val_1f_ebx := val_1f_ebx s;
     val_1f_ecx := val_1f_ecx s; val_80000001_eax := val_80000001_eax s;
     val_80000001_ebx := val_80000001_ebx s;
     val_80000001_ecx := val_80000001_ecx s;
     val_80000001_edx := val_80000001_edx s;
     val_80000008_ecx := val_80000008_ecx s;
     val_8000001e_ebx := val_8000001e_ebx s;
     transmeta_proc_rev := transmeta_proc_rev s; brand := brand s;
     transmeta_info := transmeta_info s; override_brand := override_brand s;
     soc_brand := soc_brand s; hypervisor := hypervisor s; mp := mp s;
     br := br s; bri := bri s; L2_4w_1Mor2M := L2_4w_1Mor2M s;
     L2_4w_512K := L2_4w_512K s; L2_4w_256K := L2_4w_256K s;
     L2_8w_1Mor2M := L2_8w_1Mor2M s; L2_8w_512K := L2_8w_512K s;
     L2_8w_256K := L2_8w_256K s; L2_2M := L2_2M s; L2_6M := L2_6M s;
     L3 := L3 s; L2_256K := v; L2_512K := L2_512K s |}.

Definition set_L2_512K (v : bool) (s : code_stash_t) : code_stash_t :=
  {| vendor := vendor s; saw_4 := saw_4 s; saw_b := saw_b s;
     saw_1f := saw_1f s; val_0_eax := val_0_eax s; val_1_eax := val_1_eax s;
     val_1_ebx := val_1_ebx s; val_1_ecx := val_1_ecx s;
     val_1_edx := val_1_edx s; val_4_eax := val_4_eax s;
     val_b_eax := val_b_eax s; val_b_ebx := val_b_ebx s;
     val_1f_eax := val_1f_eax s; val_1f_ebx := val_1f_ebx s;
     val_1f_ecx := val_1f_ecx s; val_80000001_eax := val_80000001_eax s;
     val_80000001_ebx := val_80000001_ebx s;
     val_80000001_ecx := val_80000001_ecx s;
     val_80000001_edx := val_80000001_edx s;
     val_80000008_ecx := val_80000008_ecx s;
     val_8000001e_ebx := val_8000001e_ebx s;
     transmeta_proc_rev := transmeta_proc_rev s; brand := brand s;
     transmeta_info := transmeta_info s; override_brand := override_brand s;
     soc_brand := soc_brand s; hypervisor := hypervisor s; mp := mp s;
     br := br s; bri := bri s; L2_4w_1Mor2M := L2_4w_1Mor2M s;
     L2_4w_512K := L2_4w_512K s; L2_4w_256K := L2_4w_256K s;
     L2_8w_1Mor2M := L2_8w_1Mor2M s; L2_8w_512K := L2_8w_512K s;
     L2_8w_256K := L2_8w_256K s; L2_2M := L2_2M s; L2_6M := L2_6M s;
     L3 := L3 s; L2_256K := L2_256K s; L2_512K := v |}.

(** [a[i] = v] on a fixed array; the callers guard [i < LENGTH(a)]. *)
Fixpoint array_set (a : list Z) (i : nat) (v : Z) : list Z :=
  match a, i with
  | [], _ => []
  | _ :: rest, O => v :: rest
  | x :: rest, S j => x :: array_set rest j v
  end.

(* ================================================================== *)
(** ** The C library calls the decode engine relies on                 *)
(* ================================================================== *)

(** [strstr(haystack, needle)]: the first suffix of [haystack] that starts
    with [needle], or [None] for a NULL return. *)
Fixpoint strstr (haystack needle : cstring) : option cstring :=
  if String.prefix needle haystack then Some haystack
  else match haystack with
       | EmptyString => None
       | String _ rest => strstr rest needle
       end.

(** [p != NULL] *)
Definition not_null {A : Type} (p : option A) : bool :=
  match p with Some _ => true | None => false end.

(** Decimal digits of a non-negative number. *)
Definition decimal (n : Z) : string :=
  DecimalString.NilZero.string_of_uint (N.to_uint (Z.to_N n)).

(** The [%02d] conversion: at least two characters, padded with a zero;
    the sign counts for the width.  The argument is read as an [int]. *)
Definition fmt_02d (v : Z) : string :=
  let i := as_int v in
  if i <? 0 then "-" ++ decimal (- i)
  else if i <? 10 then "0" ++ decimal i
  else decimal i.

Inductive printf_arg : Set :=
  | ArgS (s : cstring)
  | ArgD (n : Z).

(** [sprintf] for the conversions the engine uses, [%s] and [%02d];
    the value is the string left in the destination buffer. *)
Fixpoint sprintf (format : string) (args : list printf_arg) : string :=
  match format with
  | EmptyString => EmptyString
  | String "%" (String "s" rest) =>
      match args with
      | ArgS s :: args' => s ++ sprintf rest args'
      | _ => sprintf rest args
      end
  | String "%" (String "0" (String "2" (String "d" rest))) =>
      match args with
      | ArgD n :: args' => fmt_02d n ++ sprintf rest args'
      | _ => sprintf rest args
      end
  | String c rest => String c (sprintf rest args)
  end.

(** A C [switch] over integer case constants (which C requires to be
    pairwise distinct): the body of the case that lists the key, or the
    default. *)
Definition case {A : Type} (labels : list Z) (body : A) : list Z * A :=
  (labels, body).

Fixpoint switch {A : Type} (key : Z) (cases : list (list Z * A))
         (default : A) : A :=
  match cases with
  | [] => default
  | (labels, body) :: rest =>
      if existsb (Z.eqb key) labels then body else switch key rest default
  end.

(* ================================================================== *)
(** ** AMD Legacy Brand Reconstructor: [decode_amd_model]              *)
(* ================================================================== *)

(** The three out-parameters of [decode_amd_model]. *)
Record amd_model : Set := {
  brand_pre : option cstring;
  brand_post : option cstring;
  proc : cstring
}.

(** What the first three assignments of the function leave:
    [*brand_pre = NULL; *brand_post = NULL; *proc = '\0']. *)
Definition no_model : amd_model :=
  {| brand_pre := None; brand_post := None; proc := EmptyString |}.

(** One case body of the two family-0Fh switches. *)
Definition name_string (pre : cstring) (number : cstring) (post : option cstring)
  : amd_model :=
  {| brand_pre := Some pre; brand_post := post; proc := number |}.

Module K8.
(** The processor-number formulas of 25759 Rev 3.79. *)
Section Formulas.
Variable NN : Z.
Definition XX : Z := u32 (22 + NN).
Definition YY : Z := u32 (38 + 2 * NN).
Definition ZZ : Z := u32 (24 + NN).
Definition TT : Z := u32 (24 + NN).
Definition RR : Z := u32 (45 + 5 * NN).
Definition EE : Z := u32 (9 + NN).
End Formulas.
End K8.

Module NPT.
(** The processor-number formulas of 33610 Rev 3.46. *)
Section Formulas.
Variables NN cmpcap : Z.
Definition RR : Z := u32 (NN - 1).
Definition PP : Z := u32 (26 + NN).
Definition TT : Z := u32 (15 + cmpcap * 10 + NN).
Definition ZZ : Z := u32 (57 + NN).
Definition YY : Z := u32 (29 + NN).
End Formulas.
Definition PKGTYPE (pkgtype : Z) : Z := Z.shiftl pkgtype 11.
Definition CMPCAP (cmpcap : Z) : Z := Z.shiftl cmpcap 9.
Definition BTI (bti : Z) : Z := Z.shiftl bti 4.
Definition PWRLMT (pwrlmt : Z) : Z := pwrlmt.
End NPT.

Module F10.
Definition NC (nc : Z) : Z := Z.shiftl nc 9.
Definition PG (pg : Z) : Z := Z.shiftl pg 8.
Definition STR1 (str1 : Z) : Z := Z.shiftl str1 4.
Definition STR2 (str2 : Z) : Z := str2.
End F10.

(** The family 0Fh branch before revision F (25759 Rev 3.79). *)
Definition decode_amd_model_K8 (stash : code_stash_t) : amd_model :=
  let with_bti (bti NN : Z) : amd_model :=
    let XX := K8.XX NN in
    let YY := K8.YY NN in
    let ZZ := K8.ZZ NN in
    let TT := K8.TT NN in
    let RR := K8.RR NN in
    let EE := K8.EE NN in
    switch bti
      [
      case [0x04]
        (name_string "AMD Athlon(tm) 64"
                     (sprintf "Processor %02d00+" [ArgD XX])
                     None);
      case [0x05]
        (name_string "AMD Athlon(tm) 64 X2 Dual Core"
                     (sprintf "Processor %02d00+" [ArgD XX])
                     None);
      case [0x06]
        (name_string "AMD Athlon(tm) 64"
                     (sprintf "FX-%02d" [ArgD ZZ])
                     (Some "Dual Core"));
      case [0x08]
        (name_string "AMD Athlon(tm) 64"
                     (sprintf "Processor %02d00+" [ArgD XX])
                     None);
      case [0x09]
        (name_string "AMD Athlon(tm) 64"
                     (sprintf "Processor %02d00+" [ArgD XX])
                     None);
      case [0x0a]
        (name_string "AMD Turion(tm) Mobile Technology"
                     (sprintf "ML-%02d" [ArgD XX])
                     None);
      case [0x0b]
        (name_string "AMD Turion(tm) Mobile Technology"
                     (sprintf "MT-%02d" [ArgD XX])
                     None);
      case [0x0c; 0x0d]
        (name_string "AMD Opteron(tm)"
                     (sprintf "Processor 1%02d" [ArgD YY])
                     None);
      case [0x0e]
        (name_string "AMD Opteron(tm)"
                     (sprintf "Processor 1%02d HE" [ArgD YY])
                     None);
      case [0x0f]
        (name_string "AMD Opteron(tm)"
                     (sprintf "Processor 1%02d EE" [ArgD YY])
                     None);
      case [0x10; 0x11]
        (name_string "AMD Opteron(tm)"
                     (sprintf "Processor 2%02d" [ArgD YY])
                     None);
      case [0x12]
        (name_string "AMD Opteron(tm)"
                     (sprintf "Processor 2%02d HE" [ArgD YY])
                     None);
      case [0x13]
        (name_string "AMD Opteron(tm)"
                     (sprintf "Processor 2%02d EE" [ArgD YY])
                     None);
      case [0x14; 0x15]
        (name_string "AMD Opteron(tm)"
                     (sprintf "Processor 8%02d" [ArgD YY])
                     None);
      case [0x16]
        (name_string "AMD Opteron(tm)"
                     (sprintf "Processor 8%02d HE" [ArgD YY])
                     None);
      case [0x17]
        (name_string "AMD Opteron(tm)"
                     (sprintf "Processor 8%02d EE" [ArgD YY])
                     None);
      case [0x18]
        (name_string "AMD Athlon(tm) 64"
                     (sprintf "Processor %02d00+" [ArgD EE])
                     None);
      case [0x1d]
        (name_string "Mobile AMD Athlon(tm) XP-M"
                     (sprintf "Processor %02d00+" [ArgD XX])
                     None);
      case [0x1e]
        (name_string "Mobile AMD Athlon(tm) XP-M"
                     (sprintf "Processor %02d00+" [ArgD XX])
                     None);
      case [0x20]
        (name_string "AMD Athlon(tm) XP"
                     (sprintf "Processor %02d00+" [ArgD XX])
                     None);
      case [0x21; 0x23]
        (name_string "Mobile AMD Sempron(tm)"
                     (sprintf "Processor %02d00+" [ArgD TT])
                     None);
      case [0x22; 0x26]
        (name_string "AMD Sempron(tm)"
                     (sprintf "Processor %02d00+" [ArgD TT])
                     None);
      case [0x24]
        (name_string "AMD Athlon(tm) 64"
                     (sprintf "FX-%02d" [ArgD ZZ])
                     None);
      case [0x29;
            0x2c;
            0x2d;
            0x38;
            0x3b]
        (name_string "Dual Core AMD Opteron(tm)"
                     (sprintf "Processor 1%02d" [ArgD RR])
                     None);
      case [0x2a;
            0x30;
            0x31;
            0x39;
            0x3c]
        (name_string "Dual Core AMD Opteron(tm)"
                     (sprintf "Processor 2%02d" [ArgD RR])
                     None);
      case [0x2b;
            0x34;
            0x35;
            0x3a;
            0x3d]
        (name_string "Dual Core AMD Opteron(tm)"
                     (sprintf "Processor 8%02d" [ArgD RR])
                     None);
      case [0x2e]
        (name_string "Dual Core AMD Opteron(tm)"
                     (sprintf "Processor 1%02d HE" [ArgD RR])
                     None);
      case [0x2f]
        (name_string "Dual Core AMD Opteron(tm)"
                     (sprintf "Processor 1%02d EE" [ArgD RR])
                     None);
      case [0x32]
        (name_string "Dual Core AMD Opteron(tm)"
                     (sprintf "Processor 2%02d HE" [ArgD RR])
                     None);
      case [0x33]
        (name_string "Dual Core AMD Opteron(tm)"
                     (sprintf "Processor 2%02d EE" [ArgD RR])
                     None);
      case [0x36]
        (name_string "Dual Core AMD Opteron(tm)"
                     (sprintf "Processor 8%02d HE" [ArgD RR])
                     None);
      case [0x37]
        (name_string "Dual Core AMD Opteron(tm)"
                     (sprintf "Processor 8%02d EE" [ArgD RR])
                     None)
      ]
      no_model
  in
  if negb (__B (val_1_ebx stash) =? 0) then
    with_bti (Z.shiftl (BIT_EXTRACT_LE (__B (val_1_ebx stash)) 5 8) 2)
             (BIT_EXTRACT_LE (__B (val_1_ebx stash)) 0 5)
  else if negb (BIT_EXTRACT_LE (val_80000001_ebx stash) 0 12 =? 0) then
    with_bti (BIT_EXTRACT_LE (val_80000001_ebx stash) 6 12)
             (BIT_EXTRACT_LE (val_80000001_ebx stash) 0 6)
  else
    no_model.

(** The NPT family 0Fh branch (33610 Rev 3.46). *)
Definition decode_amd_model_NPT (stash : code_stash_t) : amd_model :=
  let pwrlmt := Z.shiftl (BIT_EXTRACT_LE (val_80000001_ebx stash) 6 9) 1
                + BIT_EXTRACT_LE (val_80000001_ebx stash) 14 15 in
  let bti := BIT_EXTRACT_LE (val_80000001_ebx stash) 9 14 in
  let NN := Z.shiftl (BIT_EXTRACT_LE (val_80000001_ebx stash) 15 16) 5
            + BIT_EXTRACT_LE (val_80000001_ebx stash) 0 5 in
  let pkgtype := BIT_EXTRACT_LE (val_80000001_eax stash) 4 6 in
  let cmpcap := if BIT_EXTRACT_LE (val_80000008_ecx stash) 0 8 >? 0
                then 0x1 else 0x0 in
  let RR := NPT.RR NN in
  let PP := NPT.PP NN in
  let TT := NPT.TT NN cmpcap in
  let ZZ := NPT.ZZ NN in
  let YY := NPT.YY NN in
  let PKGTYPE := NPT.PKGTYPE in
  let CMPCAP := NPT.CMPCAP in
  let BTI := NPT.BTI in
  let PWRLMT := NPT.PWRLMT in
  switch (PKGTYPE pkgtype + CMPCAP cmpcap + BTI bti + PWRLMT pwrlmt)
      [
      (* Table 7: Name String Table for F (1207) and Fr3 (1207) Processors *)
      case [PKGTYPE 1 + CMPCAP 0 + BTI 1 + PWRLMT 2]
        (name_string "AMD Opteron(tm)"
                     (sprintf "Processor 22%02d EE" [ArgD RR])
                     None);
      case [PKGTYPE 1 + CMPCAP 1 + BTI 1 + PWRLMT 2]
        (name_string "Dual-Core AMD Opteron(tm)"
                     (sprintf "Processor 22%02d EE" [ArgD RR])
                     None);
      case [PKGTYPE 1 + CMPCAP 1 + BTI 0 + PWRLMT 2]
        (name_string "Dual-Core AMD Opteron(tm)"
                     (sprintf "Processor 12%02d EE" [ArgD RR])
                     None);
      case [PKGTYPE 1 + CMPCAP 1 + BTI 0 + PWRLMT 6]
        (name_string "Dual-Core AMD Opteron(tm)"
                     (sprintf "Processor 12%02d HE" [ArgD RR])
                     None);
      case [PKGTYPE 1 + CMPCAP 1 + BTI 1 + PWRLMT 6]
        (name_string "Dual-Core AMD Opteron(tm)"
                     (sprintf "Processor 22%02d HE" [ArgD RR])
                     None);
      case [PKGTYPE 1 + CMPCAP 1 + BTI 1 + PWRLMT 10]
        (name_string "Dual-Core AMD Opteron(tm)"
                     (sprintf "Processor 22%02d" [ArgD RR])
                     None);
      case [PKGTYPE 1 + CMPCAP 1 + BTI 1 + PWRLMT 12]
        (name_string "Dual-Core AMD Opteron(tm)"
                     (sprintf "Processor 22%02d SE" [ArgD RR])
                     None);
      case [PKGTYPE 1 + CMPCAP 1 + BTI 4 + PWRLMT 2]
        (name_string "Dual-Core AMD Opteron(tm)"
                     (sprintf "Processor 82%02d EE" [ArgD RR])
                     None);
      case [PKGTYPE 1 + CMPCAP 1 + BTI 4 + PWRLMT 6]
        (name_string "Dual-Core AMD Opteron(tm)"
                     (sprintf "Processor 82%02d HE" [ArgD RR])
                     None);
      case [PKGTYPE 1 + CMPCAP 1 + BTI 4 + PWRLMT 10]
        (name_string "Dual-Core AMD Opteron(tm)"
                     (sprintf "Processor 82%02d" [ArgD RR])
                     None);
      case [PKGTYPE 1 + CMPCAP 1 + BTI 4 + PWRLMT 12]
        (name_string "Dual-Core AMD Opteron(tm)"
                     (sprintf "Processor 82%02d SE" [ArgD RR])
                     None);
      case [PKGTYPE 1 + CMPCAP 1 + BTI 6 + PWRLMT 14]
        (name_string "AMD Athlon(tm) 64"
                     (sprintf "FX-%02d" [ArgD ZZ])
                     None);
      (* Table 8: Name String Table for AM2 and ASB1 Processors *)
      case [PKGTYPE 3 + CMPCAP 0 + BTI 1 + PWRLMT 5]
        (name_string "AMD Sempron(tm)"
                     (sprintf "Processor LE-1%02d0" [ArgD RR])
                     None);
      case [PKGTYPE 3 + CMPCAP 0 + BTI 2 + PWRLMT 6]
        (name_string "AMD Athlon(tm)"
                     (sprintf "Processor LE-1%02d0" [ArgD ZZ])
                     None);
      case [PKGTYPE 3 + CMPCAP 0 + BTI 3 + PWRLMT 6]
        (name_string "AMD Athlon(tm)"
                     (sprintf "Processor 1%02d0B" [ArgD ZZ])
                     None);
      case [PKGTYPE 3 + CMPCAP 0 + BTI 4 + PWRLMT 1;
            PKGTYPE 3 + CMPCAP 0 + BTI 4 + PWRLMT 2;
            PKGTYPE 3 + CMPCAP 0 + BTI 4 + PWRLMT 3;
            PKGTYPE 3 + CMPCAP 0 + BTI 4 + PWRLMT 4;
            PKGTYPE 3 + CMPCAP 0 + BTI 4 + PWRLMT 5;
            PKGTYPE 3 + CMPCAP 0 + BTI 4 + PWRLMT 8]
        (name_string "AMD Athlon(tm) 64"
                     (sprintf "Processor %02d00+" [ArgD TT])
                     None);
      case [PKGTYPE 3 + CMPCAP 0 + BTI 5 + PWRLMT 2]
        (name_string "AMD Sempron(tm)"
                     (sprintf "Processor %02d50p" [ArgD RR])
                     None);
      case [PKGTYPE 3 + CMPCAP 0 + BTI 6 + PWRLMT 4; PKGTYPE 3 + CMPCAP 0 + BTI 6 + PWRLMT 8]
        (name_string "AMD Sempron(tm)"
                     (sprintf "Processor %02d00+" [ArgD TT])
                     None);
      case [PKGTYPE 3 + CMPCAP 0 + BTI 7 + PWRLMT 1; PKGTYPE 3 + CMPCAP 0 + BTI 7 + PWRLMT 2]
        (name_string "AMD Sempron(tm)"
                     (sprintf "Processor %02d0U" [ArgD TT])
                     None);
      case [PKGTYPE 3 + CMPCAP 0 + BTI 8 + PWRLMT 2; PKGTYPE 3 + CMPCAP 0 + BTI 8 + PWRLMT 3]
        (name_string "AMD Athlon(tm)"
                     (sprintf "Processor %02d50e" [ArgD TT])
                     None);
      case [PKGTYPE 3 + CMPCAP 0 + BTI 9 + PWRLMT 2]
        (name_string "AMD Athlon(tm) Neo"
                     (sprintf "Processor MV-%02d" [ArgD TT])
                     None);
      case [PKGTYPE 3 + CMPCAP 0 + BTI 12 + PWRLMT 2]
        (name_string "AMD Sempron(tm)"
                     (sprintf "Processor 2%02dU" [ArgD RR])
                     None);
      case [PKGTYPE 3 + CMPCAP 1 + BTI 1 + PWRLMT 6]
        (name_string "Dual-Core AMD Opteron(tm)"
                     (sprintf "Processor 12%02d HE" [ArgD RR])
                     None);
      case [PKGTYPE 3 + CMPCAP 1 + BTI 1 + PWRLMT 10]
        (name_string "Dual-Core AMD Opteron(tm)"
                     (sprintf "Processor 12%02d" [ArgD RR])
                     None);
      case [PKGTYPE 3 + CMPCAP 1 + BTI 1 + PWRLMT 12]
        (name_string "Dual-Core AMD Opteron(tm)"
                     (sprintf "Processor 12%02d SE" [ArgD RR])
                     None);
      case [PKGTYPE 3 + CMPCAP 1 + BTI 3 + PWRLMT 3]
        (name_string "AMD Athlon(tm) X2 Dual Core"
                     (sprintf "Processor BE-2%02d0" [ArgD TT])
                     None);
      case [PKGTYPE 3 + CMPCAP 1 + BTI 4 + PWRLMT 1;
            PKGTYPE 3 + CMPCAP 1 + BTI 4 + PWRLMT 2;
            PKGTYPE 3 + CMPCAP 1 + BTI 4 + PWRLMT 6;
            PKGTYPE 3 + CMPCAP 1 + BTI 4 + PWRLMT 8;
            PKGTYPE 3 + CMPCAP 1 + BTI 4 + PWRLMT 12]
        (name_string "AMD Athlon(tm) 64 X2 Dual Core"
                     (sprintf "Processor %02d00+" [ArgD TT])
                     None);
      case [PKGTYPE 3 + CMPCAP 1 + BTI 5 + PWRLMT 12]
        (name_string "AMD Athlon(tm) 64"
                     (sprintf "FX-%02d" [ArgD ZZ])
                     (Some "Dual Core"));
      case [PKGTYPE 3 + CMPCAP 1 + BTI 6 + PWRLMT 6]
        (name_string "AMD Sempron(tm) Dual Core"
                     (sprintf "Processor %02d00" [ArgD RR])
                     None);
      case [PKGTYPE 3 + CMPCAP 1 + BTI 7 + PWRLMT 3]
        (name_string "AMD Athlon(tm) Dual Core"
                     (sprintf "Processor %02d50e" [ArgD TT])
                     None);
      case [PKGTYPE 3 + CMPCAP 1 + BTI 7 + PWRLMT 6; PKGTYPE 3 + CMPCAP 1 + BTI 7 + PWRLMT 7]
        (name_string "AMD Athlon(tm) Dual Core"
                     (sprintf "Processor %02d00B" [ArgD TT])
                     None);
      case [PKGTYPE 3 + CMPCAP 1 + BTI 8 + PWRLMT 3]
        (name_string "AMD Athlon(tm) Dual Core"
                     (sprintf "Processor %02d50B" [ArgD TT])
                     None);
      case [PKGTYPE 3 + CMPCAP 1 + BTI 9 + PWRLMT 1]
        (name_string "AMD Athlon(tm) X2 Dual Core"
                     (sprintf "Processor %02d50e" [ArgD TT])
                     None);
      case [PKGTYPE 3 + CMPCAP 1 + BTI 10 + PWRLMT 1; PKGTYPE 3 + CMPCAP 1 + BTI 10 + PWRLMT 2]
        (name_string "AMD Athlon(tm) Neo X2 Dual Core"
                     (sprintf "Processor %02d50e" [ArgD TT])
                     None);
      case [PKGTYPE 3 + CMPCAP 1 + BTI 11 + PWRLMT 0]
        (name_string "AMD Turion(tm) Neo X2 Dual Core"
                     (sprintf "Processor L6%02d" [ArgD RR])
                     None);
      case [PKGTYPE 3 + CMPCAP 1 + BTI 12 + PWRLMT 0]
        (name_string "AMD Turion(tm) Neo X2 Dual Core"
                     (sprintf "Processor L3%02d" [ArgD RR])
                     None);
      (* Table 9: Name String Table for S1g1 Processors *)
      case [PKGTYPE 0 + CMPCAP 0 + BTI 1 + PWRLMT 2]
        (name_string "AMD Athlon(tm) 64"
                     (sprintf "Processor %02d00+" [ArgD TT])
                     None);
      case [PKGTYPE 0 + CMPCAP 0 + BTI 2 + PWRLMT 12]
        (name_string "AMD Turion(tm) 64 Mobile Technology"
                     (sprintf "MK-%02d" [ArgD YY])
                     None);
      case [PKGTYPE 0 + CMPCAP 0 + BTI 3 + PWRLMT 1]
        (name_string "Mobile AMD Sempron(tm)"
                     (sprintf "Processor %02d00+" [ArgD TT])
                     None);
      case [PKGTYPE 0 + CMPCAP 0 + BTI 3 + PWRLMT 6; PKGTYPE 0 + CMPCAP 0 + BTI 3 + PWRLMT 12]
        (name_string "Mobile AMD Sempron(tm)"
                     (sprintf "Processor %02d00+" [ArgD PP])
                     None);
      case [PKGTYPE 0 + CMPCAP 0 + BTI 4 + PWRLMT 2]
        (name_string "AMD Sempron(tm)"
                     (sprintf "Processor %02d00+" [ArgD TT])
                     None);
      case [PKGTYPE 0 + CMPCAP 0 + BTI 6 + PWRLMT 4;
            PKGTYPE 0 + CMPCAP 0 + BTI 6 + PWRLMT 6;
            PKGTYPE 0 + CMPCAP 0 + BTI 6 + PWRLMT 12]
        (name_string "AMD Athlon(tm)"
                     (sprintf "Processor TF-%02d" [ArgD TT])
                     None);
      case [PKGTYPE 0 + CMPCAP 0 + BTI 7 + PWRLMT 3]
        (name_string "AMD Athlon(tm)"
                     (sprintf "Processor L1%02d" [ArgD RR])
                     None);
      case [PKGTYPE 0 + CMPCAP 1 + BTI 1 + PWRLMT 12]
        (name_string "AMD Sempron(tm)"
                     (sprintf "Processor TJ-%02d" [ArgD YY])
                     None);
      case [PKGTYPE 0 + CMPCAP 1 + BTI 2 + PWRLMT 12]
        (name_string "AMD Turion(tm) 64 X2 Mobile Technology"
                     (sprintf "Processor TL-%02d" [ArgD YY])
                     None);
      case [PKGTYPE 0 + CMPCAP 1 + BTI 3 + PWRLMT 4; PKGTYPE 0 + CMPCAP 1 + BTI 3 + PWRLMT 12]
        (name_string "AMD Turion(tm) 64 X2 Dual-Core"
                     (sprintf "Processor TK-%02d" [ArgD YY])
                     None);
      case [PKGTYPE 0 + CMPCAP 1 + BTI 5 + PWRLMT 4]
        (name_string "AMD Turion(tm) 64 X2 Dual Core"
                     (sprintf "Processor %02d00+" [ArgD TT])
                     None);
      case [PKGTYPE 0 + CMPCAP 1 + BTI 6 + PWRLMT 2]
        (name_string "AMD Turion(tm) X2 Dual Core"
                     (sprintf "Processor L3%02d" [ArgD RR])
                     None);
      case [PKGTYPE 0 + CMPCAP 1 + BTI 7 + PWRLMT 4]
        (name_string "AMD Turion(tm) X2 Dual Core"
                     (sprintf "Processor L5%02d" [ArgD RR])
                     None)
      ]
      no_model.

(** The family 10h, 11h, 12h and 14h branch (41322, 41788, 44739, 47534):
    a String1 table gives the brand prefix and the head of the number, a
    String2 table its tail; either may miss. *)
Definition decode_amd_model_10h (stash : code_stash_t) : amd_model :=
  let str2 := BIT_EXTRACT_LE (val_80000001_ebx stash) 0 4 in
  let partialmodel := BIT_EXTRACT_LE (val_80000001_ebx stash) 4 11 in
  let str1 := BIT_EXTRACT_LE (val_80000001_ebx stash) 11 15 in
  let pg := BIT_EXTRACT_LE (val_80000001_ebx stash) 15 16 in
  let pkgtype := BIT_EXTRACT_LE (val_80000001_ebx stash) 28 32 in
  let nc := BIT_EXTRACT_LE (val_80000008_ecx stash) 0 8 in
  let NC := F10.NC in
  let PG := F10.PG in
  let STR1 := F10.STR1 in
  let STR2 := F10.STR2 in
  let '(partialmodel, ((pre, s1), s2)) :=
    if __F (val_1_eax stash) =? _XF 1 + _F 15 then
      let partialmodel :=
        if pkgtype >=? 2 then u32 (partialmodel - 1) else partialmodel in
      (* Family 10h tables *)
      (partialmodel,
        switch pkgtype
          (* 41322 3.74: table 14: String1 Values for Fr2, Fr5, and Fr6 (1207) Processors *)
          (* 41322 3.74: table 15: String2 Values for Fr2, Fr5, and Fr6 (1207) Processors *)
          [ case [0]
                (switch (PG pg + NC nc + STR1 str1)
                   [ case [PG 0 + NC 3 + STR1 0] (Some "Quad-Core AMD Opteron(tm)", Some "Processor 83");
                     case [PG 0 + NC 3 + STR1 1] (Some "Quad-Core AMD Opteron(tm)", Some "Processor 23");
                     case [PG 0 + NC 5 + STR1 0] (Some "Six-Core AMD Opteron(tm)", Some "Processor 84");
                     case [PG 0 + NC 5 + STR1 1] (Some "Six-Core AMD Opteron(tm)", Some "Processor 24");
                     case [PG 1 + NC 3 + STR1 1] (Some "Embedded AMD Opteron(tm)", Some "Processor ");
                     case [PG 1 + NC 5 + STR1 1] (Some "Embedded AMD Opteron(tm)", Some "Processor ") ]
                   (None, None),
                 switch (PG pg + NC nc + STR2 str2)
                   [ case [PG 0 + NC 3 + STR2 10] (Some " SE");
                     case [PG 0 + NC 3 + STR2 11] (Some " HE");
                     case [PG 0 + NC 3 + STR2 12] (Some " EE");
                     case [PG 0 + NC 5 + STR2 0]  (Some " SE");
                     case [PG 0 + NC 5 + STR2 1]  (Some " HE");
                     case [PG 0 + NC 5 + STR2 2]  (Some " EE");
                     case [PG 1 + NC 3 + STR2 1]  (Some "GF HE");
                     case [PG 1 + NC 3 + STR2 2]  (Some "HF HE");
                     case [PG 1 + NC 3 + STR2 3]  (Some "VS");
                     case [PG 1 + NC 3 + STR2 4]  (Some "QS HE");
                     case [PG 1 + NC 3 + STR2 5]  (Some "NP HE");
                     case [PG 1 + NC 3 + STR2 6]  (Some "KH HE");
                     case [PG 1 + NC 3 + STR2 7]  (Some "KS HE");
                     case [PG 1 + NC 5 + STR2 1]  (Some "QS");
                     case [PG 1 + NC 5 + STR2 2]  (Some "KS HE") ]
                   None);
          (* 41322 3.74: table 16: String1 Values for AM2r2 and AM3 Processors *)
          (* 41322 3.74: table 17: String2 Values for AM2r2 and AM3 Processors *)
            case [1]
                (switch (PG pg + NC nc + STR1 str1)
                   [ case [PG 0 + NC 0 + STR1 2]  (Some "AMD Sempron(tm)", Some "1");
                     case [PG 0 + NC 0 + STR1 1]  (Some "AMD Athlon(tm)", Some EmptyString);
                     case [PG 0 + NC 0 + STR1 3]  (Some "AMD Athlon(tm) II X2", Some "2");
                     case [PG 0 + NC 0 + STR1 4]  (Some "AMD Athlon(tm) II X2", Some "B");
                     case [PG 0 + NC 0 + STR1 5]  (Some "AMD Athlon(tm) II X2", Some EmptyString);
                     case [PG 0 + NC 0 + STR1 7]  (Some "AMD Phenom(tm) II X2", Some "5");
                     case [PG 0 + NC 0 + STR1 10] (Some "AMD Phenom(tm) II X2", Some EmptyString);
                     case [PG 0 + NC 0 + STR1 11] (Some "AMD Phenom(tm) II X2", Some "B");
                     case [PG 0 + NC 0 + STR1 12] (Some "AMD Sempron(tm) X2", Some "1");
                     case [PG 0 + NC 2 + STR1 0]  (Some "AMD Phenom(tm)", Some EmptyString);
                     case [PG 0 + NC 2 + STR1 3]  (Some "AMD Phenom(tm) II X3", Some "B");
                     case [PG 0 + NC 2 + STR1 4]  (Some "AMD Phenom(tm) II X3", Some EmptyString);
                     case [PG 0 + NC 2 + STR1 7]  (Some "AMD Phenom(tm) II X3", Some "4");
                     case [PG 0 + NC 2 + STR1 8]  (Some "AMD Phenom(tm) II X3", Some "7");
                     case [PG 0 + NC 2 + STR1 10] (Some "AMD Phenom(tm) II X3", Some EmptyString);
                     case [PG 0 + NC 3 + STR1 0]  (Some "Quad-Core AMD Opteron(tm)", Some "Processor 13");
                     case [PG 0 + NC 3 + STR1 2]  (Some "AMD Phenom(tm)", Some EmptyString);
                     case [PG 0 + NC 3 + STR1 3]  (Some "AMD Phenom(tm) II X4", Some "9");
                     case [PG 0 + NC 3 + STR1 4]  (Some "AMD Phenom(tm) II X4", Some "8");
                     case [PG 0 + NC 3 + STR1 7]  (Some "AMD Phenom(tm) II X4", Some "B");
                     case [PG 0 + NC 3 + STR1 8]  (Some "AMD Phenom(tm) II X4", Some EmptyString);
                     case [PG 0 + NC 3 + STR1 10] (Some "AMD Athlon(tm) II X4", Some "6");
                     case [PG 0 + NC 3 + STR1 15] (Some "AMD Athlon(tm) II X4", Some EmptyString);
                     case [PG 0 + NC 5 + STR1 0]  (Some "AMD Phenom(tm) II X6", Some "1");
                     case [PG 1 + NC 1 + STR1 1]  (Some "AMD Athlon(tm) II XLT V", Some EmptyString);
                     case [PG 1 + NC 1 + STR1 2]  (Some "AMD Athlon(tm) II XL V", Some EmptyString);
                     case [PG 1 + NC 3 + STR1 1]  (Some "AMD Phenom(tm) II XLT Q", Some EmptyString);
                     case [PG 1 + NC 3 + STR1 2]  (Some "AMD Phenom(tm) II X4", Some "9");
                     case [PG 1 + NC 3 + STR1 3]  (Some "AMD Phenom(tm) II X4", Some "8");
                     case [PG 1 + NC 3 + STR1 4]  (Some "AMD Phenom(tm) II X4", Some "6") ]
                   (None, None),
                 switch (PG pg + NC nc + STR2 str2)
                   [ case [PG 0 + NC 0 + STR2 10] (Some " Processor");
                     case [PG 0 + NC 0 + STR2 11] (Some "u Processor");
                     case [PG 0 + NC 1 + STR2 3]  (Some "50 Dual-Core Processor");
                     case [PG 0 + NC 1 + STR2 6]  (Some " Processor");
                     case [PG 0 + NC 1 + STR2 7]  (Some "e Processor");
                     case [PG 0 + NC 1 + STR2 9]  (Some "0 Processor");
                     case [PG 0 + NC 1 + STR2 10] (Some "0e Processor");
                     case [PG 0 + NC 1 + STR2 11] (Some "u Processor");
                     case [PG 0 + NC 2 + STR2 0]  (Some "00 Triple-Core Processor");
                     case [PG 0 + NC 2 + STR2 1]  (Some "00e Triple-Core Processor");
                     case [PG 0 + NC 2 + STR2 2]  (Some "00B Triple-Core Processor");
                     case [PG 0 + NC 2 + STR2 3]  (Some "50 Triple-Core Processor");
                     case [PG 0 + NC 2 + STR2 4]  (Some "50e Triple-Core Processor");
                     case [PG 0 + NC 2 + STR2 5]  (Some "50B Triple-Core Processor");
                     case [PG 0 + NC 2 + STR2 6]  (Some " Processor");
                     case [PG 0 + NC 2 + STR2 7]  (Some "e Processor");
                     case [PG 0 + NC 2 + STR2 9]  (Some "0e Processor");
                     case [PG 0 + NC 2 + STR2 10] (Some "0 Processor");
                     case [PG 0 + NC 3 + STR2 0]  (Some "00 Quad-Core Processor");
                     case [PG 0 + NC 3 + STR2 1]  (Some "00e Quad-Core Processor");
                     case [PG 0 + NC 3 + STR2 2]  (Some "00B Quad-Core Processor");
                     case [PG 0 + NC 3 + STR2 3]  (Some "50 Quad-Core Processor");
                     case [PG 0 + NC 3 + STR2 4]  (Some "50e Quad-Core Processor");
                     case [PG 0 + NC 3 + STR2 5]  (Some "50B Quad-Core Processor");
                     case [PG 0 + NC 3 + STR2 6]  (Some " Processor");
                     case [PG 0 + NC 3 + STR2 7]  (Some "e Processor");
                     case [PG 0 + NC 3 + STR2 9]  (Some "0e Processor");
                     case [PG 0 + NC 3 + STR2 14] (Some "0 Processor");
                     case [PG 0 + NC 5 + STR2 0]  (Some "5T Processor");
                     case [PG 0 + NC 5 + STR2 1]  (Some "0T Processor");
                     case [PG 1 + NC 1 + STR2 1]  (Some "L Processor");
                     case [PG 1 + NC 1 + STR2 2]  (Some "C Processor");
                     case [PG 1 + NC 3 + STR2 1]  (Some "L Processor");
                     case [PG 1 + NC 3 + STR2 4]  (Some "T Processor") ]
                   None);
          (* 41322 3.74: table 18: String1 Values for S1g3 and S1g4 Processors *)
          (* 41322 3.74: table 19: String1 Values for S1g3 and S1g4 Processors *)
            case [2]
                (switch (PG pg + NC nc + STR1 str1)
                   [ case [PG 0 + NC 0 + STR1 0] (Some "AMD Sempron(tm)", Some "M1");
                     case [PG 0 + NC 0 + STR1 1] (Some "AMD", Some "V");
                     case [PG 0 + NC 1 + STR1 0] (Some "AMD Turion(tm) II Ultra Dual-Core Mobile", Some "M6");
                     case [PG 0 + NC 1 + STR1 1] (Some "AMD Turion(tm) II Dual-Core Mobile", Some "M5");
                     case [PG 0 + NC 1 + STR1 2] (Some "AMD Athlon(tm) II Dual-Core", Some "M3");
                     case [PG 0 + NC 1 + STR1 3] (Some "AMD Turion(tm) II", Some "P");
                     case [PG 0 + NC 1 + STR1 4] (Some "AMD Athlon(tm) II", Some "P");
                     case [PG 0 + NC 1 + STR1 5] (Some "AMD Phenom(tm) II", Some "X");
                     case [PG 0 + NC 1 + STR1 6] (Some "AMD Phenom(tm) II", Some "N");
                     case [PG 0 + NC 1 + STR1 7] (Some "AMD Turion(tm) II", Some "N");
                     case [PG 0 + NC 1 + STR1 8] (Some "AMD Athlon(tm) II", Some "N");
                     case [PG 0 + NC 2 + STR1 2] (Some "AMD Phenom(tm) II", Some "P");
                     case [PG 0 + NC 2 + STR1 3] (Some "AMD Phenom(tm) II", Some "N");
                     case [PG 0 + NC 3 + STR1 1] (Some "AMD Phenom(tm) II", Some "P");
                     case [PG 0 + NC 3 + STR1 2] (Some "AMD Phenom(tm) II", Some "X");
                     case [PG 0 + NC 3 + STR1 3] (Some "AMD Phenom(tm) II", Some "N") ]
                   (None, None),
                 switch (PG pg + NC nc + STR2 str2)
                   [ case [PG 0 + NC 0 + STR2 1] (Some "0 Processor");
                     case [PG 0 + NC 1 + STR2 2] (Some "0 Dual-Core Processor");
                     case [PG 0 + NC 2 + STR2 2] (Some "0 Triple-Core Processor");
                     case [PG 0 + NC 3 + STR2 1] (Some "0 Quad-Core Processor") ]
                   None);
          (* 41322 3.74: table 20: String1 Values for G34r1 Processors *)
          (* 41322 3.74: table 21: String2 Values for G34r1 Processors *)
            case [3]
                (switch (PG pg + NC nc + STR1 str1)
                   [ case [PG 0 + NC 7 + STR1 0]  (Some "AMD Opteron(tm)", Some "Processor 61");
                     case [PG 0 + NC 11 + STR1 0] (Some "AMD Opteron(tm)", Some "Processor 61");
                     case [PG 1 + NC 7 + STR1 1]  (Some "Embedded AMD Opteron(tm)", Some "Processor ") ]
                   (None, None),
                 switch (PG pg + NC nc + STR2 str2)
                   [ case [PG 0 + NC 7 + STR1 0]  (Some " HE");
                     case [PG 0 + NC 7 + STR1 1]  (Some " SE");
                     case [PG 0 + NC 11 + STR1 0] (Some " HE");
                     case [PG 0 + NC 11 + STR1 1] (Some " SE");
                     case [PG 1 + NC 7 + STR1 1]  (Some "QS");
                     case [PG 1 + NC 7 + STR1 2]  (Some "KS") ]
                   None);
          (* 41322 3.74: table 22: String1 Values for ASB2 Processors *)
          (* 41322 3.74: table 23: String2 Values for ASB2 Processors *)
            case [4]
                (switch (PG pg + NC nc + STR1 str1)
                   [ case [PG 0 + NC 0 + STR1 1] (Some "AMD Athlon(tm) II Neo", Some "K");
                     case [PG 0 + NC 0 + STR1 2] (Some "AMD", Some "V");
                     case [PG 0 + NC 0 + STR1 3] (Some "AMD Athlon(tm) II Neo", Some "R");
                     case [PG 0 + NC 1 + STR1 1] (Some "AMD Turion(tm) II Neo", Some "K");
                     case [PG 0 + NC 1 + STR1 2] (Some "AMD Athlon(tm) II Neo", Some "K");
                     case [PG 0 + NC 1 + STR1 3] (Some "AMD", Some "V");
                     case [PG 0 + NC 1 + STR1 4] (Some "AMD Turion(tm) II Neo", Some "N");
                     case [PG 0 + NC 1 + STR1 5] (Some "AMD Athlon(tm) II Neo", Some "N") ]
                   (None, None),
                 switch (PG pg + NC nc + STR2 str2)
                   [ case [PG 0 + NC 0 + STR1 1] (Some "5 Processor");
                     case [PG 0 + NC 0 + STR1 2] (Some "L Processor");
                     case [PG 0 + NC 1 + STR1 1] (Some "5 Dual-Core Processor");
                     case [PG 0 + NC 1 + STR1 2] (Some "L Dual-Core Processor") ]
                   None);
          (* 41322 3.74: table 24: String1 Values for C32r1 Processors *)
          (* 41322 3.74: table 25: String2 Values for C32r1 Processors *)
            case [5]
                (switch (PG pg + NC nc + STR1 str1)
                   [ case [PG 0 + NC 3 + STR1 0] (Some "AMD Opteron(tm)", Some "41");
                     case [PG 0 + NC 5 + STR1 0] (Some "AMD Opteron(tm)", Some "41");
                     case [PG 1 + NC 3 + STR1 1] (Some "Embedded AMD Opteron(tm)", Some " ");
                     case [PG 1 + NC 5 + STR1 1] (Some "Embedded AMD Opteron(tm)", Some " ") ]
                   (None, None),
                 switch (PG pg + NC nc + STR2 str2)
                   [ case [PG 0 + NC 3 + STR1 0] (Some " HE");
                     case [PG 0 + NC 3 + STR1 1] (Some " EE");
                     case [PG 0 + NC 5 + STR1 0] (Some " HE");
                     case [PG 0 + NC 5 + STR1 1] (Some " EE");
                     case [PG 1 + NC 3 + STR1 1] (Some "QS HE");
                     case [PG 1 + NC 3 + STR1 2] (Some "LE HE");
                     case [PG 1 + NC 3 + STR1 3] (Some "CL EE");
                     case [PG 1 + NC 5 + STR1 1] (Some "KX HE");
                     case [PG 1 + NC 5 + STR1 2] (Some "GL EE") ]
                   None) ]
          ((None, None), None))
    else if __F (val_1_eax stash) =? _XF 2 + _F 15 then
      (* Family 11h tables *)
      (partialmodel,
        switch pkgtype
          (* 41788 3.08: table 3: String1 Values for S1g2 Processors *)
          (* 41788 3.08: table 4: String2 Values for S1g2 Processors *)
          [ case [2]
                (switch (PG pg + NC nc + STR1 str1)
                   [ case [PG 0 + NC 0 + STR1 0] (Some "AMD Sempron(tm)", Some "SI-");
                     case [PG 0 + NC 0 + STR1 1] (Some "AMD Athlon(tm)", Some "QI-");
                     case [PG 0 + NC 1 + STR1 0] (Some "AMD Turion(tm) X2 Ultra Dual-Core Mobile", Some "ZM-");
                     case [PG 0 + NC 1 + STR1 1] (Some "AMD Turion(tm) X2 Dual-Core Mobile", Some "RM-");
                     case [PG 0 + NC 1 + STR1 2] (Some "AMD Athlon(tm) X2 Dual-Core", Some "QL-");
                     case [PG 0 + NC 1 + STR1 3] (Some "AMD Sempron(tm) X2 Dual-Core", Some "NI-") ]
                   (None, None),
                 switch (PG pg + NC nc + STR2 str2)
                   [ case [PG 0 + NC 0 + STR2 0] (Some EmptyString);
                     case [PG 0 + NC 1 + STR2 0] (Some EmptyString) ]
                   None) ]
          ((None, None), None))
    else if __F (val_1_eax stash) =? _XF 3 + _F 15 then
      let partialmodel := u32 (partialmodel - 1) in
      (* Family 12h tables *)
      (partialmodel,
        switch pkgtype
          (* 44739 3.10: table 6: String1 Values for FS1 Processors *)
          (* 44739 3.10: table 7: String2 Values for FS1 Processors *)
          [ case [1]
                (switch (PG pg + NC nc + STR1 str1)
                   [ case [PG 0 + NC 1 + STR1 3] (Some "AMD", Some "A4-33");
                     case [PG 0 + NC 1 + STR1 5] (Some "AMD", Some "E2-30");
                     case [PG 0 + NC 3 + STR1 1] (Some "AMD", Some "A8-35");
                     case [PG 0 + NC 3 + STR1 3] (Some "AMD", Some "A6-34") ]
                   (None, None),
                 switch (PG pg + NC nc + STR2 str2)
                   [ case [PG 0 + NC 1 + STR2 1] (Some "M");
                     case [PG 0 + NC 1 + STR2 2] (Some "MX");
                     case [PG 0 + NC 3 + STR2 1] (Some "M");
                     case [PG 0 + NC 3 + STR2 2] (Some "MX") ]
                   None);
          (* 44739 3.10: table 8: String1 Values for FM1 Processors *)
          (* 44739 3.10: table 9: String2 Values for FM1 Processors *)
            case [2]
                (switch (PG pg + NC nc + STR1 str1)
                   [ case [PG 0 + NC 1 + STR1 1]  (Some "AMD", Some "A4-33");
                     case [PG 0 + NC 1 + STR1 2]  (Some "AMD", Some "E2-32");
                     case [PG 0 + NC 1 + STR1 4]  (Some "AMD Athlon(tm) II X2", Some "2");
                     case [PG 0 + NC 1 + STR1 5]  (Some "AMD", Some "A4-34");
                     case [PG 0 + NC 1 + STR1 12] (Some "AMD Sempron(tm) X2", Some "1");
                     case [PG 0 + NC 2 + STR1 5]  (Some "AMD", Some "A6-35");
                     case [PG 0 + NC 3 + STR1 5]  (Some "AMD", Some "A8-38");
                     case [PG 0 + NC 3 + STR1 6]  (Some "AMD", Some "A6-36");
                     case [PG 0 + NC 3 + STR1 13] (Some "AMD Athlon(tm) II X4", Some "6") ]
                   (None, None),
                 switch (PG pg + NC nc + STR2 str2)
                   [ case [PG 0 + NC 1 + STR2 1] (Some " APU with Radeon(tm) HD Graphics");
                     case [PG 0 + NC 1 + STR2 2] (Some " Dual-Core Processor");
                     case [PG 0 + NC 2 + STR2 1] (Some " APU with Radeon(tm) HD Graphics");
                     case [PG 0 + NC 3 + STR2 1] (Some " APU with Radeon(tm) HD Graphics");
                     case [PG 0 + NC 3 + STR2 3] (Some " Quad-Core Processor") ]
                   None) ]
          ((None, None), None))
    else if __F (val_1_eax stash) =? _XF 5 + _F 15 then
      let partialmodel := u32 (partialmodel - 1) in
      (* Family 14h Models 00h-0Fh tables *)
      (partialmodel,
        switch pkgtype
          (* 47534 3.00: table 4: String1 Values for FT1 Processors *)
          (* 47534 3.00: table 5: String2 Values for FT1 Processors *)
          [ case [0]
                (switch (PG pg + NC nc + STR1 str1)
                   [ case [PG 0 + NC 0 + STR1 1] (Some "AMD", Some "C-");
                     case [PG 0 + NC 0 + STR1 2] (Some "AMD", Some "E-");
                     case [PG 0 + NC 0 + STR1 4] (Some "AMD", Some "G-T");
                     case [PG 0 + NC 1 + STR1 1] (Some "AMD", Some "C-");
                     case [PG 0 + NC 1 + STR1 2] (Some "AMD", Some "E-");
                     case [PG 0 + NC 1 + STR1 3] (Some "AMD", Some "Z-");
                     case [PG 0 + NC 1 + STR1 4] (Some "AMD", Some "G-T");
                     case [PG 0 + NC 1 + STR1 5] (Some "AMD", Some "E1-1");
                     case [PG 0 + NC 1 + STR1 6] (Some "AMD", Some "E2-1");
                     case [PG 0 + NC 1 + STR1 7] (Some "AMD", Some "E2-2") ]
                   (None, None),
                 switch (PG pg + NC nc + STR2 str2)
                   [ case [PG 0 + NC 0 + STR2 1]  (Some EmptyString);
                     case [PG 0 + NC 0 + STR2 2]  (Some "0");
                     case [PG 0 + NC 0 + STR2 3]  (Some "5");
                     case [PG 0 + NC 0 + STR2 4]  (Some "0x");
                     case [PG 0 + NC 0 + STR2 5]  (Some "5x");
                     case [PG 0 + NC 0 + STR2 6]  (Some "x");
                     case [PG 0 + NC 0 + STR2 7]  (Some "L");
                     case [PG 0 + NC 0 + STR2 8]  (Some "N");
                     case [PG 0 + NC 0 + STR2 9]  (Some "R");
                     case [PG 0 + NC 0 + STR2 10] (Some "0");
                     case [PG 0 + NC 0 + STR2 11] (Some "5");
                     case [PG 0 + NC 0 + STR2 12] (Some EmptyString);
                     case [PG 0 + NC 0 + STR2 13] (Some "0D");
                     case [PG 0 + NC 1 + STR2 1]  (Some EmptyString);
                     case [PG 0 + NC 1 + STR2 2]  (Some "0");
                     case [PG 0 + NC 1 + STR2 3]  (Some "5");
                     case [PG 0 + NC 1 + STR2 4]  (Some "0x");
                     case [PG 0 + NC 1 + STR2 5]  (Some "5x");
                     case [PG 0 + NC 1 + STR2 6]  (Some "x");
                     case [PG 0 + NC 1 + STR2 7]  (Some "L");
                     case [PG 0 + NC 1 + STR2 8]  (Some "N");
                     case [PG 0 + NC 1 + STR2 9]  (Some "0");
                     case [PG 0 + NC 1 + STR2 10] (Some "5");
                     case [PG 0 + NC 1 + STR2 11] (Some EmptyString);
                     case [PG 0 + NC 1 + STR2 12] (Some "E");
                     case [PG 0 + NC 1 + STR2 13] (Some "0D") ]
                   None) ]
          ((None, None), None))
    else
      (partialmodel, ((None, None), None))
  in
  match s1 with
  | Some s1 =>
      let p := sprintf "%s%02d" [ArgS s1; ArgD partialmodel] in
      {| brand_pre := pre;
         brand_post := None;
         proc := match s2 with
                 | Some s2 => p ++ sprintf "%s" [ArgS s2]
                 | None => p
                 end |}
  | None => {| brand_pre := pre; brand_post := None; proc := EmptyString |}
  end.

(** [decode_amd_model(stash, &brand_pre, &brand_post, proc)]. *)
Definition decode_amd_model (stash : option code_stash_t) : amd_model :=
  match stash with
  | None => no_model
  | Some stash =>
      if (__F (val_1_eax stash) =? _XF 0 + _F 15)
         && (__M (val_1_eax stash) <? _XM 4 + _M 0) then
        decode_amd_model_K8 stash
      else if (__F (val_1_eax stash) =? _XF 0 + _F 15)
              && (__M (val_1_eax stash) >=? _XM 4 + _M 0) then
        decode_amd_model_NPT stash
      else if (__F (val_1_eax stash) =? _XF 1 + _F 15)
              || (__F (val_1_eax stash) =? _XF 2 + _F 15)
              || (__F (val_1_eax stash) =? _XF 3 + _F 15)
              || (__F (val_1_eax stash) =? _XF 5 + _F 15) then
        decode_amd_model_10h stash
      else
        no_model
  end.

(* ================================================================== *)
(** ** Cache/Feature Stash builder                                     *)
(* ================================================================== *)

(** [stash_intel_cache(stash, value)]: one leaf-2 descriptor byte.  The
    six [switch] statements run one after the other on the same byte;
    none has a [default]. *)
Definition stash_intel_cache (stash : code_stash_t) (value : Z)
  : code_stash_t :=
  let stash :=
    switch value
      [ case [0x42] (set_L2_4w_256K true stash);
        case [0x43] (set_L2_4w_512K true stash);
        case [0x44] (set_L2_4w_1Mor2M true stash);
        case [0x45] (set_L2_4w_1Mor2M true stash);
        case [0x80] (set_L2_8w_512K true stash);
        case [0x82] (set_L2_8w_256K true stash);
        case [0x83] (set_L2_8w_512K true stash);
        case [0x84] (set_L2_8w_1Mor2M true stash);
        case [0x85] (set_L2_8w_1Mor2M true stash) ]
      stash in
  let stash :=
    switch value
      [ case [0x45;
              0x7d;
              0x85]
          (set_L2_2M true stash) ]
      stash in
  let stash :=
    switch value
      [ case [0x4e]
          (set_L2_6M true stash) ]
      stash in
  let stash :=
    switch value
      [ case [0x22;
              0x23;
              0x25;
              0x29;
              0x46;
              0x47;
              0x49;
              0x4a;
              0x4b;
              0x4c;
              0x4d;
              0x88;
              0x89;
              0x8a;
              0x8d;
              0xd0;
              0xd1;
              0xd2;
              0xd6;
              0xd7;
              0xd8;
              0xdc;
              0xdd;
              0xde;
              0xe2;
              0xe3;
              0xe4;
              0xea;
              0xeb;
              0xec]
          (set_L3 true stash) ]
      stash in
  let stash :=
    switch value
      [ case [0x21;
              0x3c;
              0x42;
              0x7a;
              0x7e;
              0x82]
          (set_L2_256K true stash) ]
      stash in
  let stash :=
    switch value
      [ case [0x3e;
              0x43;
              0x7b;
              0x7f;
              0x83;
              0x86]
          (set_L2_512K true stash) ]
      stash in
  stash.

(** [print_80000006_ecx(value, stash)], its effect on the stash. *)
Definition print_80000006_ecx (value : Z) (stash : code_stash_t)
  : code_stash_t :=
  if (Z.land (Z.shiftr value 12) 0xf =? 4) && (Z.shiftr value 16 =? 256)
  then set_L2_4w_256K true stash
  else if (Z.land (Z.shiftr value 12) 0xf =? 4) && (Z.shiftr value 16 =? 512)
  then set_L2_4w_512K true stash
  else stash.

(** [print_80860002_eax(value, stash)], its effect on the stash. *)
Definition print_80860002_eax (value : Z) (stash : code_stash_t)
  : code_stash_t :=
  if transmeta_proc_rev stash =? 0x02000000
  then set_transmeta_proc_rev value stash
  else stash.

(* ================================================================== *)
(** ** Brand id, Override Brand and brand-string parse                 *)
(* ================================================================== *)

(** [decode_brand_id_stash(stash)] *)
Definition decode_brand_id_stash (stash : code_stash_t) : code_stash_t :=
  let val_1_eax := val_1_eax stash in
  let val_1_ebx := val_1_ebx stash in
  let bri_with (f : struct_bri -> struct_bri) := set_bri (f (bri stash)) stash in
  let desktop_celeron := bri_with (set_bri_desktop_celeron true) in
  let desktop_pentium := bri_with (set_bri_desktop_pentium true) in
  let mobile_pentium := bri_with (set_bri_mobile_pentium true) in
  let mobile_pentium_m := bri_with (set_bri_mobile_pentium_m true) in
  let mobile_celeron := bri_with (set_bri_mobile_celeron true) in
  let xeon_mp := bri_with (set_bri_xeon_mp true) in
  let xeon := bri_with (set_bri_xeon true) in
  switch (__B val_1_ebx)
    [ case [_B 0]  stash;
      case [_B 1]  desktop_celeron;
      case [_B 2]  desktop_pentium;
      case [_B 3]  (if __FMS val_1_eax =? _FMS 0 6 0 11 1
                    then desktop_celeron
                    else xeon);
      case [_B 4]  desktop_pentium;
      case [_B 6]  desktop_pentium;
      case [_B 7]  desktop_celeron;
      case [_B 8]  desktop_pentium;
      case [_B 9]  desktop_pentium;
      case [_B 10] desktop_celeron;
      case [_B 11] (if __FMS val_1_eax <=? _FMS 0 15 0 1 2
                    then xeon_mp
                    else xeon);
      case [_B 12] xeon_mp;
      case [_B 14] (if __FMS val_1_eax <=? _FMS 0 15 0 1 3
                    then xeon
                    else mobile_pentium_m);
      case [_B 15] (if __FM val_1_eax =? _FM 0 15 0 2
                    then mobile_pentium_m
                    else mobile_celeron);
      case [_B 16] desktop_celeron;
      case [_B 17] mobile_pentium;
      case [_B 18] desktop_celeron;
      case [_B 19] mobile_celeron;
      case [_B 20] desktop_celeron;
      case [_B 21] mobile_pentium;
      case [_B 22] desktop_pentium;
      case [_B 23] mobile_celeron ]
    stash.

(** [decode_override_brand(stash)] *)
Definition decode_override_brand (stash : code_stash_t) : code_stash_t :=
  if (vendor_eqb (vendor stash) VENDOR_AMD
      || vendor_eqb (vendor stash) VENDOR_HYGON)
     && not_null (strstr (c_str (brand stash)) "model unknown")
  then
    let m := decode_amd_model (Some stash) in
    match brand_pre m with
    | Some pre =>
        let b := sprintf "%s %s" [ArgS pre; ArgS (proc m)] in
        match brand_post m with
        | Some post =>
            set_override_brand (b ++ sprintf " %s" [ArgS post]) stash
        | None => set_override_brand b stash
        end
    | None => stash
    end
  else stash.

Section BrandString.

(** [strregexp(haystack, needle)] hands its work to the C library's
    [regcomp]/[regexec]; the matcher is a parameter of the brand-string
    parse.  None of the patterns fails to compile, so the error exits
    of [strregexp] are not taken. *)
Variable strregexp : cstring -> cstring -> bool.

Definition has (brand needle : cstring) : bool :=
  not_null (strstr brand needle).

(** [decode_brand_string(brand, stash)]: every field of [stash->br] is
    assigned afresh. *)
Definition decode_brand_string (brand : cstring) (stash : code_stash_t)
  : code_stash_t :=
  set_br
    {| br_mobile      := has brand "Mobile" || has brand "mobile";

       br_celeron     := has brand "Celeron";
       br_core        := has brand "Core(TM)";
       br_pentium     := has brand "Pentium";
       br_xeon_mp     := has brand "Xeon MP"
                         || has brand "Xeon(TM) MP"
                         || has brand "Xeon(R)";
       br_xeon        := has brand "Xeon";
       br_pentium_m   := has brand "Pentium(R) M";
       br_pentium_d   := has brand "Pentium(R) D";
       br_extreme     := strregexp brand " ?X[0-9][0-9][0-9][0-9]";
       br_generic     := has brand "Genuine Intel(R) CPU";
       br_scalable    := has brand "Bronze"
                         || has brand "Silver"
                         || has brand "Gold"
                         || has brand "Platinum";
       br_u_line      := strregexp brand "Core.* [im][3579]-[0-9]*U"
                         || strregexp brand "Pentium.* [0-9]*U";
       br_y_line      := strregexp brand "Core.* [im][3579]-[0-9]*Y";
       br_i_10000     := strregexp brand "Core.* i[3579]-10[0-9][0-9][0-9]";

       br_athlon_lv   := has brand "Athlon(tm) XP-M (LV)";
       br_athlon_xp   := has brand "Athlon(tm) XP"
                         || has brand "Athlon(TM) XP";
       br_duron       := has brand "Duron";
       br_athlon      := has brand "Athlon";
       br_sempron     := has brand "Sempron";
       br_phenom      := has brand "Phenom";
       br_series      := has brand "Series";
       br_a_series    := has brand "AMD A";
       br_c_series    := has brand "AMD C";
       br_e_series    := has brand "AMD E";
       br_g_series    := has brand "AMD G";
       br_r_series    := has brand "AMD R";
       br_z_series    := has brand "AMD Z";
       br_geode       := has brand "Geode";
       br_turion      := has brand "Turion";
       br_neo         := has brand "Neo";
       br_athlon_fx   := has brand "Athlon(tm) 64 FX";
       br_athlon_mp   := has brand "Athlon(tm) MP";
       br_duron_mp    := has brand "Duron(tm) MP";
       br_opteron     := has brand "Opteron";
       br_fx          := has brand "AMD FX";
       br_firepro     := has brand "Firepro";
       br_ultra       := has brand "Ultra";
       br_t_suffix    := strregexp brand "[0-9][0-9][0-9][0-9]T";
       br_ryzen       := has brand "Ryzen";
       br_epyc        := has brand "EPYC";

       br_embedded    := has brand "Embedded";
       br_cores       :=
         if has brand "Dual Core" || has brand " X2 " then 2
         else if has brand "Triple-Core" || has brand " X3 " then 3
         else if has brand "Quad-Core" || has brand " X4 " then 4
         else if has brand "Six-Core" || has brand " X6 " then 6
         else 0;

       br_mediagx     := has brand "MediaGXtm" |}
    stash.

(** [decode_brand_stash(stash)] *)
Definition decode_brand_stash (stash : code_stash_t) : code_stash_t :=
  if negb (String.eqb (override_brand stash) EmptyString)
  then decode_brand_string (override_brand stash) stash
  else decode_brand_string (c_str (brand stash)) stash.

End BrandString.

(* ================================================================== *)
(** ** Disambiguation Predicate Set: the query macros                  *)
(* ================================================================== *)

(** Each query macro of the source reads the variable [stash] in scope;
    here it is a function of the stash. *)
Section Queries.

Variable stash : code_stash_t.

Definition is_intel : bool := vendor_eqb (vendor stash) VENDOR_INTEL.
Definition is_amd : bool := vendor_eqb (vendor stash) VENDOR_AMD.
Definition is_cyrix : bool := vendor_eqb (vendor stash) VENDOR_CYRIX.
Definition is_transmeta : bool := vendor_eqb (vendor stash) VENDOR_TRANSMETA.
Definition is_mobile : bool := br_mobile (br stash).

(** *** Intel major queries *)
Definition dP : bool := (is_intel && br_pentium (br stash))
                        || bri_desktop_pentium (bri stash).
Definition dC : bool := (is_intel && negb is_mobile && br_celeron (br stash))
                        || bri_desktop_celeron (bri stash).
Definition dd : bool := is_intel && br_pentium_d (br stash).
Definition dc : bool :=
  is_intel && negb is_mobile && (br_core (br stash) || br_generic (br stash)).
Definition sX : bool := (is_intel && br_xeon (br stash)) || bri_xeon (bri stash).
Definition sM : bool := (is_intel && br_xeon_mp (br stash))
                        || bri_xeon_mp (bri stash).
Definition sS : bool := is_intel && br_xeon (br stash) && br_scalable (br stash).
Definition MP : bool := (is_intel && is_mobile && br_pentium (br stash))
                        || bri_mobile_pentium (bri stash).
Definition MC : bool := (is_intel && is_mobile && br_celeron (br stash))
                        || bri_mobile_celeron (bri stash).
Definition MM : bool := (is_intel && br_pentium_m (br stash))
                        || bri_mobile_pentium_m (bri stash).
Definition Mc : bool := is_intel && is_mobile && br_core (br stash).
Definition Xc : bool := is_intel && br_extreme (br stash).
Definition LU : bool := is_intel && br_u_line (br stash).
Definition LY : bool := is_intel && br_y_line (br stash).

(** *** Intel special cases *)
(* Pentium II Xeon (Deschutes), distinguished from Pentium II (Deschutes) *)
Definition xD : bool := L2_4w_1Mor2M stash.
(* Mobile Pentium II (Deschutes), distinguished from Pentium II (Deschutes) *)
Definition mD : bool := L2_4w_256K stash.
(* Intel Celeron (Deschutes), distinguished from  Pentium II (Deschutes) *)
Definition cD : bool := negb (L2_4w_1Mor2M stash) && negb (L2_4w_512K stash)
                        && negb (L2_4w_256K stash).
(* Pentium III Xeon (Katmai), distinguished from Pentium III (Katmai) *)
Definition xK : bool := L2_4w_1Mor2M stash || L2_8w_1Mor2M stash.
(* Pentium II (Katmai), verified, so distinguished from fallback case *)
Definition pK : bool :=
  (L2_4w_512K stash || L2_8w_256K stash || L2_8w_512K stash)
  && negb (L2_4w_1Mor2M stash) && negb (L2_8w_1Mor2M stash).
(* Irwindale, distinguished from Nocona *)
Definition sI : bool := sX && L2_2M stash.
(* Potomac, distinguished from Cranford *)
Definition sP : bool := sM && L3 stash.
(* Allendale, distinguished from Conroe *)
Definition da : bool := dc && L2_2M stash.
(* Dual-Core Xeon Processor 5100 (Woodcrest B1) pre-production,
   distinguished from Core 2 Duo (Conroe B1) *)
Definition QW : bool :=
  dc && br_generic (br stash)
  && ((mp_cores (mp stash) =? 4)
      || ((mp_cores (mp stash) =? 2) && (mp_hyperthreads (mp stash) =? 2))).
(* Core Duo (Yonah), distinguished from Core Solo (Yonah) *)
Definition Dc : bool := dc && (mp_cores (mp stash) =? 2).
(* Core 2 Quad, distinguished from Core 2 Duo *)
Definition Qc : bool := dc && (mp_cores (mp stash) =? 4).
(* Core 2 Extreme (Conroe B1), distinguished from Core 2 Duo (Conroe B1) *)
Definition XE : bool := dc && not_null (strstr (c_str (brand stash)) " E6800").
(* Quad-Core Xeon, distinguished from Xeon; and
   Xeon Processor 3300, distinguished from Xeon Processor 3100 *)
Definition sQ : bool := sX && (mp_cores (mp stash) =? 4).
(* Xeon Processor 7000, distinguished from Xeon *)
Definition IS_VMX (val_1_ecx : Z) : Z := BIT_EXTRACT_LE val_1_ecx 5 6.
Definition s7 : bool := sX && negb (IS_VMX (val_1_ecx stash) =? 0).
(* Wolfdale C0/E0, distinguished from Wolfdale M0/R0 *)
Definition de : bool := dc && L2_6M stash.
(* Penryn C0/E0, distinguished from Penryn M0/R0 *)
Definition Me : bool := Mc && L2_6M stash.
(* Yorkfield C1/E0, distinguished from Yorkfield M1/E0 *)
Definition Qe : bool := Qc && L2_6M stash.
(* Yorkfield E0, distinguished from Yorkfield R0 *)
Definition se : bool := sQ && L2_6M stash.
(* Comet Lake V1, distinguished from Whiskey Lake V0 *)
Definition UC : bool := LU && br_i_10000 (br stash).

(** *** AMD major queries *)
Definition dA : bool := is_amd && negb is_mobile && br_athlon (br stash).
Definition dX : bool := is_amd && negb is_mobile && br_athlon_xp (br stash).
Definition dF : bool := is_amd && negb is_mobile && br_athlon_fx (br stash).
Definition df : bool := is_amd && negb is_mobile && br_fx (br stash).
Definition dD : bool := is_amd && negb is_mobile && br_duron (br stash).
Definition dS : bool := is_amd && negb is_mobile && br_sempron (br stash).
Definition dp : bool := is_amd && negb is_mobile && br_phenom (br stash).
Definition dI : bool := is_amd && negb is_mobile && br_firepro (br stash).
Definition dR : bool := is_amd && negb is_mobile && br_ryzen (br stash).
Definition sO : bool := is_amd && negb is_mobile && br_opteron (br stash).
Definition sA : bool := is_amd && negb is_mobile && br_athlon_mp (br stash).
Definition sD : bool := is_amd && negb is_mobile && br_duron_mp (br stash).
Definition sE : bool := is_amd && negb is_mobile && br_epyc (br stash).
Definition MA : bool := is_amd && is_mobile && br_athlon (br stash).
Definition MX : bool := is_amd && is_mobile && br_athlon_xp (br stash).
Definition ML : bool := is_amd && is_mobile && br_athlon_lv (br stash).
Definition MD : bool := is_amd && is_mobile && br_duron (br stash).
Definition MS : bool := is_amd && is_mobile && br_sempron (br stash).
Definition Mp : bool := is_amd && is_mobile && br_phenom (br stash).
Definition Ms : bool := is_amd && is_mobile && br_series (br stash).
Definition Mr : bool := is_amd && is_mobile && br_r_series (br stash).
Definition MG : bool := is_amd && br_geode (br stash).
Definition MT : bool := is_amd && br_turion (br stash).
Definition MU : bool := is_amd && br_ultra (br stash).
Definition Mn : bool := is_amd && br_turion (br stash) && br_neo (br stash).
Definition MN : bool := is_amd && br_neo (br stash).
Definition Sa : bool := is_amd && negb is_mobile && br_a_series (br stash).
Definition Sc : bool := is_amd && negb is_mobile && br_c_series (br stash).
Definition Se : bool := is_amd && negb is_mobile && br_e_series (br stash).
Definition Sg : bool := is_amd && negb is_mobile && br_g_series (br stash).
Definition Sr : bool := is_amd && negb is_mobile && br_r_series (br stash).
Definition Sz : bool := is_amd && negb is_mobile && br_z_series (br stash).
Definition Ta : bool := is_amd && br_t_suffix (br stash) && br_a_series (br stash).
Definition Te : bool := is_amd && br_t_suffix (br stash) && br_e_series (br stash).

(** *** AMD special cases *)

(** [is_amd_egypt_athens_8xx(stash)] *)
Definition is_amd_egypt_athens_8xx : bool :=
  if vendor_eqb (vendor stash) VENDOR_AMD && br_opteron (br stash) then
    if (__FM (val_1_eax stash) =? _FM 0 15 2 1)     (* Italy/Egypt *)
       || (__FM (val_1_eax stash) =? _FM 0 15 2 5)  (* Troy/Athens *)
    then
      let with_bti (bti : Z) : bool :=
        switch bti
          [ case [0x10;
                  0x11;
                  0x12;
                  0x13;
                  0x2a;
                  0x30;
                  0x31;
                  0x39;
                  0x3c;
                  0x32;
                  0x33]
              (* It's a 2xx *)
              false;
            case [0x14;
                  0x15;
                  0x16;
                  0x17;
                  0x2b;
                  0x34;
                  0x35;
                  0x3a;
                  0x3d;
                  0x36;
                  0x37]
              (* It's an 8xx *)
              true ]
          false in
      if negb (__B (val_1_ebx stash) =? 0) then
        with_bti (Z.shiftl (BIT_EXTRACT_LE (__B (val_1_ebx stash)) 5 8) 2)
      else if negb (BIT_EXTRACT_LE (val_80000001_ebx stash) 0 12 =? 0) then
        with_bti (BIT_EXTRACT_LE (val_80000001_ebx stash) 6 12)
      else
        false
    else false
  else false.

(* Embedded Opteron, distinguished from Opteron (Barcelona & Shanghai) *)
Definition EO : bool := sO && br_embedded (br stash).
(* Opterons, distinguished by number of processors *)
Definition DO : bool := sO && (br_cores (br stash) =? 2).
Definition SO : bool := sO && (br_cores (br stash) =? 6).
(* Athlons, distinguished by number of processors *)
Definition DA : bool := dA && (br_cores (br stash) =? 2).
Definition TA : bool := dA && (br_cores (br stash) =? 3).
Definition QA : bool := dA && (br_cores (br stash) =? 4).
(* Phenoms distinguished by number of processors *)
Definition Dp : bool := dp && (br_cores (br stash) =? 2).
Definition Tp : bool := dp && (br_cores (br stash) =? 3).
Definition Qp : bool := dp && (br_cores (br stash) =? 4).
Definition Sp : bool := dp && (br_cores (br stash) =? 6).
(* Semprons, distinguished by number of processors *)
Definition DS : bool := dS && (br_cores (br stash) =? 2).
(* Egypt, distinguished from Italy; and
   Athens, distingushed from Troy *)
Definition s8 : bool := sO && is_amd_egypt_athens_8xx.
(* Thorton A2, distinguished from Barton A2 *)
Definition dt : bool := dX && L2_256K stash.
(* Manchester E6, distinguished from from Toledo E6 *)
Definition dm : bool := dA && L2_512K stash.
(* Propus, distinguished from Regor *)
Definition dr : bool := dA && L2_512K stash.
(* Trinidad, distinguished from Taylor *)
Definition Mt : bool := MT && L2_512K stash.

(** *** Cyrix major query *)
Definition cm : bool := is_cyrix && br_mediagx (br stash).

(** *** Transmeta major queries *)
Definition tm_rev (rev : Z) : bool :=
  is_transmeta && (Z.land (transmeta_proc_rev stash) 0xffff0000 =? rev).
Definition t2 : bool := tm_rev 0x01010000.
Definition t4 : bool :=
  tm_rev 0x01020000 || (tm_rev 0x01030000 && L2_4w_256K stash).
Definition t5 : bool :=
  (tm_rev 0x01040000 || tm_rev 0x01040000) && L2_4w_256K stash.
Definition t6 : bool := tm_rev 0x01030000 && L2_4w_512K stash.
Definition t8 : bool :=
  (tm_rev 0x01040000 || tm_rev 0x01040000) && L2_4w_512K stash.

End Queries.

(* ================================================================== *)
(** ** Pattern Match Decoder: the rule macros and the cascade          *)
(* ================================================================== *)

(** One [else if (...) ACT(str)] arm of a synth table: the signature bits
    it selects from [val] ([r_mask], the mask of [__F], [__FM], [__FMS],
    [__TF], [__TFM] or [__TFMS]), the value they must equal, the query it
    asks of the stash (the [Q] forms only) and the string of its [ACT]. *)
Record rule : Type := {
  r_mask : Z;
  r_key : Z;
  r_query : option (code_stash_t -> bool);
  r_act : cstring
}.

Definition F (xf f : Z) (str : cstring) : rule :=
  {| r_mask := 0x0ff00f00; r_key := _XF xf + _F f;
     r_query := None; r_act := str |}.
Definition FM (xf f xm m : Z) (str : cstring) : rule :=
  {| r_mask := 0x0fff0ff0; r_key := _XF xf + _XM xm + _F f + _M m;
     r_query := None; r_act := str |}.
Definition FMS (xf f xm m s : Z) (str : cstring) : rule :=
  {| r_mask := 0x0fff0fff; r_key := _XF xf + _XM xm + _F f + _M m + _S s;
     r_query := None; r_act := str |}.
Definition TF (t xf f : Z) (str : cstring) : rule :=
  {| r_mask := 0x0ff03f00; r_key := _T t + _XF xf + _F f;
     r_query := None; r_act := str |}.
Definition TFM (t xf f xm m : Z) (str : cstring) : rule :=
  {| r_mask := 0x0fff3ff0; r_key := _T t + _XF xf + _XM xm + _F f + _M m;
     r_query := None; r_act := str |}.
Definition TFMS (t xf f xm m s : Z) (str : cstring) : rule :=
  {| r_mask := 0x0fff3fff;
     r_key := _T t + _XF xf + _XM xm + _F f + _M m + _S s;
     r_query := None; r_act := str |}.
Definition FQ (xf f : Z) (q : code_stash_t -> bool) (str : cstring) : rule :=
  {| r_mask := 0x0ff00f00; r_key := _XF xf + _F f;
     r_query := Some q; r_act := str |}.
Definition FMQ (xf f xm m : Z) (q : code_stash_t -> bool) (str : cstring)
  : rule :=
  {| r_mask := 0x0fff0ff0; r_key := _XF xf + _XM xm + _F f + _M m;
     r_query := Some q; r_act := str |}.
Definition FMSQ (xf f xm m s : Z) (q : code_stash_t -> bool) (str : cstring)
  : rule :=
  {| r_mask := 0x0fff0fff; r_key := _XF xf + _XM xm + _F f + _M m + _S s;
     r_query := Some q; r_act := str |}.
Definition DEFAULT (str : cstring) : cstring := str.

(** The condition of the arm.  The [Q] forms test [(stash) && (q)]: a
    NULL stash fails the rule before the query is evaluated. *)
Definition key_matches (val : Z) (r : rule) : bool :=
  Z.land val (r_mask r) =? r_key r.

Definition query_holds (stash : option code_stash_t) (r : rule) : bool :=
  match r_query r with
  | None => true
  | Some q => match stash with
              | Some s => q s
              | None => false
              end
  end.

Definition rule_fires (val : Z) (stash : option code_stash_t) (r : rule)
  : bool :=
  key_matches val r && query_holds stash r.

(** [START; rule; ...; rule;]: the [if (0) else if ... else if ...] chain
    runs the action of the first arm whose condition holds and no other. *)
Fixpoint cascade (rules : list rule) (val : Z) (stash : option code_stash_t)
  : option cstring :=
  match rules with
  | [] => None
  | r :: rest =>
      if rule_fires val stash r then Some (r_act r)
      else cascade rest val stash
  end.

(** The chain closed by [DEFAULT(str)], the final [else]. *)
Definition first_match (rules : list rule) (default : cstring)
           (val : Z) (stash : option code_stash_t) : cstring :=
  match cascade rules val stash with
  | Some str => str
  | None => default
  end.

(** The rules of [decode_synth_intel], in the authored order (cpuid.c:2430). *)
Definition decode_synth_intel_rules : list rule :=
  [ FM    0  4  0  0 "Intel i80486DX-25/33";
    FM    0  4  0  1 "Intel i80486DX-50";
    FM    0  4  0  2 "Intel i80486SX";
    FM    0  4  0  3 "Intel i80486DX/2";
    FM    0  4  0  4 "Intel i80486SL, .8um";
    FM    0  4  0  5 "Intel i80486SX/2, .8um";
    FM    0  4  0  7 "Intel i80486DX/2-WB, .8um";
    FM    0  4  0  8 "Intel i80486DX/4, .6um";
    FM    0  4  0  9 "Intel i80486DX/4-WB, .6um";
    F     0  4 "Intel i80486 (unknown model)";
    FM    0  5  0  0 "Intel Pentium 60/66 A-step";
    TFM   1  0  5  0  1 "Intel Pentium 60/66 OverDrive for P5";
    FMS   0  5  0  1  3 "Intel Pentium 60/66 (B1)";
    FMS   0  5  0  1  5 "Intel Pentium 60/66 (C1)";
    FMS   0  5  0  1  7 "Intel Pentium 60/66 (D1)";
    FM    0  5  0  1 "Intel Pentium 60/66";
    TFM   1  0  5  0  2 "Intel Pentium 75 - 200 OverDrive for P54C";
    FMS   0  5  0  2  1 "Intel Pentium P54C 75 - 200 (B1)";
    FMS   0  5  0  2  2 "Intel Pentium P54C 75 - 200 (B3)";
    FMS   0  5  0  2  4 "Intel Pentium P54C 75 - 200 (B5)";
    FMS   0  5  0  2  5 "Intel Pentium P54C 75 - 200 (C2/mA1)";
    FMS   0  5  0  2  6 "Intel Pentium P54C 75 - 200 (E0)";
    FMS   0  5  0  2 11 "Intel Pentium P54C 75 - 200 (cB1)";
    FMS   0  5  0  2 12 "Intel Pentium P54C 75 - 200 (cC0)";
    FM    0  5  0  2 "Intel Pentium P54C 75 - 200";
    TFM   1  0  5  0  3 "Intel Pentium OverDrive for i486 (P24T)";
    TFM   1  0  5  0  4 "Intel Pentium OverDrive for P54C";
    FMS   0  5  0  4  3 "Intel Pentium MMX P55C (B1)";
    FMS   0  5  0  4  4 "Intel Pentium MMX P55C (A3)";
    FM    0  5  0  4 "Intel Pentium MMX P55C";
    FMS   0  5  0  7  0 "Intel Pentium MMX P54C 75 - 200 (A4)";
    FM    0  5  0  7 "Intel Pentium MMX P54C 75 - 200";
    FMS   0  5  0  8  1 "Intel Pentium MMX P55C (Tillamook A0)";
    FMS   0  5  0  8  2 "Intel Pentium MMX P55C (Tillamook B2)";
    FM    0  5  0  8 "Intel Pentium MMX P55C (Tillamook)";
    FM    0  5  0  9 "Intel Quark X1000 / D1000 / D2000 / C1000 (Lakemont)";
    F     0  5 "Intel Pentium (unknown model)";
    FM    0  6  0  0 "Intel Pentium Pro A-step";
    FMS   0  6  0  1  1 "Intel Pentium Pro (B0)";
    FMS   0  6  0  1  2 "Intel Pentium Pro (C0)";
    FMS   0  6  0  1  6 "Intel Pentium Pro (sA0)";
    FMS   0  6  0  1  7 "Intel Pentium Pro (sA1), .35um";
    FMS   0  6  0  1  9 "Intel Pentium Pro (sB1), .35um";
    FM    0  6  0  1 "Intel Pentium Pro";
    TFM   1  0  6  0  3 "Intel Pentium II OverDrive";
    FMS   0  6  0  3  3 "Intel Pentium II (Klamath C0)";
    FMS   0  6  0  3  4 "Intel Pentium II (Klamath C1)";
    FM    0  6  0  3 "Intel Pentium II (Klamath)";
    FM    0  6  0  4 "Intel Pentium P55CT OverDrive (Deschutes)";
    FMSQ  0  6  0  5  0 xD "Intel Pentium II Xeon (Deschutes A0)";
    FMSQ  0  6  0  5  0 mD "Intel Mobile Pentium II (Deschutes A0)";
    FMSQ  0  6  0  5  0 cD "Intel Celeron (Deschutes A0)";
    FMS   0  6  0  5  0 "Intel Pentium II (unknown type) (Deschutes A0)";
    FMSQ  0  6  0  5  1 xD "Intel Pentium II Xeon (Deschutes A1)";
    FMSQ  0  6  0  5  1 cD "Intel Celeron (Deschutes A1)";
    FMS   0  6  0  5  1 "Intel Pentium II (unknown type) (Deschutes A1)";
    FMSQ  0  6  0  5  2 xD "Intel Pentium II Xeon (Deschutes B0)";
    FMSQ  0  6  0  5  2 mD "Intel Mobile Pentium II (Deschutes B0)";
    FMSQ  0  6  0  5  2 cD "Intel Celeron (Deschutes B0)";
    FMS   0  6  0  5  2 "Intel Pentium II (unknown type) (Deschutes B0)";
    FMSQ  0  6  0  5  3 xD "Intel Pentium II Xeon (Deschutes B1)";
    FMSQ  0  6  0  5  3 cD "Intel Celeron (Deschutes B1)";
    FMS   0  6  0  5  3 "Intel Pentium II (unknown type) (Deschutes B1)";
    FMQ   0  6  0  5 xD "Intel Pentium II Xeon (Deschutes)";
    FMQ   0  6  0  5 mD "Intel Mobile Pentium II (Deschutes)";
    FMQ   0  6  0  5 cD "Intel Celeron (Deschutes)";
    FM    0  6  0  5 "Intel Pentium II (unknown type) (Deschutes)";
    FMSQ  0  6  0  6  0 dP "Intel Pentium II (Mendocino A0)";
    FMSQ  0  6  0  6  0 dC "Intel Celeron (Mendocino A0)";
    FMS   0  6  0  6  0 "Intel Pentium II (unknown type) (Mendocino A0)";
    FMSQ  0  6  0  6  5 dC "Intel Celeron (Mendocino B0)";
    FMSQ  0  6  0  6  5 dP "Intel Pentium II (Mendocino B0)";
    FMS   0  6  0  6  5 "Intel Pentium II (unknown type) (Mendocino B0)";
    FMS   0  6  0  6 10 "Intel Mobile Pentium II (Mendocino A0)";
    FM    0  6  0  6 "Intel Pentium II (Mendocino)";
    FMSQ  0  6  0  7  2 pK "Intel Pentium III (Katmai B0)";
    FMSQ  0  6  0  7  2 xK "Intel Pentium III Xeon (Katmai B0)";
    FMS   0  6  0  7  2 "Intel Pentium III (unknown type) (Katmai B0)";
    FMSQ  0  6  0  7  3 pK "Intel Pentium III (Katmai C0)";
    FMSQ  0  6  0  7  3 xK "Intel Pentium III Xeon (Katmai C0)";
    FMS   0  6  0  7  3 "Intel Pentium III (unknown type) (Katmai C0)";
    FMQ   0  6  0  7 pK "Intel Pentium III (Katmai)";
    FMQ   0  6  0  7 xK "Intel Pentium III Xeon (Katmai)";
    FM    0  6  0  7 "Intel Pentium III (unknown type) (Katmai)";
    FMSQ  0  6  0  8  1 sX "Intel Pentium III Xeon (Coppermine A2)";
    FMSQ  0  6  0  8  1 MC "Intel Mobile Celeron (Coppermine A2)";
    FMSQ  0  6  0  8  1 dC "Intel Celeron (Coppermine A2)";
    FMSQ  0  6  0  8  1 MP "Intel Mobile Pentium III (Coppermine A2)";
    FMSQ  0  6  0  8  1 dP "Intel Pentium III (Coppermine A2)";
    FMS   0  6  0  8  1 "Intel Pentium III (unknown type) (Coppermine A2)";
    FMSQ  0  6  0  8  3 sX "Intel Pentium III Xeon (Coppermine B0)";
    FMSQ  0  6  0  8  3 MC "Intel Mobile Celeron (Coppermine B0)";
    FMSQ  0  6  0  8  3 dC "Intel Celeron (Coppermine B0)";
    FMSQ  0  6  0  8  3 MP "Intel Mobile Pentium III (Coppermine B0)";
    FMSQ  0  6  0  8  3 dP "Intel Pentium III (Coppermine B0)";
    FMS   0  6  0  8  3 "Intel Pentium III (unknown type) (Coppermine B0)";
    FMSQ  0  6  0  8  6 sX "Intel Pentium III Xeon (Coppermine C0)";
    FMSQ  0  6  0  8  6 MC "Intel Mobile Celeron (Coppermine C0)";
    FMSQ  0  6  0  8  6 dC "Intel Celeron (Coppermine C0)";
    FMSQ  0  6  0  8  6 MP "Intel Mobile Pentium III (Coppermine C0)";
    FMSQ  0  6  0  8  6 dP "Intel Pentium III (Coppermine C0)";
    FMS   0  6  0  8  6 "Intel Pentium III (unknown type) (Coppermine C0)";
    FMSQ  0  6  0  8 10 sX "Intel Pentium III Xeon (Coppermine D0)";
    FMSQ  0  6  0  8 10 MC "Intel Mobile Celeron (Coppermine D0)";
    FMSQ  0  6  0  8 10 dC "Intel Celeron (Coppermine D0)";
    FMSQ  0  6  0  8 10 MP "Intel Mobile Pentium III (Coppermine D0)";
    FMSQ  0  6  0  8 10 dP "Intel Pentium III (Coppermine D0)";
    FMS   0  6  0  8 10 "Intel Pentium III (unknown type) (Coppermine D0)";
    FMQ   0  6  0  8 sX "Intel Pentium III Xeon (Coppermine)";
    FMQ   0  6  0  8 MC "Intel Mobile Celeron (Coppermine)";
    FMQ   0  6  0  8 dC "Intel Celeron (Coppermine)";
    FMQ   0  6  0  8 MP "Intel Mobile Pentium III (Coppermine)";
    FMQ   0  6  0  8 dP "Intel Pentium III (Coppermine)";
    FM    0  6  0  8 "Intel Pentium III (unknown type) (Coppermine)";
    FMSQ  0  6  0  9  5 dC "Intel Celeron M (Banias B1)";
    FMSQ  0  6  0  9  5 dP "Intel Pentium M (Banias B1)";
    FMS   0  6  0  9  5 "Intel Pentium M (unknown type) (Banias B1)";
    FMQ   0  6  0  9 dC "Intel Celeron M (Banias)";
    FMQ   0  6  0  9 dP "Intel Pentium M (Banias)";
    FM    0  6  0  9 "Intel Pentium M (unknown type) (Banias)";
    FMS   0  6  0 10  0 "Intel Pentium III Xeon (Cascades A0)";
    FMS   0  6  0 10  1 "Intel Pentium III Xeon (Cascades A1)";
    FMS   0  6  0 10  4 "Intel Pentium III Xeon (Cascades B0)";
    FM    0  6  0 10 "Intel Pentium III Xeon (Cascades)";
    FMSQ  0  6  0 11  1 dC "Intel Celeron (Tualatin A1)";
    FMSQ  0  6  0 11  1 MC "Intel Mobile Celeron (Tualatin A1)";
    FMSQ  0  6  0 11  1 dP "Intel Pentium III (Tualatin A1)";
    FMS   0  6  0 11  1 "Intel Pentium III (unknown type) (Tualatin A1)";
    FMSQ  0  6  0 11  4 dC "Intel Celeron (Tualatin B1)";
    FMSQ  0  6  0 11  4 MC "Intel Mobile Celeron (Tualatin B1)";
    FMSQ  0  6  0 11  4 dP "Intel Pentium III (Tualatin B1)";
    FMS   0  6  0 11  4 "Intel Pentium III (unknown type) (Tualatin B1)";
    FMQ   0  6  0 11 dC "Intel Celeron (Tualatin)";
    FMQ   0  6  0 11 MC "Intel Mobile Celeron (Tualatin)";
    FMQ   0  6  0 11 dP "Intel Pentium III (Tualatin)";
    FM    0  6  0 11 "Intel Pentium III (unknown type) (Tualatin)";
    FMSQ  0  6  0 13  6 dC "Intel Celeron M (Dothan B1), 90nm";
    FMSQ  0  6  0 13  6 dP "Intel Pentium M (Dothan B1), 90nm";
    FMS   0  6  0 13  6 "Intel Pentium M (unknown type) (Dothan B1), 90nm";
    FMSQ  0  6  0 13  8 dC "Intel Celeron M (Dothan C0), 90nm/65nm";
    FMSQ  0  6  0 13  8 MP "Intel Processor A100/A110 (Stealey C0) / Pentium M (Crofton C0), 90nm";
    FMSQ  0  6  0 13  8 dP "Intel Pentium M (Dothan C0), 90nm";
    FMS   0  6  0 13  8 "Intel Pentium M (unknown type) (Dothan/Stealey/Crofton C0), 90nm/65nm";
    FMQ   0  6  0 13 dC "Intel Celeron M (Dothan)";
    FMQ   0  6  0 13 MP "Intel Processor A100/A110 (Stealey)";
    FMQ   0  6  0 13 dP "Intel Pentium M (Dothan)";
    FM    0  6  0 13 "Intel Pentium M (unknown type) (Dothan/Crofton)";
    FMSQ  0  6  0 14  8 sX "Intel Xeon Processor LV (Sossaman C0)";
    FMSQ  0  6  0 14  8 dC "Intel Celeron (Yonah C0)";
    FMSQ  0  6  0 14  8 Dc "Intel Core Duo (Yonah C0)";
    FMSQ  0  6  0 14  8 dc "Intel Core Solo (Yonah C0)";
    FMS   0  6  0 14  8 "Intel Core (unknown type) (Yonah/Sossaman C0)";
    FMSQ  0  6  0 14 12 sX "Intel Xeon Processor LV (Sossaman D0)";
    FMSQ  0  6  0 14 12 dC "Intel Celeron M (Yonah D0)";
    FMSQ  0  6  0 14 12 MP "Intel Pentium Dual-Core Mobile T2000 (Yonah D0)";
    FMSQ  0  6  0 14 12 Dc "Intel Core Duo (Yonah D0)";
    FMSQ  0  6  0 14 12 dc "Intel Core Solo (Yonah D0)";
    FMS   0  6  0 14 12 "Intel Core (unknown type) (Yonah/Sossaman D0)";
    FMS   0  6  0 14 13 "Intel Pentium Dual-Core Mobile T2000 (Yonah M0)";
    FMQ   0  6  0 14 sX "Intel Xeon Processor LV (Sossaman)";
    FMQ   0  6  0 14 dC "Intel Celeron (Yonah)";
    FMQ   0  6  0 14 MP "Intel Pentium Dual-Core Mobile (Yonah)";
    FMQ   0  6  0 14 Dc "Intel Core Duo (Yonah)";
    FMQ   0  6  0 14 dc "Intel Core Solo (Yonah)";
    FM    0  6  0 14 "Intel Core (unknown type) (Yonah/Sossaman)";
    FMSQ  0  6  0 15  2 sX "Intel Dual-Core Xeon Processor 3000 (Conroe L2)";
    FMSQ  0  6  0 15  2 Mc "Intel Core Duo Mobile (Merom L2)";
    FMSQ  0  6  0 15  2 dc "Intel Core Duo (Conroe L2)";
    FMSQ  0  6  0 15  2 dP "Intel Pentium Dual-Core Desktop Processor E2000 (Allendale L2)";
    FMS   0  6  0 15  2 "Intel Core (unknown type) (Conroe/Merom/Allendale L2)";
    FMS   0  6  0 15  4 "Intel Core 2 Duo (Conroe B0) / Xeon Processor 5100 (Woodcrest B0) (pre-production)";
    FMSQ  0  6  0 15  5 QW "Intel Dual-Core Xeon Processor 5100 (Woodcrest B1) (pre-production)";
    FMSQ  0  6  0 15  5 XE "Intel Core 2 Extreme Processor (Conroe B1)";
    FMSQ  0  6  0 15  5 da "Intel Core 2 Duo (Allendale B1)";
    FMSQ  0  6  0 15  5 dc "Intel Core 2 Duo (Conroe B1)";
    FMS   0  6  0 15  5 "Intel Core 2 (unknown type) (Conroe/Allendale B1)";
    FMSQ  0  6  0 15  6 Xc "Intel Core 2 Extreme Processor (Conroe B2)";
    FMSQ  0  6  0 15  6 Mc "Intel Core 2 Duo Mobile (Merom B2)";
    FMSQ  0  6  0 15  6 da "Intel Core 2 Duo (Allendale B2)";
    FMSQ  0  6  0 15  6 dc "Intel Core 2 Duo (Conroe B2)";
    FMSQ  0  6  0 15  6 dC "Intel Celeron M (Conroe B2)";
    FMSQ  0  6  0 15  6 sX "Intel Dual-Core Xeon Processor 3000 (Conroe B2) / Dual-Core Xeon Processor 5100 (Woodcrest B2)";
    FMS   0  6  0 15  6 "Intel Core 2 (unknown type) (Conroe/Allendale/Woodcrest B2)";
    FMSQ  0  6  0 15  7 sX "Intel Quad-Core Xeon Processor 3200 (Kentsfield B3) / Quad-Core Xeon Processor 5300 (Clovertown B3)";
    FMSQ  0  6  0 15  7 Xc "Intel Core 2 Extreme Quad-Core Processor QX6xx0 (Kentsfield B3)";
    FMS   0  6  0 15  7 "Intel Core 2 (unknown type) (Kentsfield/Clovertown B3)";
    FMSQ  0  6  0 15 10 Mc "Intel Core 2 Duo Mobile (Merom E1)";
    FMSQ  0  6  0 15 10 dC "Intel Celeron Processor 500 (Merom E1)";
    FMS   0  6  0 15 10 "Intel Core 2 (unknown type) (Merom E1)";
    FMSQ  0  6  0 15 11 sQ "Intel Quad-Core Xeon Processor 5300 (Clovertown G0)";
    FMSQ  0  6  0 15 11 sX "Intel Xeon Processor 3000 (Conroe G0) / Xeon Processor 3200 (Kentsfield G0) / Xeon Processor 7200/7300 (Tigerton G0)";
    FMSQ  0  6  0 15 11 Xc "Intel Core 2 Extreme Quad-Core Processor QX6xx0 (Kentsfield G0)";
    FMSQ  0  6  0 15 11 Mc "Intel Core 2 Duo Mobile (Merom G2)";
    FMSQ  0  6  0 15 11 Qc "Intel Core 2 Quad (Conroe G0)";
    FMSQ  0  6  0 15 11 dc "Intel Core 2 Duo (Conroe G0)";
    FMS   0  6  0 15 11 "Intel Core 2 (unknown type) (Merom/Conroe/Kentsfield/Clovertown/Tigerton G0)";
    FMSQ  0  6  0 15 13 Mc "Intel Core 2 Duo Mobile (Merom M1) / Celeron Processor 500 (Merom E1)";
    FMSQ  0  6  0 15 13 Qc "Intel Core 2 Quad (Conroe M0)";
    FMSQ  0  6  0 15 13 dc "Intel Core 2 Duo (Conroe M0)";
    FMSQ  0  6  0 15 13 dP "Intel Pentium Dual-Core Desktop Processor E2000 (Allendale M0)";
    FMSQ  0  6  0 15 13 dC "Intel Celeron Dual-Core E1000 (Allendale M0) / Celeron Dual-Core T1000 (Merom M0)";
    FMS   0  6  0 15 13 "Intel Core 2 (unknown type) (Merom/Conroe/Allendale M0 / Merom E1)";
    FMQ   0  6  0 15 sQ "Intel Quad-Core Xeon (Woodcrest)";
    FMQ   0  6  0 15 sX "Intel Dual-Core Xeon (Conroe / Woodcrest) / Quad-Core Xeon (Kentsfield / Clovertown) / Xeon (Tigerton G0)";
    FMQ   0  6  0 15 Xc "Intel Core 2 Extreme Processor (Conroe) / Core 2 Extreme Quad-Core (Kentsfield)";
    FMQ   0  6  0 15 Mc "Intel Core Duo Mobile / Core 2 Duo Mobile (Merom) / Celeron (Merom)";
    FMQ   0  6  0 15 Qc "Intel Core 2 Quad (Conroe)";
    FMQ   0  6  0 15 dc "Intel Core Duo / Core 2 Duo (Conroe)";
    FMQ   0  6  0 15 dP "Intel Pentium Dual-Core (Allendale)";
    FMQ   0  6  0 15 dC "Intel Celeron M (Conroe) / Celeron (Merom) / Celeron Dual-Core (Allendale)";
    FM    0  6  0 15 "Intel Core 2 (unknown type) (Merom/Conroe/Allendale/Kentsfield/Allendale/Clovertown/Woodcrest/Tigerton)";
    FMS   0  6  1  5  0 "Intel EP80579 (Tolapai B0)";
    FMSQ  0  6  1  6  1 MC "Intel Celeron Processor 200/400/500 (Conroe-L/Merom-L A1)";
    FMSQ  0  6  1  6  1 dC "Intel Celeron M (Merom-L A1)";
    FMSQ  0  6  1  6  1 Mc "Intel Core 2 Duo Mobile (Merom A1)";
    FMS   0  6  1  6  1 "Intel Core 2 (unknown type) (Merom/Conroe A1)";
    FMQ   0  6  1  6 MC "Intel Celeron Processor 200/400/500 (Conroe-L/Merom-L)";
    FMQ   0  6  1  6 dC "Intel Celeron M (Merom-L)";
    FMQ   0  6  1  6 Mc "Intel Core 2 Duo Mobile (Merom)";
    FM    0  6  1  6 "Intel Core 2 (unknown type) (Merom/Conroe)";
    FMSQ  0  6  1  7  6 sQ "Intel Xeon Processor 3300 (Yorkfield C0) / Xeon Processor 5200 (Wolfdale C0) / Xeon Processor 5400 (Harpertown C0)";
    FMSQ  0  6  1  7  6 sX "Intel Xeon Processor 3100 (Wolfdale C0) / Xeon Processor 5200 (Wolfdale C0) / Xeon Processor 5400 (Harpertown C0)";
    FMSQ  0  6  1  7  6 Xc "Intel Core 2 Extreme QX9000 (Yorkfield C0)";
    FMSQ  0  6  1  7  6 Me "Intel Mobile Core 2 Duo (Penryn C0)";
    FMSQ  0  6  1  7  6 Mc "Intel Mobile Core 2 Duo (Penryn M0)";
    FMSQ  0  6  1  7  6 de "Intel Core 2 Duo (Wolfdale C0)";
    FMSQ  0  6  1  7  6 dc "Intel Core 2 Duo (Wolfdale M0)";
    FMSQ  0  6  1  7  6 dP "Intel Pentium Dual-Core Processor E5000 (Wolfdale M0)";
    FMS   0  6  1  7  6 "Intel Core 2 (unknown type) (Penryn/Wolfdale/Yorkfield/Harpertown C0/M0)";
    FMSQ  0  6  1  7  7 sQ "Intel Xeon Processor 3300 (Yorkfield C1)";
    FMSQ  0  6  1  7  7 Xc "Intel Core 2 Extreme QX9000 (Yorkfield C1)";
    FMSQ  0  6  1  7  7 Qe "Intel Core 2 Quad-Core Q9000 (Yorkfield C1)";
    FMSQ  0  6  1  7  7 Qc "Intel Core 2 Quad-Core Q9000 (Yorkfield M1)";
    FMS   0  6  1  7  7 "Intel Core 2 (unknown type) (Penryn/Wolfdale/Yorkfield/Harpertown C1/M1)";
    FMSQ  0  6  1  7 10 Me "Intel Mobile Core 2 (Penryn E0)";
    FMSQ  0  6  1  7 10 Mc "Intel Mobile Core 2 (Penryn R0)";
    FMSQ  0  6  1  7 10 Qe "Intel Core 2 Quad-Core Q9000 (Yorkfield E0)";
    FMSQ  0  6  1  7 10 Qc "Intel Core 2 Quad-Core Q9000 (Yorkfield R0)";
    FMSQ  0  6  1  7 10 de "Intel Core 2 Duo (Wolfdale E0)";
    FMSQ  0  6  1  7 10 dc "Intel Core 2 Duo (Wolfdale R0)";
    FMSQ  0  6  1  7 10 dP "Intel Pentium Dual-Core Processor E5000/E6000 (Wolfdale R0)";
    FMSQ  0  6  1  7 10 dC "Intel Celeron E3000 (Wolfdale R0)";
    FMSQ  0  6  1  7 10 se "Intel Xeon Processor 3300 (Yorkfield E0)";
    FMSQ  0  6  1  7 10 sQ "Intel Xeon Processor 3300 (Yorkfield R0)";
    FMSQ  0  6  1  7 10 sX "Intel Xeon Processor 3100 (Wolfdale E0) / Xeon Processor 3300 (Yorkfield R0) / Xeon Processor 5200 (Wolfdale E0) / Xeon Processor 5400 (Harpertown E0)";
    FMS   0  6  1  7 10 "Intel Core 2 (unknown type) (Penryn/Wolfdale/Yorkfield/Harpertown E0/R0)";
    FMQ   0  6  1  7 se "Intel Xeon (Wolfdale / Yorkfield / Harpertown)";
    FMQ   0  6  1  7 sQ "Intel Xeon (Wolfdale / Yorkfield / Harpertown)";
    FMQ   0  6  1  7 sX "Intel Xeon (Wolfdale / Yorkfield / Harpertown)";
    FMQ   0  6  1  7 Mc "Intel Mobile Core 2 (Penryn)";
    FMQ   0  6  1  7 Xc "Intel Core 2 Extreme (Yorkfield)";
    FMQ   0  6  1  7 Qc "Intel Core 2 Quad-Core (Yorkfield)";
    FMQ   0  6  1  7 dc "Intel Core 2 Duo (Wolfdale)";
    FMQ   0  6  1  7 dC "Intel Celeron (Wolfdale)";
    FMQ   0  6  1  7 dP "Intel Pentium Dual-Core (Wolfdale)";
    FM    0  6  1  7 "Intel Core 2 (unknown type) (Penryn/Wolfdale/Yorkfield/Harpertown)";
    FMS   0  6  1 10  4 "Intel Core i7-900 (Bloomfield C0)";
    FMSQ  0  6  1 10  5 dc "Intel Core i7-900 (Bloomfield D0)";
    FMSQ  0  6  1 10  5 sX "Intel Xeon Processor 3500 (Bloomfield D0) / Xeon Processor 5500 (Gainestown D0)";
    FMS   0  6  1 10  5 "Intel Core (unknown type) (Bloomfield/Gainestown D0)";
    FMQ   0  6  1 10 dc "Intel Core (Bloomfield)";
    FMQ   0  6  1 10 sX "Intel Xeon (Bloomfield / Gainestown)";
    FM    0  6  1 10 "Intel Core (unknown type) (Bloomfield / Gainestown)";
    FMS   0  6  1 12  1 "Intel Atom N270 (Diamondville B0)";
    FMS   0  6  1 12  2 "Intel Atom 200/N200/300 (Diamondville C0) / Atom Z500 (Silverthorne C0)";
    FMS   0  6  1 12 10 "Intel Atom D400/N400 (Pineview A0) / Atom D500/N500 (Pineview B0)";
    FM    0  6  1 12 "Intel Atom (Diamondville / Silverthorne / Pineview)";
    FMS   0  6  1 13  1 "Intel Xeon Processor 7400 (Dunnington A1)";
    FM    0  6  1 13 "Intel Xeon (unknown type) (Dunnington)";
    FMSQ  0  6  1 14  4 sX "Intel Xeon Processor C3500/C5500 (Jasper Forest B0)";
    FMSQ  0  6  1 14  4 dC "Intel Celeron P1053 (Jasper Forest B0)";
    FMS   0  6  1 14  4 "Intel Xeon (unknown type) (Jasper Forest B0)";
    FMSQ  0  6  1 14  5 sX "Intel Xeon Processor 3400 (Lynnfield B1)";
    FMSQ  0  6  1 14  5 Mc "Intel Core i7-700/800/900 Mobile (Clarksfield B1)";
    FMSQ  0  6  1 14  5 dc "Intel Core i5-700 / i7-800 (Lynnfield B1)";
    FMS   0  6  1 14  5 "Intel Core (unknown type) (Lynnfield/Clarksfield B1)";
    FMQ   0  6  1 14 sX "Intel Xeon (Lynnfield) / Xeon (Jasper Forest)";
    FMQ   0  6  1 14 dC "Intel Celeron (Jasper Forest)";
    FMQ   0  6  1 14 Mc "Intel Core Mobile (Clarksfield)";
    FMQ   0  6  1 14 dc "Intel Core (Lynnfield)";
    FM    0  6  1 14 "Intel Core (unknown type) (Lynnfield/Clarksfield)";
    FM    0  6  1 15 "Intel (unknown model) (Havendale/Auburndale)";
    FMSQ  0  6  2  5  2 sX "Intel Xeon Processor L3406 (Clarkdale C2)";
    FMSQ  0  6  2  5  2 MC "Intel Celeron Mobile P4500 (Arrandale C2)";
    FMSQ  0  6  2  5  2 MP "Intel Pentium P6000 Mobile (Arrandale C2)";
    FMSQ  0  6  2  5  2 dP "Intel Pentium G6900 / P4505 (Clarkdale C2)";
    FMSQ  0  6  2  5  2 Mc "Intel Core i3-300 Mobile / Core i5-400 Mobile / Core i5-500 Mobile / Core i7-600 Mobile (Arrandale C2)";
    FMSQ  0  6  2  5  2 dc "Intel Core i3-300 / i3-500 / i5-500 / i5-600 / i7-600 (Clarkdale C2)";
    FMS   0  6  2  5  2 "Intel Core (unknown type) (Clarkdale/Arrandale C2)";
    FMSQ  0  6  2  5  5 MC "Intel Celeron Mobile U3400 (Arrandale K0) / Celeron Mobile P4600 (Arrandale K0)";
    FMSQ  0  6  2  5  5 MP "Intel Pentium U5000 Mobile (Arrandale K0)";
    FMSQ  0  6  2  5  5 dP "Intel Pentium P4505 / U3405 (Clarkdale K0)";
    FMSQ  0  6  2  5  5 dc "Intel Core i3-300 / i3-500 / i5-400 / i5-500 / i5-600 / i7-600 (Clarkdale K0)";
    FMS   0  6  2  5  5 "Intel Core (unknown type) (Clarkdale/Arrandale K0)";
    FMQ   0  6  2  5 sX "Intel Xeon Processor L3406 (Clarkdale)";
    FMQ   0  6  2  5 MC "Intel Celeron Mobile (Arrandale)";
    FMQ   0  6  2  5 MP "Intel Pentium Mobile (Arrandale)";
    FMQ   0  6  2  5 dP "Intel Pentium (Clarkdale)";
    FMQ   0  6  2  5 Mc "Intel Core Mobile (Arrandale)";
    FMQ   0  6  2  5 dc "Intel Core (Clarkdale)";
    FM    0  6  2  5 "Intel Core (unknown type) (Clarkdale/Arrandale)";
    FMS   0  6  2  6  1 "Intel Atom Z600 (Lincroft C0) / Atom E600 (Tunnel Creek B0/B1)";
    FM    0  6  2  6 "Intel Atom Z600 (Lincroft) / Atom E600 (Tunnel Creek B0/B1)";
    FM    0  6  2  7 "Intel Atom Z2000 (Medfield)";
    FMSQ  0  6  2 10  7 Xc "Intel Mobile Core i7 Extreme (Sandy Bridge D2/J1/Q0)";
    FMSQ  0  6  2 10  7 Mc "Intel Mobile Core i*-2000 (Sandy Bridge D2/J1/Q0)";
    FMSQ  0  6  2 10  7 dc "Intel Core i*-2000 (Sandy Bridge D2/J1/Q0)";
    FMSQ  0  6  2 10  7 MC "Intel Celeron G400/G500/700/800/B800 (Sandy Bridge J1/Q0)";
    FMSQ  0  6  2 10  7 sX "Intel Xeon E3-1100 / E3-1200 v1 (Sandy Bridge D2/J1/Q0)";
    FMSQ  0  6  2 10  7 dP "Intel Pentium G500/G600/G800 / Pentium B915C (Sandy Bridge Q0)";
    FMS   0  6  2 10  7 "Intel Core (unknown type) (Sandy Bridge D2/J1/Q0)";
    FMQ   0  6  2 10 Xc "Intel Mobile Core i7 Extreme (Sandy Bridge)";
    FMQ   0  6  2 10 Mc "Intel Mobile Core i*-2000 (Sandy Bridge)";
    FMQ   0  6  2 10 dc "Intel Core i5-2000 / Core i7-2000 (Sandy Bridge)";
    FMQ   0  6  2 10 MC "Intel Celeron G400/G500/700/800/B800 (Sandy Bridge)";
    FMQ   0  6  2 10 sX "Intel Xeon E3-1100 / E3-1200 v1 (Sandy Bridge)";
    FMQ   0  6  2 10 dP "Intel Pentium G500/G600/G800 / Pentium B915C (Sandy Bridge)";
    FM    0  6  2 10 "Intel Core (unknown type) (Sandy Bridge)";
    FMSQ  0  6  2 12  2 dc "Intel Core i7-900 / Core i7-980X (Gulftown B1)";
    FMSQ  0  6  2 12  2 sX "Intel Xeon Processor 3600 (Westmere-EP B1) / Xeon Processor 5600 (Westmere-EP B1)";
    FMS   0  6  2 12  2 "Intel Core (unknown type) (Gulftown/Westmere-EP B1)";
    FM    0  6  2 12 "Intel Core (unknown type) (Gulftown) / Xeon (Westmere-EP)";
    FMSQ  0  6  2 13  6 sX "Intel Xeon E5-1600/2600 (Sandy Bridge-E C1)";
    FMSQ  0  6  2 13  6 dP "Intel Core i7-3800/3900 (Sandy Bridge-E C1)";
    FMS   0  6  2 13  6 "Intel Core (unknown type) (Sandy Bridge-E C1)";
    FMSQ  0  6  2 13  7 sX "Intel Xeon E5-1600/2600/4600 (Sandy Bridge-E C2/M1)";
    FMSQ  0  6  2 13  7 dP "Intel Core i7-3800/3900 (Sandy Bridge-E C2)";
    FMS   0  6  2 13  7 "Intel Core (unknown type) (Sandy Bridge-E C2/M1)";
    FMQ   0  6  2 13 sX "Intel Xeon E5-1600/2600 (Sandy Bridge-E)";
    FMQ   0  6  2 13 dP "Intel Core i7-3800/3900 (Sandy Bridge-E)";
    FM    0  6  2 13 "Intel Core (unknown type) (Sandy Bridge-E)";
    FMS   0  6  2 14  6 "Intel Xeon Processor 7500 (Beckton D0)";
    FM    0  6  2 14 "Intel Xeon Processor 7500 (Beckton)";
    FMS   0  6  2 15  2 "Intel Xeon E7-8800 / Xeon E7-4800 / Xeon E7-2800 (Westmere-EX A2)";
    FM    0  6  2 15 "Intel Xeon (unknown type) (Westmere-EX)";
    FMS   0  6  3  5  1 "Intel Atom Z2760 (Clover Trail C0) / Z8000 (Cherry Trail C0)";
    FM    0  6  3  5 "Intel Atom Z2760 (Clover Trail) / Z8000 (Cherry Trail)";
    FMS   0  6  3  6  1 "Intel Atom D2000/N2000 (Cedar Trail B1/B2/B3) / S1200 (Centerton B1)";
    FM    0  6  3  6 "Intel Atom D2000/N2000 (Cedar Trail) / S1200 (Centerton B1)";
    FMS   0  6  3  7  1 "Intel Atom Z3000 (Bay Trail-T A0)";
    FMS   0  6  3  7  2 "Intel Pentium / Celeron (Bay Trail-M B0/B1)";
    FMS   0  6  3  7  3 "Intel Pentium N3500 / J2850 / Celeron N1700 / N1800 / N2800 / N2900 (Bay Trail-M B2/B3) / Atom E3800 (Bay Trail-I B3)";
    FMSQ  0  6  3  7  4 dC "Intel Celeron N2800 / N2900 (Bay Trail-M C0)";
    FMSQ  0  6  3  7  4 dP "Intel Pentium N3500 (Bay Trail-M C0)";
    FMS   0  6  3  7  4 "Intel (unknown type) (Bay Trail-M C0 / Bay Trail-T B2/B3)";
    FMS   0  6  3  7  9 "Intel Atom E3800 (Bay Trail-I D0)";
    FM    0  6  3  7 "Intel (unknown type) (Bay Trail-M / Bay Trail-T / Bay Trail-I)";
    FMSQ  0  6  3 10  9 Mc "Intel Mobile Core i*-3000 (Ivy Bridge E1/L1) / Pentium 900/1000/2000/2100 (P0)";
    FMSQ  0  6  3 10  9 dc "Intel Core i*-3000 (Ivy Bridge E1/N0/L1)";
    FMSQ  0  6  3 10  9 sX "Intel Xeon E3-1100 v2 / E3-1200 v2 (Ivy Bridge E1/N0/L1)";
    FMSQ  0  6  3 10  9 dP "Intel Pentium G1600/G2000/G2100 / Pentium B925C (Ivy Bridge P0)";
    FMS   0  6  3 10  9 "Intel Core (unknown type) (Ivy Bridge E1/N0/L1/P0)";
    FMQ   0  6  3 10 Mc "Intel Mobile Core i*-3000 (Ivy Bridge) / Pentium 900/1000/2000/2100";
    FMQ   0  6  3 10 dc "Intel Core i*-3000 (Ivy Bridge)";
    FMQ   0  6  3 10 sX "Intel Xeon E3-1100 v2 / E3-1200 v2 (Ivy Bridge)";
    FMQ   0  6  3 10 dP "Intel Pentium G1600/G2000/G2100 / Pentium B925C (Ivy Bridge)";
    FM    0  6  3 10 "Intel Core (unknown type) (Ivy Bridge)";
    FMQ   0  6  3 12 sX "Intel Xeon E3-1200 v3 (Haswell)";
    FMQ   0  6  3 12 Mc "Intel Mobile Core i*-4000U (Mobile M) (Haswell)";
    FMQ   0  6  3 12 dc "Intel Core i*-4000 / / Mobile Core i*-4000 (Haswell)";
    FMQ   0  6  3 12 MC "Intel Mobile Celeron 2900U (Mobile M) (Haswell)";
    FMQ   0  6  3 12 dC "Intel Celeron G1800 (Haswell)";
    FMQ   0  6  3 12 MP "Intel Mobile Pentium 3500U / 3600U / 3500Y (Mobile M) (Haswell)";
    FMQ   0  6  3 12 dP "Intel Pentium G3000 (Haswell)";
    FM    0  6  3 12 "Intel Core (unknown type) (Haswell)";
    FMQ   0  6  3 13 dc "Intel Core i*-5000 / Core M (Broadwell)";
    FMQ   0  6  3 13 MC "Intel Mobile Celeron 3000 (Broadwell)";
    FMQ   0  6  3 13 dC "Intel Celeron 3000 (Broadwell)";
    FM    0  6  3 13 "Intel Core (unknown type) (Broadwell)";
    FMSQ  0  6  3 14  4 sX "Intel Xeon E5-1600/E5-2600 v2 (Ivy Bridge-EP C1/M1/S1)";
    FMSQ  0  6  3 14  4 dc "Intel Core i7-4000 / i9-4000 (Ivy Bridge-EP S1)";
    FMS   0  6  3 14  4 "Intel Core (unknown type) (Ivy Bridge-EP C1/M1/S1)";
    FMSQ  0  6  3 14  7 sX "Intel Xeon E7 v2 (Ivy Bridge-EX D1)";
    FMS   0  6  3 14  7 "Intel Xeon (unknown type) (Ivy Bridge-EX D1)";
    FMQ   0  6  3 14 sX "Intel Xeon E5-1600/E5-2600 v2 (Ivy Bridge-EP) / Xeon E7 (Ivy Bridge-EX)";
    FMQ   0  6  3 14 dc "Intel Core i9-4000 (Ivy Bridge-EP)";
    FM    0  6  3 14 "Intel Core (unknown type) (Ivy Bridge-EP / Ivy Bridge-EX";
    FMS   0  6  3 15  2 "Intel Core i7-5000 Extreme Edition (Haswell R2) / Xeon E5-x600 v3 (Haswell-EP C1/M1/R2)";
    FMS   0  6  3 15  4 "Intel Xeon E7-4800 / E7-8800 v3 (Haswell-EP E0)";
    FM    0  6  3 15 "Intel Core (unknown type) (Haswell R2 / Haswell-EP)";
    FMQ   0  6  4  5 dc "Intel Core i*-4000U (Haswell)";
    FMQ   0  6  4  5 Mc "Intel Mobile Core i*-4000Y (Mobile U/Y) (Haswell)";
    FMQ   0  6  4  5 MP "Intel Mobile Pentium 3500U / 3600U / 3500Y (Mobile U/Y) (Haswell)";
    FMQ   0  6  4  5 MC "Intel Mobile Celeron 2900U (Mobile U/Y) (Haswell)";
    FM    0  6  4  5 "Intel Core (unknown type) (Haswell)";
    FMQ   0  6  4  6 Mc "Intel Mobile Core i*-4000Y (Mobile H) (Haswell)";
    FMQ   0  6  4  6 dc "Intel Core i* / Mobile Core i* (Desktop R) (Haswell)";
    FMQ   0  6  4  6 MP "Intel Mobile Pentium 3500U / 3600U / 3500Y (Mobile H) (Haswell)";
    FMQ   0  6  4  6 dC "Intel Celeron G1800 (Desktop R) (Haswell)";
    FMQ   0  6  4  6 MC "Intel Mobile Celeron 2900U (Mobile H) (Haswell)";
    FMQ   0  6  4  6 dP "Intel Pentium G3000 (Desktop R) (Haswell)";
    FM    0  6  4  6 "Intel Core (unknown type) (Haswell)";
    FMQ   0  6  4  7 dc "Intel Core i7-5000 (Broadwell)";
    FMQ   0  6  4  7 Mc "Intel Mobile Core i7-5000 (Broadwell)";
    FMQ   0  6  4  7 sX "Intel Xeon E3-1200 v4 (Broadwell)";
    FM    0  6  4  7 "Intel Core (unknown type) (Broadwell)";
    FM    0  6  4 10 "Intel Atom Z3400 (Merrifield)";
    FMS   0  6  4 12  0 "Intel Pentium N3000 / Celeron N3000 (Braswell C0)";
    FM    0  6  4 12 "Intel Pentium N3000 / Celeron N3000 (Braswell)";
    FMS   0  6  4 13  0 "Intel Atom C2000 (Avoton A0/A1)";
    FMS   0  6  4 13  8 "Intel Atom C2000 (Avoton B0/C0)";
    FM    0  6  4 13 "Intel Atom C2000 (Avoton)";
    FMQ   0  6  4 14 dc "Intel Core i*-6000U / m*-6Y00 (Skylake)";
    FMQ   0  6  4 14 dP "Intel Pentium 4405U / Pentium 4405Y (Skylake)";
    FMQ   0  6  4 14 dC "Intel Celeron 3800U / 39000U (Skylake)";
    FMQ   0  6  4 14 sX "Intel Xeon E3-1500m (Skylake)";
    FM    0  6  4 14 "Intel Core (unknown type) (Skylake)";
    FMQ   0  6  4 15 dc "Intel Core i7-6800K / i7-6900K / i7-6900X (Broadwell-E)";
    FMSQ  0  6  4 15  1 sX "Intel Xeon E5-1600 / E5-2600 / E5-4600 v4 (Broadwell) / E7-4800 / E7-8800 v4 (Broadwell-EX B0)";
    FMQ   0  6  4 15 sX "Intel Xeon E5-1600 / E5-2600 / E5-4600 v4 (Broadwell) / E7-4800 / E7-8800 v4 (Broadwell-EX)";
    FM    0  6  4 15 "Intel Core (unknown type) (Broadwell / Broadwell-E / Broadwell-EX)";
    FMSQ  0  6  5  5  2 sS "Intel Scalable Bronze/Silver/Gold/Platinum (Skylake B0/L0)";
    FMSQ  0  6  5  5  2 sX "Intel Xeon W 2000 / D-2100 (Skylake B0/L0)";
    FMSQ  0  6  5  5  4 sS "Intel Scalable Bronze/Silver/Gold/Platinum (Skylake H0/M0/U0)";
    FMSQ  0  6  5  5  4 sX "Intel Xeon W 2000 (Skylake H0/M0/U0)";
    FMSQ  0  6  5  5  6 sS "Intel Scalable (2nd Gen) Bronze/Silver/Gold/Platinum (Cascade Lake)";
    FMSQ  0  6  5  5  6 sX "Intel Xeon W 2000 (Cascade Lake)";
    FMSQ  0  6  5  5  7 dc "Intel Core i*-10000X (Cascade Lake-X B1/L1/R1)";
    FMSQ  0  6  5  5  7 sS "Intel Scalable (2nd Gen) Bronze/Silver/Gold/Platinum (Cascade Lake B1/L1/R1)";
    FMSQ  0  6  5  5  7 sX "Intel Xeon W 2000 (Cascade Lake B1/L1/R1)";
    FMQ   0  6  5  5 dc "Intel Core i*-6000X / i*-7000X (Skylake-X) / i*-10000X (Cascade Lake-X)";
    FMQ   0  6  5  5 sS "Intel Scalable Bronze/Silver/Gold/Platinum (Skylake / Cascade Lake)";
    FMQ   0  6  5  5 sX "Intel Xeon W 2000 / D-2100 (Skylake / Cascade Lake)";
    FM    0  6  5  5 "Intel Core (unknown type) (Skylake / Skylake-X / Cascade Lake / Cascade Lake-X)";
    FMS   0  6  5  6  1 "Intel Xeon D-1500 (Broadwell-DE U0)";
    FMS   0  6  5  6  2 "Intel Xeon D-1500 (Broadwell-DE V1)";
    FMS   0  6  5  6  3 "Intel Xeon D-1500 (Broadwell-DE V2)";
    FMS   0  6  5  6  4 "Intel Xeon D-1500 (Broadwell-DE Y0)";
    FMS   0  6  5  6  5 "Intel Xeon D-1500N (Broadwell-DE A1)";
    FM    0  6  5  6 "Intel Xeon (unknown type) (Broadwell-DE)";
    FMS   0  6  5  7  1 "Intel Xeon Phi x200 (Knights Landing B0)";
    FM    0  6  5  7 "Intel Xeon Phi x200 (Knights Landing)";
    FM    0  6  5 10 "Intel Atom Z3500 (Moorefield)";
    FMSQ  0  6  5 12  9 dP "Intel Pentium N4000 / J4000 (Apollo Lake)";
    FMSQ  0  6  5 12  9 dC "Intel Celeron N3000 / J3000 (Apollo Lake)";
    FMS   0  6  5 12  9 "Intel Atom (unknown type) (Apollo Lake)";
    FM    0  6  5 12 "Intel Atom (unknown type) (Apollo Lake)";
    FM    0  6  5 13 "Intel Atom X3-C3000 (SoFIA)";
    FMQ   0  6  5 14 dc "Intel Core i*-6000 (Skylake)";
    FMQ   0  6  5 14 dP "Intel Pentium G4000 (Skylake)";
    FMQ   0  6  5 14 dC "Intel Celeron G3900 (Skylake)";
    FMQ   0  6  5 14 sX "Intel Xeon E3-1200 v5 (Skylake)";
    FM    0  6  5 14 "Intel Core (unknown type) (Skylake)";
    FMS   0  6  5 15  0 "Intel Atom C3000 (Denverton A0/A1)";
    FMS   0  6  5 15  1 "Intel Atom C3000 (Denverton B0/B1)";
    FM    0  6  5 15 "Intel Atom C3000 (Denverton)";
    FM    0  6  6  6 "Intel Core (Cannon Lake)";
    FM    0  6  6 10 "Intel Core (Ice Lake)";
    FM    0  6  6 12 "Intel Core (Ice Lake)";
    FMSQ  0  6  7 10  1 dP "Intel Pentium Silver N5000 / J5000 (Gemini Lake B0/R0)";
    FMSQ  0  6  7 10  1 dC "Intel Celeron N4000 / J4000 (Gemini Lake B0/R0)";
    FMS   0  6  7 10  1 "Intel (unknown type) (Gemini Lake B0/R0)";
    FMQ   0  6  7 10 dP "Intel Pentium Silver N5000 / J5000 (Gemini Lake)";
    FMQ   0  6  7 10 dC "Intel Celeron N4000 / J4000 (Gemini Lake)";
    FM    0  6  7 10 "Intel (unknown type) (Gemini Lake)";
    FM    0  6  7 13 "Intel Core i*-10000 (Ice Lake)";
    FMS   0  6  7 14  4 "Intel Core i*-10000 (Ice Lake Y)";
    FMS   0  6  7 14  5 "Intel Core i*-10000 (Ice Lake U)";
    FM    0  6  7 14 "Intel Core i*-10000 (Ice Lake)";
    FM    0  6  8  5 "Intel Xeon Phi (Knights Mill)";
    FM    0  6  8 12 "Intel Core (Tiger Lake)";
    FMSQ  0  6  8 14  9 LY "Intel Core i*-8000Y (Amber Lake Y)";
    FMSQ  0  6  8 14  9 dc "Intel Core i*-8000U / i*-8000Y (Kaby Lake)";
    FMSQ  0  6  8 14 10 dc "Intel Core i*-8000U / i*-8000Y (Kaby Lake)";
    FMSQ  0  6  8 14 11 LU "Intel Core i*-8000U (Whiskey Lake W0)";
    FMSQ  0  6  8 14 11 LY "Intel Core i*-8000Y (Amber Lake W0)";
    FMSQ  0  6  8 14 11 dc "Intel Core (unknown type) (Whiskey Lake W0 / Amber Lake W0)";
    FMSQ  0  6  8 14 12 UC "Intel Core i*-10000U (Comet Lake V1)";
    FMSQ  0  6  8 14 12 LU "Intel Core i*-8000U (Whiskey Lake V0)";
    FMSQ  0  6  8 14 12 LY "Intel Core i*-8000Y (Amber Lake V0)";
    FMSQ  0  6  8 14 12 dc "Intel Core (unknown type) (Whiskey Lake V0 / Amber Lake V0 / Comet Lake V1)";
    FMSQ  0  6  8 14 12 dP "Intel Pentium 6000U (Comet Lake V1)";
    FMSQ  0  6  8 14 12 dC "Intel Celeron 5000U (Comet Lake V1)";
    FMS   0  6  8 14 12 "Intel (unknown type) (Whiskey Lake V0 / Amber Lake V0 / Comet Lake V1)";
    FMQ   0  6  8 14 dc "Intel Core i*-8000U / i*-8000Y / Core i*-10000 / Pentium 6000U / Celeron 5000U (Kaby Lake / Coffee Lake / Whiskey Lake / Amber Lake)";
    FMQ   0  6  8 14 dP "Intel Pentium 4410Y / 4415U /6000U (Kaby Lake / Coffee Lake / Comet Lake";
    FMQ   0  6  8 14 dC "Intel Celeron 3965Y / 3865U / 3965U / 5000U (Kaby Lake / Coffee Lake / Comet Lake)";
    FM    0  6  8 14 "Intel Core (unknown type) (Kaby Lake / Amber Lake / Whiskey Lake / Coffee Lake)";
    FMSQ  0  6  9 14  9 dc "Intel Core i*-7700 / i*-8700 (Kaby Lake)";
    FMSQ  0  6  9 14 10 LU "Intel Core i*-8000 / i*-9000 U Line (Coffee Lake D0)";
    FMSQ  0  6  9 14 10 dc "Intel Core i*-8000 / i*-9000 S/H Line (Coffee Lake U0)";
    FMSQ  0  6  9 14 11 dc "Intel Core i*-8000 / i*-9000 S Line (Coffee Lake B0)";
    FMSQ  0  6  9 14 12 dc "Intel Core i*-8000 / i*-9000 S Line (Coffee Lake P0)";
    FMSQ  0  6  9 14 13 dc "Intel Core i*-8000 / i*-9000 H Line (Coffee Lake R0)";
    FMQ   0  6  9 14 dc "Intel Core i*-8000 / i*-9000 (Kaby Lake / Coffee Lake)";
    FMQ   0  6  9 14 dC "Intel Celeron G3930 (Kaby Lake / Coffee Lake)";
    FMQ   0  6  9 14 sX "Intel Xeon E3-1200v6 / E3-1285v5 / E3-15x5Mv6 / E-2100 / E-2200 (Kaby Lake / Coffee Lake)";
    FM    0  6  9 14 "Intel Core (unknown type) (Kaby Lake / Coffee Lake)";
    FM    0  6 10  6 "Intel Core i*-10000 (Comet Lake)";
    FQ    0  6 sX "Intel Xeon (unknown model)";
    FQ    0  6 se "Intel Xeon (unknown model)";
    FQ    0  6 MC "Intel Mobile Celeron (unknown model)";
    FQ    0  6 dC "Intel Celeron (unknown model)";
    FQ    0  6 Xc "Intel Core Extreme (unknown model)";
    FQ    0  6 Mc "Intel Mobile Core (unknown model)";
    FQ    0  6 dc "Intel Core (unknown model)";
    FQ    0  6 MP "Intel Mobile Pentium (unknown model)";
    FQ    0  6 dP "Intel Pentium (unknown model)";
    F     0  6 "Intel (unknown model)";
    FMS   0  7  0  6  4 "Intel Itanium (Merced C0)";
    FMS   0  7  0  7  4 "Intel Itanium (Merced C1)";
    FMS   0  7  0  8  4 "Intel Itanium (Merced C2)";
    F     0  7 "Intel Itanium (unknown model)";
    FM    0 11  0  0 "Intel Xeon Phi x100 Coprocessor (Knights Ferry)";
    FMS   0 11  0  1  1 "Intel Xeon Phi x100 Coprocessor (Knights Corner B0)";
    FMS   0 11  0  1  3 "Intel Xeon Phi x100 Coprocessor (Knights Corner B1)";
    FMS   0 11  0  1  4 "Intel Xeon Phi x100 Coprocessor (Knights Corner C0)";
    FM    0 11  0  1 "Intel Xeon Phi x100 Coprocessor (Knights Corner)";
    FMS   0 15  0  0  7 "Intel Pentium 4 (Willamette B2)";
    FMSQ  0 15  0  0 10 dP "Intel Pentium 4 (Willamette C1)";
    FMSQ  0 15  0  0 10 sX "Intel Xeon (Foster C1)";
    FMS   0 15  0  0 10 "Intel Pentium 4 (unknown type) 4 (Willamette/Foster C1)";
    FMQ   0 15  0  0 dP "Intel Pentium 4 (Willamette)";
    FMQ   0 15  0  0 sX "Intel Xeon (Foster)";
    FM    0 15  0  0 "Intel Pentium 4 (unknown type) (Willamette/Foster)";
    FMS   0 15  0  1  1 "Intel Xeon MP (Foster C0)";
    FMSQ  0 15  0  1  2 dP "Intel Pentium 4 (Willamette D0)";
    FMSQ  0 15  0  1  2 sX "Intel Xeon (Foster D0)";
    FMS   0 15  0  1  2 "Intel Pentium 4 (unknown type) (Willamette/Foster D0)";
    FMSQ  0 15  0  1  3 dP "Intel Pentium 4(Willamette E0)";
    FMSQ  0 15  0  1  3 dC "Intel Celeron 478-pin (Willamette E0)";
    FMS   0 15  0  1  3 "Intel Pentium 4 (unknown type) (Willamette/Foster E0)";
    FMQ   0 15  0  1 dP "Intel Pentium 4 (Willamette)";
    FMQ   0 15  0  1 sX "Intel Xeon (Foster)";
    FM    0 15  0  1 "Intel Pentium 4 (unknown type) (Willamette/Foster)";
    FMS   0 15  0  2  2 "Intel Xeon MP (Gallatin A0)";
    FMSQ  0 15  0  2  4 sX "Intel Xeon (Prestonia B0)";
    FMSQ  0 15  0  2  4 MM "Intel Mobile Pentium 4 Processor-M (Northwood B0)";
    FMSQ  0 15  0  2  4 MC "Intel Mobile Celeron (Northwood B0)";
    FMSQ  0 15  0  2  4 dP "Intel Pentium 4 (Northwood B0)";
    FMS   0 15  0  2  4 "Intel Pentium 4 (unknown type) (Northwood/Prestonia B0)";
    FMSQ  0 15  0  2  5 dP "Intel Pentium 4 (Northwood B1/M0)";
    FMSQ  0 15  0  2  5 sM "Intel Xeon MP (Gallatin B1)";
    FMSQ  0 15  0  2  5 sX "Intel Xeon (Prestonia B1)";
    FMS   0 15  0  2  5 "Intel Pentium 4 (unknown type) (Northwood/Prestonia/Gallatin B1/M0)";
    FMS   0 15  0  2  6 "Intel Xeon MP (Gallatin C0)";
    FMSQ  0 15  0  2  7 sX "Intel Xeon (Prestonia C1)";
    FMSQ  0 15  0  2  7 dC "Intel Celeron 478-pin (Northwood C1)";
    FMSQ  0 15  0  2  7 MC "Intel Mobile Celeron (Northwood C1)";
    FMSQ  0 15  0  2  7 MM "Intel Mobile Pentium 4 Processor-M (Northwood C1)";
    FMSQ  0 15  0  2  7 dP "Intel Pentium 4 (Northwood C1)";
    FMS   0 15  0  2  7 "Intel Pentium 4 (unknown type) (Northwood/Prestonia C1)";
    FMSQ  0 15  0  2  9 sX "Intel Xeon (Prestonia D1)";
    FMSQ  0 15  0  2  9 dC "Intel Celeron 478-pin (Northwood D1)";
    FMSQ  0 15  0  2  9 MC "Intel Mobile Celeron (Northwood D1)";
    FMSQ  0 15  0  2  9 MM "Intel Mobile Pentium 4 Processor-M (Northwood D1)";
    FMSQ  0 15  0  2  9 MP "Intel Mobile Pentium 4 (Northwood D1)";
    FMSQ  0 15  0  2  9 dP "Intel Pentium 4 (Northwood D1)";
    FMS   0 15  0  2  9 "Intel Pentium 4 (unknown type) (Northwood/Prestonia D1)";
    FMQ   0 15  0  2 dP "Intel Pentium 4 (Northwood)";
    FMQ   0 15  0  2 sM "Intel Xeon MP (Gallatin)";
    FMQ   0 15  0  2 sX "Intel Xeon (Prestonia)";
    FM    0 15  0  2 "Intel Pentium 4 (unknown type) (Northwood/Prestonia/Gallatin)";
    FMSQ  0 15  0  3  3 dP "Intel Pentium 4 (Prescott C0)";
    FMSQ  0 15  0  3  3 dC "Intel Celeron D (Prescott C0)";
    FMS   0 15  0  3  3 "Intel Pentium 4 (unknown type) (Prescott C0)";
    FMSQ  0 15  0  3  4 sX "Intel Xeon (Nocona D0)";
    FMSQ  0 15  0  3  4 dC "Intel Celeron D (Prescott D0)";
    FMSQ  0 15  0  3  4 MP "Intel Mobile Pentium 4 (Prescott D0)";
    FMSQ  0 15  0  3  4 dP "Intel Pentium 4 (Prescott D0)";
    FMS   0 15  0  3  4 "Intel Pentium 4 (unknown type) (Prescott/Nocona D0)";
    FMQ   0 15  0  3 sX "Intel Xeon (Nocona)";
    FMQ   0 15  0  3 dC "Intel Celeron D (Prescott)";
    FMQ   0 15  0  3 MP "Intel Mobile Pentium 4 (Prescott)";
    FMQ   0 15  0  3 dP "Intel Pentium 4 (Prescott)";
    FM    0 15  0  3 "Intel Pentium 4 (unknown type) (Prescott/Nocona)";
    FMSQ  0 15  0  4  1 sP "Intel Xeon MP (Potomac C0)";
    FMSQ  0 15  0  4  1 sM "Intel Xeon MP (Cranford A0)";
    FMSQ  0 15  0  4  1 sX "Intel Xeon (Nocona E0)";
    FMSQ  0 15  0  4  1 dC "Intel Celeron D (Prescott E0)";
    FMSQ  0 15  0  4  1 MP "Intel Mobile Pentium 4 (Prescott E0)";
    FMSQ  0 15  0  4  1 dP "Intel Pentium 4 (Prescott E0)";
    FMS   0 15  0  4  1 "Intel Pentium 4 (unknown type) (Prescott/Nocona/Cranford/Potomac E0)";
    FMSQ  0 15  0  4  3 sI "Intel Xeon (Irwindale N0)";
    FMSQ  0 15  0  4  3 sX "Intel Xeon (Nocona N0)";
    FMSQ  0 15  0  4  3 dP "Intel Pentium 4 (Prescott N0)";
    FMS   0 15  0  4  3 "Intel Pentium 4 (unknown type) (Prescott/Nocona/Irwindale N0)";
    FMSQ  0 15  0  4  4 dc "Intel Pentium Extreme Edition Processor 840 (Smithfield A0)";
    FMSQ  0 15  0  4  4 dd "Intel Pentium D Processor 8x0 (Smithfield A0)";
    FMS   0 15  0  4  4 "Intel Pentium D (unknown type) (Smithfield A0)";
    FMSQ  0 15  0  4  7 dc "Pentium Extreme Edition Processor 840 (Smithfield B0)";
    FMSQ  0 15  0  4  7 dd "Intel Pentium D Processor 8x0 (Smithfield B0)";
    FMS   0 15  0  4  7 "Intel Pentium D (unknown type) (Smithfield B0)";
    FMSQ  0 15  0  4  8 s7 "Intel Dual-Core Xeon Processor 7000 (Paxville A0)";
    FMSQ  0 15  0  4  8 sX "Intel Dual-Core Xeon (Paxville A0)";
    FMS   0 15  0  4  8 "Intel Dual-Core Xeon (unknown type) (Paxville A0)";
    FMSQ  0 15  0  4  9 sM "Intel Xeon MP (Cranford B0)";
    FMSQ  0 15  0  4  9 dC "Intel Celeron D (Prescott G1)";
    FMSQ  0 15  0  4  9 dP "Intel Pentium 4 (Prescott G1)";
    FMS   0 15  0  4  9 "Intel Pentium 4 (unknown type) (Prescott/Cranford G1)";
    FMSQ  0 15  0  4 10 sI "Intel Xeon (Irwindale R0)";
    FMSQ  0 15  0  4 10 sX "Intel Xeon (Nocona R0)";
    FMSQ  0 15  0  4 10 dP "Intel Pentium 4 (Prescott R0)";
    FMS   0 15  0  4 10 "Intel Pentium 4 (unknown type) (Prescott/Nocona/Irwindale R0)";
    FMQ   0 15  0  4 sM "Intel Xeon MP (Nocona/Potomac)";
    FMQ   0 15  0  4 sX "Intel Xeon (Nocona/Irwindale)";
    FMQ   0 15  0  4 dC "Intel Celeron D (Prescott)";
    FMQ   0 15  0  4 MP "Intel Mobile Pentium 4 (Prescott)";
    FMQ   0 15  0  4 dd "Intel Pentium D (Smithfield A0)";
    FMQ   0 15  0  4 dP "Intel Pentium 4 (Prescott) / Pentium Extreme Edition (Smithfield A0)";
    FM    0 15  0  4 "Intel Pentium 4 (unknown type) (Prescott/Nocona/Irwindale/Smithfield/Cranford/Potomac)";
    FMSQ  0 15  0  6  2 dd "Intel Pentium D Processor 9xx (Presler B1)";
    FMSQ  0 15  0  6  2 dP "Intel Pentium 4 Processor 6x1 (Cedar Mill B1) / Pentium Extreme Edition Processor 955 (Presler B1)";
    FMS   0 15  0  6  2 "Intel Pentium 4 (unknown type) (Cedar Mill/Presler B1)";
    FMSQ  0 15  0  6  4 dd "Intel Pentium D Processor 9xx (Presler C1)";
    FMSQ  0 15  0  6  4 dP "Intel Pentium 4 Processor 6x1 (Cedar Mill C1) / Pentium Extreme Edition Processor 955 (Presler C1)";
    FMSQ  0 15  0  6  4 dC "Intel Celeron D Processor 34x/35x (Cedar Mill C1)";
    FMSQ  0 15  0  6  4 sX "Intel Xeon Processor 5000 (Dempsey C1)";
    FMS   0 15  0  6  4 "Intel Pentium 4 (unknown type) (Cedar Mill/Presler/Dempsey C1)";
    FMSQ  0 15  0  6  5 dC "Intel Celeron D Processor 36x (Cedar Mill D0)";
    FMSQ  0 15  0  6  5 dd "Intel Pentium D Processor 9xx (Presler D0)";
    FMSQ  0 15  0  6  5 dP "Intel Pentium 4 Processor 6x1 (Cedar Mill D0) / Pentium Extreme Edition Processor 955 (Presler D0)";
    FMS   0 15  0  6  5 "Intel Pentium 4 (unknown type) (Cedar Mill/Presler D0)";
    FMS   0 15  0  6  8 "Intel Xeon Processor 71x0 (Tulsa B0)";
    FMQ   0 15  0  6 dd "Intel Pentium D (Presler)";
    FMQ   0 15  0  6 dP "Intel Pentium 4 (Cedar Mill) / Pentium Extreme Edition (Presler)";
    FMQ   0 15  0  6 dC "Intel Celeron D (Cedar Mill)";
    FMQ   0 15  0  6 sX "Intel Xeon (Dempsey / Tulsa)";
    FM    0 15  0  6 "Intel Pentium 4 (unknown type) (Cedar Mill/Presler/Dempsey/Tulsa)";
    FQ    0 15 sM "Intel Xeon MP (unknown model)";
    FQ    0 15 sX "Intel Xeon (unknown model)";
    FQ    0 15 MC "Intel Mobile Celeron (unknown model)";
    FQ    0 15 MC "Intel Mobile Pentium 4 (unknown model)";
    FQ    0 15 MM "Intel Mobile Pentium 4 Processor-M (unknown model)";
    FQ    0 15 dC "Intel Celeron (unknown model)";
    FQ    0 15 dd "Intel Pentium D (unknown model)";
    FQ    0 15 dP "Intel Pentium 4 (unknown model)";
    FQ    0 15 dc "Intel Pentium (unknown model)";
    F     0 15 "Intel Pentium 4 / Pentium D / Xeon / Xeon MP / Celeron / Celeron D (unknown model)";
    FMS   1 15  0  0  7 "Intel Itanium2 (McKinley B3)";
    FM    1 15  0  0 "Intel Itanium2 (McKinley)";
    FMS   1 15  0  1  5 "Intel Itanium2 (Madison/Deerfield/Hondo B1)";
    FM    1 15  0  1 "Intel Itanium2 (Madison/Deerfield/Hondo)";
    FMS   1 15  0  2  1 "Intel Itanium2 (Madison 9M/Fanwood A1)";
    FMS   1 15  0  2  2 "Intel Itanium2 (Madison 9M/Fanwood A2)";
    FM    1 15  0  2 "Intel Itanium2 (Madison)";
    F     1 15 "Intel Itanium2 (unknown model)";
    FMS   2  0  0  0  5 "Intel Itanium2 Dual-Core Processor 9000 (Montecito/Millington C1), 90nm";
    FMS   2  0  0  0  7 "Intel Itanium2 Dual-Core Processor 9000 (Montecito/Millington C2), 90nm";
    FM    2  0  0  0 "Intel Itanium2 Dual-Core Processor 9000 (Montecito/Millington), 90nm";
    FMS   2  0  0  1  1 "Intel Itanium2 Dual-Core Processor 9100 (Montvale A1), 90nm";
    FM    2  0  0  1 "Intel Itanium2 Dual-Core Processor 9100 (Montvale), 90nm";
    FMS   2  0  0  2  4 "Intel Itanium2 Processor 9300 (Tukwila E0), 65nm";
    FM    2  0  0  2 "Intel Itanium2 Processor 9300 (Tukwila), 65nm";
    F     2  0 "Intel Itanium2 (unknown model)";
    FMS   2  1  0  0  4 "Intel Itanium2 Processor 9500 (Poulson D0), 32nm";
    FMS   2  1  0  0  5 "Intel Itanium2 Processor 9700 (Kittson E0), 22nm";
    FM    2  1  0  0 "Intel Itanium2 (unknown model) (Poulson/Kittson)";
    F     2  1 "Intel Itanium2 (unknown model)" ].

Definition decode_synth_intel (val : Z) (stash : option code_stash_t) : cstring :=
  first_match decode_synth_intel_rules (DEFAULT "unknown") val stash.

(** The rules of [decode_synth_amd], in the authored order (cpuid.c:3116). *)
Definition decode_synth_amd_rules : list rule :=
  [ FM    0  4  0  3 "AMD 80486DX2";
    FM    0  4  0  7 "AMD 80486DX2WB";
    FM    0  4  0  8 "AMD 80486DX4";
    FM    0  4  0  9 "AMD 80486DX4WB";
    FM    0  4  0 14 "AMD 5x86";
    FM    0  4  0 15 "AMD 5xWB";
    F     0  4 "AMD 80486 / 5x (unknown model)";
    FM    0  5  0  0 "AMD SSA5 (PR75, PR90, PR100)";
    FM    0  5  0  1 "AMD 5k86 (PR120, PR133)";
    FM    0  5  0  2 "AMD 5k86 (PR166)";
    FM    0  5  0  3 "AMD 5k86 (PR200)";
    FM    0  5  0  5 "AMD Geode GX";
    FM    0  5  0  6 "AMD K6";
    FM    0  5  0  7 "AMD K6 (Little Foot)";
    FMS   0  5  0  8  0 "AMD K6-2 (Chomper A)";
    FMS   0  5  0  8 12 "AMD K6-2 (Chomper A)";
    FM    0  5  0  8 "AMD K6-2 (Chomper)";
    FMS   0  5  0  9  1 "AMD K6-III (Sharptooth B)";
    FM    0  5  0  9 "AMD K6-III (Sharptooth)";
    FM    0  5  0 10 "AMD Geode LX";
    FM    0  5  0 13 "AMD K6-2+, K6-III+";
    F     0  5 "AMD 5k86 / K6 / Geode (unknown model)";
    FM    0  6  0  1 "AMD Athlon (Argon)";
    FM    0  6  0  2 "AMD Athlon (K75 / Pluto / Orion)";
    FMS   0  6  0  3  0 "AMD Duron / mobile Duron (Spitfire A0)";
    FMS   0  6  0  3  1 "AMD Duron / mobile Duron (Spitfire A2)";
    FM    0  6  0  3 "AMD Duron / mobile Duron (Spitfire)";
    FMS   0  6  0  4  2 "AMD Athlon (Thunderbird A4-A7)";
    FMS   0  6  0  4  4 "AMD Athlon (Thunderbird A9)";
    FM    0  6  0  4 "AMD Athlon (Thunderbird)";
    FMSQ  0  6  0  6  0 sA "AMD Athlon MP (Palomino A0)";
    FMSQ  0  6  0  6  0 dA "AMD Athlon (Palomino A0)";
    FMSQ  0  6  0  6  0 MA "AMD mobile Athlon 4 (Palomino A0)";
    FMSQ  0  6  0  6  0 sD "AMD Duron MP (Palomino A0)";
    FMSQ  0  6  0  6  0 MD "AMD mobile Duron (Palomino A0)";
    FMS   0  6  0  6  0 "AMD Athlon (unknown type)  (Palomino A0)";
    FMSQ  0  6  0  6  1 sA "AMD Athlon MP (Palomino A2)";
    FMSQ  0  6  0  6  1 dA "AMD Athlon (Palomino A2)";
    FMSQ  0  6  0  6  1 MA "AMD mobile Athlon 4 (Palomino A2)";
    FMSQ  0  6  0  6  1 sD "AMD Duron MP (Palomino A2)";
    FMSQ  0  6  0  6  1 MD "AMD mobile Duron (Palomino A2)";
    FMSQ  0  6  0  6  1 dD "AMD Duron (Palomino A2)";
    FMS   0  6  0  6  1 "AMD Athlon (unknown type) (Palomino A2)";
    FMSQ  0  6  0  6  2 sA "AMD Athlon MP (Palomino A5)";
    FMSQ  0  6  0  6  2 dX "AMD Athlon XP (Palomino A5)";
    FMSQ  0  6  0  6  2 MA "AMD mobile Athlon 4 (Palomino A5)";
    FMSQ  0  6  0  6  2 sD "AMD Duron MP (Palomino A5)";
    FMSQ  0  6  0  6  2 MD "AMD mobile Duron (Palomino A5)";
    FMSQ  0  6  0  6  2 dD "AMD Duron (Palomino A5)";
    FMS   0  6  0  6  2 "AMD Athlon (unknown type) (Palomino A5)";
    FMQ   0  6  0  6 MD "AMD mobile Duron (Palomino)";
    FMQ   0  6  0  6 dD "AMD Duron (Palomino)";
    FMQ   0  6  0  6 MA "AMD mobile Athlon (Palomino)";
    FMQ   0  6  0  6 dX "AMD Athlon XP (Palomino)";
    FMQ   0  6  0  6 dA "AMD Athlon (Palomino)";
    FM    0  6  0  6 "AMD Athlon (unknown type) (Palomino)";
    FMSQ  0  6  0  7  0 sD "AMD Duron MP (Morgan A0)";
    FMSQ  0  6  0  7  0 MD "AMD mobile Duron (Morgan A0)";
    FMSQ  0  6  0  7  0 dD "AMD Duron (Morgan A0)";
    FMS   0  6  0  7  0 "AMD Duron (unknown type)  (Morgan A0)";
    FMSQ  0  6  0  7  1 sD "AMD Duron MP (Morgan A1)";
    FMSQ  0  6  0  7  1 MD "AMD mobile Duron (Morgan A1)";
    FMSQ  0  6  0  7  1 dD "AMD Duron (Morgan A1)";
    FMS   0  6  0  7  1 "AMD Duron (unknown type)  (Morgan A1)";
    FMQ   0  6  0  7 sD "AMD Duron MP (Morgan)";
    FMQ   0  6  0  7 MD "AMD mobile Duron (Morgan)";
    FMQ   0  6  0  7 dD "AMD Duron (Morgan)";
    FM    0  6  0  7 "AMD Duron (unknown type)  (Morgan)";
    FMSQ  0  6  0  8  0 dS "AMD Sempron (Thoroughbred A0)";
    FMSQ  0  6  0  8  0 sD "AMD Duron MP (Applebred A0)";
    FMSQ  0  6  0  8  0 dD "AMD Duron (Applebred A0)";
    FMSQ  0  6  0  8  0 MX "AMD mobile Athlon XP (Thoroughbred A0)";
    FMSQ  0  6  0  8  0 sA "AMD Athlon MP (Thoroughbred A0)";
    FMSQ  0  6  0  8  0 dX "AMD Athlon XP (Thoroughbred A0)";
    FMSQ  0  6  0  8  0 dA "AMD Athlon (Thoroughbred A0)";
    FMS   0  6  0  8  0 "AMD Athlon (unknown type) (Thoroughbred A0)";
    FMSQ  0  6  0  8  1 MG "AMD Geode NX (Thoroughbred B0)";
    FMSQ  0  6  0  8  1 dS "AMD Sempron (Thoroughbred B0)";
    FMSQ  0  6  0  8  1 sD "AMD Duron MP (Applebred B0)";
    FMSQ  0  6  0  8  1 dD "AMD Duron (Applebred B0)";
    FMSQ  0  6  0  8  1 sA "AMD Athlon MP (Thoroughbred B0)";
    FMSQ  0  6  0  8  1 dX "AMD Athlon XP (Thoroughbred B0)";
    FMSQ  0  6  0  8  1 dA "AMD Athlon (Thoroughbred B0)";
    FMS   0  6  0  8  1 "AMD Athlon (unknown type) (Thoroughbred B0)";
    FMQ   0  6  0  8 MG "AMD Geode NX (Thoroughbred)";
    FMQ   0  6  0  8 dS "AMD Sempron (Thoroughbred)";
    FMQ   0  6  0  8 sD "AMD Duron MP (Thoroughbred)";
    FMQ   0  6  0  8 dD "AMD Duron (Thoroughbred)";
    FMQ   0  6  0  8 MX "AMD mobile Athlon XP (Thoroughbred)";
    FMQ   0  6  0  8 sA "AMD Athlon MP (Thoroughbred)";
    FMQ   0  6  0  8 dX "AMD Athlon XP (Thoroughbred)";
    FMQ   0  6  0  8 dA "AMD Athlon XP (Thoroughbred)";
    FM    0  6  0  8 "AMD Athlon (unknown type) (Thoroughbred)";
    FMSQ  0  6  0 10  0 dS "AMD Sempron (Barton A2)";
    FMSQ  0  6  0 10  0 ML "AMD mobile Athlon XP-M (LV) (Barton A2)";
    FMSQ  0  6  0 10  0 MX "AMD mobile Athlon XP-M (Barton A2)";
    FMSQ  0  6  0 10  0 dt "AMD Athlon XP (Thorton A2)";
    FMSQ  0  6  0 10  0 sA "AMD Athlon MP (Barton A2)";
    FMSQ  0  6  0 10  0 dX "AMD Athlon XP (Barton A2)";
    FMS   0  6  0 10  0 "AMD Athlon (unknown type) (Barton A2)";
    FMQ   0  6  0 10 dS "AMD Sempron (Barton)";
    FMQ   0  6  0 10 ML "AMD mobile Athlon XP-M (LV) (Barton)";
    FMQ   0  6  0 10 MX "AMD mobile Athlon XP-M (Barton)";
    FMQ   0  6  0 10 sA "AMD Athlon MP (Barton)";
    FMQ   0  6  0 10 dX "AMD Athlon XP (Barton)";
    FM    0  6  0 10 "AMD Athlon (unknown type) (Barton)";
    F     0  6 "AMD Athlon (unknown model)";
    F     0  7 "AMD Opteron (unknown model)";
    FMS   0 15  0  4  0 "AMD Athlon 64 (SledgeHammer SH7-B0)";
    FMSQ  0 15  0  4  8 MX "AMD mobile Athlon XP-M (SledgeHammer SH7-C0)";
    FMSQ  0 15  0  4  8 MA "AMD mobile Athlon 64 (SledgeHammer SH7-C0)";
    FMSQ  0 15  0  4  8 dA "AMD Athlon 64 (SledgeHammer SH7-C0)";
    FMS   0 15  0  4  8 "AMD Athlon 64 (unknown type) (SledgeHammer SH7-C0)";
    FMSQ  0 15  0  4 10 MX "AMD mobile Athlon XP-M (SledgeHammer SH7-CG)";
    FMSQ  0 15  0  4 10 MA "AMD mobile Athlon 64 (SledgeHammer SH7-CG)";
    FMSQ  0 15  0  4 10 dA "AMD Athlon 64 (SledgeHammer SH7-CG)";
    FMS   0 15  0  4 10 "AMD Athlon 64 (unknown type) (SledgeHammer SH7-CG)";
    FMQ   0 15  0  4 MX "AMD mobile Athlon XP-M (SledgeHammer SH7)";
    FMQ   0 15  0  4 MA "AMD mobile Athlon 64 (SledgeHammer SH7)";
    FMQ   0 15  0  4 dA "AMD Athlon 64 (SledgeHammer SH7)";
    FM    0 15  0  4 "AMD Athlon 64 (unknown type) (SledgeHammer SH7)";
    FMS   0 15  0  5  0 "AMD Opteron (DP SledgeHammer SH7-B0)";
    FMS   0 15  0  5  1 "AMD Opteron (DP SledgeHammer SH7-B3)";
    FMSQ  0 15  0  5  8 sO "AMD Opteron (DP SledgeHammer SH7-C0)";
    FMSQ  0 15  0  5  8 dF "AMD Athlon 64 FX (DP SledgeHammer SH7-C0)";
    FMS   0 15  0  5  8 "AMD Athlon 64 (unknown type) (DP SledgeHammer SH7-C0)";
    FMSQ  0 15  0  5 10 sO "AMD Opteron (DP SledgeHammer SH7-CG)";
    FMSQ  0 15  0  5 10 dF "AMD Athlon 64 FX (DP SledgeHammer SH7-CG)";
    FMS   0 15  0  5 10 "AMD Athlon 64 (unknown type) (DP SledgeHammer SH7-CG)";
    FMQ   0 15  0  5 sO "AMD Opteron (SledgeHammer SH7)";
    FMQ   0 15  0  5 dF "AMD Athlon 64 FX (SledgeHammer SH7)";
    FM    0 15  0  5 "AMD Athlon 64 (unknown type) (SledgeHammer SH7) FX";
    FMSQ  0 15  0  7 10 dF "AMD Athlon 64 FX (DP SledgeHammer SH7-CG)";
    FMSQ  0 15  0  7 10 dA "AMD Athlon 64 (DP SledgeHammer SH7-CG)";
    FMS   0 15  0  7 10 "AMD Athlon 64 (unknown type) (DP SledgeHammer SH7-CG)";
    FMQ   0 15  0  7 dF "AMD Athlon 64 FX (DP SledgeHammer SH7)";
    FMQ   0 15  0  7 dA "AMD Athlon 64 (DP SledgeHammer SH7)";
    FM    0 15  0  7 "AMD Athlon 64 (unknown type) (DP SledgeHammer SH7)";
    FMSQ  0 15  0  8  2 MS "AMD mobile Sempron (ClawHammer CH7-CG)";
    FMSQ  0 15  0  8  2 MX "AMD mobile Athlon XP-M (ClawHammer CH7-CG)";
    FMSQ  0 15  0  8  2 MA "AMD mobile Athlon 64 (Odessa CH7-CG)";
    FMSQ  0 15  0  8  2 dA "AMD Athlon 64 (ClawHammer CH7-CG)";
    FMS   0 15  0  8  2 "AMD Athlon 64 (unknown type) (ClawHammer/Odessa CH7-CG)";
    FMQ   0 15  0  8 MS "AMD mobile Sempron (Odessa CH7)";
    FMQ   0 15  0  8 MX "AMD mobile Athlon XP-M (Odessa CH7)";
    FMQ   0 15  0  8 MA "AMD mobile Athlon 64 (Odessa CH7)";
    FMQ   0 15  0  8 dA "AMD Athlon 64 (ClawHammer CH7)";
    FM    0 15  0  8 "AMD Athlon 64 (unknown type) (ClawHammer/Odessa CH7)";
    FMS   0 15  0 11  2 "AMD Athlon 64 (ClawHammer CH7-CG)";
    FM    0 15  0 11 "AMD Athlon 64 (ClawHammer CH7)";
    FMSQ  0 15  0 12  0 MS "AMD mobile Sempron (Dublin DH7-CG)";
    FMSQ  0 15  0 12  0 dS "AMD Sempron (Paris DH7-CG)";
    FMSQ  0 15  0 12  0 MX "AMD mobile Athlon XP-M (ClawHammer/Odessa DH7-CG)";
    FMSQ  0 15  0 12  0 MA "AMD mobile Athlon 64 (ClawHammer/Odessa DH7-CG)";
    FMSQ  0 15  0 12  0 dA "AMD Athlon 64 (NewCastle DH7-CG)";
    FMS   0 15  0 12  0 "AMD Athlon 64 (unknown type) (ClawHammer/Odessa/NewCastle/Paris/Dublin DH7-CG)";
    FMQ   0 15  0 12 MS "AMD mobile Sempron (Dublin DH7)";
    FMQ   0 15  0 12 dS "AMD Sempron (Paris DH7)";
    FMQ   0 15  0 12 MX "AMD mobile Athlon XP-M (NewCastle DH7)";
    FMQ   0 15  0 12 MA "AMD mobile Athlon 64 (ClawHammer/Odessa DH7)";
    FMQ   0 15  0 12 dA "AMD Athlon 64 (NewCastle DH7)";
    FM    0 15  0 12 "AMD Athlon 64 (unknown type) (ClawHammer/Odessa/NewCastle/Paris/Dublin DH7)";
    FMSQ  0 15  0 14  0 MS "AMD mobile Sempron (Dublin DH7-CG)";
    FMSQ  0 15  0 14  0 dS "AMD Sempron (Paris DH7-CG)";
    FMSQ  0 15  0 14  0 MX "AMD mobile Athlon XP-M (ClawHammer/Odessa DH7-CG)";
    FMSQ  0 15  0 14  0 MA "AMD mobile Athlon 64 (ClawHammer/Odessa DH7-CG)";
    FMSQ  0 15  0 14  0 dA "AMD Athlon 64 (NewCastle DH7-CG)";
    FMS   0 15  0 14  0 "AMD Athlon 64 (unknown type) (ClawHammer/Odessa/NewCastle/Paris/Dublin DH7-CG)";
    FMQ   0 15  0 14 dS "AMD Sempron (Paris DH7)";
    FMQ   0 15  0 14 MS "AMD mobile Sempron (Dublin DH7)";
    FMQ   0 15  0 14 MX "AMD mobile Athlon XP-M (ClawHammer/Odessa DH7)";
    FMQ   0 15  0 14 MA "AMD mobile Athlon 64 (ClawHammer/Odessa DH7)";
    FMQ   0 15  0 14 dA "AMD Athlon 64 (NewCastle DH7)";
    FM    0 15  0 14 "AMD Athlon 64 (unknown type) (ClawHammer/Odessa/NewCastle/Paris/Dublin DH7)";
    FMSQ  0 15  0 15  0 dS "AMD Sempron (Paris DH7-CG)";
    FMSQ  0 15  0 15  0 MA "AMD mobile Athlon 64 (ClawHammer/Odessa DH7-CG)";
    FMSQ  0 15  0 15  0 dA "AMD Athlon 64 (NewCastle DH7-CG)";
    FMS   0 15  0 15  0 "AMD Athlon 64 (unknown type) (ClawHammer/Odessa/NewCastle/Paris DH7-CG)";
    FMQ   0 15  0 15 dS "AMD Sempron (Paris DH7)";
    FMQ   0 15  0 15 MA "AMD mobile Athlon 64 (ClawHammer/Odessa DH7)";
    FMQ   0 15  0 15 dA "AMD Athlon 64 (NewCastle DH7)";
    FM    0 15  0 15 "AMD Athlon 64 (unknown type) (ClawHammer/Odessa/NewCastle/Paris DH7)";
    FMSQ  0 15  1  4  0 MX "AMD mobile Athlon XP-M (Oakville SH7-D0)";
    FMSQ  0 15  1  4  0 MA "AMD mobile Athlon 64 (Oakville SH7-D0)";
    FMSQ  0 15  1  4  0 dA "AMD Athlon 64 (Winchester SH7-D0)";
    FMS   0 15  1  4  0 "AMD Athlon 64 (unknown type) (Winchester/Oakville SH7-D0)";
    FMQ   0 15  1  4 MX "AMD mobile Athlon XP-M (Oakville SH7)";
    FMQ   0 15  1  4 MA "AMD mobile Athlon 64 (Oakville SH7)";
    FMQ   0 15  1  4 dA "AMD Athlon 64 (Winchester SH7)";
    FM    0 15  1  4 "AMD Athlon 64 (unknown type) (Winchester/Oakville SH7)";
    FMSQ  0 15  1  5  0 sO "AMD Opteron (Winchester SH7-D0)";
    FMSQ  0 15  1  5  0 dF "AMD Athlon 64 FX (Winchester SH7-D0)";
    FMS   0 15  1  5  0 "AMD Athlon 64 (unknown type) (Winchester SH7-D0)";
    FMQ   0 15  1  5 sO "AMD Opteron (Winchester SH7)";
    FMQ   0 15  1  5 dF "AMD Athlon 64 FX (Winchester SH7)";
    FM    0 15  1  5 "AMD Athlon 64 (unknown type) (Winchester SH7)";
    FMSQ  0 15  1  7  0 dF "AMD Athlon 64 FX (Winchester SH7-D0)";
    FMSQ  0 15  1  7  0 dA "AMD Athlon 64 (Winchester SH7-D0)";
    FMS   0 15  1  7  0 "AMD Athlon 64 (unknown type) (Winchester SH7-D0)";
    FMQ   0 15  1  7 dF "AMD Athlon 64 FX (Winchester SH7)";
    FMQ   0 15  1  7 dA "AMD Athlon 64 (Winchester SH7)";
    FM    0 15  1  7 "AMD Athlon 64 (unknown type) (Winchester SH7)";
    FMSQ  0 15  1  8  0 MS "AMD mobile Sempron (Georgetown/Sonora CH-D0)";
    FMSQ  0 15  1  8  0 MX "AMD mobile Athlon XP-M (Oakville CH-D0)";
    FMSQ  0 15  1  8  0 MA "AMD mobile Athlon 64 (Oakville CH-D0)";
    FMSQ  0 15  1  8  0 dA "AMD Athlon 64 (Winchester CH-D0)";
    FMS   0 15  1  8  0 "AMD Athlon 64 (unknown type) (Winchester/Oakville/Georgetown/Sonora CH-D0)";
    FMQ   0 15  1  8 MS "AMD mobile Sempron (Georgetown/Sonora CH)";
    FMQ   0 15  1  8 MX "AMD mobile Athlon XP-M (Oakville CH)";
    FMQ   0 15  1  8 MA "AMD mobile Athlon 64 (Oakville CH)";
    FMQ   0 15  1  8 dA "AMD Athlon 64 (Winchester CH)";
    FM    0 15  1  8 "AMD Athlon 64 (unknown type) (Winchester/Oakville/Georgetown/Sonora CH)";
    FMS   0 15  1 11  0 "AMD Athlon 64 (Winchester CH-D0)";
    FM    0 15  1 11 "AMD Athlon 64 (Winchester CH)";
    FMSQ  0 15  1 12  0 MS "AMD mobile Sempron (Georgetown/Sonora DH8-D0)";
    FMSQ  0 15  1 12  0 dS "AMD Sempron (Palermo DH8-D0)";
    FMSQ  0 15  1 12  0 MX "AMD Athlon XP-M (Winchester DH8-D0)";
    FMSQ  0 15  1 12  0 MA "AMD mobile Athlon 64 (Oakville DH8-D0)";
    FMSQ  0 15  1 12  0 dA "AMD Athlon 64 (Winchester DH8-D0)";
    FMS   0 15  1 12  0 "AMD Athlon 64 (unknown type) (Winchester/Oakville/Georgetown/Sonora/Palermo DH8-D0)";
    FMQ   0 15  1 12 MS "AMD mobile Sempron (Georgetown/Sonora DH8)";
    FMQ   0 15  1 12 dS "AMD Sempron (Palermo DH8)";
    FMQ   0 15  1 12 MX "AMD Athlon XP-M (Winchester DH8)";
    FMQ   0 15  1 12 MA "AMD mobile Athlon 64 (Oakville DH8)";
    FMQ   0 15  1 12 dA "AMD Athlon 64 (Winchester DH8)";
    FM    0 15  1 12 "AMD Athlon 64 (Winchester/Oakville/Georgetown/Sonora/Palermo DH8)";
    FMSQ  0 15  1 15  0 dS "AMD Sempron (Palermo DH8-D0)";
    FMSQ  0 15  1 15  0 dA "AMD Athlon 64 (Winchester DH8-D0)";
    FMS   0 15  1 15  0 "AMD Athlon 64 (Winchester DH8-D0) / Sempron (Palermo DH8-D0)";
    FMQ   0 15  1 15 dS "AMD Sempron (Palermo DH8)";
    FMQ   0 15  1 15 dA "AMD Athlon 64 (Winchester DH8)";
    FM    0 15  1 15 "AMD Athlon 64 (unknown type) (Winchester/Palermo DH8)";
    FMSQ  0 15  2  1  0 s8 "AMD Dual Core Opteron (Egypt JH-E1)";
    FMSQ  0 15  2  1  0 sO "AMD Dual Core Opteron (Italy JH-E1)";
    FMS   0 15  2  1  0 "AMD Dual Core Opteron (Italy/Egypt JH-E1)";
    FMSQ  0 15  2  1  2 s8 "AMD Dual Core Opteron (Egypt JH-E6)";
    FMSQ  0 15  2  1  2 sO "AMD Dual Core Opteron (Italy JH-E6)";
    FMS   0 15  2  1  2 "AMD Dual Core Opteron (Italy/Egypt JH-E6)";
    FMQ   0 15  2  1 s8 "AMD Dual Core Opteron (Egypt JH)";
    FMQ   0 15  2  1 sO "AMD Dual Core Opteron (Italy JH)";
    FM    0 15  2  1 "AMD Dual Core Opteron (Italy/Egypt JH)";
    FMSQ  0 15  2  3  2 DO "AMD Dual Core Opteron (Denmark JH-E6)";
    FMSQ  0 15  2  3  2 dF "AMD Athlon 64 FX (Toledo JH-E6)";
    FMSQ  0 15  2  3  2 dm "AMD Athlon 64 X2 (Manchester JH-E6)";
    FMSQ  0 15  2  3  2 dA "AMD Athlon 64 X2 (Toledo JH-E6)";
    FMS   0 15  2  3  2 "AMD Athlon 64 (unknown type) (Toledo/Manchester/Denmark JH-E6)";
    FMQ   0 15  2  3 sO "AMD Dual Core Opteron (Denmark JH)";
    FMQ   0 15  2  3 dF "AMD Athlon 64 FX (Toledo JH)";
    FMQ   0 15  2  3 dm "AMD Athlon 64 X2 (Manchester JH)";
    FMQ   0 15  2  3 dA "AMD Athlon 64 X2 (Toledo JH)";
    FM    0 15  2  3 "AMD Athlon 64 (unknown type) (Toledo/Manchester/Denmark JH)";
    FMSQ  0 15  2  4  2 MA "AMD mobile Athlon 64 (Newark SH-E5)";
    FMSQ  0 15  2  4  2 MT "AMD mobile Turion (Lancaster/Richmond SH-E5)";
    FMS   0 15  2  4  2 "AMD mobile Athlon 64 (unknown type) (Newark/Lancaster/Richmond SH-E5)";
    FMQ   0 15  2  4 MA "AMD mobile Athlon 64 (Newark SH)";
    FMQ   0 15  2  4 MT "AMD mobile Turion (Lancaster/Richmond SH)";
    FM    0 15  2  4 "AMD mobile Athlon 64 (unknown type) (Newark/Lancaster/Richmond SH)";
    FMQ   0 15  2  5 s8 "AMD Opteron (Athens SH-E4)";
    FMQ   0 15  2  5 sO "AMD Opteron (Troy SH-E4)";
    FM    0 15  2  5 "AMD Opteron (Troy/Athens SH-E4)";
    FMSQ  0 15  2  7  1 sO "AMD Opteron (Venus SH-E4)";
    FMSQ  0 15  2  7  1 dF "AMD Athlon 64 FX (San Diego SH-E4)";
    FMSQ  0 15  2  7  1 dA "AMD Athlon 64 (San Diego SH-E4)";
    FMS   0 15  2  7  1 "AMD Athlon 64 (unknown type) (Venus/San Diego SH-E4)";
    FMQ   0 15  2  7 sO "AMD Opteron (San Diego SH)";
    FMQ   0 15  2  7 dF "AMD Athlon 64 FX (San Diego SH)";
    FMQ   0 15  2  7 dA "AMD Athlon 64 (San Diego SH)";
    FM    0 15  2  7 "AMD Athlon 64 (unknown type) (San Diego SH)";
    FM    0 15  2 11 "AMD Athlon 64 X2 (Manchester BH-E4)";
    FMS   0 15  2 12  0 "AMD Sempron (Palermo DH-E3)";
    FMSQ  0 15  2 12  2 MS "AMD mobile Sempron (Albany/Roma DH-E6)";
    FMSQ  0 15  2 12  2 dS "AMD Sempron (Palermo DH-E6)";
    FMSQ  0 15  2 12  2 dA "AMD Athlon 64 (Venice DH-E6)";
    FMS   0 15  2 12  2 "AMD Athlon 64 (Venice/Palermo/Albany/Roma DH-E6)";
    FMQ   0 15  2 12 MS "AMD mobile Sempron (Albany/Roma DH)";
    FMQ   0 15  2 12 dS "AMD Sempron (Palermo DH)";
    FMQ   0 15  2 12 dA "AMD Athlon 64 (Venice DH)";
    FM    0 15  2 12 "AMD Athlon 64 (Venice/Palermo/Albany/Roma DH)";
    FMSQ  0 15  2 15  0 dS "AMD Sempron (Palermo DH-E3)";
    FMSQ  0 15  2 15  0 dA "AMD Athlon 64 (Venice DH-E3)";
    FMS   0 15  2 15  0 "AMD Athlon 64 (Venice/Palermo DH-E3)";
    FMSQ  0 15  2 15  2 dS "AMD Sempron (Palermo DH-E6)";
    FMSQ  0 15  2 15  2 dA "AMD Athlon 64 (Venice DH-E6)";
    FMS   0 15  2 15  2 "AMD Athlon 64 (Venice/Palermo DH-E6)";
    FMQ   0 15  2 15 dS "AMD Sempron (Palermo DH)";
    FMQ   0 15  2 15 dA "AMD Athlon 64 (Venice DH)";
    FM    0 15  2 15 "AMD Athlon 64 (Venice/Palermo DH)";
    FMS   0 15  4  1  2 "AMD Dual-Core Opteron (Santa Rosa JH-F2)";
    FMS   0 15  4  1  3 "AMD Dual-Core Opteron (Santa Rosa JH-F3)";
    FM    0 15  4  1 "AMD Dual-Core Opteron (Santa Rosa)";
    FMSQ  0 15  4  3  2 DO "AMD Dual-Core Opteron (Santa Rosa JH-F2)";
    FMSQ  0 15  4  3  2 sO "AMD Opteron (Santa Rosa JH-F2)";
    FMSQ  0 15  4  3  2 dF "AMD Athlon 64 FX Dual-Core (Windsor JH-F2)";
    FMSQ  0 15  4  3  2 dA "AMD Athlon 64 X2 Dual-Core (Windsor JH-F2)";
    FMS   0 15  4  3  2 "AMD Athlon 64 (unknown type) (Windsor JH-F2)";
    FMSQ  0 15  4  3  3 DO "AMD Dual-Core Opteron (Santa Rosa JH-F3)";
    FMSQ  0 15  4  3  3 sO "AMD Opteron (Santa Rosa JH-F3)";
    FMSQ  0 15  4  3  3 dF "AMD Athlon 64 FX Dual-Core (Windsor JH-F3)";
    FMSQ  0 15  4  3  3 dA "AMD Athlon 64 X2 Dual-Core (Windsor JH-F3)";
    FMS   0 15  4  3  3 "AMD Athlon 64 (unknown type) (Windsor/Santa Rosa JH-F3)";
    FMQ   0 15  4  3 DO "AMD Dual-Core Opteron (Santa Rosa)";
    FMQ   0 15  4  3 sO "AMD Opteron (Santa Rosa)";
    FMQ   0 15  4  3 dF "AMD Athlon 64 FX Dual-Core (Windsor)";
    FMQ   0 15  4  3 dA "AMD Athlon 64 X2 Dual-Core (Windsor)";
    FM    0 15  4  3 "AMD Athlon 64 (unknown type) (Windsor/Santa Rosa)";
    FMSQ  0 15  4  8  2 dA "AMD Athlon 64 X2 Dual-Core (Windsor BH-F2)";
    FMSQ  0 15  4  8  2 Mt "AMD Turion 64 X2 (Trinidad BH-F2)";
    FMSQ  0 15  4  8  2 MT "AMD Turion 64 X2 (Taylor BH-F2)";
    FMS   0 15  4  8  2 "AMD Athlon 64 (unknown type) (Windsor/Taylor/Trinidad BH-F2)";
    FMQ   0 15  4  8 dA "AMD Athlon 64 X2 Dual-Core (Windsor)";
    FMQ   0 15  4  8 Mt "AMD Turion 64 X2 (Trinidad)";
    FMQ   0 15  4  8 MT "AMD Turion 64 X2 (Taylor)";
    FM    0 15  4  8 "AMD Athlon 64 (unknown type) (Windsor/Taylor/Trinidad)";
    FMS   0 15  4 11  2 "AMD Athlon 64 X2 Dual-Core (Windsor BH-F2)";
    FM    0 15  4 11 "AMD Athlon 64 X2 Dual-Core (Windsor)";
    FMSQ  0 15  4 12  2 MS "AMD mobile Sempron (Keene BH-F2)";
    FMSQ  0 15  4 12  2 dS "AMD Sempron (Manila BH-F2)";
    FMSQ  0 15  4 12  2 Mt "AMD Turion (Trinidad BH-F2)";
    FMSQ  0 15  4 12  2 MT "AMD Turion (Taylor BH-F2)";
    FMSQ  0 15  4 12  2 dA "AMD Athlon 64 (Orleans BH-F2)";
    FMS   0 15  4 12  2 "AMD Athlon 64 (unknown type) (Orleans/Manila/Keene/Taylor/Trinidad BH-F2)";
    FMQ   0 15  4 12 MS "AMD mobile Sempron (Keene)";
    FMQ   0 15  4 12 dS "AMD Sempron (Manila)";
    FMQ   0 15  4 12 Mt "AMD Turion (Trinidad)";
    FMQ   0 15  4 12 MT "AMD Turion (Taylor)";
    FMQ   0 15  4 12 dA "AMD Athlon 64 (Orleans)";
    FM    0 15  4 12 "AMD Athlon 64 (unknown type) (Orleans/Manila/Keene/Taylor/Trinidad)";
    FMSQ  0 15  4 15  2 MS "AMD mobile Sempron (Keene DH-F2)";
    FMSQ  0 15  4 15  2 dS "AMD Sempron (Manila DH-F2)";
    FMSQ  0 15  4 15  2 dA "AMD Athlon 64 (Orleans DH-F2)";
    FMS   0 15  4 15  2 "AMD Athlon 64 (unknown type) (Orleans/Manila/Keene DH-F2)";
    FMQ   0 15  4 15 MS "AMD mobile Sempron (Keene)";
    FMQ   0 15  4 15 dS "AMD Sempron (Manila)";
    FMQ   0 15  4 15 dA "AMD Athlon 64 (Orleans)";
    FM    0 15  4 15 "AMD Athlon 64 (unknown type) (Orleans/Manila/Keene)";
    FMS   0 15  5 13  3 "AMD Opteron (Santa Rosa JH-F3)";
    FM    0 15  5 13 "AMD Opteron (Santa Rosa)";
    FMSQ  0 15  5 15  2 MS "AMD mobile Sempron (Keene DH-F2)";
    FMSQ  0 15  5 15  2 dS "AMD Sempron (Manila DH-F2)";
    FMSQ  0 15  5 15  2 dA "AMD Athlon 64 (Orleans DH-F2)";
    FMS   0 15  5 15  2 "AMD Athlon 64 (unknown type) (Orleans/Manila/Keene DH-F2)";
    FMS   0 15  5 15  3 "AMD Athlon 64 (Orleans DH-F3)";
    FMQ   0 15  5 15 MS "AMD mobile Sempron (Keene)";
    FMQ   0 15  5 15 dS "AMD Sempron (Manila)";
    FMQ   0 15  5 15 dA "AMD Athlon 64 (Orleans)";
    FM    0 15  5 15 "AMD Athlon 64 (unknown type) (Orleans/Manila/Keene)";
    FM    0 15  5 15 "AMD Athlon 64 (Orleans)";
    FMS   0 15  6  8  1 "AMD Turion 64 X2 (Tyler BH-G1)";
    FMSQ  0 15  6  8  2 MT "AMD Turion 64 X2 (Tyler BH-G2)";
    FMSQ  0 15  6  8  2 dS "AMD Sempron Dual-Core (Tyler BH-G2)";
    FMS   0 15  6  8  2 "AMD Turion 64 (unknown type) (Tyler BH-G2)";
    FMQ   0 15  6  8 MT "AMD Turion 64 X2 (Tyler)";
    FMQ   0 15  6  8 dS "AMD Sempron Dual-Core (Tyler)";
    FM    0 15  6  8 "AMD Turion 64 (unknown type) (Tyler)";
    FMSQ  0 15  6 11  1 dS "AMD Sempron Dual-Core (Sparta BH-G1)";
    FMSQ  0 15  6 11  1 dA "AMD Athlon 64 X2 Dual-Core (Brisbane BH-G1)";
    FMS   0 15  6 11  1 "AMD Athlon 64 (unknown type) (Brisbane/Sparta BH-G1)";
    FMSQ  0 15  6 11  2 dA "AMD Athlon 64 X2 Dual-Core (Brisbane BH-G2)";
    FMSQ  0 15  6 11  2 Mn "AMD Turion Neo X2 Dual-Core (Huron BH-G2)";
    FMSQ  0 15  6 11  2 MN "AMD Athlon Neo X2 (Huron BH-G2)";
    FMS   0 15  6 11  2 "AMD Athlon 64 (unknown type) (Brisbane/Huron BH-G2)";
    FMQ   0 15  6 11 dS "AMD Sempron Dual-Core (Sparta)";
    FMQ   0 15  6 11 Mn "AMD Turion Neo X2 Dual-Core (Huron)";
    FMQ   0 15  6 11 MN "AMD Athlon Neo X2 (Huron)";
    FMQ   0 15  6 11 dA "AMD Athlon 64 X2 Dual-Core (Brisbane)";
    FM    0 15  6 11 "AMD Athlon 64 (unknown type) (Brisbane/Sparta/Huron)";
    FMSQ  0 15  6 12  2 MS "AMD mobile Sempron (Sherman DH-G2)";
    FMSQ  0 15  6 12  2 dS "AMD Sempron (Sparta DH-G2)";
    FMSQ  0 15  6 12  2 dA "AMD Athlon 64 (Lima DH-G2)";
    FMS   0 15  6 12  2 "AMD Athlon 64 (unknown type) (Lima/Sparta/Sherman DH-G2)";
    FMQ   0 15  6 12 MS "AMD mobile Sempron (Sherman)";
    FMQ   0 15  6 12 dS "AMD Sempron (Sparta)";
    FMQ   0 15  6 12 dA "AMD Athlon 64 (Lima)";
    FM    0 15  6 12 "AMD Athlon 64 (unknown type) (Lima/Sparta/Sherman)";
    FMSQ  0 15  6 15  2 MS "AMD mobile Sempron (Sherman DH-G2)";
    FMSQ  0 15  6 15  2 dS "AMD Sempron (Sparta DH-G2)";
    FMSQ  0 15  6 15  2 MN "AMD Athlon Neo (Huron DH-G2)";
    FMS   0 15  6 15  2 "AMD Athlon Neo (unknown type) (Huron/Sparta/Sherman DH-G2)";
    FMQ   0 15  6 15 MS "AMD mobile Sempron (Sherman)";
    FMQ   0 15  6 15 dS "AMD Sempron (Sparta)";
    FMQ   0 15  6 15 MN "AMD Athlon Neo (Huron)";
    FM    0 15  6 15 "AMD Athlon Neo (unknown type) (Huron/Sparta/Sherman)";
    FMSQ  0 15  7 12  2 MS "AMD mobile Sempron (Sherman DH-G2)";
    FMSQ  0 15  7 12  2 dS "AMD Sempron (Sparta DH-G2)";
    FMSQ  0 15  7 12  2 dA "AMD Athlon (Lima DH-G2)";
    FMS   0 15  7 12  2 "AMD Athlon (unknown type) (Lima/Sparta/Sherman DH-G2)";
    FMQ   0 15  7 12 MS "AMD mobile Sempron (Sherman)";
    FMQ   0 15  7 12 dS "AMD Sempron (Sparta)";
    FMQ   0 15  7 12 dA "AMD Athlon (Lima)";
    FM    0 15  7 12 "AMD Athlon (unknown type) (Lima/Sparta/Sherman)";
    FMSQ  0 15  7 15  1 MS "AMD mobile Sempron (Sherman DH-G1)";
    FMSQ  0 15  7 15  1 dS "AMD Sempron (Sparta DH-G1)";
    FMSQ  0 15  7 15  1 dA "AMD Athlon 64 (Lima DH-G1)";
    FMS   0 15  7 15  1 "AMD Athlon 64 (unknown type) (Lima/Sparta/Sherman DH-G1)";
    FMSQ  0 15  7 15  2 MS "AMD mobile Sempron (Sherman DH-G2)";
    FMSQ  0 15  7 15  2 dS "AMD Sempron (Sparta DH-G2)";
    FMSQ  0 15  7 15  2 MN "AMD Athlon Neo (Huron DH-G2)";
    FMSQ  0 15  7 15  2 dA "AMD Athlon 64 (Lima DH-G2)";
    FMS   0 15  7 15  2 "AMD Athlon 64 (unknown type) (Lima/Sparta/Sherman/Huron DH-G2)";
    FMQ   0 15  7 15 MS "AMD mobile Sempron (Sherman)";
    FMQ   0 15  7 15 dS "AMD Sempron (Sparta)";
    FMQ   0 15  7 15 MN "AMD Athlon Neo (Huron)";
    FMQ   0 15  7 15 dA "AMD Athlon 64 (Lima)";
    FM    0 15  7 15 "AMD Athlon 64 (unknown type) (Lima/Sparta/Sherman/Huron)";
    FMS   0 15 12  1  3 "AMD Athlon 64 FX Dual-Core (Windsor JH-F3)";
    FM    0 15 12  1 "AMD Athlon 64 FX Dual-Core (Windsor)";
    F     0 15 "AMD (unknown model)";
    FMSQ  1 15  0  2  1 sO "AMD Quad-Core Opteron (Barcelona DR-B1)";
    FMS   1 15  0  2  1 "AMD (unknown type) (Barcelona DR-B1)";
    FMSQ  1 15  0  2  2 EO "AMD Embedded Opteron (Barcelona DR-B2)";
    FMSQ  1 15  0  2  2 sO "AMD Quad-Core Opteron (Barcelona DR-B2)";
    FMSQ  1 15  0  2  2 Tp "AMD Phenom Triple-Core (Toliman DR-B2)";
    FMSQ  1 15  0  2  2 Qp "AMD Phenom Quad-Core (Agena DR-B2)";
    FMS   1 15  0  2  2 "AMD (unknown type) (Barcelona/Toliman/Agena DR-B2)";
    FMSQ  1 15  0  2  3 EO "AMD Embedded Opteron (Barcelona DR-B3)";
    FMSQ  1 15  0  2  3 sO "AMD Quad-Core Opteron (Barcelona DR-B3)";
    FMSQ  1 15  0  2  3 Tp "AMD Phenom Triple-Core (Toliman DR-B3)";
    FMSQ  1 15  0  2  3 Qp "AMD Phenom Quad-Core (Agena DR-B3)";
    FMSQ  1 15  0  2  3 dA "AMD Athlon Dual-Core (Kuma DR-B3)";
    FMS   1 15  0  2  3 "AMD (unknown type) (Barcelona/Toliman/Agena/Kuma DR-B3)";
    FMS   1 15  0  2 10 "AMD Quad-Core Opteron (Barcelona DR-BA)";
    FMQ   1 15  0  2 EO "AMD Embedded Opteron (Barcelona)";
    FMQ   1 15  0  2 sO "AMD Quad-Core Opteron (Barcelona)";
    FMQ   1 15  0  2 Tp "AMD Phenom Triple-Core (Toliman)";
    FMQ   1 15  0  2 Qp "AMD Phenom Quad-Core (Agena)";
    FMQ   1 15  0  2 dA "AMD Athlon Dual-Core (Kuma)";
    FM    1 15  0  2 "AMD (unknown type) (Barcelona/Toliman/Agena/Kuma)";
    FMSQ  1 15  0  4  2 EO "AMD Embedded Opteron (Shanghai RB-C2)";
    FMSQ  1 15  0  4  2 sO "AMD Quad-Core Opteron (Shanghai RB-C2)";
    FMSQ  1 15  0  4  2 dr "AMD Athlon Dual-Core (Propus RB-C2)";
    FMSQ  1 15  0  4  2 dA "AMD Athlon Dual-Core (Regor RB-C2)";
    FMSQ  1 15  0  4  2 Dp "AMD Phenom II X2 (Callisto RB-C2)";
    FMSQ  1 15  0  4  2 Tp "AMD Phenom II X3 (Heka RB-C2)";
    FMSQ  1 15  0  4  2 Qp "AMD Phenom II X4 (Deneb RB-C2)";
    FMS   1 15  0  4  2 "AMD Athlon (unknown type) (Regor/Propus/Shanghai/Callisto/Heka/Deneb RB-C2)";
    FMSQ  1 15  0  4  3 Dp "AMD Phenom II X2 (Callisto RB-C3)";
    FMSQ  1 15  0  4  3 Tp "AMD Phenom II X3 (Heka RB-C3)";
    FMSQ  1 15  0  4  3 Qp "AMD Phenom II X4 (Deneb RB-C3)";
    FMS   1 15  0  4  3 "AMD Phenom II (unknown type) (Callisto/Heka/Deneb RB-C3)";
    FMQ   1 15  0  4 EO "AMD Embedded Opteron (Shanghai)";
    FMQ   1 15  0  4 sO "AMD Quad-Core Opteron (Shanghai)";
    FMQ   1 15  0  4 dr "AMD Athlon Dual-Core (Propus)";
    FMQ   1 15  0  4 dA "AMD Athlon Dual-Core (Regor)";
    FMQ   1 15  0  4 Dp "AMD Phenom II X2 (Callisto)";
    FMQ   1 15  0  4 Tp "AMD Phenom II X3 (Heka)";
    FMQ   1 15  0  4 Qp "AMD Phenom II X4 (Deneb)";
    FM    1 15  0  4 "AMD Athlon (unknown type) (Regor/Propus/Shanghai/Callisto/Heka/Deneb)";
    FMSQ  1 15  0  5  2 DA "AMD Athlon II X2 (Regor BL-C2)";
    FMSQ  1 15  0  5  2 TA "AMD Athlon II X3 (Rana BL-C2)";
    FMSQ  1 15  0  5  2 QA "AMD Athlon II X4 (Propus BL-C2)";
    FMS   1 15  0  5  2 "AMD Athlon (unknown type) (Regor/Rana/Propus BL-C2)";
    FMSQ  1 15  0  5  3 TA "AMD Athlon II X3 (Rana BL-C3)";
    FMSQ  1 15  0  5  3 QA "AMD Athlon II X4 (Propus BL-C3)";
    FMSQ  1 15  0  5  3 Tp "AMD Phenom II Triple-Core (Heka BL-C3)";
    FMSQ  1 15  0  5  3 Qp "AMD Phenom II Quad-Core (Deneb BL-C3)";
    FMS   1 15  0  5  3 "AMD Athlon (unknown type) (Regor/Rana/Propus/Callisto/Heka/Deneb BL-C3)";
    FMQ   1 15  0  5 DA "AMD Athlon II X2 (Regor)";
    FMQ   1 15  0  5 TA "AMD Athlon II X3 (Rana)";
    FMQ   1 15  0  5 QA "AMD Athlon II X4 (Propus)";
    FMQ   1 15  0  5 Tp "AMD Phenom II Triple-Core (Heka)";
    FMQ   1 15  0  5 Qp "AMD Phenom II Quad-Core (Deneb)";
    FM    1 15  0  5 "AMD Athlon (unknown type) (Regor/Rana/Propus/Callisto/Heka/Deneb)";
    FMSQ  1 15  0  6  2 MS "AMD Sempron Mobile (Sargas DA-C2)";
    FMSQ  1 15  0  6  2 dS "AMD Sempron II (Sargas DA-C2)";
    FMSQ  1 15  0  6  2 MT "AMD Turion II Dual-Core Mobile (Caspian DA-C2)";
    FMSQ  1 15  0  6  2 MA "AMD Athlon II Dual-Core Mobile (Regor DA-C2)";
    FMSQ  1 15  0  6  2 DA "AMD Athlon II X2 (Regor DA-C2)";
    FMSQ  1 15  0  6  2 dA "AMD Athlon II (Sargas DA-C2)";
    FMS   1 15  0  6  2 "AMD Athlon (unknown type) (Regor/Sargas/Caspain DA-C2)";
    FMSQ  1 15  0  6  3 Ms "AMD V-Series Mobile (Champlain DA-C3)";
    FMSQ  1 15  0  6  3 DS "AMD Sempron II X2 (Regor DA-C3)";
    FMSQ  1 15  0  6  3 dS "AMD Sempron II (Sargas DA-C3)";
    FMSQ  1 15  0  6  3 MT "AMD Turion II Dual-Core Mobile (Champlain DA-C3)";
    FMSQ  1 15  0  6  3 Mp "AMD Phenom II Dual-Core Mobile (Champlain DA-C3)";
    FMSQ  1 15  0  6  3 MA "AMD Athlon II Dual-Core Mobile (Champlain DA-C3)";
    FMSQ  1 15  0  6  3 DA "AMD Athlon II X2 (Regor DA-C3)";
    FMSQ  1 15  0  6  3 dA "AMD Athlon II (Sargas DA-C3)";
    FMS   1 15  0  6  3 "AMD Athlon (unknown type) (Regor/Sargas/Champlain DA-C3)";
    FMQ   1 15  0  6 Ms "AMD V-Series Mobile (Champlain)";
    FMQ   1 15  0  6 MS "AMD Sempron Mobile (Sargas)";
    FMQ   1 15  0  6 DS "AMD Sempron II X2 (Regor)";
    FMQ   1 15  0  6 dS "AMD Sempron II (Sargas)";
    FMQ   1 15  0  6 MT "AMD Turion II Dual-Core Mobile (Caspian / Champlain)";
    FMQ   1 15  0  6 Mp "AMD Phenom II Dual-Core Mobile (Champlain)";
    FMQ   1 15  0  6 MA "AMD Athlon II Dual-Core Mobile (Regor / Champlain)";
    FMQ   1 15  0  6 DA "AMD Athlon II X2 (Regor)";
    FMQ   1 15  0  6 dA "AMD Athlon II (Sargas)";
    FM    1 15  0  6 "AMD Athlon (unknown type) (Regor/Sargas/Caspian/Champlain)";
    FMSQ  1 15  0  8  0 SO "AMD Six-Core Opteron (Istanbul HY-D0)";
    FMSQ  1 15  0  8  0 sO "AMD Opteron 4100 (Lisbon HY-D0)";
    FMS   1 15  0  8  0 "AMD Opteron (unknown type) (Lisbon/Istanbul HY-D0)";
    FMS   1 15  0  8  1 "AMD Opteron 4100 (Lisbon HY-D1)";
    FMQ   1 15  0  8 SO "AMD Six-Core Opteron (Istanbul)";
    FMQ   1 15  0  8 sO "AMD Opteron 4100 (Lisbon)";
    FM    1 15  0  8 "AMD Opteron (unknown type) (Lisbon/Istanbul)";
    FMS   1 15  0  9  1 "AMD Opteron 6100 (Magny-Cours HY-D1)";
    FM    1 15  0  9 "AMD Opteron 6100 (Magny-Cours)";
    FMSQ  1 15  0 10  0 Qp "AMD Phenom II X4 (Zosma PH-E0)";
    FMSQ  1 15  0 10  0 Sp "AMD Phenom II X6 (Thuban PH-E0)";
    FMS   1 15  0 10  0 "AMD Phenom II (unknown type) (Zosma/Thuban PH-E0)";
    FMQ   1 15  0 10 Qp "AMD Phenom II X4 (Zosma)";
    FMQ   1 15  0 10 Sp "AMD Phenom II X6 (Thuban)";
    FM    1 15  0 10 "AMD Phenom II (unknown type) (Zosma/Thuban)";
    F     1 15 "AMD (unknown model)";
    FMSQ  2 15  0  3  1 MU "AMD Turion X2 Ultra Dual-Core Mobile (Griffin LG-B1)";
    FMSQ  2 15  0  3  1 MT "AMD Turion X2 Dual-Core Mobile (Lion LG-B1)";
    FMSQ  2 15  0  3  1 DS "AMD Sempron X2 Dual-Core (Sable LG-B1)";
    FMSQ  2 15  0  3  1 dS "AMD Sempron (Sable LG-B1)";
    FMSQ  2 15  0  3  1 DA "AMD Athlon X2 Dual-Core (Lion LG-B1)";
    FMSQ  2 15  0  3  1 dA "AMD Athlon (Lion LG-B1)";
    FMS   2 15  0  3  1 "AMD Athlon (unknown type) (Lion/Sable LG-B1)";
    FMQ   2 15  0  3 MU "AMD Turion X2 Ultra (Griffin)";
    FMQ   2 15  0  3 MT "AMD Turion X2 (Lion)";
    FMQ   2 15  0  3 DS "AMD Sempron X2 Dual-Core (Sable)";
    FMQ   2 15  0  3 dS "AMD Sempron (Sable)";
    FMQ   2 15  0  3 DA "AMD Athlon X2 Dual-Core (Lion)";
    FMQ   2 15  0  3 dA "AMD Athlon (Lion)";
    FM    2 15  0  3 "AMD Athlon (unknown type) (Lion/Sable)";
    F     2 15 "AMD (unknown model)";
    FMSQ  3 15  0  1  0 dS "AMD Sempron Dual-Core (Llano LN-B0)";
    FMSQ  3 15  0  1  0 dA "AMD Athlon II Dual-Core (Llano LN-B0)";
    FMSQ  3 15  0  1  0 Sa "AMD A-Series (Llano LN-B0)";
    FMSQ  3 15  0  1  0 Se "AMD E2-Series (Llano LN-B0)";
    FMS   3 15  0  1  0 "AMD Athlon (unknown type) (Llano LN-B0)";
    FMQ   3 15  0  1 dS "AMD Sempron Dual-Core (Llano)";
    FMQ   3 15  0  1 dA "AMD Athlon II Dual-Core (Llano)";
    FMQ   3 15  0  1 Sa "AMD A-Series (Llano)";
    FMQ   3 15  0  1 Se "AMD E2-Series (Llano)";
    FM    3 15  0  1 "AMD Athlon (unknown type) (Llano)";
    F     3 15 "AMD (unknown model) (Llano)";
    FMSQ  5 15  0  1  0 Sc "AMD C-Series (Ontario ON-B0)";
    FMSQ  5 15  0  1  0 Se "AMD E-Series (Zacate ON-B0)";
    FMSQ  5 15  0  1  0 Sg "AMD G-Series (Ontario/Zacate ON-B0)";
    FMSQ  5 15  0  1  0 Sz "AMD Z-Series (Desna ON-B0)";
    FMS   5 15  0  1  0 "AMD (unknown type) (Ontario/Zacate/Desna ON-B0)";
    FM    5 15  0  1 "AMD (unknown type) (Ontario/Zacate/Desna)";
    FMSQ  5 15  0  2  0 Sc "AMD C-Series (Ontario ON-C0)";
    FMSQ  5 15  0  2  0 Se "AMD E-Series (Zacate ON-C0)";
    FMSQ  5 15  0  2  0 Sg "AMD G-Series (Ontario/Zacate ON-C0)";
    FMSQ  5 15  0  2  0 Sz "AMD Z-Series (Desna ON-C0)";
    FMS   5 15  0  2  0 "AMD (unknown type) (Ontario/Zacate/Desna ON-C0)";
    FM    5 15  0  2 "AMD (unknown type) (Ontario/Zacate/Desna)";
    F     5 15 "AMD (unknown model)";
    FMSQ  6 15  0  1  2 sO "AMD Opteron 6200 (Interlagos OR-B2) / Opteron 4200 (Valencia OR-B2) / Opteron 3200 (Zurich OR-B2)";
    FMSQ  6 15  0  1  2 df "AMD FX-Series (Zambezi OR-B2)";
    FMS   6 15  0  1  2 "AMD (unknown type) (Interlagos/Valencia/Zurich/Zambezi OR-B2)";
    FMQ   6 15  0  1 sO "AMD Opteron 6200 (Interlagos) / Opteron 4200 (Valencia) / Opteron 3200 (Zurich)";
    FMQ   6 15  0  1 df "AMD FX-Series (Zambezi)";
    FM    6 15  0  1 "AMD (unknown type) (Interlagos/Valencia/Zurich/Zambezi)";
    FMSQ  6 15  0  2  0 sO "AMD Opteron 6300 (Abu Dhabi OR-C0) / Opteron 4300 (Seoul OR-C0) / Opteron 3300 (Delhi OR-C0)";
    FMSQ  6 15  0  2  0 df "AMD FX-Series (Vishera OR-C0)";
    FMS   6 15  0  2  0 "AMD (unknown type) (Abu Dhabi/Seoul/Delhi/Vishera OR-C0)";
    FMQ   6 15  0  2 sO "AMD Opteron 6300 (Abu Dhabi) / Opteron 4300 (Seoul) / Opteron 3300 (Delhi)";
    FMQ   6 15  0  2 df "AMD FX-Series (Vishera)";
    FM    6 15  0  2 "AMD (unknown type) (Abu Dhabi/Seoul/Delhi/Vishera)";
    FMSQ  6 15  1  0  1 Sa "AMD A-Series (Trinity TN-A1)";
    FMSQ  6 15  1  0  1 Sr "AMD R-Series (Trinity TN-A1)";
    FMSQ  6 15  1  0  1 dA "AMD Athlon Dual-Core / Athlon Quad-Core (Trinity TN-A1)";
    FMSQ  6 15  1  0  1 dS "AMD Sempron Dual-Core (Trinity TN-A1)";
    FMSQ  6 15  1  0  1 dI "AMD FirePro (Trinity TN-A1)";
    FMS   6 15  1  0  1 "AMD (unknown type) (Trinity TN-A1)";
    FMQ   6 15  1  0 Sa "AMD A-Series (Trinity)";
    FMQ   6 15  1  0 Sr "AMD R-Series (Trinity)";
    FMQ   6 15  1  0 dA "AMD Athlon Dual-Core / Athlon Quad-Core (Trinity)";
    FMQ   6 15  1  0 dS "AMD Sempron Dual-Core (Trinity)";
    FMQ   6 15  1  0 dI "AMD FirePro (Trinity)";
    FM    6 15  1  0 "AMD (unknown type) (Trinity TN-A1)";
    FMSQ  6 15  1  3  1 Sa "AMD A-Series (Richland RL-A1)";
    FMSQ  6 15  1  3  1 Sr "AMD R-Series (Richland RL-A1)";
    FMSQ  6 15  1  3  1 dA "AMD Athlon Dual-Core / Athlon Quad-Core (Richland RL-A1)";
    FMSQ  6 15  1  3  1 dS "AMD Sempron Dual-Core (Richland RL-A1)";
    FMSQ  6 15  1  3  1 dI "AMD FirePro (Richland RL-A1)";
    FMS   6 15  1  3  1 "AMD (unknown type) (Richland RL-A1)";
    FMQ   6 15  1  3 Sa "AMD A-Series (Richland)";
    FMQ   6 15  1  3 Sr "AMD R-Series (Richland)";
    FMQ   6 15  1  3 dA "AMD Athlon Dual-Core / Athlon Quad-Core (Richland)";
    FMQ   6 15  1  3 dS "AMD Sempron Dual-Core (Richland)";
    FMQ   6 15  1  3 dI "AMD FirePro (Richland)";
    FM    6 15  1  3 "AMD (unknown type) (Richland)";
    FMSQ  6 15  3  0  1 Sa "AMD Elite Performance A-Series (Kaveri KV-A1)";
    FMSQ  6 15  3  0  1 Mr "AMD Mobile R-Series (Kaveri KV-A1)";
    FMSQ  6 15  3  0  1 sO "AMD Opteron X1200 / X2200 (Kaveri KV-A1)";
    FMS   6 15  3  0  1 "AMD (unknown type) (Kaveri KV-A1)";
    FMQ   6 15  3  0 Sa "AMD Elite Performance A-Series (Kaveri)";
    FMQ   6 15  3  0 Mr "AMD Mobile R-Series (Kaveri)";
    FMQ   6 15  3  0 sO "AMD Opteron X1200 / X2200 (Kaveri)";
    FM    6 15  3  0 "AMD (unknown type) (Kaveri)";
    FMQ   6 15  3  8 Sa "AMD A-Series (Godavari)";
    FM    6 15  3  8 "AMD (unknown type) (Godavari)";
    FMQ   6 15  6  5 Sa "AMD A-Series (Carrizo/Bristol Ridge/Stoney Ridge)";
    FMQ   6 15  6  5 Se "AMD E-Series (Stoney Ridge)";
    FMQ   6 15  6  5 Sg "AMD G-Series (Brown Falcon/Prairie Falcon)";
    FM    6 15  6  5 "AMD (unknown type) (Carrizo/Bristol Ridge/Stoney Ridge/Toronto/Brown Falcon/Prairie Falcon)";
    FMSQ  6 15  7  0  0 Sa "AMD A-Series (Carrizo/Bristol Ridge/Stoney Ridge ST-A0)";
    FMSQ  6 15  7  0  0 Se "AMD E-Series (Stoney Ridge ST-A0)";
    FMSQ  6 15  7  0  0 Sg "AMD G-Series (Brown Falcon/Prairie Falcon ST-A0)";
    FMS   6 15  7  0  0 "AMD (unknown type) (Carrizo/Bristol Ridge/Stoney Ridge/Toronto/Brown Falcon/Prairie Falcon ST-A0)";
    FMQ   6 15  7  0 Sa "AMD A-Series (Carrizo/Bristol Ridge/Stoney Ridge)";
    FMQ   6 15  7  0 Se "AMD E-Series (Stoney Ridge)";
    FMQ   6 15  7  0 Sg "AMD G-Series (Brown Falcon/Prairie Falcon)";
    FM    6 15  7  0 "AMD (unknown type) (Carrizo/Bristol Ridge/Stoney Ridge/Toronto/Brown Falcon/Prairie Falcon)";
    F     6 15 "AMD (unknown model)";
    FMSQ  7 15  0  0  1 dA "AMD Athlon (Kabini KB-A1)";
    FMSQ  7 15  0  0  1 Sa "AMD A-Series (Kabini/Temash KB-A1)";
    FMSQ  7 15  0  0  1 Se "AMD E-Series (Kabini KB-A1)";
    FMSQ  7 15  0  0  1 Sg "AMD G-Series (Kabini KB-A1)";
    FMSQ  7 15  0  0  1 sO "AMD Opteron X1100/X2100 Series (Kyoto KB-A1)";
    FMS   7 15  0  0  1 "AMD (unknown type) (Kabini/Temash/Kyoto KB-A1)";
    FMQ   7 15  0  0 dA "AMD Athlon (Kabini)";
    FMQ   7 15  0  0 Sa "AMD A-Series (Kabini/Temash)";
    FMQ   7 15  0  0 Se "AMD E-Series (Kabini)";
    FMQ   7 15  0  0 Sg "AMD G-Series (Kabini)";
    FMQ   7 15  0  0 sO "AMD Opteron X1100/X2100 Series (Kyoto)";
    FM    7 15  0  0 "AMD (unknown type) (Kabini/Temash/Kyoto)";
    FMSQ  7 15  3  0  1 Sa "AMD A-Series (Beema ML-A1)";
    FMSQ  7 15  3  0  1 Se "AMD E-Series (Beema ML-A1)";
    FMSQ  7 15  3  0  1 Ta "AMD A-Series Micro (Mullins ML-A1)";
    FMSQ  7 15  3  0  1 Te "AMD E-Series Micro (Mullins ML-A1)";
    FMS   7 15  3  0  1 "AMD (unknown type) (Beema/Mullins ML-A1)";
    FMQ   7 15  3  0 Sa "AMD A-Series (Beema)";
    FMQ   7 15  3  0 Se "AMD E-Series (Beema)";
    FMQ   7 15  3  0 Ta "AMD A-Series Micro (Mullins)";
    FMQ   7 15  3  0 Te "AMD E-Series Micro (Mullins)";
    FM    7 15  3  0 "AMD (unknown type) (Beema/Mullins)";
    F     7 15 "AMD (unknown model)";
    FMSQ  8 15  0  1  0 dR "AMD Ryzen (Summit Ridge ZP-B0)";
    FMSQ  8 15  0  1  0 sE "AMD EPYC (Naples B0)";
    FMS   8 15  0  1  0 "AMD (unknown type) (Summit Ridge/Naples ZP-B0)";
    FMSQ  8 15  0  1  1 sE "AMD EPYC (Naples B1)";
    FMSQ  8 15  0  1  1 dR "AMD Ryzen (Summit Ridge ZP-B1)";
    FMS   8 15  0  1  1 "AMD (unknown type) (Summit Ridge/Naples ZP-B1)";
    FMSQ  8 15  0  1  2 dR "AMD Ryzen (Summit Ridge ZP-B2)";
    FMSQ  8 15  0  1  2 sE "AMD EPYC (Naples B2)";
    FMS   8 15  0  1  2 "AMD (unknown type) (Summit Ridge/Naples ZP-B2)";
    FMQ   8 15  0  1 dR "AMD Ryzen (Summit Ridge)";
    FMQ   8 15  0  1 sE "AMD EPYC (Naples)";
    FM    8 15  0  1 "AMD (unknown type) (Summit Ridge/Naples)";
    FM    8 15  1  1 "AMD Ryzen (Raven Ridge)";
    FMS   8 15  0  8  2 "AMD Ryzen (Pinnacle Ridge PiR-B2)";
    FM    8 15  0  8 "AMD Ryzen (Pinnacle Ridge)";
    FM    8 15  1  8 "AMD Ryzen (Picasso)";
    FMQ   8 15  3  1 dR "AMD Ryzen (Castle Peak)";
    FMQ   8 15  3  1 sE "AMD EPYC (Rome)";
    FM    8 15  3  1 "AMD Ryzen (Castle Peak) / EPYC (Rome)";
    FM    8 15  5  0 "AMD DG02SRTBP4MFA (Fenghuang 15FF)";
    FMS   8 15  7  1  0 "AMD Ryzen (Matisse B0)";
    FM    8 15  7  1 "AMD Ryzen (Matisse)" ].

(** [decode_synth_amd(val, stash)]: the table lookup, then the processor
    number of [decode_amd_model] appended when there is one. *)
Definition decode_synth_amd (val : Z) (stash : option code_stash_t) : cstring :=
  let result := first_match decode_synth_amd_rules (DEFAULT "unknown") val stash in
  let m := decode_amd_model stash in
  if negb (String.eqb (proc m) EmptyString) then
    sprintf "%s %s" [ArgS result; ArgS (proc m)]
  else
    result.

(** The rules of [decode_synth_cyrix], in the authored order (cpuid.c:3787). *)
Definition decode_synth_cyrix_rules : list rule :=
  [ FM    0  4  0  4 "Cyrix Media GX / GXm";
    FM    0  4  0  9 "Cyrix 5x86";
    F     0  4 "Cyrix 5x86 (unknown model)";
    FM    0  5  0  2 "Cyrix M1 6x86";
    FMQ   0  5  0  4 cm "Cyrix MediaGX (C6)";
    FM    0  5  0  4 "Cyrix M1 WinChip (C6)";
    FM    0  5  0  8 "Cyrix M1 WinChip 2 (C6-2)";
    FM    0  5  0  9 "Cyrix M1 WinChip 3 (C6-2)";
    F     0  5 "Cyrix M1 (unknown model)";
    FM    0  6  0  0 "Cyrix M2 6x86MX";
    FM    0  6  0  5 "Cyrix M2";
    F     0  6 "Cyrix M2 (unknown model)" ].

Definition decode_synth_cyrix (val : Z) (stash : option code_stash_t) : cstring :=
  first_match decode_synth_cyrix_rules (DEFAULT "unknown") val stash.

(** The rules of [decode_synth_via], in the authored order (cpuid.c:3811). *)
Definition decode_synth_via_rules : list rule :=
  [ FM    0  5  0  4 "VIA WinChip (C6)";
    FM    0  5  0  8 "VIA WinChip 2 (C6-2)";
    FM    0  6  0  6 "VIA C3 (Samuel WinChip C5A core)";
    FMS   0  6  0  7  0 "VIA C3 (Samuel 2 WinChip C5B core) / Eden ESP 4000/5000/6000";
    FMS   0  6  0  7  1 "VIA C3 (Samuel 2 WinChip C5B core) / Eden ESP 4000/5000/6000";
    FMS   0  6  0  7  2 "VIA C3 (Samuel 2 WinChip C5B core) / Eden ESP 4000/5000/6000";
    FMS   0  6  0  7  3 "VIA C3 (Samuel 2 WinChip C5B core) / Eden ESP 4000/5000/6000";
    FMS   0  6  0  7  4 "VIA C3 (Samuel 2 WinChip C5B core) / Eden ESP 4000/5000/6000";
    FMS   0  6  0  7  5 "VIA C3 (Samuel 2 WinChip C5B core) / Eden ESP 4000/5000/6000";
    FMS   0  6  0  7  6 "VIA C3 (Samuel 2 WinChip C5B core) / Eden ESP 4000/5000/6000";
    FMS   0  6  0  7  7 "VIA C3 (Samuel 2 WinChip C5B core) / Eden ESP 4000/5000/6000";
    FM    0  6  0  7 "VIA C3 (Ezra WinChip C5C core)";
    FM    0  6  0  8 "VIA C3 (Ezra-T WinChip C5N core)";
    FMS   0  6  0  9  0 "VIA C3 / Eden ESP 7000/8000/10000 (Nehemiah WinChip C5XL core)";
    FMS   0  6  0  9  1 "VIA C3 / Eden ESP 7000/8000/10000 (Nehemiah WinChip C5XL core)";
    FMS   0  6  0  9  2 "VIA C3 / Eden ESP 7000/8000/10000 (Nehemiah WinChip C5XL core)";
    FMS   0  6  0  9  3 "VIA C3 / Eden ESP 7000/8000/10000 (Nehemiah WinChip C5XL core)";
    FMS   0  6  0  9  4 "VIA C3 / Eden ESP 7000/8000/10000 (Nehemiah WinChip C5XL core)";
    FMS   0  6  0  9  5 "VIA C3 / Eden ESP 7000/8000/10000 (Nehemiah WinChip C5XL core)";
    FMS   0  6  0  9  6 "VIA C3 / Eden ESP 7000/8000/10000 (Nehemiah WinChip C5XL core)";
    FMS   0  6  0  9  7 "VIA C3 / Eden ESP 7000/8000/10000 (Nehemiah WinChip C5XL core)";
    FM    0  6  0  9 "VIA C3 / C3-M / Eden-N (Antaur WinChip C5P core)";
    FM    0  6  0 10 "VIA C7 / C7-M (Esther WinChip C5J core)";
    FM    0  6  0 13 "VIA C7 / C7-M / C7-D / Eden (Esther C5J core)";
    FMS   0  6  0 15  0 "VIA Nano (Isaiah CNA A0)";
    FMS   0  6  0 15  1 "VIA Nano (Isaiah CNA A1)";
    FMS   0  6  0 15  2 "VIA Nano (Isaiah CNA A2)";
    FMS   0  6  0 15  3 "VIA Nano (Isaiah CNA A3)";
    FMS   0  6  0 15  8 "VIA Nano (Isaiah CNB A1)";
    FMS   0  6  0 15 10 "VIA Nano (Isaiah CNC A2)";
    FMS   0  6  0 15 12 "VIA Nano (Isaiah CNQ A1)";
    FMS   0  6  0 15 13 "VIA Nano (Isaiah CNQ A2)";
    FMS   0  6  0 15 14 "VIA Eden (Isaiah CNR)";
    FM    0  6  0 15 "VIA Nano / Eden (Isaiah)";
    F     0  6 "VIA C3 / C3-M / C7 / C7-M / Eden / Eden ESP 7000/8000/10000 / Nano (unknown model)" ].

Definition decode_synth_via (val : Z) : cstring :=
  first_match decode_synth_via_rules (DEFAULT "unknown") val None.

(** The rules of [decode_synth_umc], in the authored order (cpuid.c:3863). *)
Definition decode_synth_umc_rules : list rule :=
  [ FM    0  4  0  1 "UMC U5D (486DX)";
    FMS   0  4  0  2  3 "UMC U5S (486SX)";
    FM    0  4  0  2 "UMC U5S (486SX) (unknown stepping)" ].

Definition decode_synth_umc (val : Z) : cstring :=
  first_match decode_synth_umc_rules (DEFAULT "unknown") val None.

(** The rules of [decode_synth_nexgen], in the authored order (cpuid.c:3877). *)
Definition decode_synth_nexgen_rules : list rule :=
  [ FMS   0  5  0  0  4 "NexGen P100";
    FMS   0  5  0  0  6 "NexGen P120 (E2/C0)" ].

Definition decode_synth_nexgen (val : Z) : cstring :=
  first_match decode_synth_nexgen_rules (DEFAULT "unknown") val None.

(** The rules of [decode_synth_rise], in the authored order (cpuid.c:3890). *)
Definition decode_synth_rise_rules : list rule :=
  [ FM    0  5  0  0 "Rise mP6 iDragon, .25u";
    FM    0  5  0  2 "Rise mP6 iDragon, .18u";
    FM    0  5  0  8 "Rise mP6 iDragon II, .25u";
    FM    0  5  0  9 "Rise mP6 iDragon II, .18u" ].

Definition decode_synth_rise (val : Z) : cstring :=
  first_match decode_synth_rise_rules (DEFAULT "unknown") val None.

(** The rules of [decode_synth_transmeta], in the authored order (cpuid.c:3905). *)
Definition decode_synth_transmeta_rules : list rule :=
  [ FMSQ  0  5  0  4  2 t2 "Transmeta Crusoe TM3200";
    FMS   0  5  0  4  2 "Transmeta Crusoe TM3x00 (unknown model)";
    FMSQ  0  5  0  4  3 t4 "Transmeta Crusoe TM5400";
    FMSQ  0  5  0  4  3 t5 "Transmeta Crusoe TM5500 / Crusoe SE TM55E";
    FMSQ  0  5  0  4  3 t6 "Transmeta Crusoe TM5600";
    FMSQ  0  5  0  4  3 t8 "Transmeta Crusoe TM5800 / Crusoe SE TM58E";
    FMS   0  5  0  4  3 "Transmeta Crusoe TM5x00 (unknown model)";
    FM    0  5  0  4 "Transmeta Crusoe";
    F     0  5 "Transmeta Crusoe (unknown model)";
    FM    0 15  0  2 "Transmeta Efficeon TM8x00";
    FM    0 15  0  3 "Transmeta Efficeon TM8x00";
    F     0 15 "Transmeta Efficeon (unknown model)" ].

Definition decode_synth_transmeta (val : Z) (stash : option code_stash_t) : cstring :=
  first_match decode_synth_transmeta_rules (DEFAULT "unknown") val stash.

(** The rules of [decode_synth_sis], in the authored order (cpuid.c:3931). *)
Definition decode_synth_sis_rules : list rule :=
  [ FM    0  5  0  0 "SiS 55x" ].

Definition decode_synth_sis (val : Z) : cstring :=
  first_match decode_synth_sis_rules (DEFAULT "unknown") val None.

(** The rules of [decode_synth_nsc], in the authored order (cpuid.c:3943). *)
Definition decode_synth_nsc_rules : list rule :=
  [ FM    0  5  0  4 "NSC Geode GX1/GXLV/GXm";
    FM    0  5  0  5 "NSC Geode GX2";
    F     0  5 "NSC Geode (unknown model)" ].

Definition decode_synth_nsc (val : Z) : cstring :=
  first_match decode_synth_nsc_rules (DEFAULT "unknown") val None.

(** The rules of [decode_synth_vortex], in the authored order (cpuid.c:3957). *)
Definition decode_synth_vortex_rules : list rule :=
  [ FM    0  5  0  2 "Vortex86DX";
    FM    0  5  0  8 "Vortex86MX" ].

Definition decode_synth_vortex (val : Z) : cstring :=
  first_match decode_synth_vortex_rules (DEFAULT "unknown") val None.

(** The rules of [decode_synth_rdc], in the authored order (cpuid.c:3970). *)
Definition decode_synth_rdc_rules : list rule :=
  [ FM    0  5  0  8 "RDC IAD 100" ].

Definition decode_synth_rdc (val : Z) : cstring :=
  first_match decode_synth_rdc_rules (DEFAULT "unknown") val None.

(** The rules of [decode_synth_hygon], in the authored order (cpuid.c:3982). *)
Definition decode_synth_hygon_rules : list rule :=
  [ FMS   9 15  0  0  1 "Hygon Dhyana (A1)";
    FMS   9 15  0  0  2 "Hygon Dhyana (A2)" ].

Definition decode_synth_hygon (val : Z) : cstring :=
  first_match decode_synth_hygon_rules (DEFAULT "unknown") val None.

(** The rules of [decode_synth_zhaoxin], in the authored order (cpuid.c:3995). *)
Definition decode_synth_zhaoxin_rules : list rule :=
  [ FM    0  7  1 11 "Zhaoxin KaiXian/Kaisheng (WuDaoKou)" ].

Definition decode_synth_zhaoxin (val : Z) : cstring :=
  first_match decode_synth_zhaoxin_rules (DEFAULT "unknown") val None.

(* ================================================================== *)
(** ** Topology Synthesizer: [decode_mp_synth]                         *)
(* ================================================================== *)

Definition GET_ApicIdCoreIdSize (val_80000008_ecx : Z) : Z :=
  BIT_EXTRACT_LE val_80000008_ecx 0 4.
Definition GET_LogicalProcessorCount (val_1_ebx : Z) : Z :=
  BIT_EXTRACT_LE val_1_ebx 16 24.
Definition IS_HTT (val_1_edx : Z) : Z :=
  BIT_EXTRACT_LE val_1_edx 28 29.
Definition IS_CmpLegacy (val_80000001_ecx : Z) : Z :=
  BIT_EXTRACT_LE val_80000001_ecx 1 2.
Definition GET_NC_INTEL (val_4_eax : Z) : Z :=
  BIT_EXTRACT_LE val_4_eax 26 32.
Definition GET_NC_AMD (val_80000008_ecx : Z) : Z :=
  BIT_EXTRACT_LE val_80000008_ecx 0 8.
Definition GET_X2APIC_PROCESSORS (val_b_ebx : Z) : Z :=
  BIT_EXTRACT_LE val_b_ebx 0 16.
Definition GET_V2_TOPO_LEVEL (val_1f_ecx : Z) : Z :=
  BIT_EXTRACT_LE val_1f_ecx 8 16.
Definition GET_V2_TOPO_PROCESSORS (val_1f_ebx : Z) : Z :=
  BIT_EXTRACT_LE val_1f_ebx 0 16.
Definition GET_CoresPerComputeUnit_AMD (val_8000001e_ebx : Z) : Z :=
  BIT_EXTRACT_LE val_8000001e_ebx 8 16.

Definition V2_TOPO_SMT : Z := 1.
Definition V2_TOPO_CORE : Z := 2.

(** [stash->mp.method = m], [stash->mp.cores = c],
    [stash->mp.hyperthreads = t]. *)
Definition assign_mp_method (m : cstring) (stash : code_stash_t)
  : code_stash_t :=
  set_mp (set_mp_method (Some m) (mp stash)) stash.
Definition assign_mp_cores (c : Z) (stash : code_stash_t) : code_stash_t :=
  set_mp (set_mp_cores c (mp stash)) stash.
Definition assign_mp_hyperthreads (t : Z) (stash : code_stash_t)
  : code_stash_t :=
  set_mp (set_mp_hyperthreads t (mp stash)) stash.

(** A C truth value as the [int] it is. *)
Definition int_of_bool (b : bool) : Z := if b then 1 else 0.

(** One turn of the [for (try = 0; try < LENGTH(stash->val_1f_ecx); try++)]
    loop of the leaf 0x1f method. *)
Definition leaf_1f_step (stash : code_stash_t) (try : nat) : code_stash_t :=
  if GET_V2_TOPO_LEVEL (nth try (val_1f_ecx stash) 0) =? V2_TOPO_SMT then
    assign_mp_hyperthreads
      (GET_V2_TOPO_PROCESSORS (nth try (val_1f_ebx stash) 0)) stash
  else if GET_V2_TOPO_LEVEL (nth try (val_1f_ecx stash) 0) =? V2_TOPO_CORE then
    assign_mp_cores
      (GET_V2_TOPO_PROCESSORS (nth try (val_1f_ebx stash) 0)) stash
  else stash.

(** [decode_mp_synth(stash)].  The value is [None] when the function
    divides by zero, and the stash it leaves otherwise. *)
Definition decode_mp_synth (stash : code_stash_t) : option code_stash_t :=
  match vendor stash with
  | VENDOR_INTEL =>
      if saw_1f stash then
        let stash := assign_mp_method "Intel leaf 0x1f" stash in
        Some (fold_left leaf_1f_step (seq 0 6) stash)
      else if saw_b stash then
        let ht := GET_X2APIC_PROCESSORS (nth 0 (val_b_ebx stash) 0) in
        let tc := GET_X2APIC_PROCESSORS (nth 1 (val_b_ebx stash) 0) in
        let stash := assign_mp_method "Intel leaf 0xb" stash in
        let ht := if ht =? 0 then 1 else ht in
        match udiv tc ht with
        | Some q =>
            let stash := assign_mp_cores q stash in
            Some (assign_mp_hyperthreads ht stash)
        | None => None
        end
      else if saw_4 stash then
        let tc := GET_LogicalProcessorCount (val_1_ebx stash) in
        let '(c, stash) :=
          if negb (Z.land (val_4_eax stash) 0x1f =? 0) then
            (u32 (GET_NC_INTEL (val_4_eax stash) + 1),
             assign_mp_method "Intel leaf 1/4" stash)
          else
            (* Workaround for older 'cpuid -r' dumps with incomplete 4 data *)
            (tc / 2,
             assign_mp_method "Intel leaf 1/4 (zero fallback)" stash)
        in
        let stash := assign_mp_cores c stash in
        match udiv tc c with
        | Some q => Some (assign_mp_hyperthreads q stash)
        | None => None
        end
      else
        let stash := assign_mp_method "Intel leaf 1" stash in
        let stash := assign_mp_cores 1 stash in
        if negb (IS_HTT (val_1_edx stash) =? 0) then
          let tc := GET_LogicalProcessorCount (val_1_ebx stash) in
          Some (assign_mp_hyperthreads (if tc >=? 2 then tc else 2) stash)
        else
          Some (assign_mp_hyperthreads 1 stash)
  | VENDOR_AMD
  | VENDOR_HYGON =>
      let name := if vendor_eqb (vendor stash) VENDOR_AMD
                  then "AMD" else "Hygon" in
      if negb (IS_HTT (val_1_edx stash) =? 0) then
        let tc := GET_LogicalProcessorCount (val_1_ebx stash) in
        let c :=
          if negb (GET_ApicIdCoreIdSize (val_80000008_ecx stash) =? 0) then
            let size := GET_ApicIdCoreIdSize (val_80000008_ecx stash) in
            let mask := u32 (Z.shiftl 1 size - 1) in
            u32 (Z.land (GET_NC_AMD (val_80000008_ecx stash)) mask + 1)
          else
            u32 (GET_NC_AMD (val_80000008_ecx stash) + 1) in
        if int_of_bool (tc =? c) =? IS_CmpLegacy (val_80000001_ecx stash) then
          let stash := assign_mp_method name stash in
          if c >? 1 then
            let stash := assign_mp_cores c stash in
            match udiv tc c with
            | Some q => Some (assign_mp_hyperthreads q stash)
            | None => None
            end
          else
            let stash := assign_mp_cores 1 stash in
            Some (assign_mp_hyperthreads (if tc >=? 2 then tc else 2) stash)
        else
          (* Rev 2.28 leaves out mention that this case is nonsensical, but
             I'm leaving it in here as an "unknown" case. *)
          Some stash
      else
        let stash := assign_mp_method name stash in
        let stash := assign_mp_cores 1 stash in
        Some (assign_mp_hyperthreads 1 stash)
  | _ =>
      if IS_HTT (val_1_edx stash) =? 0 then
        let stash := assign_mp_method "Generic leaf 1 no multi-threading" stash in
        let stash := assign_mp_cores 1 stash in
        Some (assign_mp_hyperthreads 1 stash)
      else
        Some stash
  end.

(** The counts [print_apic_synth] hands to [bits_needed], when it gets as
    far as calling it: [(smt_count, core_count, cu_count)]; the Intel
    branch has no compute-unit level. *)
Definition print_apic_synth_counts (stash : code_stash_t)
  : option (Z * Z * option Z) :=
  match vendor stash with
  | VENDOR_INTEL =>
      if saw_1f stash then None
      else if saw_b stash then None
      else if saw_4 stash && negb (Z.land (val_4_eax stash) 0x1f =? 0) then
        let core_count := u32 (GET_NC_INTEL (val_4_eax stash) + 1) in
        let smt_count := GET_LogicalProcessorCount (val_1_ebx stash) / core_count in
        Some (smt_count, core_count, None)
      else None
  | VENDOR_AMD =>
      if negb (IS_HTT (val_1_edx stash) =? 0)
         && negb (GET_ApicIdCoreIdSize (val_80000008_ecx stash) =? 0) then
        let size := GET_ApicIdCoreIdSize (val_80000008_ecx stash) in
        let mask := u32 (Z.shiftl 1 size - 1) in
        let core_count :=
          u32 (Z.land (GET_NC_AMD (val_80000008_ecx stash)) mask + 1) in
        let smt_count := GET_LogicalProcessorCount (val_1_ebx stash) / core_count in
        if negb (GET_CoresPerComputeUnit_AMD (val_8000001e_ebx stash) =? 0) then
          let cores_per_cu :=
            u32 (GET_CoresPerComputeUnit_AMD (val_8000001e_ebx stash) + 1) in
          Some (smt_count, cores_per_cu, Some (core_count / cores_per_cu))
        else
          Some (smt_count, core_count, Some 1)
      else None
  | _ => None
  end.

(** The widths [print_apic_synth] derives from those counts. *)
Definition print_apic_synth_widths (stash : code_stash_t)
  : option (Z * Z * Z) :=
  match print_apic_synth_counts stash with
  | Some (smt_count, core_count, cu_count) =>
      Some (bits_needed smt_count,
            bits_needed core_count,
            match cu_count with
            | Some cu_count => bits_needed cu_count
            | None => 0
            end)
  | None => None
  end.

(* ================================================================== *)
(** ** One decode pass: [print_reg] per observation, then [do_final]   *)
(* ================================================================== *)

(** The [i]-th character of a string literal, as the [int] it promotes to;
    past the end of the literal the bytes are NUL. *)
Definition char_at (s : string) (i : nat) : Z :=
  match String.get i s with
  | Some c => Z.of_N (N_of_ascii c)
  | None => 0
  end.

Definition FOUR_CHARS_VALUE (s : string) (off : nat) : Z :=
  u32 (char_at s off
       + Z.shiftl (char_at s (off + 1)) 8
       + Z.shiftl (char_at s (off + 2)) 16
       + Z.shiftl (char_at s (off + 3)) 24).

Definition IS_VENDOR_ID (words : list Z) (s : string) : bool :=
  (word words WORD_EBX =? FOUR_CHARS_VALUE s 0)
  && (word words WORD_EDX =? FOUR_CHARS_VALUE s 4)
  && (word words WORD_ECX =? FOUR_CHARS_VALUE s 8).

Definition IS_HYPERVISOR_ID (words : list Z) (s : string) : bool :=
  (word words WORD_EBX =? FOUR_CHARS_VALUE s 0)
  && (word words WORD_ECX =? FOUR_CHARS_VALUE s 4)
  && (word words WORD_EDX =? FOUR_CHARS_VALUE s 8).

(** The bytes of an [unsigned int] in memory order (x86 is little-endian),
    as [(const unsigned char* )&words[word]] reads them. *)
Definition bytes_of_word (w : Z) : list Z :=
  [ Z.land w 0xff;
    Z.land (Z.shiftr w 8) 0xff;
    Z.land (Z.shiftr w 16) 0xff;
    Z.land (Z.shiftr w 24) 0xff ].

(** [memcpy(&buf[off], words, sizeof(unsigned int)*WORD_NUM)] *)
Definition memcpy_words (buf : list ascii) (off : nat) (words : list Z)
  : list ascii :=
  let bytes :=
    flat_map (fun i => bytes_of_word (word words i)) (seq 0 WORD_NUM) in
  firstn off buf
  ++ map (fun b => ascii_of_N (Z.to_N b)) bytes
  ++ skipn (off + 16) buf.

(** The leaf-2 arm of [print_reg]: every descriptor byte of every register
    whose top bit is clear goes to [stash_intel_cache]; byte 0 of EAX of
    the first query is the repeat count and is skipped. *)
Definition print_reg_leaf2 (words : list Z) (try : Z) (stash : code_stash_t)
  : code_stash_t :=
  fold_left
    (fun stash w =>
       if Z.land (word words w) 0x80000000 =? 0 then
         let bytes := bytes_of_word (word words w) in
         let byte := if (try =? 0) && Nat.eqb w WORD_EAX then 1%nat else 0%nat in
         fold_left stash_intel_cache (skipn byte bytes) stash
       else stash)
    (seq 0 4) stash.

(** [print_reg(reg, words, raw, try, stash)] is two [if]/[else if] chains
    over [reg].  The first captures raw register values in the stash. *)
Definition print_reg_capture (reg : Z) (words : list Z) (try : Z)
           (stash : code_stash_t) : code_stash_t :=
  if reg =? 0 then
    if IS_VENDOR_ID words "GenuineIntel" then set_vendor VENDOR_INTEL stash
    else if IS_VENDOR_ID words "AuthenticAMD" then set_vendor VENDOR_AMD stash
    else if IS_VENDOR_ID words "CyrixInstead" then set_vendor VENDOR_CYRIX stash
    else if IS_VENDOR_ID words "CentaurHauls" then set_vendor VENDOR_VIA stash
    else if IS_VENDOR_ID words "UMC UMC UMC " then set_vendor VENDOR_UMC stash
    else if IS_VENDOR_ID words "NexGenDriven" then set_vendor VENDOR_NEXGEN stash
    else if IS_VENDOR_ID words "RiseRiseRise" then set_vendor VENDOR_RISE stash
    else if IS_VENDOR_ID words "GenuineTMx86" then set_vendor VENDOR_TRANSMETA stash
    else if IS_VENDOR_ID words "SiS SiS SiS " then set_vendor VENDOR_SIS stash
    else if IS_VENDOR_ID words "Geode by NSC" then set_vendor VENDOR_NSC stash
    else if IS_VENDOR_ID words "Vortex86 SoC" then set_vendor VENDOR_VORTEX stash
    else if IS_VENDOR_ID words "Genuine  RDC" then set_vendor VENDOR_RDC stash
    else if IS_VENDOR_ID words "HygonGenuine" then set_vendor VENDOR_HYGON stash
    else if IS_VENDOR_ID words "  Shanghai  " then set_vendor VENDOR_ZHAOXIN stash
    else stash
  else if reg =? 1 then
    let stash := set_val_1_eax (word words WORD_EAX) stash in
    let stash := set_val_1_ebx (word words WORD_EBX) stash in
    let stash := set_val_1_ecx (word words WORD_ECX) stash in
    set_val_1_edx (word words WORD_EDX) stash
  else if reg =? 4 then
    let stash := set_saw_4 true stash in
    if try =? 0 then set_val_4_eax (word words WORD_EAX) stash else stash
  else if reg =? 0xb then
    let stash := set_saw_b true stash in
    let stash :=
      if try <? Z.of_nat (length (val_b_eax stash)) then
        set_val_b_eax
          (array_set (val_b_eax stash) (Z.to_nat try) (word words WORD_EAX))
          stash
      else stash in
    if try <? Z.of_nat (length (val_b_ebx stash)) then
      set_val_b_ebx
        (array_set (val_b_ebx stash) (Z.to_nat try) (word words WORD_EBX))
        stash
    else stash
  else if reg =? 0x1f then
    let stash := set_saw_1f true stash in
    let stash :=
      if try <? Z.of_nat (length (val_1f_eax stash)) then
        set_val_1f_eax
          (array_set (val_1f_eax stash) (Z.to_nat try) (word words WORD_EAX))
          stash
      else stash in
    let stash :=
      if try <? Z.of_nat (length (val_1f_ebx stash)) then
        set_val_1f_ebx
          (array_set (val_1f_ebx stash) (Z.to_nat try) (word words WORD_EBX))
          stash
      else stash in
    if try <? Z.of_nat (length (val_1f_ecx stash)) then
      set_val_1f_ecx
        (array_set (val_1f_ecx stash) (Z.to_nat try) (word words WORD_ECX))
        stash
    else stash
  else if reg =? 0x40000000 then
    if IS_HYPERVISOR_ID words "VMwareVMware"
    then set_hypervisor HYPERVISOR_VMWARE stash
    else if IS_HYPERVISOR_ID words "XenVMMXenVMM"
    then set_hypervisor HYPERVISOR_XEN stash
    else if IS_HYPERVISOR_ID words "KVMKVMKVM"
    then set_hypervisor HYPERVISOR_KVM stash
    else if IS_HYPERVISOR_ID words "Microsoft Hv"
    then set_hypervisor HYPERVISOR_MICROSOFT stash
    else stash
  else if reg =? 0x80000008 then
    set_val_80000008_ecx (word words WORD_ECX) stash
  else if reg =? 0x8000001e then
    set_val_8000001e_ebx (word words WORD_EBX) stash
  else if reg =? 0x80860003 then
    set_transmeta_info (memcpy_words (transmeta_info stash) 0 words) stash
  else if reg =? 0x80860004 then
    set_transmeta_info (memcpy_words (transmeta_info stash) 16 words) stash
  else if reg =? 0x80860005 then
    set_transmeta_info (memcpy_words (transmeta_info stash) 32 words) stash
  else if reg =? 0x80860006 then
    set_transmeta_info (memcpy_words (transmeta_info stash) 48 words) stash
  else stash.

(** The second chain, taken when [raw] is off, decodes and prints the
    leaf; the arms that only print are left out. *)
Definition print_reg_decode (reg : Z) (words : list Z) (try : Z)
           (stash : code_stash_t) : code_stash_t :=
  if reg =? 0 then
    set_val_0_eax (word words WORD_EAX) stash
  else if reg =? 2 then
    print_reg_leaf2 words try stash
  else if reg =? 0x17 then
    if try =? 0 then stash
    else if try =? 1 then
      set_soc_brand (memcpy_words (soc_brand stash) 0 words) stash
    else if try =? 2 then
      set_soc_brand (memcpy_words (soc_brand stash) 16 words) stash
    else if try =? 3 then
      set_soc_brand (memcpy_words (soc_brand stash) 32 words) stash
    else stash
  else if reg =? 0x80000001 then
    let stash := set_val_80000001_eax (word words WORD_EAX) stash in
    let stash := set_val_80000001_ebx (word words WORD_EBX) stash in
    let stash := set_val_80000001_ecx (word words WORD_ECX) stash in
    set_val_80000001_edx (word words WORD_EDX) stash
  else if reg =? 0x80000002 then
    set_brand (memcpy_words (brand stash) 0 words) stash
  else if reg =? 0x80000003 then
    set_brand (memcpy_words (brand stash) 16 words) stash
  else if reg =? 0x80000004 then
    set_brand (memcpy_words (brand stash) 32 words) stash
  else if reg =? 0x80000006 then
    print_80000006_ecx (word words WORD_ECX) stash
  else if reg =? 0x80860002 then
    print_80860002_eax (word words WORD_EAX) stash
  else stash.


(** [print_reg(reg, words, raw, try, stash)], its effect on the stash. *)
Definition print_reg (reg : Z) (words : list Z) (raw : bool) (try : Z)
           (stash : code_stash_t) : code_stash_t :=
  let stash := print_reg_capture reg words try stash in
  if raw then stash
  else print_reg_decode reg words try stash.

(** One captured cpuid result as it reaches [print_reg]. *)
Record observation : Set := {
  o_reg : Z;
  o_try : Z;
  o_words : list Z
}.

(** The observations of one logical CPU, folded into its stash in the
    order they were captured. *)
Definition stash_pass (raw : bool) (obs : list observation)
           (stash : code_stash_t) : code_stash_t :=
  fold_left (fun stash o => print_reg (o_reg o) (o_words o) raw (o_try o) stash)
            obs stash.

Section Final.

Variable strregexp : cstring -> cstring -> bool.

(** [do_final(raw, debug, stash)], its effect on the stash; [None] when
    [decode_mp_synth] divides by zero. *)
Definition do_final (raw : bool) (stash : code_stash_t)
  : option code_stash_t :=
  if negb raw then
    match decode_mp_synth stash with
    | Some stash =>
        let stash := decode_override_brand stash in
        let stash := decode_brand_id_stash stash in
        Some (decode_brand_stash strregexp stash)
    | None => None
    end
  else Some stash.

End Final.


(* ================================================================== *)
(** ** Vendor names and the micro-architecture tables                  *)
(* ================================================================== *)

(** The line feed of the [printf] formats. *)
Definition LF : string := String "010"%char EmptyString.

(** [decode_vendor(vendor)]; [None] is the NULL of the default arm. *)
Definition decode_vendor (vendor : vendor_t) : option cstring :=
  match vendor with
  | VENDOR_INTEL => Some "Intel"
  | VENDOR_AMD => Some "AMD"
  | VENDOR_CYRIX => Some "Cyrix"
  | VENDOR_VIA => Some "VIA"
  | VENDOR_TRANSMETA => Some "Transmeta"
  | VENDOR_UMC => Some "UMC"
  | VENDOR_NEXGEN => Some "NexGen"
  | VENDOR_RISE => Some "Rise"
  | VENDOR_SIS => Some "SiS"
  | VENDOR_NSC => Some "NSC"
  | VENDOR_VORTEX => Some "Vortex"
  | VENDOR_RDC => Some "RDC"
  | VENDOR_HYGON => Some "Hygon"
  | VENDOR_ZHAOXIN => Some "Zhaoxin"
  | VENDOR_UNKNOWN => None
  end.

(** [arch_t]: the process-dependent name, the process-neutral family, the
    physical properties, and whether the core names already say the
    uarch. *)
Record arch_t : Set := {
  uarch : option cstring;
  family : option cstring;
  phys : option cstring;
  core_is_uarch : bool
}.

(** [init_arch(arch)] overwrites every field, so what it leaves does not
    depend on what [arch] held. *)
Definition init_arch : arch_t :=
  {| uarch := None; family := None; phys := None; core_is_uarch := false |}.

(** [*u = str], [*f = str], [*p = str] and [*ciu = b], where [u], [f],
    [p] and [ciu] point at the fields of [arch]. *)
Definition set_uarch (str : cstring) (arch : arch_t) : arch_t :=
  {| uarch := Some str; family := family arch; phys := phys arch;
     core_is_uarch := core_is_uarch arch |}.
Definition set_family (str : cstring) (arch : arch_t) : arch_t :=
  {| uarch := uarch arch; family := Some str; phys := phys arch;
     core_is_uarch := core_is_uarch arch |}.
Definition set_phys (str : cstring) (arch : arch_t) : arch_t :=
  {| uarch := uarch arch; family := family arch; phys := Some str;
     core_is_uarch := core_is_uarch arch |}.
Definition set_core_is_uarch (b : bool) (arch : arch_t) : arch_t :=
  {| uarch := uarch arch; family := family arch; phys := phys arch;
     core_is_uarch := b |}.

(** The rule macros under [#define ACT(...) (__VA_ARGS__)]: the action of
    an arm is a comma expression of assignments to the fields of [arch]. *)
Module Uarch.

Record rule : Type := {
r_mask : Z;
r_key : Z;
r_act : list (arch_t -> arch_t)
}.

Definition F (xf f : Z) (act : list (arch_t -> arch_t)) : rule :=
{| r_mask := 0x0ff00f00; r_key := _XF xf + _F f; r_act := act |}.
Definition FM (xf f xm m : Z) (act : list (arch_t -> arch_t)) : rule :=
{| r_mask := 0x0fff0ff0; r_key := _XF xf + _XM xm + _F f + _M m;
   r_act := act |}.
Definition FMS (xf f xm m s : Z) (act : list (arch_t -> arch_t)) : rule :=
{| r_mask := 0x0fff0fff; r_key := _XF xf + _XM xm + _F f + _M m + _S s;
   r_act := act |}.

Definition key_matches (val : Z) (r : rule) : bool :=
Z.land val (r_mask r) =? r_key r.

(** The assignments of a comma expression run from left to right. *)
Definition ACT (act : list (arch_t -> arch_t)) (arch : arch_t) : arch_t :=
fold_left (fun a assign => assign a) act arch.

(** [START; rule; ...; rule; DEFAULT((void)NULL);]: the first arm whose
  key matches runs; when none does, [arch] is left as it is. *)
Fixpoint cascade (rules : list rule) (val : Z) (arch : arch_t) : arch_t :=
match rules with
| [] => arch
| r :: rest =>
    if key_matches val r then ACT (r_act r) arch
    else cascade rest val arch
end.

End Uarch.

(** The rules of [decode_uarch_intel], in the authored order (cpuid.c:1870). *)
Definition decode_uarch_intel_rules : list Uarch.rule :=
  [ Uarch.F    0  4 [set_family "i486"];
    Uarch.FM   0  5  0  0 [set_family "P5"; set_phys ".8um"];
    Uarch.FM   0  5  0  1 [set_family "P5"; set_phys ".8um"];
    Uarch.FM   0  5  0  2 [set_family "P5"];
    Uarch.FM   0  5  0  3 [set_family "P5"; set_phys ".6um"];
    Uarch.FM   0  5  0  4 [set_family "P5 MMX"];
    Uarch.FM   0  5  0  7 [set_family "P5 MMX"];
    Uarch.FM   0  5  0  8 [set_family "P5 MMX"; set_phys ".25um"];
    Uarch.FM   0  5  0  9 [set_family "P5 MMX"];
    Uarch.FM   0  6  0  0 [set_family "P6 Pentium II"];
    Uarch.FM   0  6  0  1 [set_family "P6 Pentium II"];
    Uarch.FM   0  6  0  2 [set_family "P6 Pentium II"];
    Uarch.FM   0  6  0  3 [set_family "P6 Pentium II"; set_phys ".35um"];
    Uarch.FM   0  6  0  4 [set_family "P6 Pentium II"];
    Uarch.FM   0  6  0  5 [set_family "P6 Pentium II"; set_phys ".25um"];
    Uarch.FM   0  6  0  6 [set_family "P6 Pentium II"; set_phys "L2 cache"];
    Uarch.FM   0  6  0  7 [set_family "P6 Pentium III"; set_phys ".25um"];
    Uarch.FM   0  6  0  8 [set_family "P6 Pentium III"; set_phys ".18um"];
    Uarch.FM   0  6  0  9 [set_family "P6 Pentium M"; set_phys ".13um"];
    Uarch.FM   0  6  0 10 [set_family "P6 Pentium III"; set_phys ".18um"];
    Uarch.FM   0  6  0 11 [set_family "P6 Pentium III"; set_phys ".13um"];
    Uarch.FM   0  6  0 13 [set_uarch "Dothan"; set_family "P6 Pentium M"];
    Uarch.FM   0  6  0 14 [set_uarch "Yonah"; set_family "P6 Pentium M"; set_phys "65nm"];
    Uarch.FM   0  6  0 15 [set_uarch "Merom"; set_family "Core"; set_phys "65nm"];
    Uarch.FM   0  6  1  5 [set_uarch "Dothan"; set_family "P6 Pentium M"; set_phys "90nm"];
    Uarch.FM   0  6  1  6 [set_uarch "Merom"; set_family "Core"; set_phys "65nm"];
    Uarch.FM   0  6  1  7 [set_uarch "Penryn"; set_family "Core"; set_phys "45nm"];
    Uarch.FM   0  6  1 10 [set_uarch "Nehalem"; set_family "Nehalem"; set_phys "45nm"];
    Uarch.FM   0  6  1 12 [set_uarch "Bonnell"; set_phys "45nm"];
    Uarch.FM   0  6  1 13 [set_uarch "Penryn"; set_family "Core"; set_phys "45nm"];
    Uarch.FM   0  6  1 14 [set_uarch "Nehalem"; set_family "Nehalem"; set_phys "45nm"];
    Uarch.FM   0  6  1 15 [set_uarch "Nehalem"; set_family "Nehalem"; set_phys "45nm"];
    Uarch.FM   0  6  2  5 [set_uarch "Westmere"; set_family "Nehalem"; set_phys "32nm"];
    Uarch.FM   0  6  2  6 [set_uarch "Bonnell"; set_phys "45nm"];
    Uarch.FM   0  6  2  7 [set_uarch "Saltwell"; set_phys "32nm"];
    Uarch.FM   0  6  2 10 [set_uarch "Sandy Bridge"; set_core_is_uarch true; set_family "Sandy Bridge"; set_phys "32nm"];
    Uarch.FM   0  6  2 12 [set_uarch "Westmere"; set_family "Nehalem"; set_phys "32nm"];
    Uarch.FM   0  6  2 13 [set_uarch "Sandy Bridge"; set_core_is_uarch true; set_family "Sandy Bridge"; set_phys "32nm"];
    Uarch.FM   0  6  2 14 [set_uarch "Nehalem"; set_family "Nehalem"; set_phys "45nm"];
    Uarch.FM   0  6  2 15 [set_uarch "Westmere"; set_family "Nehalem"; set_phys "32nm"];
    Uarch.FM   0  6  3  5 [set_uarch "Saltwell"; set_phys "14nm"];
    Uarch.FM   0  6  3  6 [set_uarch "Saltwell"; set_phys "32nm"];
    Uarch.FM   0  6  3  7 [set_uarch "Silvermont"; set_phys "22nm"];
    Uarch.FM   0  6  3 10 [set_uarch "Ivy Bridge"; set_core_is_uarch true; set_family "Sandy Bridge"; set_phys "22nm"];
    Uarch.FM   0  6  3 12 [set_uarch "Haswell"; set_core_is_uarch true; set_family "Haswell"; set_phys "22nm"];
    Uarch.FM   0  6  3 13 [set_uarch "Broadwell"; set_core_is_uarch true; set_family "Haswell"; set_phys "14nm"];
    Uarch.FM   0  6  3 14 [set_uarch "Ivy Bridge"; set_core_is_uarch true; set_family "Sandy Bridge"; set_phys "22nm"];
    Uarch.FM   0  6  3 15 [set_uarch "Haswell"; set_core_is_uarch true; set_family "Haswell"; set_phys "22nm"];
    Uarch.FM   0  6  4  5 [set_uarch "Haswell"; set_core_is_uarch true; set_family "Haswell"; set_phys "22nm"];
    Uarch.FM   0  6  4  6 [set_uarch "Haswell"; set_core_is_uarch true; set_family "Haswell"; set_phys "22nm"];
    Uarch.FM   0  6  4  7 [set_uarch "Broadwell"; set_core_is_uarch true; set_family "Haswell"; set_phys "14nm"];
    Uarch.FM   0  6  4 10 [set_uarch "Silvermont"; set_phys "22nm"];
    Uarch.FM   0  6  4 12 [set_uarch "Airmont"; set_phys "14nm"];
    Uarch.FM   0  6  4 13 [set_uarch "Silvermont"; set_phys "22nm"];
    Uarch.FM   0  6  4 14 [set_uarch "Skylake"; set_core_is_uarch true; set_family "Skylake"; set_phys "14nm"];
    Uarch.FM   0  6  4 15 [set_uarch "Broadwell"; set_core_is_uarch true; set_family "Haswell"; set_phys "14nm"];
    Uarch.FMS  0  6  5  5  6 [set_uarch "Cascade Lake"; set_core_is_uarch true; set_family "Skylake"; set_phys "14nm"];
    Uarch.FMS  0  6  5  5  7 [set_uarch "Cascade Lake"; set_core_is_uarch true; set_family "Skylake"; set_phys "14nm"];
    Uarch.FM   0  6  5  5 [set_uarch "Skylake"; set_core_is_uarch true; set_family "Skylake"; set_phys "14nm"];
    Uarch.FM   0  6  5  6 [set_uarch "Broadwell"; set_core_is_uarch true; set_family "Haswell"; set_phys "14nm"];
    Uarch.FM   0  6  5  7 [set_uarch "Knights Landing"; set_phys "14nm"];
    Uarch.FM   0  6  5 10 [set_uarch "Silvermont"; set_phys "22nm"];
    Uarch.FM   0  6  5 12 [set_uarch "Goldmont"; set_phys "14nm"];
    Uarch.FM   0  6  5 13 [set_uarch "Silvermont"; set_phys "22nm"];
    Uarch.FM   0  6  5 14 [set_uarch "Skylake"; set_core_is_uarch true; set_family "Skylake"; set_phys "14nm"];
    Uarch.FM   0  6  5 15 [set_uarch "Goldmont"; set_phys "14nm"];
    Uarch.FM   0  6  6  6 [set_uarch "Palm Cove"; set_family "Skylake"; set_phys "10nm"];
    Uarch.FM   0  6  6 10 [set_uarch "Sunny Cove"; set_family "Sunny Cove"; set_phys "10nm"];
    Uarch.FM   0  6  6 12 [set_uarch "Sunny Cove"; set_family "Sunny Cove"; set_phys "10nm"];
    Uarch.FM   0  6  7 10 [set_uarch "Goldmont Plus"; set_phys "14nm"];
    Uarch.FM   0  6  7 13 [set_uarch "Sunny Cove"; set_family "Sunny Cove"; set_phys "10nm"];
    Uarch.FM   0  6  7 14 [set_uarch "Sunny Cove"; set_family "Sunny Cove"; set_phys "10nm"];
    Uarch.FM   0  6  8  5 [set_uarch "Knights Mill"; set_phys "14nm"];
    Uarch.FM   0  6  8 12 [set_uarch "Willow Cove"; set_family "Sunny Cove"; set_phys "10nm"];
    Uarch.FMS  0  6  8 14  9 [set_uarch "Kaby Lake"; set_core_is_uarch true; set_family "Skylake"; set_phys "14nm"];
    Uarch.FMS  0  6  8 14 10 [set_uarch "Kaby Lake"; set_core_is_uarch true; set_family "Skylake"; set_phys "14nm"];
    Uarch.FMS  0  6  8 14 11 [set_uarch "Coffee Lake"; set_family "Skylake"; set_phys "14nm"];
    Uarch.FMS  0  6  8 14 12 [set_uarch "Coffee Lake"; set_family "Skylake"; set_phys "14nm"];
    Uarch.FM   0  6  8 14 [set_uarch "Kaby Lake / Coffee Lake"; set_family "Skylake"; set_phys "14nm"];
    Uarch.FMS  0  6  9 14  9 [set_uarch "Kaby Lake"; set_core_is_uarch true; set_family "Skylake"; set_phys "14nm"];
    Uarch.FMS  0  6  9 14 10 [set_uarch "Coffee Lake"; set_family "Skylake"; set_phys "14nm"];
    Uarch.FMS  0  6  9 14 11 [set_uarch "Coffee Lake"; set_family "Skylake"; set_phys "14nm"];
    Uarch.FMS  0  6  9 14 12 [set_uarch "Coffee Lake"; set_family "Skylake"; set_phys "14nm"];
    Uarch.FM   0  6  9 14 [set_uarch "Kaby Lake / Coffee Lake"; set_family "Skylake"; set_phys "14nm"];
    Uarch.FM   0  6 10  6 [set_uarch "Coffee Lake"; set_family "Skylake"; set_phys "14nm"];
    Uarch.F    0  7 [set_uarch "Itanium"];
    Uarch.FM   0 11  0  0 [set_uarch "Knights Ferry"; set_phys "45nm"];
    Uarch.FM   0 11  0  1 [set_uarch "Knights Corner"; set_phys "22nm"];
    Uarch.FM   0 15  0  0 [set_uarch "Willamette"; set_family "Netburst"; set_phys ".18um"];
    Uarch.FM   0 15  0  1 [set_uarch "Willamette"; set_family "Netburst"; set_phys ".18um"];
    Uarch.FM   0 15  0  2 [set_uarch "Northwood"; set_family "Netburst"; set_phys ".13um"];
    Uarch.FM   0 15  0  3 [set_uarch "Prescott"; set_family "Netburst"; set_phys "90nm"];
    Uarch.FM   0 15  0  4 [set_uarch "Prescott"; set_family "Netburst"; set_phys "90nm"];
    Uarch.FM   0 15  0  6 [set_uarch "Cedar Mill"; set_family "Netburst"; set_phys "65nm"];
    Uarch.F    0 15 [set_family "Netburst"];
    Uarch.FM   1 15  0  0 [set_uarch "Itanium2"; set_phys ".18um"];
    Uarch.FM   1 15  0  1 [set_uarch "Itanium2"; set_phys ".13um"];
    Uarch.FM   1 15  0  2 [set_uarch "Itanium2"; set_phys ".13um"];
    Uarch.F    1 15 [set_uarch "Itanium2"];
    Uarch.F    2  0 [set_uarch "Itanium2"; set_phys "90nm"];
    Uarch.F    2  1 [set_uarch "Itanium2"] ].

Definition decode_uarch_intel (val : Z) : arch_t :=
  let arch := init_arch in
  Uarch.cascade decode_uarch_intel_rules val arch.

(** The rules of [decode_uarch_amd], in the authored order (cpuid.c:2003). *)
Definition decode_uarch_amd_rules : list Uarch.rule :=
  [ Uarch.FM   0  4  0  3 [set_uarch "Am486"];
    Uarch.FM   0  4  0  7 [set_uarch "Am486"];
    Uarch.FM   0  4  0  8 [set_uarch "Am486"];
    Uarch.FM   0  4  0  9 [set_uarch "Am486"];
    Uarch.F    0  4 [set_uarch "Am5x86"];
    Uarch.FM   0  5  0  6 [set_uarch "K6"; set_phys ".30um"];
    Uarch.F    0  5 [set_uarch "K6"];
    Uarch.FM   0  6  0  1 [set_uarch "K7"; set_phys ".25um"];
    Uarch.FM   0  6  0  2 [set_uarch "K7"; set_phys ".18um"];
    Uarch.F    0  6 [set_uarch "K7"];
    Uarch.FMS  0 15  0  4  8 [set_uarch "K8"; set_phys "754-pin, .13um"];
    Uarch.FM   0 15  0  4 [set_uarch "K8"; set_phys "940-pin, .13um"];
    Uarch.FM   0 15  0  5 [set_uarch "K8"; set_phys "940-pin, .13um"];
    Uarch.FM   0 15  0  7 [set_uarch "K8"; set_phys "939-pin, .13um"];
    Uarch.FM   0 15  0  8 [set_uarch "K8"; set_phys "754-pin, .13um"];
    Uarch.FM   0 15  0 11 [set_uarch "K8"; set_phys "939-pin, .13um"];
    Uarch.FM   0 15  0 12 [set_uarch "K8"; set_phys "754-pin, .13um"];
    Uarch.FM   0 15  0 14 [set_uarch "K8"; set_phys "754-pin, .13um"];
    Uarch.FM   0 15  0 15 [set_uarch "K8"; set_phys "939-pin, .13um"];
    Uarch.FM   0 15  1  4 [set_uarch "K8"; set_phys "754-pin, 90nm"];
    Uarch.FM   0 15  1  5 [set_uarch "K8"; set_phys "940-pin, 90nm"];
    Uarch.FM   0 15  1  7 [set_uarch "K8"; set_phys "939-pin, 90nm"];
    Uarch.FM   0 15  1  8 [set_uarch "K8"; set_phys "754-pin, 90nm"];
    Uarch.FM   0 15  1 11 [set_uarch "K8"; set_phys "939-pin, 90nm"];
    Uarch.FM   0 15  1 12 [set_uarch "K8"; set_phys "754-pin, 90nm"];
    Uarch.FM   0 15  1 15 [set_uarch "K8"; set_phys "939-pin, 90nm"];
    Uarch.FM   0 15  2  1 [set_uarch "K8"; set_phys "940-pin, 90nm"];
    Uarch.FM   0 15  2  3 [set_uarch "K8"; set_phys "939-pin, 90nm"];
    Uarch.FM   0 15  2  4 [set_uarch "K8"; set_phys "754-pin, 90nm"];
    Uarch.FM   0 15  2  5 [set_uarch "K8"; set_phys "940-pin, 90nm"];
    Uarch.FM   0 15  2  7 [set_uarch "K8"; set_phys "939-pin, 90nm"];
    Uarch.FM   0 15  2 11 [set_uarch "K8"; set_phys "939-pin, 90nm"];
    Uarch.FM   0 15  2 12 [set_uarch "K8"; set_phys "754-pin, 90nm"];
    Uarch.FM   0 15  2 15 [set_uarch "K8"; set_phys "939-pin, 90nm"];
    Uarch.FM   0 15  4  1 [set_uarch "K8"; set_phys "90nm"];
    Uarch.FM   0 15  4  3 [set_uarch "K8"; set_phys "90nm"];
    Uarch.FM   0 15  4  8 [set_uarch "K8"; set_phys "90nm"];
    Uarch.FM   0 15  4 11 [set_uarch "K8"; set_phys "90nm"];
    Uarch.FM   0 15  4 12 [set_uarch "K8"; set_phys "90nm"];
    Uarch.FM   0 15  4 15 [set_uarch "K8"; set_phys "90nm"];
    Uarch.FM   0 15  5 13 [set_uarch "K8"; set_phys "90nm"];
    Uarch.FM   0 15  5 15 [set_uarch "K8"; set_phys "90nm"];
    Uarch.FM   0 15  6  8 [set_uarch "K8"; set_phys "65nm"];
    Uarch.FM   0 15  6 11 [set_uarch "K8"; set_phys "65nm"];
    Uarch.FM   0 15  6 12 [set_uarch "K8"; set_phys "65nm"];
    Uarch.FM   0 15  6 15 [set_uarch "K8"; set_phys "65nm"];
    Uarch.FM   0 15  7 12 [set_uarch "K8"; set_phys "65nm"];
    Uarch.FM   0 15  7 15 [set_uarch "K8"; set_phys "65nm"];
    Uarch.FM   0 15 12  1 [set_uarch "K8"; set_phys "90nm"];
    Uarch.FM   1 15  0  2 [set_uarch "K10"; set_phys "65nm"];
    Uarch.FM   1 15  0  4 [set_uarch "K10"; set_phys "45nm"];
    Uarch.FM   1 15  0  5 [set_uarch "K10"; set_phys "45nm"];
    Uarch.FM   1 15  0  6 [set_uarch "K10"; set_phys "45nm"];
    Uarch.FM   1 15  0  8 [set_uarch "K10"; set_phys "45nm"];
    Uarch.FM   1 15  0  9 [set_uarch "K10"; set_phys "45nm"];
    Uarch.FM   1 15  0 10 [set_uarch "K10"; set_phys "45nm"];
    Uarch.F    2 15 [set_uarch "Puma 2008"; set_phys "65nm"];
    Uarch.F    3 15 [set_uarch "K10"; set_phys "32nm"];
    Uarch.F    5 15 [set_uarch "Bobcat"; set_phys "40nm"];
    Uarch.FM   6 15  0  1 [set_uarch "Bulldozer"; set_phys "32nm"];
    Uarch.FM   6 15  0  2 [set_uarch "Piledriver"; set_phys "32nm"];
    Uarch.FM   6 15  1  0 [set_uarch "Piledriver"; set_phys "32nm"];
    Uarch.FM   6 15  1  3 [set_uarch "Piledriver"; set_phys "32nm"];
    Uarch.FM   6 15  3  0 [set_uarch "Steamroller"; set_phys "28nm"];
    Uarch.FM   6 15  3  8 [set_uarch "Steamroller"; set_phys "28nm"];
    Uarch.FM   6 15  6  5 [set_uarch "Excavator"; set_phys "28nm"];
    Uarch.FM   6 15  7  0 [set_uarch "Excavator"; set_phys "28nm"];
    Uarch.FM   7 15  0  0 [set_uarch "Jaguar"; set_phys "28nm"];
    Uarch.FM   7 15  3  0 [set_uarch "Puma 2014"; set_phys "28nm"];
    Uarch.FM   8 15  0  1 [set_uarch "Zen"; set_phys "14nm"];
    Uarch.FM   8 15  1  1 [set_uarch "Zen"; set_phys "14nm"];
    Uarch.FM   8 15  0  8 [set_uarch "Zen+"; set_phys "12nm"];
    Uarch.FM   8 15  1  8 [set_uarch "Zen+"; set_phys "12nm"];
    Uarch.FM   8 15  3  1 [set_uarch "Zen 2"; set_phys "7nm"];
    Uarch.FM   8 15  7  1 [set_uarch "Zen 2"; set_phys "7nm"] ].

Definition decode_uarch_amd (val : Z) : arch_t :=
  let arch := init_arch in
  Uarch.cascade decode_uarch_amd_rules val arch.

(** The rules of [decode_uarch_cyrix], in the authored order (cpuid.c:2091). *)
Definition decode_uarch_cyrix_rules : list Uarch.rule :=
  [ Uarch.F    0  5 [set_uarch "M1"; set_core_is_uarch true];
    Uarch.F    0  6 [set_uarch "M2"; set_core_is_uarch true] ].

Definition decode_uarch_cyrix (val : Z) : arch_t :=
  let arch := init_arch in
  Uarch.cascade decode_uarch_cyrix_rules val arch.

(** The rules of [decode_uarch_via], in the authored order (cpuid.c:2106). *)
Definition decode_uarch_via_rules : list Uarch.rule :=
  [ Uarch.F    0  5 [set_uarch "WinChip"; set_core_is_uarch true];
    Uarch.FM   0  6  0  6 [set_uarch "C3"; set_core_is_uarch true];
    Uarch.FM   0  6  0  7 [set_uarch "C3"; set_core_is_uarch true];
    Uarch.FM   0  6  0  8 [set_uarch "C3"; set_core_is_uarch true];
    Uarch.FM   0  6  0  9 [set_uarch "C3"; set_core_is_uarch true];
    Uarch.FM   0  6  0 10 [set_uarch "C7"];
    Uarch.FM   0  6  0 13 [set_uarch "C7"];
    Uarch.FM   0  6  0 15 [set_uarch "C7"] ].

Definition decode_uarch_via (val : Z) : arch_t :=
  let arch := init_arch in
  Uarch.cascade decode_uarch_via_rules val arch.

(** The rules of [decode_uarch_umc], in the authored order (cpuid.c:2127). *)
Definition decode_uarch_umc_rules : list Uarch.rule :=
  [ Uarch.F    0  4 [set_uarch "486 U5"; set_core_is_uarch true] ].

Definition decode_uarch_umc (val : Z) : arch_t :=
  let arch := init_arch in
  Uarch.cascade decode_uarch_umc_rules val arch.

(** The rules of [decode_uarch_nexgen], in the authored order (cpuid.c:2141). *)
Definition decode_uarch_nexgen_rules : list Uarch.rule :=
  [ Uarch.F    0  5 [set_uarch "Nx586"] ].

Definition decode_uarch_nexgen (val : Z) : arch_t :=
  let arch := init_arch in
  Uarch.cascade decode_uarch_nexgen_rules val arch.

(** The rules of [decode_uarch_rise], in the authored order (cpuid.c:2154). *)
Definition decode_uarch_rise_rules : list Uarch.rule :=
  [ Uarch.F    0  5 [set_uarch "mP6"; set_core_is_uarch true] ].

Definition decode_uarch_rise (val : Z) : arch_t :=
  let arch := init_arch in
  Uarch.cascade decode_uarch_rise_rules val arch.

(** The rules of [decode_uarch_transmeta], in the authored order (cpuid.c:2168). *)
Definition decode_uarch_transmeta_rules : list Uarch.rule :=
  [ Uarch.F    0  5 [set_uarch "Crusoe"; set_core_is_uarch true];
    Uarch.F    0 15 [set_uarch "Efficeon"; set_core_is_uarch true] ].

Definition decode_uarch_transmeta (val : Z) : arch_t :=
  let arch := init_arch in
  Uarch.cascade decode_uarch_transmeta_rules val arch.

(** The rules of [decode_uarch_sis], in the authored order (cpuid.c:2183). *)
Definition decode_uarch_sis_rules : list Uarch.rule :=
  [ Uarch.F    0  5 [set_uarch "mP6"; set_core_is_uarch true] ].

Definition decode_uarch_sis (val : Z) : arch_t :=
  let arch := init_arch in
  Uarch.cascade decode_uarch_sis_rules val arch.

(** The rules of [decode_uarch_hygon], in the authored order (cpuid.c:2197). *)
Definition decode_uarch_hygon_rules : list Uarch.rule :=
  [ Uarch.FM   9 15  0  0 [set_uarch "Moksha"; set_phys "14nm"] ].

Definition decode_uarch_hygon (val : Z) : arch_t :=
  let arch := init_arch in
  Uarch.cascade decode_uarch_hygon_rules val arch.

(** The rules of [decode_uarch_zhaoxin], in the authored order (cpuid.c:2211). *)
Definition decode_uarch_zhaoxin_rules : list Uarch.rule :=
  [ Uarch.FM   0  7  1 11 [set_uarch "WuDaoKou"; set_core_is_uarch true] ].

Definition decode_uarch_zhaoxin (val : Z) : arch_t :=
  let arch := init_arch in
  Uarch.cascade decode_uarch_zhaoxin_rules val arch.


(** [decode_uarch(val, vendor, arch)], the value left in [*arch]; each
    table starts from [init_arch] again. *)
Definition decode_uarch (val : Z) (vendor : vendor_t) : arch_t :=
  let arch := init_arch in
  match vendor with
  | VENDOR_INTEL => decode_uarch_intel val
  | VENDOR_AMD => decode_uarch_amd val
  | VENDOR_CYRIX => decode_uarch_cyrix val
  | VENDOR_VIA => decode_uarch_via val
  | VENDOR_TRANSMETA => decode_uarch_transmeta val
  | VENDOR_UMC => decode_uarch_umc val
  | VENDOR_NEXGEN => decode_uarch_nexgen val
  | VENDOR_RISE => decode_uarch_rise val
  | VENDOR_SIS => decode_uarch_sis val
  | VENDOR_HYGON => decode_uarch_hygon val
  | VENDOR_ZHAOXIN => decode_uarch_zhaoxin val
  | VENDOR_NSC
  | VENDOR_VORTEX
  | VENDOR_RDC
  | VENDOR_UNKNOWN => arch
  end.

(** [print_uarch(stash)], the text it writes. *)
Definition print_uarch (stash : code_stash_t) : string :=
  let arch := decode_uarch (val_1_eax stash) (vendor stash) in
  if not_null (uarch arch) || not_null (family arch) || not_null (phys arch)
  then
    let vendor := decode_vendor (vendor stash) in
    "   (uarch synth) ="
    ++ match vendor with
       | Some vendor => sprintf " %s" [ArgS vendor]
       | None => EmptyString
       end
    ++ match uarch arch with
       | Some u => sprintf " %s" [ArgS u]
       | None => EmptyString
       end
    ++ match family arch with
       | Some f => sprintf " {%s}" [ArgS f]
       | None => EmptyString
       end
    ++ match phys arch with
       | Some p => sprintf ", %s" [ArgS p]
       | None => EmptyString
       end
    ++ LF
  else EmptyString.

(** [append_uarch(synth, val, vendor)].  The pieces are written one after
    the other into a static buffer of 1024 bytes; the value is the string
    the buffer then holds, or [synth] itself when nothing is appended. *)
Definition append_uarch (synth : option cstring) (val : Z) (vendor : vendor_t)
  : option cstring :=
  match synth with
  | Some str =>
      let arch := decode_uarch val vendor in
      if (not_null (uarch arch) && negb (core_is_uarch arch))
         || not_null (family arch)
         || not_null (phys arch)
      then
        let buffer := sprintf "%s" [ArgS str] in
        let buffer :=
          match uarch arch with
          | Some u =>
              if negb (core_is_uarch arch)
              then buffer ++ sprintf " [%s]" [ArgS u]
              else buffer
          | None => buffer
          end in
        let buffer :=
          match family arch with
          | Some f => buffer ++ sprintf " {%s}" [ArgS f]
          | None => buffer
          end in
        let buffer :=
          match phys arch with
          | Some p => buffer ++ sprintf ", %s" [ArgS p]
          | None => buffer
          end in
        Some buffer
      else synth
  | None => synth
  end.

(* ================================================================== *)
(** ** The extended synth tables and the synth dispatch                *)
(* ================================================================== *)

(** The rules of [decode_x_synth_amd], in the authored order (cpuid.c:4007). *)
Definition decode_x_synth_amd_rules : list rule :=
  [ FM    0  5  0  0 "AMD SSA5 (PR75, PR90, PR100)";
    FM    0  5  0  1 "AMD 5k86 (PR120, PR133)";
    FM    0  5  0  2 "AMD 5k86 (PR166)";
    FM    0  5  0  3 "AMD 5k86 (PR200)";
    F     0  5 "AMD 5k86 (unknown model)";
    FM    0  6  0  6 "AMD K6, .30um";
    FM    0  6  0  7 "AMD K6 (Little Foot), .25um";
    FMS   0  6  0  8  0 "AMD K6-2 (Chomper A)";
    FMS   0  6  0  8 12 "AMD K6-2 (Chomper A)";
    FM    0  6  0  8 "AMD K6-2 (Chomper)";
    FMS   0  6  0  9  1 "AMD K6-III (Sharptooth B)";
    FM    0  6  0  9 "AMD K6-III (Sharptooth)";
    FM    0  6  0 13 "AMD K6-2+, K6-III+";
    F     0  6 "AMD K6 (unknown model)";
    FM    0  7  0  1 "AMD Athlon, .25um";
    FM    0  7  0  2 "AMD Athlon (K75 / Pluto / Orion), .18um";
    FMS   0  7  0  3  0 "AMD Duron / mobile Duron (Spitfire A0)";
    FMS   0  7  0  3  1 "AMD Duron / mobile Duron (Spitfire A2)";
    FM    0  7  0  3 "AMD Duron / mobile Duron (Spitfire)";
    FMS   0  7  0  4  2 "AMD Athlon (Thunderbird A4-A7)";
    FMS   0  7  0  4  4 "AMD Athlon (Thunderbird A9)";
    FM    0  7  0  4 "AMD Athlon (Thunderbird)";
    FMS   0  7  0  6  0 "AMD Athlon / Athlon MP mobile Athlon 4 / mobile Duron (Palomino A0)";
    FMS   0  7  0  6  1 "AMD Athlon / Athlon MP / Duron / mobile Athlon / mobile Duron (Palomino A2)";
    FMS   0  7  0  6  2 "AMD Athlon MP / Athlon XP / Duron / Duron MP / mobile Athlon / mobile Duron (Palomino A5)";
    FM    0  7  0  6 "AMD Athlon / Athlon MP / Athlon XP / Duron / Duron MP / mobile Athlon / mobile Duron (Palomino)";
    FMS   0  7  0  7  0 "AMD Duron / Duron MP / mobile Duron (Morgan A0)";
    FMS   0  7  0  7  1 "AMD Duron / Duron MP / mobile Duron (Morgan A1)";
    FM    0  7  0  7 "AMD Duron / Duron MP / mobile Duron (Morgan)";
    FMS   0  7  0  8  0 "AMD Athlon XP / Athlon MP / Sempron / Duron / Duron MP (Thoroughbred A0)";
    FMS   0  7  0  8  1 "AMD Athlon XP / Athlon MP / Sempron / Duron / Duron MP (Thoroughbred B0)";
    FM    0  7  0  8 "AMD Athlon XP / Athlon MP / Sempron / Duron / Duron MP (Thoroughbred)";
    FMS   0  7  0 10  0 "AMD Athlon XP / Athlon MP / Sempron / mobile Athlon XP-M / mobile Athlon XP-M (LV) (Barton A2)";
    FM    0  7  0 10 "AMD Athlon XP / Athlon MP / Sempron / mobile Athlon XP-M / mobile Athlon XP-M (LV) (Barton)";
    F     0  7 "AMD Athlon XP / Athlon MP / Sempron / Duron / Duron MP / mobile Athlon / mobile Athlon XP-M / mobile Athlon XP-M (LV) / mobile Duron (unknown model)" ].

(** The rules of [decode_x_synth_hygon], in the authored order (cpuid.c:4065). *)
Definition decode_x_synth_hygon_rules : list rule :=
  [].

(** The rules of [decode_x_synth_via], in the authored order (cpuid.c:4088). *)
Definition decode_x_synth_via_rules : list rule :=
  [ FM    0  6  0  6 "VIA C3 (WinChip C5A)";
    FM    0  6  0  6 "VIA C3 (WinChip C5A)";
    FMS   0  6  0  7  0 "VIA C3 (WinChip C5B)";
    FMS   0  6  0  7  1 "VIA C3 (WinChip C5B)";
    FMS   0  6  0  7  2 "VIA C3 (WinChip C5B)";
    FMS   0  6  0  7  3 "VIA C3 (WinChip C5B)";
    FMS   0  6  0  7  4 "VIA C3 (WinChip C5B)";
    FMS   0  6  0  7  5 "VIA C3 (WinChip C5B)";
    FMS   0  6  0  7  6 "VIA C3 (WinChip C5B)";
    FMS   0  6  0  7  7 "VIA C3 (WinChip C5B)";
    FM    0  6  0  7 "VIA C3 (WinChip C5C)";
    FM    0  6  0  8 "VIA C3 (WinChip C5N)";
    FM    0  6  0  9 "VIA C3 (WinChip C5XL)";
    F     0  6 "VIA C3 (unknown model)" ].


(** [decode_x_synth_amd(val)]: the table, and when no arm matches the
    [FALLBACK] to the simple synth of [decode_synth_amd]. *)
Definition decode_x_synth_amd (val : Z) : option cstring :=
  match cascade decode_x_synth_amd_rules val None with
  | Some str => Some str
  | None => append_uarch (Some (decode_synth_amd val None)) val VENDOR_AMD
  end.

(** [decode_x_synth_hygon(val)]: no arm, the [FALLBACK] alone. *)
Definition decode_x_synth_hygon (val : Z) : option cstring :=
  match cascade decode_x_synth_hygon_rules val None with
  | Some str => Some str
  | None => append_uarch (Some (decode_synth_hygon val)) val VENDOR_HYGON
  end.

(** [decode_x_synth_via(val)] *)
Definition decode_x_synth_via (val : Z) : option cstring :=
  let result := first_match decode_x_synth_via_rules (DEFAULT "unknown")
                            val None in
  append_uarch (Some result) val VENDOR_VIA.

(** [print_x_synth_amd], [print_x_synth_hygon] and [print_x_synth_via]
    have the same body over their decoder; the text they write. *)
Definition print_x_synth (synth : option cstring) : string :=
  "      (simple synth) = "
  ++ match synth with
     | Some synth => sprintf "%s" [ArgS synth]
     | None => EmptyString
     end
  ++ LF.

Definition print_x_synth_amd (val : Z) : string :=
  print_x_synth (decode_x_synth_amd val).
Definition print_x_synth_hygon (val : Z) : string :=
  print_x_synth (decode_x_synth_hygon val).
Definition print_x_synth_via (val : Z) : string :=
  print_x_synth (decode_x_synth_via val).

(** [decode_synth(val_eax, vendor, stash)]; [None] is NULL. *)
Definition decode_synth (val_eax : Z) (vendor : vendor_t)
           (stash : option code_stash_t) : option cstring :=
  let synth :=
    match vendor with
    | VENDOR_INTEL => Some (decode_synth_intel val_eax stash)
    | VENDOR_AMD => Some (decode_synth_amd val_eax stash)
    | VENDOR_CYRIX => Some (decode_synth_cyrix val_eax stash)
    | VENDOR_VIA => Some (decode_synth_via val_eax)
    | VENDOR_TRANSMETA => Some (decode_synth_transmeta val_eax stash)
    | VENDOR_UMC => Some (decode_synth_umc val_eax)
    | VENDOR_NEXGEN => Some (decode_synth_nexgen val_eax)
    | VENDOR_RISE => Some (decode_synth_rise val_eax)
    | VENDOR_SIS => Some (decode_synth_sis val_eax)
    | VENDOR_NSC => Some (decode_synth_nsc val_eax)
    | VENDOR_VORTEX => Some (decode_synth_vortex val_eax)
    | VENDOR_RDC => Some (decode_synth_rdc val_eax)
    | VENDOR_HYGON => Some (decode_synth_hygon val_eax)
    | VENDOR_ZHAOXIN => Some (decode_synth_zhaoxin val_eax)
    | VENDOR_UNKNOWN => None
    end in
  append_uarch synth val_eax vendor.

(** [print_synth_simple(val_eax, vendor)], the text it writes. *)
Definition print_synth_simple (val_eax : Z) (vendor : vendor_t) : string :=
  match decode_synth val_eax vendor None with
  | Some synth => sprintf "      (simple synth)  = %s" [ArgS synth]
  | None => EmptyString
  end
  ++ LF.

(** [print_synth(stash)], the text it writes. *)
Definition print_synth (stash : code_stash_t) : string :=
  match decode_synth (val_1_eax stash) (vendor stash) (Some stash) with
  | Some synth => sprintf "   (synth) = %s" [ArgS synth]
  | None => EmptyString
  end
  ++ LF.

(* ================================================================== *)
(** ** Transmeta processor revisions                                   *)
(* ================================================================== *)

(** [print_transmeta_proc_rev_meaning(proc_rev)], the text it writes. *)
Definition print_transmeta_proc_rev_meaning (proc_rev : Z) : string :=
  switch (Z.land proc_rev 0xffff0000)
    [ case [0x01010000] "(TM3200)";
      case [0x01020000] "(TM5400)";
      case [0x01030000]
        (if Z.land proc_rev 0xffffff00 =? 0x00000000
         then "(TM5400 / TM5600)"
         else "(unknown)");
      case [0x01040000; 0x01050000] "(TM5500 / TM5800)" ]
    "(unknown)".
(* ================================================================== *)
(** ** Vocabulary of the properties                                    *)
(* ================================================================== *)

(** The eleven cache-classification flags of the stash. *)
Inductive cache_flag : Set :=
  | Flag_L2_4w_1Mor2M
  | Flag_L2_4w_512K
  | Flag_L2_4w_256K
  | Flag_L2_8w_1Mor2M
  | Flag_L2_8w_512K
  | Flag_L2_8w_256K
  | Flag_L2_2M
  | Flag_L2_6M
  | Flag_L3
  | Flag_L2_256K
  | Flag_L2_512K.

Definition flag (fl : cache_flag) (stash : code_stash_t) : bool :=
  match fl with
  | Flag_L2_4w_1Mor2M => L2_4w_1Mor2M stash
  | Flag_L2_4w_512K => L2_4w_512K stash
  | Flag_L2_4w_256K => L2_4w_256K stash
  | Flag_L2_8w_1Mor2M => L2_8w_1Mor2M stash
  | Flag_L2_8w_512K => L2_8w_512K stash
  | Flag_L2_8w_256K => L2_8w_256K stash
  | Flag_L2_2M => L2_2M stash
  | Flag_L2_6M => L2_6M stash
  | Flag_L3 => L3 stash
  | Flag_L2_256K => L2_256K stash
  | Flag_L2_512K => L2_512K stash
  end.

(** An observation sets a flag when folding it into the empty stash
    leaves the flag set. *)
Definition sets_flag (fl : cache_flag) (raw : bool) (o : observation) : bool :=
  flag fl (print_reg (o_reg o) (o_words o) raw (o_try o) NIL_STASH).

(** The processor count of the last of the six leaf-0x1f records whose
    level type is [level]; [init] when there is none. *)
Definition last_v2_level (level : Z) (ecx ebx : list Z) (init : Z) : Z :=
  fold_left
    (fun acc try =>
       if GET_V2_TOPO_LEVEL (nth try ecx 0) =? level
       then GET_V2_TOPO_PROCESSORS (nth try ebx 0)
       else acc)
    (seq 0 6) init.

(** A [char] array holding the string [s], NUL-padded to [n] bytes. *)
Definition char_array_of (s : string) (n : nat) : list ascii :=
  firstn n (list_ascii_of_string s ++ repeat "000"%char n).

(** The Override Brand text: the reconstructor's brand-prefix, a space,
    the processor number and, when a suffix was resolved, a space and the
    suffix; nothing when no prefix was resolved. *)
Definition override_brand_text (m : amd_model) : option cstring :=
  match brand_pre m with
  | Some pre =>
      Some (pre ++ " " ++ proc m
            ++ match brand_post m with
               | Some post => " " ++ post
               | None => EmptyString
               end)
  | None => None
  end.

(** A regular-expression matcher that never matches, for running the
    brand-string parse on inputs whose outcome does not hang on one. *)
Definition no_regexp : cstring -> cstring -> bool := fun _ _ => false.

(** *** Relations used in the proofs *)

(** [s'] carries the flags of [s] together with those of [n]. *)
Definition flags_join (s n s' : code_stash_t) : Prop :=
  forall fl, flag fl s' = flag fl s || flag fl n.

(** [f] may raise flags and does nothing else to them. *)
Definition raises_flags (f : code_stash_t -> code_stash_t) : Prop :=
  forall s n s', flags_join s n s' -> flags_join s (f n) (f s').

(** [f] leaves every flag as it is. *)
Definition keeps_flags (f : code_stash_t -> code_stash_t) : Prop :=
  forall fl s, flag fl (f s) = flag fl s.

(** [r] is the earliest rule of the table [rules], in the authored order,
    that fires on [val] and [stash]: the table is [before ++ r :: after],
    no rule of [before] fires and [r] does.  Nothing is asked of the rules
    of [after]: their keys may match as well. *)
Definition earliest_rule (rules : list rule) (val : Z)
           (stash : option code_stash_t) (r : rule) : Prop :=
  exists before after : list rule,
    rules = (before ++ r :: after)%list
    /\ existsb (rule_fires val stash) before = false
    /\ rule_fires val stash r = true.

(** The bits of [val] a rule can look at: type, family, model, stepping. *)
Definition sig_bits (val : Z) : Z := Z.land val 0x0fff3fff.

Definition mask_in_sig (r : rule) : bool :=
  Z.land (r_mask r) 0x0fff3fff =? r_mask r.

(** The rules of the Intel table keyed on family 6, model 0x3A,
    stepping 9, as authored (cpuid.c:2785-2789). *)
Definition ivy_bridge_9_rules : list rule :=
  [ FMSQ 0 6 3 10 9 Mc "Intel Mobile Core i*-3000 (Ivy Bridge E1/L1) / Pentium 900/1000/2000/2100 (P0)";
    FMSQ 0 6 3 10 9 dc "Intel Core i*-3000 (Ivy Bridge E1/N0/L1)";
    FMSQ 0 6 3 10 9 sX "Intel Xeon E3-1100 v2 / E3-1200 v2 (Ivy Bridge E1/N0/L1)";
    FMSQ 0 6 3 10 9 dP "Intel Pentium G1600/G2000/G2100 / Pentium B925C (Ivy Bridge P0)";
    FMS 0 6 3 10 9 "Intel Core (unknown type) (Ivy Bridge E1/N0/L1/P0)" ].

(* ================================================================== *)
(** ** Captured dumps used as concrete inputs                          *)
(* ================================================================== *)

Definition leaf (reg try eax ebx ecx edx : Z) : observation :=
  {| o_reg := reg; o_try := try; o_words := [eax; ebx; ecx; edx] |}.

(** The three registers that spell a vendor id in leaf 0. *)
Definition leaf_0_GenuineIntel : observation :=
  leaf 0 0 0x0000001f 0x756e6547 0x6c65746e 0x49656e69.
Definition leaf_0_AuthenticAMD : observation :=
  leaf 0 0 0x00000001 0x68747541 0x444d4163 0x69746e65.

(** The brand string "AMD Processor model unknown" in leaves
    0x80000002 to 0x80000004. *)
Definition brand_model_unknown : list observation :=
  [ leaf 0x80000002 0 0x20444d41 0x636f7250 0x6f737365 0x6f6d2072;
    leaf 0x80000003 0 0x206c6564 0x6e6b6e75 0x006e776f 0x00000000;
    leaf 0x80000004 0 0x00000000 0x00000000 0x00000000 0x00000000 ].

(** A family 0Fh AMD part (signature 0x00000F48) whose BIOS left the brand
    string at "model unknown" and whose brand id fields are all zero. *)
Definition dump_amd_0Fh_no_brand_id : list observation :=
  [ leaf_0_AuthenticAMD;
    leaf 1 0 0x00000f48 0x00000000 0x00000000 0x078bfbff;
    leaf 0x80000001 0 0x00000f48 0x00000000 0x00000000 0xe1d3fbff ]
  ++ brand_model_unknown.

(** The same part with the extended brand id 0x10a (BrandTableIndex 4,
    NN 10): an Athlon 64 3200+. *)
Definition dump_amd_0Fh_athlon_64 : list observation :=
  [ leaf_0_AuthenticAMD;
    leaf 1 0 0x00000f48 0x00000000 0x00000000 0x078bfbff;
    leaf 0x80000001 0 0x00000f48 0x0000010a 0x00000000 0xe1d3fbff ]
  ++ brand_model_unknown.

(** An Ivy Bridge signature (family 6, model 0x3A, stepping 9) and
    nothing else: no brand string, no brand id. *)
Definition dump_ivy_bridge_bare : list observation :=
  [ leaf_0_GenuineIntel;
    leaf 1 0 0x000306a9 0x00100800 0x7fbae3ff 0xbfebfbff ].

(** The same signature with the brand string
    "Intel(R) Core(TM) i5-3320M CPU @ 2.60GHz". *)
Definition dump_ivy_bridge_i5_3320M : list observation :=
  dump_ivy_bridge_bare
  ++ [ leaf 0x80000002 0 0x65746e49 0x2952286c 0x726f4320 0x4d542865;
       leaf 0x80000003 0 0x35692029 0x3233332d 0x43204d30 0x40205550;
       leaf 0x80000004 0 0x362e3220 0x7a484730 0x00000000 0x00000000 ].

(** The same signature with a brand string that names a mobile Core part,
    "Intel(R) Core(TM) i7-3720QM Mobile CPU @ 2.60GHz". *)
Definition dump_ivy_bridge_mobile : list observation :=
  dump_ivy_bridge_bare
  ++ [ leaf 0x80000002 0 0x65746e49 0x2952286c 0x726f4320 0x4d542865;
       leaf 0x80000003 0 0x37692029 0x3237332d 0x204d5130 0x69626f4d;
       leaf 0x80000004 0 0x4320656c 0x40205550 0x362e3220 0x7a484730 ].

(** An Intel part that answers both leaf 0xb (2 threads per core, 8
    logical processors) and leaf 0x1f (2 threads per core, 16 logical
    processors). *)
Definition dump_intel_leaf_b_and_1f : list observation :=
  [ leaf_0_GenuineIntel;
    leaf 1 0 0x000806f8 0x00100800 0x7ffefbff 0xbfebfbff;
    leaf 0xb 0 0x00000001 0x00000002 0x00000100 0x00000000;
    leaf 0xb 1 0x00000004 0x00000008 0x00000201 0x00000000;
    leaf 0x1f 0 0x00000001 0x00000002 0x00000100 0x00000000;
    leaf 0x1f 1 0x00000005 0x00000010 0x00000201 0x00000000;
    leaf 0x1f 2 0x00000000 0x00000000 0x00000002 0x00000000 ].

(** An Intel part whose leaf 0xb reports no SMT-level processors. *)
Definition dump_intel_leaf_b_zero_smt : list observation :=
  [ leaf_0_GenuineIntel;
    leaf 1 0 0x000206a7 0x00080800 0x1fbae3ff 0xbfebfbff;
    leaf 0xb 0 0x00000000 0x00000000 0x00000100 0x00000000;
    leaf 0xb 1 0x00000004 0x00000008 0x00000201 0x00000000 ].

(** An older raw dump of a single-threaded Intel part: leaf 4 is present
    but empty, and leaf 1 counts one logical processor. *)
Definition dump_intel_leaf_4_empty_one_cpu : list observation :=
  [ leaf_0_GenuineIntel;
    leaf 1 0 0x00000f41 0x00010800 0x0000441d 0xbfebfbff;
    leaf 4 0 0x00000000 0x00000000 0x00000000 0x00000000 ].

(** The same dump of a part that counts four logical processors. *)
Definition dump_intel_leaf_4_empty_four_cpus : list observation :=
  [ leaf_0_GenuineIntel;
    leaf 1 0 0x00000f41 0x00040800 0x0000441d 0xbfebfbff;
    leaf 4 0 0x00000000 0x00000000 0x00000000 0x00000000 ].

(** Leaf 2 with the descriptor byte 0x4e (and the count byte 0x01), then
    unrelated cache leaves. *)
Definition dump_cache_6M_first : list observation :=
  [ leaf 2 0 0x00004e01 0x00000000 0x00000000 0x00000000 ].
Definition dump_cache_later : list observation :=
  [ leaf 4 0 0x1c004121 0x01c0003f 0x0000003f 0x00000000;
    leaf 2 1 0x0000007d 0x80000021 0x00000000 0x00000000;
    leaf 0x80000006 0 0x00000000 0x00000000 0x01006040 0x00000000;
    leaf 0x8000001d 0 0x00004121 0x01c0003f 0x0000003f 0x00000000 ].


(* ================================================================== *)
(** ** Vocabulary of the further properties                            *)
(* ================================================================== *)

(** *** What a pass captures and what the decode step computes *)

(** The fields the decode step computes. *)
Definition decode_results (s : code_stash_t)
  : struct_mp * struct_bri * struct_br * cstring :=
  (mp s, bri s, br s, override_brand s).

(** A [char] array of [n + 1] bytes whose last byte is NUL. *)
Definition terminated (n : nat) (buf : list ascii) : Prop :=
  length buf = S n /\ nth n buf "000"%char = "000"%char.

(** The arrays of the stash have the sizes the C declaration gives them,
    and each [char] array ends in a NUL. *)
Definition sized (s : code_stash_t) : Prop :=
  length (val_b_eax s) = 2%nat
  /\ length (val_b_ebx s) = 2%nat
  /\ length (val_1f_eax s) = 6%nat
  /\ length (val_1f_ebx s) = 6%nat
  /\ length (val_1f_ecx s) = 6%nat
  /\ terminated 48 (brand s)
  /\ terminated 64 (transmeta_info s)
  /\ terminated 48 (soc_brand s).

(** The arrays of the stash, side by side. *)
Definition arrays (s : code_stash_t) :=
  (val_b_eax s, val_b_ebx s, val_1f_eax s, val_1f_ebx s, val_1f_ecx s,
   brand s, transmeta_info s, soc_brand s).

(** *** Lengths of the strings *)

Definition opt_length (o : option cstring) : nat :=
  match o with Some s => String.length s | None => 0%nat end.

(** The bounds of the two family 0Fh switches of [decode_amd_model]. *)
Definition model_fits (m : amd_model) : Prop :=
  (String.length (proc m) <= 21)%nat
  /\ (opt_length (brand_pre m) <= 40)%nat
  /\ (opt_length (brand_post m) <= 9)%nat.

(** The bounds of its String1/String2 tables. *)
Definition model_fits_10h (m : amd_model) : Prop :=
  (String.length (proc m) <= 48)%nat
  /\ (opt_length (brand_pre m) <= 40)%nat
  /\ brand_post m = None.

Definition strings_fit (x : (option cstring * option cstring) * option cstring)
  : Prop :=
  (opt_length (fst (fst x)) <= 40)%nat
  /\ (opt_length (snd (fst x)) <= 13)%nat
  /\ (opt_length (snd x) <= 32)%nat.

(** The strings of [decode_amd_model] fit the buffers they are written
    to: [proc] its 96 bytes, and prefix, number and suffix, with the
    spaces between them, the 97 bytes of [override_brand]. *)
Definition model_fits_buffers (m : amd_model) : Prop :=
  (String.length (proc m) < 96)%nat
  /\ (opt_length (brand_pre m) + 1 + String.length (proc m)
      + match brand_post m with
        | Some post => 1 + String.length post
        | None => 0
        end < 97)%nat.

(** No string of a table is longer than [n]. *)
Definition acts_within (n : nat) (rules : list rule) : bool :=
  forallb (fun r => Nat.leb (String.length (r_act r)) n) rules.

(** No field of [arch] is longer than [n]. *)
Definition arch_within (n : nat) (arch : arch_t) : bool :=
  Nat.leb (opt_length (uarch arch)) n
  && Nat.leb (opt_length (family arch)) n
  && Nat.leb (opt_length (phys arch)) n.

(** *** The synth dispatch *)

(** What [append_uarch] appends for [val] and [vendor]. *)
Definition uarch_suffix (val : Z) (vendor : vendor_t) : string :=
  let arch := decode_uarch val vendor in
  match uarch arch with
  | Some u => if core_is_uarch arch then EmptyString else " [" ++ u ++ "]"
  | None => EmptyString
  end
  ++ match family arch with
     | Some f => " {" ++ f ++ "}"
     | None => EmptyString
     end
  ++ match phys arch with
     | Some p => ", " ++ p
     | None => EmptyString
     end.

Definition uarch_mask_in_sig (r : Uarch.rule) : bool :=
  Z.land (Uarch.r_mask r) 0x0fff3fff =? Uarch.r_mask r.

(** A rule without a query. *)
Definition unqualified (r : rule) : bool := negb (not_null (r_query r)).

(** A rule that tests the whole family field, for one of [families]. *)
Definition family_rule (families : list Z) (r : rule) : bool :=
  (Z.land (r_mask r) 0x0ff00f00 =? 0x0ff00f00)
  && existsb (Z.eqb (Z.land (r_key r) 0x0ff00f00)) families.

(** *** The leaf-2 descriptors *)

(** The descriptor bytes that raise each flag, as the [case] labels of
    [stash_intel_cache] list them (cpuid.c:1329-1410). *)
Definition descriptors (fl : cache_flag) : list Z :=
  match fl with
  | Flag_L2_4w_1Mor2M => [0x44; 0x45]
  | Flag_L2_4w_512K => [0x43]
  | Flag_L2_4w_256K => [0x42]
  | Flag_L2_8w_1Mor2M => [0x84; 0x85]
  | Flag_L2_8w_512K => [0x80; 0x83]
  | Flag_L2_8w_256K => [0x82]
  | Flag_L2_2M => [0x45; 0x7d; 0x85]
  | Flag_L2_6M => [0x4e]
  | Flag_L3 =>
      [0x22; 0x23; 0x25; 0x29; 0x46; 0x47; 0x49; 0x4a; 0x4b; 0x4c; 0x4d;
       0x88; 0x89; 0x8a; 0x8d; 0xd0; 0xd1; 0xd2; 0xd6; 0xd7; 0xd8; 0xdc;
       0xdd; 0xde; 0xe2; 0xe3; 0xe4; 0xea; 0xeb; 0xec]
  | Flag_L2_256K => [0x21; 0x3c; 0x42; 0x7a; 0x7e; 0x82]
  | Flag_L2_512K => [0x3e; 0x43; 0x7b; 0x7f; 0x83; 0x86]
  end.

(** *** Further dumps *)

(** An Intel part with a filled leaf 4: eight cores per package, sixteen
    logical processors in leaf 1. *)
Definition dump_intel_leaf_4 : list observation :=
  [ leaf_0_GenuineIntel;
    leaf 1 0 0x000106a5 0x00100800 0x009ce3bd 0xbfebfbff;
    leaf 4 0 0x1c004121 0x01c0003f 0x0000003f 0x00000000 ].

(** A Transmeta Crusoe (signature 0x00000542) whose leaf 0x80860001
    defers to leaf 0x80860002, which reports the revision 0x01010000. *)
Definition dump_transmeta_crusoe : list observation :=
  [ leaf 0 0 0x00000001 0x756e6547 0x3638784d 0x54656e69;
    leaf 1 0 0x00000542 0x00000000 0x00000000 0x0084893f;
    leaf 0x80860001 0 0x00000542 0x20000000 0x00000000 0x00000000;
    leaf 0x80860002 0 0x01010000 0x00000000 0x00000000 0x00000000 ].

(** *** The brand string *)

(** The 16 bytes of the four registers of a leaf, in memory order. *)
Definition register_chars (words : list Z) : list ascii :=
  map (fun b => ascii_of_N (Z.to_N b))
      (flat_map (fun i => bytes_of_word (word words i)) (seq 0 WORD_NUM)).

(** The registers of the last observation of leaf [reg], if there is one. *)
Fixpoint last_words (reg : Z) (obs : list observation) : option (list Z) :=
  match obs with
  | [] => None
  | o :: rest =>
      match last_words reg rest with
      | Some words => Some words
      | None => if o_reg o =? reg then Some (o_words o) else None
      end
  end.

(** The [k]-th 16 bytes of a buffer. *)
Definition block (k : nat) (buf : list ascii) : list ascii :=
  firstn 16 (skipn (16 * k) buf).

(** *** Stores into the arrays of the stash *)

(** [a[i] = v] on an array declared with [length a] elements.  A store at
    an index that is not below the length lands outside the array: it has
    no value here. *)
Definition array_store (a : list Z) (i : Z) (v : Z) : option (list Z) :=
  if (0 <=? i) && (i <? Z.of_nat (length a))
  then Some (array_set a (Z.to_nat i) v)
  else None.

(** [memcpy(&buf[off], words, sizeof(unsigned int)*WORD_NUM)]: the 16
    bytes must lie inside [buf]. *)
Definition memcpy_store (buf : list ascii) (off : nat) (words : list Z)
  : option (list ascii) :=
  if (off + 16 <=? length buf)%nat
  then Some (memcpy_words buf off words)
  else None.

(** [LENGTH(stash->val_b_eax)] and [LENGTH(stash->val_b_ebx)], then
    [LENGTH] of the three [val_1f_*]: the element counts of the
    declarations [unsigned int val_b_eax[2]] and [val_1f_eax[6]]. *)
Definition LENGTH_val_b : Z := 2.
Definition LENGTH_val_1f : Z := 6.

Definition store_then {A B : Type} (o : option A) (k : A -> option B)
  : option B :=
  match o with
  | Some x => k x
  | None => None
  end.

Notation "x <- o ;; k" := (store_then o (fun x => k))
  (at level 61, o at next level, right associativity).

(** The first chain of [print_reg] with every store into an array
    checked: [None] when a store lands outside its array.  The arms that
    store into no array are those of [print_reg_capture]. *)
Definition print_reg_capture_stores (reg : Z) (words : list Z) (try : Z)
           (stash : code_stash_t) : option code_stash_t :=
  if reg =? 0xb then
    let stash := set_saw_b true stash in
    stash <- (if try <? LENGTH_val_b then
                a <- array_store (val_b_eax stash) try (word words WORD_EAX);;
                Some (set_val_b_eax a stash)
              else Some stash);;
    if try <? LENGTH_val_b then
      a <- array_store (val_b_ebx stash) try (word words WORD_EBX);;
      Some (set_val_b_ebx a stash)
    else Some stash
  else if reg =? 0x1f then
    let stash := set_saw_1f true stash in
    stash <- (if try <? LENGTH_val_1f then
                a <- array_store (val_1f_eax stash) try (word words WORD_EAX);;
                Some (set_val_1f_eax a stash)
              else Some stash);;
    stash <- (if try <? LENGTH_val_1f then
                a <- array_store (val_1f_ebx stash) try (word words WORD_EBX);;
                Some (set_val_1f_ebx a stash)
              else Some stash);;
    if try <? LENGTH_val_1f then
      a <- array_store (val_1f_ecx stash) try (word words WORD_ECX);;
      Some (set_val_1f_ecx a stash)
    else Some stash
  else if reg =? 0x80860003 then
    a <- memcpy_store (transmeta_info stash) 0 words;;
    Some (set_transmeta_info a stash)
  else if reg =? 0x80860004 then
    a <- memcpy_store (transmeta_info stash) 16 words;;
    Some (set_transmeta_info a stash)
  else if reg =? 0x80860005 then
    a <- memcpy_store (transmeta_info stash) 32 words;;
    Some (set_transmeta_info a stash)
  else if reg =? 0x80860006 then
    a <- memcpy_store (transmeta_info stash) 48 words;;
    Some (set_transmeta_info a stash)
  else Some (print_reg_capture reg words try stash).

(** The second chain, likewise. *)
Definition print_reg_decode_stores (reg : Z) (words : list Z) (try : Z)
           (stash : code_stash_t) : option code_stash_t :=
  if reg =? 0x17 then
    if try =? 0 then Some stash
    else if try =? 1 then
      a <- memcpy_store (soc_brand stash) 0 words;;
      Some (set_soc_brand a stash)
    else if try =? 2 then
      a <- memcpy_store (soc_brand stash) 16 words;;
      Some (set_soc_brand a stash)
    else if try =? 3 then
      a <- memcpy_store (soc_brand stash) 32 words;;
      Some (set_soc_brand a stash)
    else Some stash
  else if reg =? 0x80000002 then
    a <- memcpy_store (brand stash) 0 words;; Some (set_brand a stash)
  else if reg =? 0x80000003 then
    a <- memcpy_store (brand stash) 16 words;; Some (set_brand a stash)
  else if reg =? 0x80000004 then
    a <- memcpy_store (brand stash) 32 words;; Some (set_brand a stash)
  else Some (print_reg_decode reg words try stash).

Definition print_reg_stores (reg : Z) (words : list Z) (raw : bool) (try : Z)
           (stash : code_stash_t) : option code_stash_t :=
  stash <- print_reg_capture_stores reg words try stash;;
  if raw then Some stash
  else print_reg_decode_stores reg words try stash.

(** A pass, with every store checked. *)
Definition stash_pass_stores (raw : bool) (obs : list observation)
           (stash : code_stash_t) : option code_stash_t :=
  fold_left
    (fun stash o =>
       stash <- stash;;
       print_reg_stores (o_reg o) (o_words o) raw (o_try o) stash)
    obs (Some stash).

(** The register arrays of the stash. *)
Definition register_arrays (s : code_stash_t) :=
  (val_b_eax s, val_b_ebx s, val_1f_eax s, val_1f_ebx s, val_1f_ecx s).

(** An observation that is no subleaf the register arrays have room for:
    of leaf 0xb it is subleaf 2 or later, of leaf 0x1f subleaf 6 or
    later. *)
Definition past_the_arrays (o : observation) : Prop :=
  (o_reg o = 0xb -> LENGTH_val_b <= o_try o)
  /\ (o_reg o = 0x1f -> LENGTH_val_1f <= o_try o).
(* ================================================================== *)
(** ** Auxiliary lemmas                                                *)
(* ================================================================== *)

(** *** Bit fields *)

Lemma BIT_EXTRACT_LE_range (value start after : Z) :
  0 <= start <= after -> after <= 32 ->
  0 <= BIT_EXTRACT_LE value start after < 2 ^ (after - start).
Proof.
  intros Hs Ha. unfold BIT_EXTRACT_LE.
  assert (M : RIGHTMASK after = Z.ones after).
  { unfold RIGHTMASK, BPI, POWER2.
    destruct (after >=? 32) eqn:E.
    - assert (after = 32) by lia. subst. reflexivity.
    - rewrite Z.ones_equiv, Z.shiftl_1_l. lia. }
  rewrite M, Z.land_ones by lia. rewrite Z.shiftr_div_pow2 by lia.
  pose proof (Z.mod_pos_bound value (2 ^ after) ltac:(lia)) as B.
  split.
  - apply Z.div_pos; lia.
  - apply Z.div_lt_upper_bound; [lia|].
    rewrite <- Z.pow_add_r by lia.
    replace (start + (after - start)) with after by lia.
    lia.
Qed.

Lemma GET_NC_INTEL_range v : 0 <= GET_NC_INTEL v < 64.
Proof. apply (BIT_EXTRACT_LE_range v 26 32); lia. Qed.

Lemma GET_NC_AMD_range v : 0 <= GET_NC_AMD v < 256.
Proof. apply (BIT_EXTRACT_LE_range v 0 8); lia. Qed.

Lemma GET_LogicalProcessorCount_range v :
  0 <= GET_LogicalProcessorCount v < 256.
Proof. apply (BIT_EXTRACT_LE_range v 16 24); lia. Qed.

Lemma GET_CoresPerComputeUnit_AMD_range v :
  0 <= GET_CoresPerComputeUnit_AMD v < 256.
Proof. apply (BIT_EXTRACT_LE_range v 8 16); lia. Qed.

Lemma GET_ApicIdCoreIdSize_range v : 0 <= GET_ApicIdCoreIdSize v < 16.
Proof. apply (BIT_EXTRACT_LE_range v 0 4); lia. Qed.

Lemma quotient_range (a b : Z) : 0 <= a -> 1 <= b -> 0 <= a / b <= a.
Proof.
  intros Ha Hb. split.
  - apply Z.div_pos; lia.
  - apply Z.div_le_upper_bound; nia.
Qed.

(** Every count [print_apic_synth] hands to [bits_needed] fits in nine
    bits. *)
Lemma print_apic_synth_counts_small s smt_count core_count cu_count :
  print_apic_synth_counts s = Some (smt_count, core_count, cu_count) ->
  0 <= smt_count <= 255
  /\ 1 <= core_count <= 256
  /\ match cu_count with
     | Some cu_count => 0 <= cu_count <= 256
     | None => True
     end.
Proof.
  unfold print_apic_synth_counts.
  pose proof (GET_LogicalProcessorCount_range (val_1_ebx s)) as Rt.
  pose proof (GET_NC_INTEL_range (val_4_eax s)) as Rc.
  pose proof (GET_ApicIdCoreIdSize_range (val_80000008_ecx s)) as Rs.
  pose proof (GET_NC_AMD_range (val_80000008_ecx s)) as Rn.
  pose proof (GET_CoresPerComputeUnit_AMD_range (val_8000001e_ebx s)) as Ru.
  generalize dependent (GET_LogicalProcessorCount (val_1_ebx s)).
  generalize dependent (GET_NC_INTEL (val_4_eax s)).
  generalize dependent (GET_ApicIdCoreIdSize (val_80000008_ecx s)).
  generalize dependent (GET_NC_AMD (val_80000008_ecx s)).
  generalize dependent (GET_CoresPerComputeUnit_AMD (val_8000001e_ebx s)).
  intros cpcu Ru nc Rn size Rs nci Rc tc Rt.
  destruct (vendor s); try discriminate.
  - destruct (saw_1f s); [discriminate|].
    destruct (saw_b s); [discriminate|].
    destruct (saw_4 s && negb (Z.land (val_4_eax s) 31 =? 0)); [|discriminate].
    unfold u32. rewrite Z.mod_small by lia.
    pose proof (quotient_range tc (nci + 1)) as Q.
    generalize dependent (tc / (nci + 1)).
    intros q Q H. injection H as <- <- <-. lia.
  - destruct (negb (IS_HTT (val_1_edx s) =? 0) && negb (size =? 0)) eqn:C;
      [|discriminate].
    apply andb_true_iff in C. destruct C as [_ C].
    apply negb_true_iff, Z.eqb_neq in C.
    assert (P : 2 <= 2 ^ size <= 2 ^ 15).
    { split.
      - change 2 with (2 ^ 1) at 1. apply Z.pow_le_mono_r; lia.
      - apply Z.pow_le_mono_r; lia. }
    assert (M : u32 (Z.shiftl 1 size - 1) = Z.ones size).
    { rewrite Z.shiftl_1_l, Z.ones_equiv. unfold u32.
      rewrite Z.mod_small by lia. lia. }
    rewrite M, Z.land_ones by lia.
    pose proof (Z.mod_pos_bound nc (2 ^ size) ltac:(lia)) as Rm.
    assert (Rm' : nc mod 2 ^ size <= nc) by (apply Z.mod_le; lia).
    generalize dependent (nc mod 2 ^ size). intros c Rm Rm'.
    unfold u32. rewrite (Z.mod_small (c + 1)) by lia.
    pose proof (quotient_range tc (c + 1)) as Q.
    generalize dependent (tc / (c + 1)). intros q Q.
    destruct (negb (cpcu =? 0)).
    + rewrite Z.mod_small by lia.
      pose proof (quotient_range (c + 1) (cpcu + 1)) as Q'.
      generalize dependent ((c + 1) / (cpcu + 1)). intros q' Q'.
      intros H'; injection H' as <- <- <-. lia.
    + intros H'; injection H' as <- <- <-. lia.
Qed.

(** *** [bits_needed] *)

(** What the instruction sequence computes: the position, counted from
    one, of the highest set bit among the low 16 bits of [v - 1]. *)
Lemma bits_needed_eq (v : Z) :
  bits_needed v =
    let ax := Z.land ((v mod 2 ^ 64 - 1) mod 2 ^ 64) 0xffff in
    if ax =? 0 then 0 else Z.land (Z.log2 ax + 1) 0xffffffff.
Proof.
  unfold bits_needed, Asm.bsr_ax_cx, Asm.decq_rax, Asm.movl_0_result,
    Asm.movq_0_rcx, Asm.movq_v_rax, Asm.init;
    cbn [Asm.rax Asm.rcx Asm.result Asm.ZF].
  unfold Asm.low16, Asm.wrap64.
  destruct (Z.land ((v mod 2 ^ 64 - 1) mod 2 ^ 64) 65535 =? 0) eqn:E;
    cbn [Asm.ZF Asm.result].
  - reflexivity.
  - unfold Asm.movl_ecx_result, Asm.incq_rcx;
      cbn [Asm.rax Asm.rcx Asm.result Asm.ZF].
    unfold Asm.low32, Asm.wrap64.
    rewrite Z.land_0_l, Z.lor_0_l.
    set (ax := Z.land ((v mod 2 ^ 64 - 1) mod 2 ^ 64) 65535) in *.
    assert (0 <= ax < 2 ^ 16).
    { unfold ax. change 65535 with (Z.ones 16). rewrite Z.land_ones by lia.
      apply Z.mod_pos_bound. lia. }
    assert (0 <= Z.log2 ax < 16).
    { apply Z.eqb_neq in E.
      split; [apply Z.log2_nonneg | apply Z.log2_lt_pow2; lia]. }
    rewrite Z.mod_small by lia. reflexivity.
Qed.

(** The two compilations of the function agree on 32-bit arguments. *)
Lemma bits_needed_ilp32_eq (v : Z) :
  0 <= v < 2 ^ 32 -> bits_needed_ilp32 v = bits_needed v.
Proof.
  intros Hv. rewrite bits_needed_eq. cbv zeta.
  unfold bits_needed_ilp32, Asm.bsr_ax_cx, Asm.decl_eax, Asm.movl_0_result,
    Asm.movl_0_ecx, Asm.movl_v_eax, Asm.init;
    cbn [Asm.rax Asm.rcx Asm.result Asm.ZF].
  unfold Asm.low16, Asm.low32.
  change 4294967295 with (Z.ones 32). rewrite !(Z.land_ones _ 32) by lia.
  rewrite (Z.mod_small v (2 ^ 32)) by lia.
  rewrite (Z.mod_small v (2 ^ 64)) by lia.
  assert (L : Z.land ((v - 1) mod 2 ^ 32) 65535
              = Z.land ((v - 1) mod 2 ^ 64) 65535).
  { change 65535 with (Z.ones 16). rewrite !Z.land_ones by lia.
    rewrite (Z.mod_mod_divide (v - 1) (2 ^ 32) (2 ^ 16))
      by (exists (2 ^ 16); reflexivity).
    rewrite (Z.mod_mod_divide (v - 1) (2 ^ 64) (2 ^ 16))
      by (exists (2 ^ 48); reflexivity).
    reflexivity. }
  rewrite L.
  destruct (Z.land ((v - 1) mod 2 ^ 64) 65535 =? 0) eqn:E;
    cbn [Asm.ZF Asm.result].
  - reflexivity.
  - unfold Asm.movl_ecx_result, Asm.incl_ecx;
      cbn [Asm.rax Asm.rcx Asm.result Asm.ZF].
    unfold Asm.low32. rewrite Z.land_0_l, Z.lor_0_l.
    set (ax := Z.land ((v - 1) mod 2 ^ 64) 65535) in *.
    assert (0 <= ax < 2 ^ 16).
    { unfold ax. change 65535 with (Z.ones 16). rewrite Z.land_ones by lia.
      apply Z.mod_pos_bound. lia. }
    assert (0 <= Z.log2 ax < 16).
    { apply Z.eqb_neq in E.
      split; [apply Z.log2_nonneg | apply Z.log2_lt_pow2; lia]. }
    change 4294967295 with (Z.ones 32).
    rewrite !(Z.land_ones _ 32) by lia.
    rewrite Z.mod_mod by lia. reflexivity.
Qed.

(** *** Strings *)

Lemma append_empty_r (s : string) : s ++ EmptyString = s.
Proof.
  induction s as [|c s IH]; cbn; [reflexivity | rewrite IH; reflexivity].
Qed.

Lemma append_assoc (a b c : string) : (a ++ b) ++ c = a ++ b ++ c.
Proof.
  induction a as [|x a IH]; cbn; [reflexivity | rewrite IH; reflexivity].
Qed.

Lemma sprintf_s_s (a b : cstring) :
  sprintf "%s %s" [ArgS a; ArgS b] = a ++ " " ++ b.
Proof. cbn. rewrite append_empty_r. reflexivity. Qed.

Lemma sprintf_sp_s (a : cstring) : sprintf " %s" [ArgS a] = " " ++ a.
Proof. cbn. rewrite append_empty_r. reflexivity. Qed.

(** *** [switch] *)

Lemma switch_ind {A : Type} (P : A -> Prop) (key : Z)
      (cases : list (list Z * A)) (default : A) :
  Forall (fun c => P (snd c)) cases -> P default ->
  P (switch key cases default).
Proof.
  intros Hc Hd. induction Hc as [|[labels body] rest Hb _ IH]; cbn.
  - exact Hd.
  - destruct (existsb (Z.eqb key) labels); [exact Hb | exact IH].
Qed.

Ltac split_ifs :=
  repeat match goal with
         | |- context [if ?c then _ else _] => destruct c
         end.

(** *** The cache flags along a pass *)

Lemma flag_NIL fl : flag fl NIL_STASH = false.
Proof. destruct fl; reflexivity. Qed.

Lemma flags_join_refl s : flags_join s NIL_STASH s.
Proof. intros fl. rewrite flag_NIL, orb_false_r. reflexivity. Qed.

Ltac raise_flag :=
  let s := fresh "s" in let n := fresh "n" in let s' := fresh "s'" in
  let J := fresh "J" in let fl := fresh "fl" in
  intros s n s' J fl; specialize (J fl); destruct fl;
  cbn [flag] in J |- *; cbn; rewrite ?orb_true_r; auto.

Ltac raise_flags_cases :=
  repeat (apply Forall_cons; [cbn [snd]; raise_flag | ]); apply Forall_nil.

Lemma raises_flags_switch (v : Z)
      (cases : list (list Z * (code_stash_t -> code_stash_t))) :
  Forall (fun c => raises_flags (snd c)) cases ->
  raises_flags
    (fun x => switch v (map (fun c => (fst c, snd c x)) cases) x).
Proof.
  intros Hc s n s' J.
  induction Hc as [|[labels body] rest Hb _ IH]; cbn.
  - exact J.
  - destruct (existsb (Z.eqb v) labels); [apply Hb, J | apply IH].
Qed.

(** One [switch] of [stash_intel_cache]: from the join [J] before it to
    the join [J'] after it. *)
Ltac switch_step v cases J J' :=
  let F := fresh "F" in
  assert (F : Forall (fun c => raises_flags (snd c)) cases)
    by raise_flags_cases;
  pose proof (raises_flags_switch v cases F _ _ _ J) as J';
  clear F; cbn [map fst snd] in J'.

Lemma flags_join_stash_intel_cache s n s' v :
  flags_join s n s' ->
  flags_join s (stash_intel_cache n v) (stash_intel_cache s' v).
Proof.
  intros J0.
  switch_step v
    [ ([0x42], set_L2_4w_256K true);
      ([0x43], set_L2_4w_512K true);
      ([0x44], set_L2_4w_1Mor2M true);
      ([0x45], set_L2_4w_1Mor2M true);
      ([0x80], set_L2_8w_512K true);
      ([0x82], set_L2_8w_256K true);
      ([0x83], set_L2_8w_512K true);
      ([0x84], set_L2_8w_1Mor2M true);
      ([0x85], set_L2_8w_1Mor2M true) ] J0 J1.
  switch_step v [ ([0x45; 0x7d; 0x85], set_L2_2M true) ] J1 J2.
  switch_step v [ ([0x4e], set_L2_6M true) ] J2 J3.
  switch_step v
    [ ([0x22; 0x23; 0x25; 0x29; 0x46; 0x47; 0x49; 0x4a; 0x4b; 0x4c; 0x4d;
        0x88; 0x89; 0x8a; 0x8d; 0xd0; 0xd1; 0xd2; 0xd6; 0xd7; 0xd8; 0xdc;
        0xdd; 0xde; 0xe2; 0xe3; 0xe4; 0xea; 0xeb; 0xec], set_L3 true) ] J3 J4.
  switch_step v
    [ ([0x21; 0x3c; 0x42; 0x7a; 0x7e; 0x82], set_L2_256K true) ] J4 J5.
  switch_step v
    [ ([0x3e; 0x43; 0x7b; 0x7f; 0x83; 0x86], set_L2_512K true) ] J5 J6.
  exact J6.
Qed.

Lemma keeps_flags_print_reg_capture reg words try :
  keeps_flags (print_reg_capture reg words try).
Proof.
  intros fl s. unfold print_reg_capture.
  destruct fl; cbn [flag]; split_ifs; reflexivity.
Qed.

Lemma flags_join_print_80000006_ecx value s n s' :
  flags_join s n s' ->
  flags_join s (print_80000006_ecx value n) (print_80000006_ecx value s').
Proof.
  intros J fl. specialize (J fl). unfold print_80000006_ecx.
  destruct fl; cbn [flag] in J |- *; split_ifs; cbn;
    rewrite ?orb_true_r; auto.
Qed.

Lemma flags_join_print_reg_leaf2 words try s n s' :
  flags_join s n s' ->
  flags_join s (print_reg_leaf2 words try n) (print_reg_leaf2 words try s').
Proof.
  unfold print_reg_leaf2. generalize (seq 0 4) as ws.
  intros ws; revert s n s'.
  induction ws as [|w ws IH]; intros s n s' J; cbn [fold_left]; [exact J|].
  apply IH.
  destruct (Z.land (word words w) 2147483648 =? 0); [|exact J].
  generalize (skipn (if (try =? 0) && Nat.eqb w WORD_EAX
                     then 1%nat else 0%nat)
                    (bytes_of_word (word words w))) as bytes.
  intros bytes; revert n s' J.
  induction bytes as [|b bytes IHb]; intros n s' J; cbn [fold_left];
    [exact J|].
  apply IHb, flags_join_stash_intel_cache, J.
Qed.

Ltac keep_join J :=
  let fl := fresh "fl" in
  intros fl; specialize (J fl); destruct fl; cbn [flag] in J |- *;
  split_ifs; exact J.

Lemma flags_join_print_reg_decode reg words try s n s' :
  flags_join s n s' ->
  flags_join s (print_reg_decode reg words try n)
             (print_reg_decode reg words try s').
Proof.
  intros J. unfold print_reg_decode.
  destruct (reg =? 0); [keep_join J|].
  destruct (reg =? 2); [apply flags_join_print_reg_leaf2, J|].
  destruct (reg =? 0x17); [keep_join J|].
  destruct (reg =? 0x80000001); [keep_join J|].
  destruct (reg =? 0x80000002); [keep_join J|].
  destruct (reg =? 0x80000003); [keep_join J|].
  destruct (reg =? 0x80000004); [keep_join J|].
  destruct (reg =? 0x80000006); [apply flags_join_print_80000006_ecx, J|].
  destruct (reg =? 0x80860002); [unfold print_80860002_eax; keep_join J|].
  exact J.
Qed.

Lemma flags_join_print_reg reg words raw try s n s' :
  flags_join s n s' ->
  flags_join s (print_reg reg words raw try n)
             (print_reg reg words raw try s').
Proof.
  intros J. unfold print_reg.
  assert (J' : flags_join s (print_reg_capture reg words try n)
                          (print_reg_capture reg words try s')).
  { intros fl. rewrite !keeps_flags_print_reg_capture. apply J. }
  destruct raw; [exact J'|].
  apply flags_join_print_reg_decode, J'.
Qed.

(** One observation adds to a flag what it adds to the empty stash. *)
Lemma flag_print_reg fl reg words raw try s :
  flag fl (print_reg reg words raw try s)
  = flag fl s || flag fl (print_reg reg words raw try NIL_STASH).
Proof. apply flags_join_print_reg, flags_join_refl. Qed.

Lemma flag_stash_pass fl raw obs s :
  flag fl (stash_pass raw obs s)
  = flag fl s || existsb (sets_flag fl raw) obs.
Proof.
  unfold stash_pass. revert s.
  induction obs as [|o obs IH]; intros s; cbn [fold_left existsb].
  - rewrite orb_false_r. reflexivity.
  - rewrite IH, flag_print_reg. unfold sets_flag. rewrite orb_assoc.
    reflexivity.
Qed.

Lemma stash_pass_app raw obs1 obs2 s :
  stash_pass raw (obs1 ++ obs2) s = stash_pass raw obs2 (stash_pass raw obs1 s).
Proof. unfold stash_pass. apply fold_left_app. Qed.

(** *** The Override Brand along a pass *)

Lemma override_brand_stash_intel_cache s v :
  override_brand (stash_intel_cache s v) = override_brand s.
Proof.
  unfold stash_intel_cache. cbv zeta. cbn [switch case].
  split_ifs; reflexivity.
Qed.

Lemma override_brand_print_reg reg words raw try s :
  override_brand (print_reg reg words raw try s) = override_brand s.
Proof.
  unfold print_reg.
  assert (C : forall x, override_brand (print_reg_capture reg words try x)
                        = override_brand x).
  { intros x. unfold print_reg_capture. split_ifs; reflexivity. }
  destruct raw; [apply C|].
  rewrite <- (C s). generalize (print_reg_capture reg words try s) as x.
  intros x. unfold print_reg_decode.
  destruct (reg =? 0); [reflexivity|].
  destruct (reg =? 2).
  { unfold print_reg_leaf2. generalize (seq 0 4) as ws.
    intros ws; revert x.
    induction ws as [|w ws IH]; intros x; cbn [fold_left]; [reflexivity|].
    rewrite IH.
    destruct (Z.land (word words w) 2147483648 =? 0); [|reflexivity].
    generalize (skipn (if (try =? 0) && Nat.eqb w WORD_EAX
                       then 1%nat else 0%nat)
                      (bytes_of_word (word words w))) as bytes.
    intros bytes; revert x.
    induction bytes as [|b bytes IHb]; intros x; cbn [fold_left];
      [reflexivity|].
    rewrite IHb. apply override_brand_stash_intel_cache. }
  unfold print_80000006_ecx, print_80860002_eax.
  split_ifs; reflexivity.
Qed.

(** No observation writes the Override Brand: at the end of every pass
    from the empty stash it is still empty. *)
Lemma override_brand_stash_pass raw obs :
  override_brand (stash_pass raw obs NIL_STASH) = EmptyString.
Proof.
  unfold stash_pass.
  change EmptyString with (override_brand NIL_STASH).
  generalize NIL_STASH as s.
  induction obs as [|o obs IH]; intros s; cbn [fold_left]; [reflexivity|].
  rewrite IH. apply override_brand_print_reg.
Qed.

(** *** [decode_mp_synth] *)

Lemma set_mp_set_mp a b s : set_mp a (set_mp b s) = set_mp a s.
Proof. reflexivity. Qed.

Lemma set_mp_same s : set_mp (mp s) s = s.
Proof. destruct s; reflexivity. Qed.

(** The leaf-0x1f loop reads the counts off the leaf-0x1f records. *)
Lemma leaf_1f_fold (tries : list nat) (s : code_stash_t) :
  let s' := fold_left leaf_1f_step tries s in
  mp_method (mp s') = mp_method (mp s)
  /\ mp_cores (mp s')
     = fold_left
         (fun acc try =>
            if GET_V2_TOPO_LEVEL (nth try (val_1f_ecx s) 0) =? V2_TOPO_CORE
            then GET_V2_TOPO_PROCESSORS (nth try (val_1f_ebx s) 0)
            else acc) tries (mp_cores (mp s))
  /\ mp_hyperthreads (mp s')
     = fold_left
         (fun acc try =>
            if GET_V2_TOPO_LEVEL (nth try (val_1f_ecx s) 0) =? V2_TOPO_SMT
            then GET_V2_TOPO_PROCESSORS (nth try (val_1f_ebx s) 0)
            else acc) tries (mp_hyperthreads (mp s)).
Proof.
  revert s. induction tries as [|try tries IH]; intros s; cbn [fold_left].
  - auto.
  - specialize (IH (leaf_1f_step s try)). cbv zeta in IH.
    destruct IH as (Hm & Hc & Hh).
    rewrite Hm, Hc, Hh. clear Hm Hc Hh.
    unfold leaf_1f_step.
    destruct (GET_V2_TOPO_LEVEL (nth try (val_1f_ecx s) 0) =? V2_TOPO_SMT)
      eqn:ES.
    + apply Z.eqb_eq in ES.
      assert (EC : (GET_V2_TOPO_LEVEL (nth try (val_1f_ecx s) 0)
                    =? V2_TOPO_CORE) = false).
      { rewrite ES. reflexivity. }
      rewrite EC. cbn. auto.
    + destruct (GET_V2_TOPO_LEVEL (nth try (val_1f_ecx s) 0)
                =? V2_TOPO_CORE) eqn:EC; cbn; auto.
Qed.

(** On AMD and Hygon the function always returns, and writes [mp] only. *)
Lemma decode_mp_synth_amd s :
  vendor s = VENDOR_AMD \/ vendor s = VENDOR_HYGON ->
  exists m, decode_mp_synth s = Some (set_mp m s).
Proof.
  intros Hv. unfold decode_mp_synth.
  destruct Hv as [Hv | Hv]; rewrite Hv; cbv zeta;
    unfold assign_mp_hyperthreads, assign_mp_cores, assign_mp_method, udiv;
    rewrite ?set_mp_set_mp.
  all: destruct (negb (IS_HTT (val_1_edx s) =? 0)); [|eexists; reflexivity].
  all: match goal with
       | |- context [int_of_bool (_ =? ?c)] => generalize c
       end; intros c.
  all: destruct (int_of_bool (GET_LogicalProcessorCount (val_1_ebx s) =? c)
                 =? IS_CmpLegacy (val_80000001_ecx s));
         [| exists (mp s); rewrite set_mp_same; reflexivity].
  all: destruct (c >? 1) eqn:E;
         [| rewrite ?set_mp_set_mp; eexists; reflexivity].
  all: assert (E0 : (c =? 0) = false) by (apply Z.eqb_neq; lia).
  all: rewrite E0, ?set_mp_set_mp; eexists; reflexivity.
Qed.


(** *** The Override Brand *)

Lemma decode_amd_model_set_mp m s :
  decode_amd_model (Some (set_mp m s)) = decode_amd_model (Some s).
Proof. reflexivity. Qed.

Lemma decode_brand_id_stash_only_bri s :
  exists b, decode_brand_id_stash s = set_bri b s.
Proof.
  unfold decode_brand_id_stash. cbv zeta.
  apply switch_ind.
  - repeat (apply Forall_cons;
            [cbn [snd case]; split_ifs;
             first [ eexists; reflexivity
                   | exists (bri s); destruct s; reflexivity ] | ]).
    apply Forall_nil.
  - exists (bri s); destruct s; reflexivity.
Qed.

Lemma decode_override_brand_spec s :
  (vendor s = VENDOR_AMD \/ vendor s = VENDOR_HYGON) ->
  strstr (c_str (brand s)) "model unknown" <> None ->
  decode_override_brand s
  = match override_brand_text (decode_amd_model (Some s)) with
    | Some text => set_override_brand text s
    | None => s
    end.
Proof.
  intros Hv Hs. unfold decode_override_brand, override_brand_text.
  assert (C : (vendor_eqb (vendor s) VENDOR_AMD
               || vendor_eqb (vendor s) VENDOR_HYGON)
              && not_null (strstr (c_str (brand s)) "model unknown") = true).
  { apply andb_true_iff. split.
    - destruct Hv as [-> | ->]; reflexivity.
    - destruct (strstr (c_str (brand s)) "model unknown");
        [reflexivity | contradiction]. }
  rewrite C. cbv zeta.
  generalize (decode_amd_model (Some s)) as m. intros m.
  destruct (brand_pre m) as [pre|]; [|reflexivity].
  destruct (brand_post m) as [post|].
  - rewrite sprintf_s_s, sprintf_sp_s, !append_assoc. reflexivity.
  - rewrite sprintf_s_s, append_empty_r. reflexivity.
Qed.

(** *** The cascade *)

Lemma cascade_app_fires before r after val stash :
  existsb (rule_fires val stash) before = false ->
  rule_fires val stash r = true ->
  cascade (before ++ r :: after) val stash = Some (r_act r).
Proof.
  induction before as [|b before IH]; cbn [existsb app cascade];
    intros Hb Hr.
  - rewrite Hr. reflexivity.
  - apply orb_false_elim in Hb. destruct Hb as [Hb1 Hb2].
    rewrite Hb1. apply IH; assumption.
Qed.

Lemma cascade_earliest rules val stash r :
  earliest_rule rules val stash r -> cascade rules val stash = Some (r_act r).
Proof.
  intros (before & after & E & Hb & Hr). rewrite E.
  apply cascade_app_fires; assumption.
Qed.

Lemma first_match_earliest rules default val stash r :
  earliest_rule rules val stash r ->
  first_match rules default val stash = r_act r.
Proof.
  intros H. unfold first_match. rewrite (cascade_earliest _ _ _ _ H).
  reflexivity.
Qed.

Lemma cascade_prefix (pre rest : list rule) val stash str :
  cascade pre val stash = Some str ->
  cascade (pre ++ rest) val stash = Some str.
Proof.
  induction pre as [|r pre IH]; cbn [app cascade]; [discriminate|].
  destruct (rule_fires val stash r); [trivial | exact IH].
Qed.

(** Rules whose key does not match may be dropped from the table. *)
Lemma cascade_filter rules val stash :
  cascade rules val stash
  = cascade (filter (key_matches val) rules) val stash.
Proof.
  induction rules as [|r rules IH]; cbn [filter cascade]; [reflexivity|].
  unfold rule_fires at 1.
  destruct (key_matches val r) eqn:E; cbn [andb cascade].
  - unfold rule_fires. rewrite E, IH. reflexivity.
  - exact IH.
Qed.

Lemma key_matches_sig val r :
  mask_in_sig r = true -> key_matches (sig_bits val) r = key_matches val r.
Proof.
  unfold mask_in_sig, key_matches, sig_bits. intros H. apply Z.eqb_eq in H.
  rewrite <- Z.land_assoc. rewrite (Z.land_comm 0x0fff3fff), H. reflexivity.
Qed.

Lemma cascade_sig rules val stash :
  forallb mask_in_sig rules = true ->
  cascade rules (sig_bits val) stash = cascade rules val stash.
Proof.
  induction rules as [|r rules IH]; cbn [forallb cascade]; intros H.
  - reflexivity.
  - apply andb_true_iff in H. destruct H as [H1 H2].
    unfold rule_fires. rewrite (key_matches_sig _ _ H1), (IH H2).
    reflexivity.
Qed.

Lemma sig_bits_split (val : Z) :
  sig_bits val = Z.lor (__FMS val) (Z.land val 0x3000).
Proof.
  unfold sig_bits, __FMS. rewrite <- Z.land_lor_distr_r. reflexivity.
Qed.

(** The processor type field, bits 13:12, has four values. *)
Lemma type_bits (val : Z) :
  In (Z.land val 0x3000) [0; 0x1000; 0x2000; 0x3000].
Proof.
  set (x := Z.land val 0x3000).
  assert (L : Z.land x (Z.ones 12) = 0).
  { unfold x. rewrite <- Z.land_assoc.
    change (Z.land 0x3000 (Z.ones 12)) with 0. apply Z.land_0_r. }
  rewrite Z.land_ones in L by lia.
  assert (B : 0 <= x < 2 ^ 14).
  { assert (U : Z.land x (Z.ones 14) = x).
    { unfold x. rewrite <- Z.land_assoc. reflexivity. }
    rewrite Z.land_ones in U by lia. rewrite <- U.
    apply Z.mod_pos_bound. lia. }
  pose proof (Z.div_mod x (2 ^ 12) ltac:(lia)) as D.
  rewrite L in D. change (2 ^ 12) with 4096 in D.
  assert (0 <= x / 4096 <= 3).
  { split; [apply Z.div_pos; lia|]. apply Z.div_le_upper_bound; lia. }
  cbn [In]. lia.
Qed.

Lemma intel_masks : forallb mask_in_sig decode_synth_intel_rules = true.
Proof. vm_compute. reflexivity. Qed.

(** They are the first five rules of the table whose key matches that
    signature, whatever the processor type bits. *)
Lemma ivy_filter (t : Z) :
  In t [0; 0x1000; 0x2000; 0x3000] ->
  firstn 5 (filter (key_matches (Z.lor (_FMS 0 6 3 10 9) t))
                   decode_synth_intel_rules)
  = ivy_bridge_9_rules.
Proof.
  cbn [In]. intros [<- | [<- | [<- | [<- | []]]]]; vm_compute; reflexivity.
Qed.

Lemma ivy_rules_cascade (v : Z) (stash : option code_stash_t) :
  __FMS v = _FMS 0 6 3 10 9 ->
  cascade ivy_bridge_9_rules v stash
  = Some
      match stash with
      | Some s =>
          if Mc s then "Intel Mobile Core i*-3000 (Ivy Bridge E1/L1) / Pentium 900/1000/2000/2100 (P0)"
          else if dc s then "Intel Core i*-3000 (Ivy Bridge E1/N0/L1)"
          else if sX s then "Intel Xeon E3-1100 v2 / E3-1200 v2 (Ivy Bridge E1/N0/L1)"
          else if dP s then "Intel Pentium G1600/G2000/G2100 / Pentium B925C (Ivy Bridge P0)"
          else "Intel Core (unknown type) (Ivy Bridge E1/N0/L1/P0)"
      | None => "Intel Core (unknown type) (Ivy Bridge E1/N0/L1/P0)"
      end.
Proof.
  intros K. unfold ivy_bridge_9_rules. cbn [cascade].
  unfold rule_fires, key_matches, query_holds.
  cbn [r_mask r_key r_query r_act FMSQ FMS].
  change (Z.land v 268374015) with (__FMS v). rewrite K.
  change (_FMS 0 6 3 10 9 =? _XF 0 + _XM 3 + _F 6 + _M 10 + _S 9) with true.
  cbn [andb].
  destruct stash as [s|]; [|reflexivity].
  destruct (Mc s); [reflexivity|].
  destruct (dc s); [reflexivity|].
  destruct (sX s); [reflexivity|].
  destruct (dP s); reflexivity.
Qed.

Lemma ivy_cascade (t : Z) (stash : option code_stash_t) :
  In t [0; 0x1000; 0x2000; 0x3000] ->
  cascade decode_synth_intel_rules (Z.lor (_FMS 0 6 3 10 9) t) stash
  = cascade ivy_bridge_9_rules (Z.lor (_FMS 0 6 3 10 9) t) stash.
Proof.
  intros Ht.
  assert (K : __FMS (Z.lor (_FMS 0 6 3 10 9) t) = _FMS 0 6 3 10 9).
  { cbn [In] in Ht. destruct Ht as [<- | [<- | [<- | [<- | []]]]]; reflexivity. }
  rewrite (ivy_rules_cascade _ stash K).
  rewrite cascade_filter.
  rewrite <- (firstn_skipn 5 (filter _ _)).
  apply cascade_prefix. rewrite (ivy_filter t Ht).
  apply ivy_rules_cascade, K.
Qed.


(* ================================================================== *)
(** ** The properties                                                  *)
(* ================================================================== *)

(** *** The rule cascade *)

(** C1: every vendor decoder returns the string of the earliest rule of
    its authored table that fires.  Whatever the signature and the stash,
    when a table is [before ++ r :: after], no rule of [before] fires and
    [r] does, the decoder of that table returns the string of [r],
    whatever rules follow in [after], those whose key matches as well
    included: the scan does not go past [r].  This holds of each of the
    fourteen [decode_synth_<vendor>] tables and of the two extended
    tables that have rules; the decoders without a [stash] parameter
    evaluate their rules with no stash, [decode_synth_amd] then appends
    the processor number when there is one, and [decode_x_synth_via] the
    uarch. *)
Theorem first_match_wins (val : Z) (stash : option code_stash_t) (r : rule) :
  (earliest_rule decode_synth_intel_rules val stash r ->
   decode_synth_intel val stash = r_act r)
  /\ (earliest_rule decode_synth_amd_rules val stash r ->
      decode_synth_amd val stash
      = if String.eqb (proc (decode_amd_model stash)) EmptyString
        then r_act r
        else r_act r ++ " " ++ proc (decode_amd_model stash))
  /\ (earliest_rule decode_synth_cyrix_rules val stash r ->
      decode_synth_cyrix val stash = r_act r)
  /\ (earliest_rule decode_synth_via_rules val None r ->
      decode_synth_via val = r_act r)
  /\ (earliest_rule decode_synth_umc_rules val None r ->
      decode_synth_umc val = r_act r)
  /\ (earliest_rule decode_synth_nexgen_rules val None r ->
      decode_synth_nexgen val = r_act r)
  /\ (earliest_rule decode_synth_rise_rules val None r ->
      decode_synth_rise val = r_act r)
  /\ (earliest_rule decode_synth_transmeta_rules val stash r ->
      decode_synth_transmeta val stash = r_act r)
  /\ (earliest_rule decode_synth_sis_rules val None r ->
      decode_synth_sis val = r_act r)
  /\ (earliest_rule decode_synth_nsc_rules val None r ->
      decode_synth_nsc val = r_act r)
  /\ (earliest_rule decode_synth_vortex_rules val None r ->
      decode_synth_vortex val = r_act r)
  /\ (earliest_rule decode_synth_rdc_rules val None r ->
      decode_synth_rdc val = r_act r)
  /\ (earliest_rule decode_synth_hygon_rules val None r ->
      decode_synth_hygon val = r_act r)
  /\ (earliest_rule decode_synth_zhaoxin_rules val None r ->
      decode_synth_zhaoxin val = r_act r)
  /\ (earliest_rule decode_x_synth_amd_rules val None r ->
      decode_x_synth_amd val = Some (r_act r))
  /\ (earliest_rule decode_x_synth_via_rules val None r ->
      decode_x_synth_via val = append_uarch (Some (r_act r)) val VENDOR_VIA).
Proof.
  repeat (match goal with |- _ /\ _ => split end); intros H;
    try (apply first_match_earliest; exact H).
  - unfold decode_synth_amd. cbv zeta.
    rewrite (first_match_earliest _ _ _ _ _ H).
    destruct (String.eqb (proc (decode_amd_model stash)) EmptyString);
      cbn [negb]; [reflexivity | apply sprintf_s_s].
  - unfold decode_x_synth_amd. rewrite (cascade_earliest _ _ _ _ H).
    reflexivity.
  - unfold decode_x_synth_via. cbv zeta.
    rewrite (first_match_earliest _ _ _ _ _ H). reflexivity.
Qed.

(** The UMC table on the signature 0x423: the second and the third rule
    both match, the second is returned.  The Intel table on the signature
    0x000306a9 with no stash: the rule at position 351 is the first that
    fires, five rules after it match as well, its string is returned. *)
Lemma first_match_wins_witness :
  rule_fires 0x423 None (FM 0 4 0 2 "UMC U5S (486SX) (unknown stepping)") = true
  /\ decode_synth_umc 0x423 = "UMC U5S (486SX)"
  /\ rule_fires 0x000306a9 None
                (FM 0 6 3 10 "Intel Core (unknown type) (Ivy Bridge)") = true
  /\ decode_synth_intel 0x000306a9 None
     = "Intel Core (unknown type) (Ivy Bridge E1/N0/L1/P0)".
Proof.
  split; [reflexivity|]. split; [|split; [reflexivity|]].
  - destruct (first_match_wins 0x423 None (FMS 0 4 0 2 3 "UMC U5S (486SX)"))
      as (_ & _ & _ & _ & U & _).
    apply U.
    exists [FM 0 4 0 1 "UMC U5D (486DX)"],
           [FM 0 4 0 2 "UMC U5S (486SX) (unknown stepping)"].
    repeat split.
  - destruct (first_match_wins
                0x000306a9 None
                (FMS 0 6 3 10 9
                     "Intel Core (unknown type) (Ivy Bridge E1/N0/L1/P0)"))
      as (I & _).
    apply I.
    exists (firstn 351 decode_synth_intel_rules),
           (skipn 352 decode_synth_intel_rules).
    split; [vm_compute; reflexivity|].
    split; vm_compute; reflexivity.
Defined.

(** C5, as stated, fails: a GenuineIntel part with the signature
    0x000306a9 (family 6, model 0x3A, stepping 9) and no brand string
    satisfies no predicate, and its string is that of the last rule for
    the signature, not that of the "Mobile Core i*-3000" rule. *)
Lemma ivy_bridge_bare_is_unknown_type :
  let stash := stash_pass false dump_ivy_bridge_bare NIL_STASH in
  vendor stash = VENDOR_INTEL
  /\ __FMS (val_1_eax stash) = _FMS 0 6 3 10 9
  /\ option_map (fun s => decode_synth_intel (val_1_eax s) (Some s))
                (do_final no_regexp false stash)
     = Some "Intel Core (unknown type) (Ivy Bridge E1/N0/L1/P0)"
  /\ option_map (fun s => decode_synth_intel (val_1_eax s) (Some s))
                (do_final no_regexp false stash)
     <> Some "Intel Mobile Core i*-3000 (Ivy Bridge E1/L1) / Pentium 900/1000/2000/2100 (P0)".
Proof.
  intros stash.
  split; [vm_compute; reflexivity|].
  split; [vm_compute; reflexivity|].
  split; [vm_compute; reflexivity|].
  vm_compute. discriminate.
Qed.

(** C5, amended: for a signature of family 6, model 0x3A (extended model
    3, model 10), stepping 9, the Intel table returns the string of the
    "Mobile Core i*-3000" rule when the predicate [Mc] holds of the stash;
    otherwise the string of the first of the rules gated by [dc], [sX] and
    [dP] whose predicate holds, and the "unknown type" string when none
    holds or there is no stash. *)
Theorem ivy_bridge_stepping_9 (val : Z) (stash : option code_stash_t) :
  __FMS val = _FMS 0 6 3 10 9 ->
  decode_synth_intel val stash
  = match stash with
    | Some s =>
        if Mc s then "Intel Mobile Core i*-3000 (Ivy Bridge E1/L1) / Pentium 900/1000/2000/2100 (P0)"
        else if dc s then "Intel Core i*-3000 (Ivy Bridge E1/N0/L1)"
        else if sX s then "Intel Xeon E3-1100 v2 / E3-1200 v2 (Ivy Bridge E1/N0/L1)"
        else if dP s then "Intel Pentium G1600/G2000/G2100 / Pentium B925C (Ivy Bridge P0)"
        else "Intel Core (unknown type) (Ivy Bridge E1/N0/L1/P0)"
    | None => "Intel Core (unknown type) (Ivy Bridge E1/N0/L1/P0)"
    end.
Proof.
  intros H. unfold decode_synth_intel, first_match.
  rewrite <- (cascade_sig _ _ _ intel_masks), sig_bits_split, H.
  assert (Ht : In (Z.land val 0x3000) [0; 0x1000; 0x2000; 0x3000])
    by apply type_bits.
  rewrite (ivy_cascade _ stash Ht).
  rewrite ivy_rules_cascade; [reflexivity|].
  cbn [In] in Ht. destruct Ht as [<- | [<- | [<- | [<- | []]]]]; reflexivity.
Qed.

(** The same signature with the brand string of a mobile Core part. *)
Lemma ivy_bridge_stepping_9_witness :
  match do_final no_regexp false
                 (stash_pass false dump_ivy_bridge_mobile NIL_STASH) with
  | Some s =>
      __FMS (val_1_eax s) = _FMS 0 6 3 10 9
      /\ Mc s = true
      /\ decode_synth_intel (val_1_eax s) (Some s)
         = "Intel Mobile Core i*-3000 (Ivy Bridge E1/L1) / Pentium 900/1000/2000/2100 (P0)"
  | None => False
  end.
Proof.
  destruct (do_final no_regexp false
                     (stash_pass false dump_ivy_bridge_mobile NIL_STASH))
    as [s|] eqn:E; vm_compute in E; [|discriminate E].
  injection E as <-.
  split; [reflexivity|]. split; [vm_compute; reflexivity|].
  etransitivity; [apply ivy_bridge_stepping_9; reflexivity|].
  vm_compute. reflexivity.
Defined.

(** C8: whatever the signature and the stash, when the reconstructor
    [decode_amd_model] yields a non-empty processor number the result of
    [decode_synth_amd] is the string of the table lookup, a space, and
    that number; the lookup's own string is kept whole in front.  With an
    empty number the result is the lookup's string alone. *)
Theorem amd_processor_number_is_appended
        (val : Z) (stash : option code_stash_t) :
  let base := first_match decode_synth_amd_rules (DEFAULT "unknown") val stash in
  let number := proc (decode_amd_model stash) in
  (number <> EmptyString -> decode_synth_amd val stash = base ++ " " ++ number)
  /\ (number = EmptyString -> decode_synth_amd val stash = base).
Proof.
  intros base number. unfold decode_synth_amd. fold base number.
  destruct (String.eqb_spec number EmptyString) as [E|E]; cbn [negb].
  - split; [intros C; contradiction | reflexivity].
  - split; [intros _; apply sprintf_s_s | intros C; contradiction].
Qed.

(** An Athlon 64 3200+ (signature 0x00000F48, extended brand id 0x10a). *)
Lemma amd_processor_number_is_appended_witness :
  match do_final no_regexp false
                 (stash_pass false dump_amd_0Fh_athlon_64 NIL_STASH) with
  | Some s =>
      proc (decode_amd_model (Some s)) = "Processor 3200+"
      /\ first_match decode_synth_amd_rules (DEFAULT "unknown")
                     (val_1_eax s) (Some s)
         = "AMD Athlon 64 (SledgeHammer SH7-C0)"
      /\ decode_synth_amd (val_1_eax s) (Some s)
         = "AMD Athlon 64 (SledgeHammer SH7-C0) Processor 3200+"
  | None => False
  end.
Proof.
  destruct (do_final no_regexp false
                     (stash_pass false dump_amd_0Fh_athlon_64 NIL_STASH))
    as [s|] eqn:E; vm_compute in E; [|discriminate E].
  injection E as <-.
  split; [vm_compute; reflexivity|]. split; [vm_compute; reflexivity|].
  etransitivity;
    [apply (proj1 (amd_processor_number_is_appended _ _));
     vm_compute; discriminate|].
  vm_compute. reflexivity.
Defined.

(** *** The cache flags *)

(** C3: along a pass every cache-classification flag only goes up.  A
    flag set after the observations [obs1] is still set after any further
    observations [obs2] of the same pass, and the value of a flag at the
    end of a pass is its value at the start joined with what each single
    observation sets: the union over everything seen. *)
Theorem cache_flags_monotone (raw : bool) (obs1 obs2 : list observation)
        (stash : code_stash_t) (fl : cache_flag) :
  (flag fl (stash_pass raw obs1 stash) = true ->
   flag fl (stash_pass raw (obs1 ++ obs2) stash) = true)
  /\ flag fl (stash_pass raw (obs1 ++ obs2) stash)
     = flag fl stash || existsb (sets_flag fl raw) (obs1 ++ obs2).
Proof.
  split.
  - intros H. rewrite stash_pass_app, flag_stash_pass, H. reflexivity.
  - apply flag_stash_pass.
Qed.

(** The descriptor 0x4e in a first leaf 2, then leaves 4, 2, 0x80000006
    and 0x8000001d that do not mention it. *)
Lemma cache_flags_monotone_witness :
  flag Flag_L2_6M (stash_pass false dump_cache_6M_first NIL_STASH) = true
  /\ flag Flag_L2_6M
          (stash_pass false (dump_cache_6M_first ++ dump_cache_later) NIL_STASH)
     = true.
Proof.
  split; [vm_compute; reflexivity|].
  apply (proj1 (cache_flags_monotone false dump_cache_6M_first
                                     dump_cache_later NIL_STASH Flag_L2_6M)).
  vm_compute. reflexivity.
Defined.

(** C7: a leaf-2 descriptor byte sets the flag [L2_256K] exactly when it
    is one of 0x21, 0x3c, 0x42, 0x7a, 0x7e and 0x82, and the flag [L2_6M]
    exactly when it is 0x4e; on any other byte either flag keeps the value
    it had. *)
Theorem leaf2_descriptor_table (stash : code_stash_t) (value : Z) :
  L2_256K (stash_intel_cache stash value)
  = L2_256K stash
    || existsb (Z.eqb value) [0x21; 0x3c; 0x42; 0x7a; 0x7e; 0x82]
  /\
  L2_6M (stash_intel_cache stash value)
  = L2_6M stash || existsb (Z.eqb value) [0x4e].
Proof.
  unfold stash_intel_cache. cbv zeta. cbn [switch case].
  split; split_ifs; cbn; rewrite ?orb_true_r, ?orb_false_r; reflexivity.
Qed.

(** *** The Override Brand *)

(** C4, as stated, fails: an AMD family 0Fh part whose brand string
    contains "model unknown" and whose brand id fields are zero gets no
    brand-prefix from the reconstructor, and its Override Brand is still
    empty when [do_final] is done. *)
Lemma override_brand_stays_empty :
  let stash := stash_pass false dump_amd_0Fh_no_brand_id NIL_STASH in
  vendor stash = VENDOR_AMD
  /\ strstr (c_str (brand stash)) "model unknown" <> None
  /\ option_map override_brand (do_final no_regexp false stash)
     = Some EmptyString.
Proof.
  intros stash.
  split; [vm_compute; reflexivity|].
  split; [vm_compute; discriminate|].
  vm_compute. reflexivity.
Qed.

Section OverrideBrand.

Variable strregexp : cstring -> cstring -> bool.

(** C4, amended: for an AMD or Hygon part whose captured brand string
  contains "model unknown" (and whose Override Brand is empty, as it is
  at the end of every pass), [do_final] completes; when the
  reconstructor resolves a brand-prefix the Override Brand becomes the
  prefix, a space, the processor number and, when a suffix was resolved,
  a space and the suffix, it is not empty, and the brand-string
  predicates are those of the Override Brand; when no prefix is
  resolved the Override Brand stays empty and the predicates are those
  of the captured brand string. *)
Theorem override_brand_when_model_unknown (stash : code_stash_t) :
(vendor stash = VENDOR_AMD \/ vendor stash = VENDOR_HYGON) ->
strstr (c_str (brand stash)) "model unknown" <> None ->
override_brand stash = EmptyString ->
exists s',
  do_final strregexp false stash = Some s'
  /\ match override_brand_text (decode_amd_model (Some stash)) with
     | Some text =>
         override_brand s' = text
         /\ text <> EmptyString
         /\ br s' = br (decode_brand_string strregexp text stash)
     | None =>
         override_brand s' = EmptyString
         /\ br s' = br (decode_brand_string strregexp
                                            (c_str (brand stash)) stash)
     end.
Proof.
intros Hv Hs He. unfold do_final. cbn [negb].
destruct (decode_mp_synth_amd stash Hv) as [m Hm]. rewrite Hm. cbv zeta.
rewrite decode_override_brand_spec by assumption.
rewrite decode_amd_model_set_mp.
unfold override_brand_text.
destruct (brand_pre (decode_amd_model (Some stash))) as [pre|].
- set (text := pre ++ " " ++ _).
  destruct (decode_brand_id_stash_only_bri
              (set_override_brand text (set_mp m stash))) as [b Hb].
  rewrite Hb. eexists. split; [reflexivity|].
  assert (Hne : text <> EmptyString).
  { unfold text. destruct pre; discriminate. }
  unfold decode_brand_stash. cbn [override_brand set_bri set_override_brand].
  destruct (String.eqb_spec text EmptyString) as [E|E]; [contradiction|].
  cbn [negb]. repeat split; assumption.
- destruct (decode_brand_id_stash_only_bri (set_mp m stash)) as [b Hb].
  rewrite Hb. eexists. split; [reflexivity|].
  unfold decode_brand_stash. cbn [override_brand set_bri set_mp].
  rewrite He. cbn. split; [exact He | reflexivity].
Qed.

End OverrideBrand.

(** The Athlon 64 3200+ behind a "model unknown" brand string. *)
Lemma override_brand_when_model_unknown_witness :
  let stash := stash_pass false dump_amd_0Fh_athlon_64 NIL_STASH in
  override_brand_text (decode_amd_model (Some stash))
  = Some "AMD Athlon(tm) 64 Processor 3200+"
  /\ exists s',
       do_final no_regexp false stash = Some s'
       /\ override_brand s' = "AMD Athlon(tm) 64 Processor 3200+"
       /\ br s' = br (decode_brand_string
                        no_regexp "AMD Athlon(tm) 64 Processor 3200+" stash).
Proof.
  intros stash.
  assert (T : override_brand_text (decode_amd_model (Some stash))
              = Some "AMD Athlon(tm) 64 Processor 3200+")
    by (vm_compute; reflexivity).
  split; [exact T|].
  destruct (override_brand_when_model_unknown no_regexp stash)
    as (s' & E & H);
    [left; vm_compute; reflexivity
    | vm_compute; discriminate
    | vm_compute; reflexivity
    | ].
  rewrite T in H. destruct H as (Ho & _ & Hb).
  exists s'. repeat split; assumption.
Defined.

(** *** The topology *)

(** C2: for an Intel stash the method is chosen in the order leaf 0x1f,
    leaf 0xb, leaf 4 with leaf 1, leaf 1 alone.  When leaf 0x1f was seen,
    whether or not leaf 0xb was seen too, the method is "Intel leaf 0x1f"
    and the core and hyperthread counts are the processor counts of the
    last leaf-0x1f record of level Core and of level SMT: no leaf-0xb
    register enters them.  On the leaf-4 path the method is "Intel leaf
    1/4", or its zero-fallback variant when the cache type of leaf 4 is
    zero; the function fails to return there only when that fallback
    divides by a core count of zero. *)
Theorem intel_topology_priority (stash : code_stash_t) :
  vendor stash = VENDOR_INTEL ->
  (saw_1f stash = true ->
   exists s', decode_mp_synth stash = Some s'
     /\ mp_method (mp s') = Some "Intel leaf 0x1f"
     /\ mp_cores (mp s')
        = last_v2_level V2_TOPO_CORE (val_1f_ecx stash) (val_1f_ebx stash)
                        (mp_cores (mp stash))
     /\ mp_hyperthreads (mp s')
        = last_v2_level V2_TOPO_SMT (val_1f_ecx stash) (val_1f_ebx stash)
                        (mp_hyperthreads (mp stash)))
  /\ (saw_1f stash = false -> saw_b stash = true ->
      exists s', decode_mp_synth stash = Some s'
        /\ mp_method (mp s') = Some "Intel leaf 0xb")
  /\ (saw_1f stash = false -> saw_b stash = false -> saw_4 stash = true ->
      match decode_mp_synth stash with
      | Some s' =>
          mp_method (mp s')
          = Some (if Z.land (val_4_eax stash) 0x1f =? 0
                  then "Intel leaf 1/4 (zero fallback)"
                  else "Intel leaf 1/4")
      | None =>
          Z.land (val_4_eax stash) 0x1f = 0
          /\ GET_LogicalProcessorCount (val_1_ebx stash) / 2 = 0
      end)
  /\ (saw_1f stash = false -> saw_b stash = false -> saw_4 stash = false ->
      exists s', decode_mp_synth stash = Some s'
        /\ mp_method (mp s') = Some "Intel leaf 1").
Proof.
  intros Hv. unfold decode_mp_synth. rewrite Hv.
  repeat split.
  - intros H1f. rewrite H1f. eexists. split; [reflexivity|].
    pose proof (leaf_1f_fold (seq 0 6)
                             (assign_mp_method "Intel leaf 0x1f" stash)) as H.
    cbv zeta in H. destruct H as (Hm & Hc & Hh).
    rewrite Hm, Hc, Hh. repeat split.
  - intros H1f Hb. rewrite H1f, Hb.
    unfold udiv.
    destruct (GET_X2APIC_PROCESSORS (nth 0 (val_b_ebx stash) 0) =? 0) eqn:E.
    + cbn. eexists. split; reflexivity.
    + rewrite E. eexists. split; reflexivity.
  - intros H1f Hb H4. rewrite H1f, Hb, H4.
    destruct (Z.land (val_4_eax stash) 31 =? 0) eqn:E; cbn [negb].
    + unfold udiv.
      destruct (GET_LogicalProcessorCount (val_1_ebx stash) / 2 =? 0) eqn:E2.
      * apply Z.eqb_eq in E, E2. auto.
      * reflexivity.
    + unfold udiv.
      destruct (u32 (GET_NC_INTEL (val_4_eax stash) + 1) =? 0) eqn:E2.
      * exfalso. apply Z.eqb_eq in E2.
        pose proof (GET_NC_INTEL_range (val_4_eax stash)) as R.
        unfold u32 in E2. rewrite Z.mod_small in E2; lia.
      * reflexivity.
  - intros H1f Hb H4. rewrite H1f, Hb, H4.
    cbv zeta.
    match goal with |- context [if ?c then _ else _] => destruct c end;
      eexists; split; reflexivity.
Qed.

(** A part that answers leaf 0xb with 8 logical processors and leaf 0x1f
    with 16: the counts are those of leaf 0x1f. *)
Lemma intel_topology_priority_witness :
  let stash := stash_pass false dump_intel_leaf_b_and_1f NIL_STASH in
  saw_1f stash = true
  /\ saw_b stash = true
  /\ GET_X2APIC_PROCESSORS (nth 1 (val_b_ebx stash) 0) = 8
  /\ exists s',
       decode_mp_synth stash = Some s'
       /\ mp_method (mp s') = Some "Intel leaf 0x1f"
       /\ mp_cores (mp s') = 16
       /\ mp_hyperthreads (mp s') = 2.
Proof.
  intros stash.
  split; [vm_compute; reflexivity|].
  split; [vm_compute; reflexivity|].
  split; [vm_compute; reflexivity|].
  destruct (intel_topology_priority stash) as (H & _);
    [vm_compute; reflexivity|].
  destruct H as (s' & E & Hm & Hc & Hh); [vm_compute; reflexivity|].
  exists s'. rewrite Hc, Hh.
  split; [exact E|]. split; [exact Hm|].
  split; vm_compute; reflexivity.
Defined.

(** C9: on the leaf-0xb path the function always returns: the SMT-level
    count [ht] of subleaf 0 is replaced by 1 when it is 0 before it
    divides the total [tc] of subleaf 1, so the divisor is never zero.
    With [ht = 0] the hyperthread count is 1 and the core count is [tc];
    otherwise they are [ht] and [tc / ht]. *)
Theorem leaf_b_zero_smt_guard (stash : code_stash_t) :
  vendor stash = VENDOR_INTEL ->
  saw_1f stash = false ->
  saw_b stash = true ->
  let ht := GET_X2APIC_PROCESSORS (nth 0 (val_b_ebx stash) 0) in
  let tc := GET_X2APIC_PROCESSORS (nth 1 (val_b_ebx stash) 0) in
  exists s',
    decode_mp_synth stash = Some s'
    /\ mp_method (mp s') = Some "Intel leaf 0xb"
    /\ udiv tc (if ht =? 0 then 1 else ht) = Some (mp_cores (mp s'))
    /\ (ht = 0 -> mp_hyperthreads (mp s') = 1 /\ mp_cores (mp s') = tc)
    /\ (ht <> 0 -> mp_hyperthreads (mp s') = ht /\ mp_cores (mp s') = tc / ht).
Proof.
  intros Hv H1f Hb ht tc. unfold decode_mp_synth. rewrite Hv, H1f, Hb.
  fold ht tc. unfold udiv.
  destruct (ht =? 0) eqn:E.
  - apply Z.eqb_eq in E. cbn [Z.eqb].
    eexists. split; [reflexivity|]. cbn.
    split; [reflexivity|]. split; [reflexivity|].
    split; [intros _; split; [reflexivity | apply Z.div_1_r]
           | intros C; contradiction].
  - rewrite E. apply Z.eqb_neq in E.
    eexists. split; [reflexivity|]. cbn.
    split; [reflexivity|]. split; [reflexivity|].
    split; [intros C; contradiction | intros _; split; reflexivity].
Qed.

(** A part whose leaf 0xb subleaf 0 counts no SMT-level processors and
    whose subleaf 1 counts 8. *)
Lemma leaf_b_zero_smt_guard_witness :
  let stash := stash_pass false dump_intel_leaf_b_zero_smt NIL_STASH in
  GET_X2APIC_PROCESSORS (nth 0 (val_b_ebx stash) 0) = 0
  /\ exists s',
       decode_mp_synth stash = Some s'
       /\ mp_method (mp s') = Some "Intel leaf 0xb"
       /\ mp_hyperthreads (mp s') = 1
       /\ mp_cores (mp s') = 8.
Proof.
  intros stash.
  assert (Z0 : GET_X2APIC_PROCESSORS (nth 0 (val_b_ebx stash) 0) = 0)
    by (vm_compute; reflexivity).
  split; [exact Z0|].
  destruct (leaf_b_zero_smt_guard stash) as (s' & E & Hm & _ & H0 & _);
    [vm_compute; reflexivity ..|].
  destruct (H0 Z0) as (Hh & Hc).
  exists s'. rewrite Hh, Hc.
  split; [exact E|]. split; [exact Hm|].
  split; vm_compute; reflexivity.
Defined.

(** C10: the zero fallback of the leaf-4 path divides by the core count
    it has just computed.  On an Intel dump with an empty leaf 4 and a
    leaf 1 that counts one logical processor, that core count is
    [1 / 2 = 0] and [decode_mp_synth] does not return: no method, core
    count or hyperthread count is reported.  The same dump with four
    logical processors gives 2 cores, 2 hyperthreads and the
    zero-fallback method. *)
Theorem empty_leaf_4_divides_by_zero :
  let one := stash_pass false dump_intel_leaf_4_empty_one_cpu NIL_STASH in
  let four := stash_pass false dump_intel_leaf_4_empty_four_cpus NIL_STASH in
  (vendor one = VENDOR_INTEL
   /\ saw_1f one = false /\ saw_b one = false /\ saw_4 one = true
   /\ Z.land (val_4_eax one) 0x1f = 0
   /\ GET_LogicalProcessorCount (val_1_ebx one) = 1
   /\ decode_mp_synth one = None)
  /\ option_map mp (decode_mp_synth four)
     = Some {| mp_method := Some "Intel leaf 1/4 (zero fallback)";
               mp_cores := 2;
               mp_hyperthreads := 2 |}.
Proof.
  intros one four. vm_compute. repeat split.
Qed.

(** *** [bits_needed] *)

(** C6, as stated, fails: the bit scan reads the low 16 bits of [n - 1]
    only.  For the count 65537 these are all zero and the function
    returns 0, where the ceiling of the binary logarithm is 17. *)
Lemma bits_needed_65537 :
  bits_needed 65537 = 0
  /\ bits_needed_ilp32 65537 = 0
  /\ Z.log2_up 65537 = 17.
Proof. vm_compute. repeat split. Qed.

(** C6, amended: for every count [n] from 1 to 65536, [bits_needed n],
    in either compilation, is the ceiling of the binary logarithm of [n]:
    the least [k] with [n <= 2 ^ k]; it is 0 for [n = 1]. *)
Theorem bits_needed_log2_up (n : Z) :
  1 <= n <= 65536 ->
  bits_needed n = Z.log2_up n
  /\ bits_needed_ilp32 n = Z.log2_up n
  /\ n <= 2 ^ bits_needed n
  /\ (1 < n -> 2 ^ (bits_needed n - 1) < n).
Proof.
  intros Hn.
  assert (B : bits_needed n = Z.log2_up n).
  { rewrite bits_needed_eq. cbv zeta.
    rewrite (Z.mod_small n) by lia.
    rewrite (Z.mod_small (n - 1)) by lia.
    change 65535 with (Z.ones 16). rewrite Z.land_ones by lia.
    rewrite (Z.mod_small (n - 1)) by lia.
    unfold Z.log2_up.
    destruct (Z.eq_dec n 1) as [->|Hne]; [reflexivity|].
    assert (E : (n - 1 =? 0) = false) by (apply Z.eqb_neq; lia).
    rewrite E.
    assert (C : (1 ?= n) = Lt) by (apply Z.compare_lt_iff; lia).
    rewrite C. unfold Z.pred, Z.succ.
    replace (n + -1) with (n - 1) by lia.
    assert (0 <= Z.log2 (n - 1) < 16).
    { split; [apply Z.log2_nonneg | apply Z.log2_lt_pow2; lia]. }
    change 4294967295 with (Z.ones 32). rewrite Z.land_ones by lia.
    apply Z.mod_small. lia. }
  split; [exact B|].
  split; [rewrite bits_needed_ilp32_eq by lia; exact B|].
  rewrite B. split.
  - destruct (Z.eq_dec n 1) as [->|Hne]; [reflexivity|].
    apply Z.log2_up_spec. lia.
  - intros H1. replace (Z.log2_up n - 1) with (Z.pred (Z.log2_up n)) by lia.
    apply Z.log2_up_spec. lia.
Qed.

(** The five counts of the specification. *)
Lemma bits_needed_log2_up_witness :
  bits_needed 1 = 0
  /\ bits_needed 2 = 1
  /\ bits_needed 5 = 3
  /\ bits_needed 8 = 3
  /\ bits_needed 9 = 4.
Proof.
  assert (W : forall n k : Z,
             1 <= n <= 65536 -> Z.log2_up n = k -> bits_needed n = k).
  { intros n k Hn <-. exact (proj1 (bits_needed_log2_up n Hn)). }
  split; [apply W; [lia | reflexivity]|].
  split; [apply W; [lia | reflexivity]|].
  split; [apply W; [lia | reflexivity]|].
  split; apply W; solve [lia | reflexivity].
Defined.

(* ================================================================== *)
(** ** Further properties                                              *)
(* ================================================================== *)

(** *** Bit fields and [bits_needed] *)

(** X1: on the range where the shifts of the macro are defined in C, that
    is [0 <= start <= after <= 32] with [start < 32] (the macro shifts a
    32-bit value right by [start]) and [after <> 31] ([RIGHTMASK(31)]
    computes [(1 << 31) - 1] in [int]), [BIT_EXTRACT_LE value start after]
    is the number made of the bits [start] to [after - 1] of [value]: the
    quotient by [2 ^ start] of [value] modulo [2 ^ after].  It is never
    negative and is less than [2 ^ (after - start)]. *)
Theorem BIT_EXTRACT_LE_field (value start after : Z) :
  0 <= start <= after -> start < 32 -> after <= 32 -> after <> 31 ->
  BIT_EXTRACT_LE value start after = (value mod 2 ^ after) / 2 ^ start
  /\ 0 <= BIT_EXTRACT_LE value start after < 2 ^ (after - start).
Proof.
  intros Hs _ Ha _. split; [|apply BIT_EXTRACT_LE_range; assumption].
  unfold BIT_EXTRACT_LE.
  assert (M : RIGHTMASK after = Z.ones after).
  { unfold RIGHTMASK, BPI, POWER2.
    destruct (after >=? 32) eqn:E.
    - assert (after = 32) by lia. subst. reflexivity.
    - rewrite Z.ones_equiv, Z.shiftl_1_l. lia. }
  rewrite M, Z.land_ones by lia. apply Z.shiftr_div_pow2. lia.
Qed.

(** The logical processor count of leaf 1 EBX = 0x00100800. *)
Lemma BIT_EXTRACT_LE_field_witness :
  BIT_EXTRACT_LE 0x00100800 16 24 = 16
  /\ 0 <= BIT_EXTRACT_LE 0x00100800 16 24 < 2 ^ (24 - 16).
Proof.
  destruct (BIT_EXTRACT_LE_field 0x00100800 16 24) as [E R];
    [lia | lia | lia | lia |].
  split; [rewrite E; reflexivity | exact R].
Defined.

Lemma bits_needed_source (v : Z) :
  Z.land ((v mod 2 ^ 64 - 1) mod 2 ^ 64) 0xffff = (v - 1) mod 65536.
Proof.
  change 65535 with (Z.ones 16). rewrite Z.land_ones by lia.
  rewrite (Z.mod_mod_divide _ (2 ^ 64) (2 ^ 16))
    by (exists (2 ^ 48); reflexivity).
  rewrite Zminus_mod.
  rewrite (Z.mod_mod_divide v (2 ^ 64) (2 ^ 16))
    by (exists (2 ^ 48); reflexivity).
  rewrite <- Zminus_mod. reflexivity.
Qed.

Lemma bits_needed_scan (v : Z) :
  let ax := (v - 1) mod 65536 in
  bits_needed v = (if ax =? 0 then 0 else Z.log2 ax + 1)
  /\ 0 <= bits_needed v <= 16.
Proof.
  intros ax. rewrite bits_needed_eq. cbv zeta.
  rewrite bits_needed_source. fold ax.
  assert (R : 0 <= ax < 2 ^ 16) by (apply Z.mod_pos_bound; lia).
  destruct (ax =? 0) eqn:E; [split; [reflexivity | lia]|].
  apply Z.eqb_neq in E.
  assert (L : 0 <= Z.log2 ax < 16).
  { split; [apply Z.log2_nonneg | apply Z.log2_lt_pow2; lia]. }
  change 4294967295 with (Z.ones 32). rewrite Z.land_ones by lia.
  rewrite Z.mod_small by lia. split; [reflexivity | lia].
Qed.

(** X2: whatever its argument, [bits_needed v] looks at the low 16 bits
    of [v - 1] only: it is 0 when they are all zero and otherwise one more
    than the position of the highest of them that is set.  The result is
    always between 0 and 16. *)
Theorem bits_needed_low_16_bits (v : Z) :
  let ax := (v - 1) mod 65536 in
  bits_needed v = (if ax =? 0 then 0 else Z.log2 ax + 1)
  /\ 0 <= bits_needed v <= 16.
Proof. exact (bits_needed_scan v). Qed.

Lemma bits_needed_count (n : Z) :
  0 <= n <= 65536 ->
  bits_needed n = if n =? 0 then 16 else Z.log2_up n.
Proof.
  intros Hn. destruct (bits_needed_scan n) as [E _]. cbv zeta in E.
  rewrite E. clear E.
  destruct (n =? 0) eqn:E0.
  - apply Z.eqb_eq in E0. subst. reflexivity.
  - apply Z.eqb_neq in E0. rewrite Z.mod_small by lia.
    unfold Z.log2_up.
    destruct (Z.eq_dec n 1) as [->|Hne]; [reflexivity|].
    assert (E : (n - 1 =? 0) = false) by (apply Z.eqb_neq; lia).
    rewrite E.
    assert (C : (1 ?= n) = Lt) by (apply Z.compare_lt_iff; lia).
    rewrite C. unfold Z.pred, Z.succ.
    replace (n + -1) with (n - 1) by lia. reflexivity.
Qed.

(** X3: whenever [print_apic_synth] computes widths from counts, each
    width is the ceiling of the binary logarithm of its count; a count of
    zero, which the quotients can give, yields the width 16. *)
Theorem print_apic_synth_widths_exact (stash : code_stash_t)
        (smt_count core_count : Z) (cu_count : option Z) :
  print_apic_synth_counts stash = Some (smt_count, core_count, cu_count) ->
  print_apic_synth_widths stash
  = Some (if smt_count =? 0 then 16 else Z.log2_up smt_count,
          Z.log2_up core_count,
          match cu_count with
          | Some cu_count => if cu_count =? 0 then 16 else Z.log2_up cu_count
          | None => 0
          end).
Proof.
  intros H. unfold print_apic_synth_widths. rewrite H.
  destruct (print_apic_synth_counts_small _ _ _ _ H) as (Rs & Rc & Ru).
  rewrite (bits_needed_count smt_count) by lia.
  rewrite (bits_needed_count core_count) by lia.
  assert (E : (core_count =? 0) = false) by (apply Z.eqb_neq; lia).
  rewrite E.
  destruct cu_count as [cu|]; [|reflexivity].
  rewrite (bits_needed_count cu) by lia. reflexivity.
Qed.

(** Eight cores per package and sixteen logical processors: one bit for
    the thread, three for the core. *)
Lemma print_apic_synth_widths_exact_witness :
  print_apic_synth_widths (stash_pass false dump_intel_leaf_4 NIL_STASH)
  = Some (1, 3, 0).
Proof.
  exact (print_apic_synth_widths_exact
           (stash_pass false dump_intel_leaf_4 NIL_STASH) 2 8 None eq_refl).
Defined.

(** *** [decode_mp_synth] and [do_final] *)

Lemma leaf_1f_step_set_mp m s try :
  exists m', leaf_1f_step (set_mp m s) try = set_mp m' s.
Proof.
  unfold leaf_1f_step, assign_mp_hyperthreads, assign_mp_cores.
  cbn [val_1f_ecx val_1f_ebx set_mp mp].
  destruct (_ =? V2_TOPO_SMT); [eexists; reflexivity|].
  destruct (_ =? V2_TOPO_CORE); eexists; reflexivity.
Qed.

Lemma leaf_1f_fold_set_mp tries m s :
  exists m', fold_left leaf_1f_step tries (set_mp m s) = set_mp m' s.
Proof.
  revert m. induction tries as [|try tries IH]; intros m; cbn [fold_left].
  - eexists; reflexivity.
  - destruct (leaf_1f_step_set_mp m s try) as [m' ->]. apply IH.
Qed.

Lemma decode_mp_synth_intel_frame s s' :
  vendor s = VENDOR_INTEL ->
  decode_mp_synth s = Some s' -> exists m, s' = set_mp m s.
Proof.
  intros Hv. unfold decode_mp_synth. rewrite Hv.
  unfold assign_mp_hyperthreads, assign_mp_cores, assign_mp_method, udiv.
  destruct (saw_1f s).
  { cbv zeta.
    destruct (leaf_1f_fold_set_mp (seq 0 6)
                (set_mp_method (Some "Intel leaf 0x1f") (mp s)) s) as [m E].
    intros H; injection H as <-. exists m. exact E. }
  destruct (saw_b s).
  { cbv zeta.
    generalize (GET_X2APIC_PROCESSORS (nth 0 (val_b_ebx s) 0)) as ht.
    generalize (GET_X2APIC_PROCESSORS (nth 1 (val_b_ebx s) 0)) as tc.
    intros tc ht.
    destruct ((if ht =? 0 then 1 else ht) =? 0); [discriminate|].
    intros H; injection H as <-. eexists; reflexivity. }
  destruct (saw_4 s).
  { generalize (GET_LogicalProcessorCount (val_1_ebx s)) as tc.
    generalize (GET_NC_INTEL (val_4_eax s)) as nc.
    intros nc tc.
    destruct (negb (Z.land (val_4_eax s) 31 =? 0)); cbv zeta beta iota.
    - destruct (u32 (nc + 1) =? 0); [discriminate|].
      intros H; injection H as <-. eexists; reflexivity.
    - destruct (tc / 2 =? 0); [discriminate|].
      intros H; injection H as <-. eexists; reflexivity. }
  cbv zeta. cbn [val_1_edx val_1_ebx set_mp mp].
  destruct (negb (IS_HTT (val_1_edx s) =? 0));
    intros H; injection H as <-; eexists; reflexivity.
Qed.

(** Whenever it returns, [decode_mp_synth] has written [mp] and nothing
    else. *)
Lemma decode_mp_synth_frame (stash stash' : code_stash_t) :
  decode_mp_synth stash = Some stash' ->
  exists m, stash' = set_mp m stash.
Proof.
  intros H.
  destruct (vendor stash) eqn:Hv.
  2: exact (decode_mp_synth_intel_frame _ _ Hv H).
  2, 13: (destruct (decode_mp_synth_amd stash) as [m E];
          [auto | rewrite E in H; injection H as <-; exists m; reflexivity]).
  all: unfold decode_mp_synth in H; rewrite Hv in H;
    unfold assign_mp_hyperthreads, assign_mp_cores, assign_mp_method in H;
    destruct (IS_HTT (val_1_edx stash) =? 0);
    injection H as <-;
    [eexists; reflexivity | exists (mp stash); symmetry; apply set_mp_same].
Qed.


(** X4: on an AMD or Hygon stash [decode_mp_synth] always returns.
    Either it leaves [mp] as it was (the case the source calls
    nonsensical), or it sets the method to the vendor's name and counts
    with [1 <= cores <= 256], [0 <= hyperthreads <= 255] and
    [cores * hyperthreads] no more than the logical processor count of
    leaf 1, or 2 when that is less. *)
Theorem amd_topology_bounds (stash : code_stash_t) :
  vendor stash = VENDOR_AMD \/ vendor stash = VENDOR_HYGON ->
  let tc := GET_LogicalProcessorCount (val_1_ebx stash) in
  exists stash',
    decode_mp_synth stash = Some stash'
    /\ (mp stash' = mp stash
        \/ (mp_method (mp stash')
            = Some (if vendor_eqb (vendor stash) VENDOR_AMD
                    then "AMD" else "Hygon")
            /\ 1 <= mp_cores (mp stash') <= 256
            /\ 1 <= mp_hyperthreads (mp stash') + 1 <= 256
            /\ mp_cores (mp stash') * mp_hyperthreads (mp stash')
               <= Z.max tc 2)).
Proof.
  intros Hv tc. unfold decode_mp_synth.
  pose proof (GET_LogicalProcessorCount_range (val_1_ebx stash)) as Rt.
  pose proof (GET_ApicIdCoreIdSize_range (val_80000008_ecx stash)) as Rs.
  pose proof (GET_NC_AMD_range (val_80000008_ecx stash)) as Rn.
  fold tc in Rt.
  assert (V : match vendor stash with
              | VENDOR_AMD | VENDOR_HYGON => True | _ => False end).
  { destruct Hv as [-> | ->]; exact I. }
  set (name := if vendor_eqb (vendor stash) VENDOR_AMD then "AMD" else "Hygon").
  assert (G :
    exists s', (if negb (IS_HTT (val_1_edx stash) =? 0) then
        let tc := GET_LogicalProcessorCount (val_1_ebx stash) in
        let c :=
          if negb (GET_ApicIdCoreIdSize (val_80000008_ecx stash) =? 0) then
            let size := GET_ApicIdCoreIdSize (val_80000008_ecx stash) in
            let mask := u32 (Z.shiftl 1 size - 1) in
            u32 (Z.land (GET_NC_AMD (val_80000008_ecx stash)) mask + 1)
          else
            u32 (GET_NC_AMD (val_80000008_ecx stash) + 1) in
        if int_of_bool (tc =? c) =? IS_CmpLegacy (val_80000001_ecx stash) then
          let stash := assign_mp_method name stash in
          if c >? 1 then
            let stash := assign_mp_cores c stash in
            match udiv tc c with
            | Some q => Some (assign_mp_hyperthreads q stash)
            | None => None
            end
          else
            let stash := assign_mp_cores 1 stash in
            Some (assign_mp_hyperthreads (if tc >=? 2 then tc else 2) stash)
        else
          Some stash
      else
        let stash := assign_mp_method name stash in
        let stash := assign_mp_cores 1 stash in
        Some (assign_mp_hyperthreads 1 stash)) = Some s'
      /\ (mp s' = mp stash
          \/ (mp_method (mp s') = Some name
              /\ 1 <= mp_cores (mp s') <= 256
              /\ 1 <= mp_hyperthreads (mp s') + 1 <= 256
              /\ mp_cores (mp s') * mp_hyperthreads (mp s') <= Z.max tc 2))).
  { cbv zeta. fold tc. clearbody name tc. clear V Hv.
    unfold assign_mp_hyperthreads, assign_mp_cores, assign_mp_method, udiv.
    destruct (negb (IS_HTT (val_1_edx stash) =? 0)).
    2: { eexists. split; [reflexivity|]. right. cbn [mp mp_method mp_cores mp_hyperthreads set_mp set_mp_method set_mp_cores set_mp_hyperthreads]. repeat split; lia. }
    cbv zeta.
    assert (Rc : exists c,
               (if negb (GET_ApicIdCoreIdSize (val_80000008_ecx stash) =? 0)
                then u32 (Z.land (GET_NC_AMD (val_80000008_ecx stash))
                                 (u32 (Z.shiftl 1 (GET_ApicIdCoreIdSize
                                         (val_80000008_ecx stash)) - 1)) + 1)
                else u32 (GET_NC_AMD (val_80000008_ecx stash) + 1)) = c
               /\ 1 <= c <= 256).
    { generalize dependent (GET_ApicIdCoreIdSize (val_80000008_ecx stash)).
      generalize dependent (GET_NC_AMD (val_80000008_ecx stash)).
      intros nc Rn size Rs.
      destruct (negb (size =? 0)) eqn:C.
      - apply negb_true_iff, Z.eqb_neq in C.
        assert (P : 2 <= 2 ^ size <= 2 ^ 15).
        { split.
          - change 2 with (2 ^ 1) at 1. apply Z.pow_le_mono_r; lia.
          - apply Z.pow_le_mono_r; lia. }
        assert (M : u32 (Z.shiftl 1 size - 1) = Z.ones size).
        { rewrite Z.shiftl_1_l, Z.ones_equiv. unfold u32.
          rewrite Z.mod_small by lia. lia. }
        rewrite M, Z.land_ones by lia.
        pose proof (Z.mod_pos_bound nc (2 ^ size) ltac:(lia)) as Rm.
        assert (Rm' : nc mod 2 ^ size <= nc) by (apply Z.mod_le; lia).
        eexists. split; [reflexivity|].
        unfold u32. rewrite Z.mod_small by lia. lia.
      - eexists. split; [reflexivity|].
        unfold u32. rewrite Z.mod_small by lia. lia. }
    destruct Rc as (c & -> & Rc).
    destruct (int_of_bool (tc =? c) =? IS_CmpLegacy (val_80000001_ecx stash)).
    2: { eexists. split; [reflexivity|]. left. reflexivity. }
    destruct (c >? 1) eqn:E.
    - assert (E0 : (c =? 0) = false) by (apply Z.eqb_neq; lia).
      rewrite E0. eexists. split; [reflexivity|]. right. cbn [mp mp_method mp_cores mp_hyperthreads set_mp set_mp_method set_mp_cores set_mp_hyperthreads].
      pose proof (quotient_range tc c ltac:(lia) ltac:(lia)) as Q.
      split; [reflexivity|]. split; [lia|]. split; [lia|].
      pose proof (Z.mul_div_le tc c ltac:(lia)). lia.
    - eexists. split; [reflexivity|]. right. cbn [mp mp_method mp_cores mp_hyperthreads set_mp set_mp_method set_mp_cores set_mp_hyperthreads].
      split; [reflexivity|]. split; [lia|].
      rewrite Z.geb_leb. destruct (Z.leb_spec 2 tc); lia. }
  destruct (vendor stash); try contradiction; exact G.
Qed.

Lemma amd_topology_bounds_witness :
  let stash := stash_pass false dump_amd_0Fh_athlon_64 NIL_STASH in
  exists stash',
    decode_mp_synth stash = Some stash'
    /\ mp_method (mp stash') = Some "AMD"
    /\ mp_cores (mp stash') = 1
    /\ mp_hyperthreads (mp stash') = 1.
Proof.
  intros stash.
  destruct (amd_topology_bounds stash) as (s' & E & _);
    [left; vm_compute; reflexivity|].
  exists s'. split; [exact E|].
  vm_compute in E. injection E as <-. vm_compute. repeat split.
Defined.

Section DoFinal.

Variable strregexp : cstring -> cstring -> bool.

(** [decode_override_brand] writes the Override Brand and nothing else. *)
Lemma decode_override_brand_frame s :
exists o, decode_override_brand s = set_override_brand o s.
Proof.
unfold decode_override_brand.
assert (I : exists o, s = set_override_brand o s)
  by (exists (override_brand s); destruct s; reflexivity).
destruct (_ && _); [|exact I].
cbv zeta. destruct (brand_pre _); [|exact I].
destruct (brand_post _); eexists; reflexivity.
Qed.

Lemma do_final_frame (stash stash' : code_stash_t) :
do_final strregexp false stash = Some stash' ->
exists m o b r,
  stash' = set_br r (set_bri b (set_override_brand o (set_mp m stash))).
Proof.
unfold do_final. cbn [negb].
destruct (decode_mp_synth stash) as [s1|] eqn:E1; [|discriminate].
destruct (decode_mp_synth_frame _ _ E1) as [m ->].
cbv zeta.
destruct (decode_override_brand_frame (set_mp m stash)) as [o ->].
destruct (decode_brand_id_stash_only_bri
            (set_override_brand o (set_mp m stash))) as [b ->].
intros H. injection H as <-.
exists m, o, b. unfold decode_brand_stash, decode_brand_string.
destruct (negb _); eexists; reflexivity.
Qed.


(** X6: with decoding on, what [do_final] leaves differs from the stash
  it was given in the four decode results only: [mp], the Override
  Brand, [bri] and [br]; every captured register value, array, flag and
  string is as it was. *)
Theorem do_final_writes_decode_results (stash stash' : code_stash_t) :
do_final strregexp false stash = Some stash' ->
exists m o b r,
  stash' = set_br r (set_bri b (set_override_brand o (set_mp m stash))).
Proof. exact (do_final_frame stash stash'). Qed.

End DoFinal.


(** The Athlon 64 dump: the captured signature and brand are untouched. *)
Lemma do_final_writes_decode_results_witness :
  let stash := stash_pass false dump_amd_0Fh_athlon_64 NIL_STASH in
  exists stash',
    do_final no_regexp false stash = Some stash'
    /\ val_1_eax stash' = val_1_eax stash
    /\ brand stash' = brand stash.
Proof.
  intros stash.
  destruct (do_final no_regexp false stash) as [s'|] eqn:E;
    [|vm_compute in E; discriminate E].
  exists s'. split; [reflexivity|].
  destruct (do_final_writes_decode_results no_regexp stash s' E)
    as (m & o & b & r & ->).
  split; reflexivity.
Defined.

(** *** What a pass writes *)

Lemma decode_results_stash_intel_cache s v :
  decode_results (stash_intel_cache s v) = decode_results s.
Proof.
  unfold stash_intel_cache. cbv zeta. cbn [switch case].
  split_ifs; reflexivity.
Qed.

Lemma decode_results_print_reg reg words raw try s :
  decode_results (print_reg reg words raw try s) = decode_results s.
Proof.
  unfold print_reg.
  assert (C : forall x, decode_results (print_reg_capture reg words try x)
                        = decode_results x).
  { intros x. unfold print_reg_capture. split_ifs; reflexivity. }
  destruct raw; [apply C|].
  rewrite <- (C s). generalize (print_reg_capture reg words try s) as x.
  intros x. unfold print_reg_decode.
  destruct (reg =? 0); [reflexivity|].
  destruct (reg =? 2).
  { unfold print_reg_leaf2. generalize (seq 0 4) as ws.
    intros ws; revert x.
    induction ws as [|w ws IH]; intros x; cbn [fold_left]; [reflexivity|].
    rewrite IH.
    destruct (Z.land (word words w) 2147483648 =? 0); [|reflexivity].
    generalize (skipn (if (try =? 0) && Nat.eqb w WORD_EAX
                       then 1%nat else 0%nat)
                      (bytes_of_word (word words w))) as bytes.
    intros bytes; revert x.
    induction bytes as [|b bytes IHb]; intros x; cbn [fold_left];
      [reflexivity|].
    rewrite IHb. apply decode_results_stash_intel_cache. }
  unfold print_80000006_ecx, print_80860002_eax.
  split_ifs; reflexivity.
Qed.

(** X7: a pass writes captured data only.  Whatever the observations,
    [mp], [bri], [br] and the Override Brand of the stash are after the
    pass what they were before it: they are written by [do_final]
    alone. *)
Theorem pass_leaves_decode_results (raw : bool) (obs : list observation)
        (stash : code_stash_t) :
  mp (stash_pass raw obs stash) = mp stash
  /\ bri (stash_pass raw obs stash) = bri stash
  /\ br (stash_pass raw obs stash) = br stash
  /\ override_brand (stash_pass raw obs stash) = override_brand stash.
Proof.
  assert (E : decode_results (stash_pass raw obs stash) = decode_results stash).
  { unfold stash_pass. revert stash.
    induction obs as [|o obs IH]; intros s; cbn [fold_left]; [reflexivity|].
    rewrite IH. apply decode_results_print_reg. }
  unfold decode_results in E. injection E as -> -> -> ->. auto.
Qed.

Lemma array_set_length a i v : length (array_set a i v) = length a.
Proof.
  revert i. induction a as [|x a IH]; intros [|i]; cbn; auto.
Qed.

Lemma memcpy_words_terminated n buf off words :
  (off + 16 <= n)%nat ->
  terminated n buf -> terminated n (memcpy_words buf off words).
Proof.
  intros Ho [L T]. unfold memcpy_words.
  set (bytes := map _ _).
  assert (Lb : length bytes = 16%nat) by reflexivity.
  clearbody bytes.
  assert (L1 : length (firstn off buf) = off)
    by (rewrite length_firstn; lia).
  assert (L2 : length (skipn (off + 16) buf) = (S n - (off + 16))%nat)
    by (rewrite length_skipn; lia).
  split.
  - rewrite !length_app. lia.
  - rewrite app_nth2 by lia. rewrite app_nth2 by lia.
    rewrite L1, Lb, nth_skipn.
    replace (off + 16 + (n - off - 16))%nat with n by lia. exact T.
Qed.

Lemma sized_NIL : sized NIL_STASH.
Proof. unfold sized, terminated. cbn. repeat split. Qed.

Lemma sized_arrays s s' : arrays s' = arrays s -> sized s -> sized s'.
Proof.
  unfold arrays, sized. intros E.
  injection E as -> -> -> -> -> -> -> ->. trivial.
Qed.

Lemma arrays_stash_intel_cache s v : arrays (stash_intel_cache s v) = arrays s.
Proof.
  unfold stash_intel_cache. cbv zeta. cbn [switch case].
  split_ifs; reflexivity.
Qed.

Ltac split_sized :=
  repeat (match goal with |- _ /\ _ => split end); try assumption.

Ltac sized_fields :=
  cbn [val_b_eax val_b_ebx val_1f_eax val_1f_ebx val_1f_ecx brand
       transmeta_info soc_brand].

Lemma sized_set_val_b_eax a s :
  length a = 2%nat -> sized s -> sized (set_val_b_eax a s).
Proof.
  intros Ha (H1 & H2 & H3 & H4 & H5 & H6 & H7 & H8).
  unfold sized, set_val_b_eax; sized_fields; split_sized.
Qed.

Lemma sized_set_val_b_ebx a s :
  length a = 2%nat -> sized s -> sized (set_val_b_ebx a s).
Proof.
  intros Ha (H1 & H2 & H3 & H4 & H5 & H6 & H7 & H8).
  unfold sized, set_val_b_ebx; sized_fields; split_sized.
Qed.

Lemma sized_set_val_1f_eax a s :
  length a = 6%nat -> sized s -> sized (set_val_1f_eax a s).
Proof.
  intros Ha (H1 & H2 & H3 & H4 & H5 & H6 & H7 & H8).
  unfold sized, set_val_1f_eax; sized_fields; split_sized.
Qed.

Lemma sized_set_val_1f_ebx a s :
  length a = 6%nat -> sized s -> sized (set_val_1f_ebx a s).
Proof.
  intros Ha (H1 & H2 & H3 & H4 & H5 & H6 & H7 & H8).
  unfold sized, set_val_1f_ebx; sized_fields; split_sized.
Qed.

Lemma sized_set_val_1f_ecx a s :
  length a = 6%nat -> sized s -> sized (set_val_1f_ecx a s).
Proof.
  intros Ha (H1 & H2 & H3 & H4 & H5 & H6 & H7 & H8).
  unfold sized, set_val_1f_ecx; sized_fields; split_sized.
Qed.

Ltac sized_array_step :=
  match goal with
  | |- sized (if ?c then _ else _) => destruct c; [|assumption]
  end;
  match goal with
  | H : sized ?x |- sized (_ _ ?x) =>
      let H' := fresh in
      pose proof H as H'; destruct H' as (? & ? & ? & ? & ? & ? & ? & ?)
  end;
  match goal with
  | |- sized (set_val_b_eax _ _) => apply sized_set_val_b_eax
  | |- sized (set_val_b_ebx _ _) => apply sized_set_val_b_ebx
  | |- sized (set_val_1f_eax _ _) => apply sized_set_val_1f_eax
  | |- sized (set_val_1f_ebx _ _) => apply sized_set_val_1f_ebx
  | |- sized (set_val_1f_ecx _ _) => apply sized_set_val_1f_ecx
  end;
  [rewrite array_set_length; assumption | assumption].

Lemma sized_leaf_b words try s :
  sized s ->
  sized
    (let stash := set_saw_b true s in
     let stash :=
       if try <? Z.of_nat (length (val_b_eax stash)) then
         set_val_b_eax
           (array_set (val_b_eax stash) (Z.to_nat try) (word words WORD_EAX))
           stash
       else stash in
     if try <? Z.of_nat (length (val_b_ebx stash)) then
       set_val_b_ebx
         (array_set (val_b_ebx stash) (Z.to_nat try) (word words WORD_EBX))
         stash
     else stash).
Proof.
  intros H. cbv zeta.
  assert (S1 : sized (set_saw_b true s))
    by (apply (sized_arrays s); [reflexivity | exact H]).
  generalize dependent (set_saw_b true s). intros x1 S1. clear H.
  assert (S2 : sized
                 (if try <? Z.of_nat (length (val_b_eax x1)) then
                    set_val_b_eax
                      (array_set (val_b_eax x1) (Z.to_nat try)
                                 (word words WORD_EAX)) x1
                  else x1)) by sized_array_step.
  generalize dependent
    (if try <? Z.of_nat (length (val_b_eax x1)) then
       set_val_b_eax
         (array_set (val_b_eax x1) (Z.to_nat try) (word words WORD_EAX)) x1
     else x1).
  intros x2 S2. sized_array_step.
Qed.

Lemma sized_leaf_1f words try s :
  sized s ->
  sized
    (let stash := set_saw_1f true s in
     let stash :=
       if try <? Z.of_nat (length (val_1f_eax stash)) then
         set_val_1f_eax
           (array_set (val_1f_eax stash) (Z.to_nat try) (word words WORD_EAX))
           stash
       else stash in
     let stash :=
       if try <? Z.of_nat (length (val_1f_ebx stash)) then
         set_val_1f_ebx
           (array_set (val_1f_ebx stash) (Z.to_nat try) (word words WORD_EBX))
           stash
       else stash in
     if try <? Z.of_nat (length (val_1f_ecx stash)) then
       set_val_1f_ecx
         (array_set (val_1f_ecx stash) (Z.to_nat try) (word words WORD_ECX))
         stash
     else stash).
Proof.
  intros H. cbv zeta.
  assert (S1 : sized (set_saw_1f true s))
    by (apply (sized_arrays s); [reflexivity | exact H]).
  generalize dependent (set_saw_1f true s). intros x1 S1. clear H.
  assert (S2 : sized
                 (if try <? Z.of_nat (length (val_1f_eax x1)) then
                    set_val_1f_eax
                      (array_set (val_1f_eax x1) (Z.to_nat try)
                                 (word words WORD_EAX)) x1
                  else x1)) by sized_array_step.
  generalize dependent
    (if try <? Z.of_nat (length (val_1f_eax x1)) then
       set_val_1f_eax
         (array_set (val_1f_eax x1) (Z.to_nat try) (word words WORD_EAX)) x1
     else x1).
  intros x2 S2.
  assert (S3 : sized
                 (if try <? Z.of_nat (length (val_1f_ebx x2)) then
                    set_val_1f_ebx
                      (array_set (val_1f_ebx x2) (Z.to_nat try)
                                 (word words WORD_EBX)) x2
                  else x2)) by sized_array_step.
  generalize dependent
    (if try <? Z.of_nat (length (val_1f_ebx x2)) then
       set_val_1f_ebx
         (array_set (val_1f_ebx x2) (Z.to_nat try) (word words WORD_EBX)) x2
     else x2).
  intros x3 S3. sized_array_step.
Qed.

Lemma sized_transmeta_info off words s :
  (off + 16 <= 64)%nat -> sized s ->
  sized (set_transmeta_info (memcpy_words (transmeta_info s) off words) s).
Proof.
  intros Ho (H1 & H2 & H3 & H4 & H5 & H6 & H7 & H8).
  unfold sized, set_transmeta_info; sized_fields; split_sized.
  apply memcpy_words_terminated; assumption.
Qed.

Lemma sized_brand off words s :
  (off + 16 <= 48)%nat -> sized s ->
  sized (set_brand (memcpy_words (brand s) off words) s).
Proof.
  intros Ho (H1 & H2 & H3 & H4 & H5 & H6 & H7 & H8).
  unfold sized, set_brand; sized_fields; split_sized.
  apply memcpy_words_terminated; assumption.
Qed.

Lemma sized_soc_brand off words s :
  (off + 16 <= 48)%nat -> sized s ->
  sized (set_soc_brand (memcpy_words (soc_brand s) off words) s).
Proof.
  intros Ho (H1 & H2 & H3 & H4 & H5 & H6 & H7 & H8).
  unfold sized, set_soc_brand; sized_fields; split_sized.
  apply memcpy_words_terminated; assumption.
Qed.

Lemma sized_print_reg_capture reg words try s :
  sized s -> sized (print_reg_capture reg words try s).
Proof.
  intros H. unfold print_reg_capture.
  destruct (reg =? 0).
  { apply (sized_arrays s); [split_ifs; reflexivity | exact H]. }
  destruct (reg =? 1).
  { apply (sized_arrays s); [reflexivity | exact H]. }
  destruct (reg =? 4).
  { apply (sized_arrays s); [split_ifs; reflexivity | exact H]. }
  destruct (reg =? 0xb); [apply sized_leaf_b, H|].
  destruct (reg =? 0x1f); [apply sized_leaf_1f, H|].
  destruct (reg =? 0x40000000).
  { apply (sized_arrays s); [split_ifs; reflexivity | exact H]. }
  destruct (reg =? 0x80000008).
  { apply (sized_arrays s); [reflexivity | exact H]. }
  destruct (reg =? 0x8000001e).
  { apply (sized_arrays s); [reflexivity | exact H]. }
  destruct (reg =? 0x80860003); [apply sized_transmeta_info; [lia | exact H]|].
  destruct (reg =? 0x80860004); [apply sized_transmeta_info; [lia | exact H]|].
  destruct (reg =? 0x80860005); [apply sized_transmeta_info; [lia | exact H]|].
  destruct (reg =? 0x80860006); [apply sized_transmeta_info; [lia | exact H]|].
  exact H.
Qed.

Lemma sized_print_reg_decode reg words try s :
  sized s -> sized (print_reg_decode reg words try s).
Proof.
  intros H. unfold print_reg_decode.
  destruct (reg =? 0).
  { apply (sized_arrays s); [reflexivity | exact H]. }
  destruct (reg =? 2).
  { apply (sized_arrays s); [|exact H].
    unfold print_reg_leaf2. generalize (seq 0 4) as ws.
    intros ws. generalize s as x.
    induction ws as [|w ws IH]; intros x; cbn [fold_left]; [reflexivity|].
    rewrite IH.
    destruct (Z.land (word words w) 2147483648 =? 0); [|reflexivity].
    generalize (skipn (if (try =? 0) && Nat.eqb w WORD_EAX
                       then 1%nat else 0%nat)
                      (bytes_of_word (word words w))) as bytes.
    intros bytes; revert x.
    induction bytes as [|b bytes IHb]; intros x; cbn [fold_left];
      [reflexivity|].
    rewrite IHb. apply arrays_stash_intel_cache. }
  destruct (reg =? 0x17).
  { destruct (try =? 0); [exact H|].
    destruct (try =? 1); [apply sized_soc_brand; [lia | exact H]|].
    destruct (try =? 2); [apply sized_soc_brand; [lia | exact H]|].
    destruct (try =? 3); [apply sized_soc_brand; [lia | exact H]|].
    exact H. }
  destruct (reg =? 0x80000001).
  { apply (sized_arrays s); [reflexivity | exact H]. }
  destruct (reg =? 2147483650); [apply sized_brand; [lia | exact H]|].
  destruct (reg =? 0x80000003); [apply sized_brand; [lia | exact H]|].
  destruct (reg =? 0x80000004); [apply sized_brand; [lia | exact H]|].
  apply (sized_arrays s); [|exact H].
  unfold print_80000006_ecx, print_80860002_eax.
  split_ifs; reflexivity.
Qed.

Lemma guarded_store {A : Type} (a : list Z) (n try v : Z)
      (f : list Z -> A) (s : A) :
  Z.of_nat (length a) = n -> 0 <= try ->
  (if try <? n then (x <- array_store a try v;; Some (f x)) else Some s)
  = Some (if try <? Z.of_nat (length a)
          then f (array_set a (Z.to_nat try) v) else s).
Proof.
  intros L H. rewrite L. destruct (Z.ltb_spec try n) as [B|B]; [|reflexivity].
  unfold array_store. rewrite L.
  replace ((0 <=? try) && (try <? n)) with true; [reflexivity|].
  symmetry. apply andb_true_intro.
  split; [apply Z.leb_le | apply Z.ltb_lt]; lia.
Qed.

Lemma memcpy_store_ok n buf off words :
  (off + 16 <= n)%nat -> terminated n buf ->
  memcpy_store buf off words = Some (memcpy_words buf off words).
Proof.
  intros Ho [L _]. unfold memcpy_store.
  replace (off + 16 <=? length buf)%nat with true; [reflexivity|].
  symmetry. apply Nat.leb_le. lia.
Qed.

Lemma sized_guarded_val_b_eax try v s :
  sized s ->
  sized (if try <? Z.of_nat (length (val_b_eax s))
         then set_val_b_eax (array_set (val_b_eax s) (Z.to_nat try) v) s
         else s).
Proof. intros H. sized_array_step. Qed.

Lemma sized_guarded_val_1f_eax try v s :
  sized s ->
  sized (if try <? Z.of_nat (length (val_1f_eax s))
         then set_val_1f_eax (array_set (val_1f_eax s) (Z.to_nat try) v) s
         else s).
Proof. intros H. sized_array_step. Qed.

Lemma sized_guarded_val_1f_ebx try v s :
  sized s ->
  sized (if try <? Z.of_nat (length (val_1f_ebx s))
         then set_val_1f_ebx (array_set (val_1f_ebx s) (Z.to_nat try) v) s
         else s).
Proof. intros H. sized_array_step. Qed.

Lemma print_reg_capture_stores_ok reg words try s :
  sized s -> 0 <= try ->
  print_reg_capture_stores reg words try s
  = Some (print_reg_capture reg words try s).
Proof.
  intros H Ht. unfold print_reg_capture_stores.
  destruct (Z.eqb_spec reg 0xb) as [->|_].
  { unfold print_reg_capture. cbn [Z.eqb Pos.eqb]. cbv zeta.
    assert (H1 : sized (set_saw_b true s))
      by (apply (sized_arrays s); [reflexivity | exact H]).
    generalize dependent (set_saw_b true s). clear H. intros s1 H1.
    rewrite (guarded_store (val_b_eax s1) LENGTH_val_b try _
               (fun a => set_val_b_eax a s1) s1)
      by (try assumption; rewrite (proj1 H1); reflexivity).
    cbn [store_then].
    pose proof (sized_guarded_val_b_eax try (word words WORD_EAX) s1 H1) as H2.
    generalize dependent
      (if try <? Z.of_nat (length (val_b_eax s1))
       then set_val_b_eax
              (array_set (val_b_eax s1) (Z.to_nat try) (word words WORD_EAX))
              s1
       else s1).
    intros s2 H2.
    apply (guarded_store (val_b_ebx s2) LENGTH_val_b try _
              (fun a => set_val_b_ebx a s2) s2);
      [rewrite (proj1 (proj2 H2)); reflexivity | assumption]. }
  destruct (Z.eqb_spec reg 0x1f) as [->|_].
  { unfold print_reg_capture. cbn [Z.eqb Pos.eqb]. cbv zeta.
    assert (H1 : sized (set_saw_1f true s))
      by (apply (sized_arrays s); [reflexivity | exact H]).
    generalize dependent (set_saw_1f true s). clear H. intros s1 H1.
    rewrite (guarded_store (val_1f_eax s1) LENGTH_val_1f try _
               (fun a => set_val_1f_eax a s1) s1)
      by (try assumption;
          rewrite (proj1 (proj2 (proj2 H1))); reflexivity).
    cbn [store_then].
    pose proof (sized_guarded_val_1f_eax try (word words WORD_EAX) s1 H1) as H2.
    generalize dependent
      (if try <? Z.of_nat (length (val_1f_eax s1))
       then set_val_1f_eax
              (array_set (val_1f_eax s1) (Z.to_nat try) (word words WORD_EAX))
              s1
       else s1).
    intros s2 H2.
    rewrite (guarded_store (val_1f_ebx s2) LENGTH_val_1f try _
               (fun a => set_val_1f_ebx a s2) s2)
      by (try assumption;
          rewrite (proj1 (proj2 (proj2 (proj2 H2)))); reflexivity).
    cbn [store_then].
    pose proof (sized_guarded_val_1f_ebx try (word words WORD_EBX) s2 H2) as H3.
    generalize dependent
      (if try <? Z.of_nat (length (val_1f_ebx s2))
       then set_val_1f_ebx
              (array_set (val_1f_ebx s2) (Z.to_nat try) (word words WORD_EBX))
              s2
       else s2).
    intros s3 H3.
    apply (guarded_store (val_1f_ecx s3) LENGTH_val_1f try _
              (fun a => set_val_1f_ecx a s3) s3);
      [rewrite (proj1 (proj2 (proj2 (proj2 (proj2 H3))))); reflexivity
      | assumption]. }
  assert (T : terminated 64 (transmeta_info s)) by apply H.
  destruct (Z.eqb_spec reg 0x80860003) as [->|_].
  { rewrite (memcpy_store_ok 64) by (try assumption; lia). reflexivity. }
  destruct (Z.eqb_spec reg 0x80860004) as [->|_].
  { rewrite (memcpy_store_ok 64) by (try assumption; lia). reflexivity. }
  destruct (Z.eqb_spec reg 0x80860005) as [->|_].
  { rewrite (memcpy_store_ok 64) by (try assumption; lia). reflexivity. }
  destruct (Z.eqb_spec reg 0x80860006) as [->|_].
  { rewrite (memcpy_store_ok 64) by (try assumption; lia). reflexivity. }
  reflexivity.
Qed.

Lemma print_reg_decode_stores_ok reg words try s :
  sized s ->
  print_reg_decode_stores reg words try s
  = Some (print_reg_decode reg words try s).
Proof.
  intros H. unfold print_reg_decode_stores.
  assert (B : terminated 48 (brand s)) by apply H.
  assert (S : terminated 48 (soc_brand s)) by apply H.
  destruct (Z.eqb_spec reg 0x17) as [->|_].
  { unfold print_reg_decode. cbn [Z.eqb Pos.eqb].
    destruct (try =? 0); [reflexivity|].
    destruct (try =? 1);
      [rewrite (memcpy_store_ok 48) by (try assumption; lia); reflexivity|].
    destruct (try =? 2);
      [rewrite (memcpy_store_ok 48) by (try assumption; lia); reflexivity|].
    destruct (try =? 3);
      [rewrite (memcpy_store_ok 48) by (try assumption; lia); reflexivity|].
    reflexivity. }
  destruct (Z.eqb_spec reg 0x80000002) as [->|_].
  { rewrite (memcpy_store_ok 48) by (try assumption; lia). reflexivity. }
  destruct (Z.eqb_spec reg 0x80000003) as [->|_].
  { rewrite (memcpy_store_ok 48) by (try assumption; lia). reflexivity. }
  destruct (Z.eqb_spec reg 0x80000004) as [->|_].
  { rewrite (memcpy_store_ok 48) by (try assumption; lia). reflexivity. }
  reflexivity.
Qed.

Lemma print_reg_stores_ok reg words raw try s :
  sized s -> 0 <= try ->
  print_reg_stores reg words raw try s
  = Some (print_reg reg words raw try s).
Proof.
  intros H Ht. unfold print_reg_stores, print_reg.
  rewrite (print_reg_capture_stores_ok _ _ _ _ H Ht). cbn [store_then].
  destruct raw; [reflexivity|].
  apply print_reg_decode_stores_ok, sized_print_reg_capture, H.
Qed.

Lemma sized_print_reg reg words raw try s :
  sized s -> sized (print_reg reg words raw try s).
Proof.
  intros H. unfold print_reg.
  destruct raw; [apply sized_print_reg_capture, H|].
  apply sized_print_reg_decode, sized_print_reg_capture, H.
Qed.

Lemma register_arrays_stash_intel_cache s v :
  register_arrays (stash_intel_cache s v) = register_arrays s.
Proof.
  unfold stash_intel_cache. cbv zeta. cbn [switch case].
  split_ifs; reflexivity.
Qed.

Lemma register_arrays_print_reg reg words raw try s :
  sized s ->
  (reg = 0xb -> LENGTH_val_b <= try) ->
  (reg = 0x1f -> LENGTH_val_1f <= try) ->
  register_arrays (print_reg reg words raw try s) = register_arrays s.
Proof.
  intros H Hb Hf. unfold print_reg.
  assert (C : register_arrays (print_reg_capture reg words try s)
              = register_arrays s).
  { unfold print_reg_capture.
    destruct (Z.eqb_spec reg 0) as [->|_]; [split_ifs; reflexivity|].
    destruct (Z.eqb_spec reg 1) as [->|_]; [reflexivity|].
    destruct (Z.eqb_spec reg 4) as [->|_]; [split_ifs; reflexivity|].
    destruct (Z.eqb_spec reg 0xb) as [->|_].
    { specialize (Hb eq_refl). unfold LENGTH_val_b in Hb. clear Hf.
      transitivity (register_arrays (set_saw_b true s)); [|reflexivity].
      assert (H1 : sized (set_saw_b true s))
        by (apply (sized_arrays s); [reflexivity | exact H]).
      generalize dependent (set_saw_b true s). clear H. intros s1 H1.
      assert (G : (try <? Z.of_nat 2) = false) by (apply Z.ltb_ge; lia).
      cbv zeta. rewrite (proj1 H1), G. cbv iota.
      rewrite (proj1 (proj2 H1)), G. reflexivity. }
    destruct (Z.eqb_spec reg 0x1f) as [->|_].
    { specialize (Hf eq_refl). unfold LENGTH_val_1f in Hf. clear Hb.
      transitivity (register_arrays (set_saw_1f true s)); [|reflexivity].
      assert (H1 : sized (set_saw_1f true s))
        by (apply (sized_arrays s); [reflexivity | exact H]).
      generalize dependent (set_saw_1f true s). clear H. intros s1 H1.
      assert (G : (try <? Z.of_nat 6) = false) by (apply Z.ltb_ge; lia).
      cbv zeta. rewrite (proj1 (proj2 (proj2 H1))), G. cbv iota.
      rewrite (proj1 (proj2 (proj2 (proj2 H1)))), G. cbv iota.
      rewrite (proj1 (proj2 (proj2 (proj2 (proj2 H1))))), G. reflexivity. }
    split_ifs; reflexivity. }
  destruct raw; [exact C|].
  rewrite <- C.
  generalize (print_reg_capture reg words try s) as x.
  intros x. unfold print_reg_decode.
  destruct (Z.eqb_spec reg 0) as [->|_]; [reflexivity|].
  destruct (Z.eqb_spec reg 2) as [->|_].
  { unfold print_reg_leaf2. generalize (seq 0 4) as ws.
    intros ws; revert x.
    induction ws as [|w ws IH]; intros x; cbn [fold_left]; [reflexivity|].
    rewrite IH.
    destruct (Z.land (word words w) 2147483648 =? 0); [|reflexivity].
    generalize (skipn (if (try =? 0) && Nat.eqb w WORD_EAX
                       then 1%nat else 0%nat)
                      (bytes_of_word (word words w))) as bytes.
    intros bytes; revert x.
    induction bytes as [|b bytes IHb]; intros x; cbn [fold_left];
      [reflexivity|].
    rewrite IHb. apply register_arrays_stash_intel_cache. }
  unfold print_80000006_ecx, print_80860002_eax.
  split_ifs; reflexivity.
Qed.

(** X8: a pass never writes outside the arrays of the stash.  Take a
    stash whose arrays have their declared sizes ([val_b_*] two words,
    [val_1f_*] six, [brand] and [soc_brand] 49 bytes, [transmeta_info]
    65, each [char] array ending in a NUL) and any observations with
    subleaf numbers that are not negative.  Then every store of the pass
    lands inside its array: the pass with its stores checked returns, and
    returns the stash of the pass; the arrays keep their sizes and their
    final NUL; and the subleaves the register arrays have no room for
    (leaf 0xb from 2 on, leaf 0x1f from 6 on) are not stored: a pass of
    such observations leaves the five register arrays as they were. *)
Theorem pass_keeps_array_sizes (raw : bool) (obs : list observation)
        (stash : code_stash_t) :
  sized stash ->
  Forall (fun o => 0 <= o_try o) obs ->
  stash_pass_stores raw obs stash = Some (stash_pass raw obs stash)
  /\ sized (stash_pass raw obs stash)
  /\ (Forall past_the_arrays obs ->
      register_arrays (stash_pass raw obs stash) = register_arrays stash).
Proof.
  unfold stash_pass_stores, stash_pass. revert stash.
  induction obs as [|o obs IH]; intros s H Ht; cbn [fold_left].
  - split; [reflexivity|]. split; [exact H | reflexivity].
  - inversion Ht as [|? ? Ho Hobs]; subst.
    cbn [store_then].
    rewrite (print_reg_stores_ok _ _ _ _ _ H Ho).
    pose proof (sized_print_reg (o_reg o) (o_words o) raw (o_try o) s H) as H1.
    destruct (IH _ H1 Hobs) as (E & Z1 & R).
    split; [exact E|]. split; [exact Z1|].
    intros P. inversion P as [|? ? [Pb Pf] Pobs]; subst.
    rewrite (R Pobs). apply register_arrays_print_reg; assumption.
Qed.

(** The empty stash; a dump followed by subleaf 2 of leaf 0xb and
    subleaf 6 of leaf 0x1f, then these two subleaves alone. *)
Lemma pass_keeps_array_sizes_witness :
  let obs :=
    (dump_intel_leaf_b_and_1f
     ++ [leaf 0xb 2 0x00000000 0x00000000 0x00000002 0x00000000;
         leaf 0x1f 6 0x00000000 0x00000000 0x00000006 0x00000000])%list in
  let past :=
    [leaf 0xb 2 0x00000001 0x00000002 0x00000002 0x00000000;
     leaf 0x1f 6 0x00000001 0x00000002 0x00000006 0x00000000] in
  stash_pass_stores false obs NIL_STASH = Some (stash_pass false obs NIL_STASH)
  /\ sized (stash_pass false obs NIL_STASH)
  /\ register_arrays (stash_pass false past NIL_STASH)
     = register_arrays NIL_STASH.
Proof.
  intros obs past.
  assert (T : forall l, forallb (fun o => 0 <=? o_try o) l = true ->
                        Forall (fun o => 0 <= o_try o) l).
  { intros l E. apply Forall_forall. intros o Ho.
    rewrite forallb_forall in E. apply Z.leb_le, E, Ho. }
  destruct (pass_keeps_array_sizes false obs NIL_STASH sized_NIL
              (T obs eq_refl)) as (E & S & _).
  destruct (pass_keeps_array_sizes false past NIL_STASH sized_NIL
              (T past eq_refl)) as (_ & _ & R).
  split; [exact E|]. split; [exact S|].
  apply R. unfold past, past_the_arrays, LENGTH_val_b, LENGTH_val_1f.
  repeat constructor; cbn; intros; try lia; try discriminate.
Defined.

(** *** Transmeta *)

(** X9: the text for a processor revision is never "(TM5400 / TM5600)":
    in the arm for revisions 0x0103xxxx the second test compares bits
    that the first has found set with zero, so that arm always writes
    "(unknown)". *)
Theorem transmeta_meaning_never_TM5600 (proc_rev : Z) :
  print_transmeta_proc_rev_meaning proc_rev <> "(TM5400 / TM5600)"
  /\ (Z.land proc_rev 0xffff0000 = 0x01030000 ->
      print_transmeta_proc_rev_meaning proc_rev = "(unknown)").
Proof.
  assert (D : Z.land proc_rev 0xffff0000 = 0x01030000 ->
              (Z.land proc_rev 0xffffff00 =? 0) = false).
  { intros H. apply Z.eqb_neq. intros C.
    assert (E : Z.land (Z.land proc_rev 0xffffff00) 0xffff0000 = 0x01030000).
    { rewrite <- Z.land_assoc. exact H. }
    rewrite C in E. discriminate E. }
  unfold print_transmeta_proc_rev_meaning. cbn [switch case existsb].
  split.
  - destruct (Z.eqb_spec (Z.land proc_rev 0xffff0000) 0x01010000) as [E|N1];
      [rewrite E; cbn; discriminate|].
    destruct (Z.eqb_spec (Z.land proc_rev 0xffff0000) 0x01020000) as [E|N2];
      [rewrite E; cbn; discriminate|].
    destruct (Z.eqb_spec (Z.land proc_rev 0xffff0000) 0x01030000) as [E|N3].
    { cbn [orb]. rewrite (D E). discriminate. }
    cbn [orb].
    destruct (_ || _); discriminate.
  - intros H. rewrite (D H), H. reflexivity.
Qed.

Lemma transmeta_proc_rev_stash_intel_cache s v :
  transmeta_proc_rev (stash_intel_cache s v) = transmeta_proc_rev s.
Proof.
  unfold stash_intel_cache. cbv zeta. cbn [switch case].
  split_ifs; reflexivity.
Qed.

Lemma transmeta_proc_rev_print_reg reg words raw try s :
  transmeta_proc_rev s <> 0x02000000 ->
  transmeta_proc_rev (print_reg reg words raw try s) = transmeta_proc_rev s.
Proof.
  intros H. unfold print_reg.
  assert (C : forall x, transmeta_proc_rev (print_reg_capture reg words try x)
                        = transmeta_proc_rev x).
  { intros x. unfold print_reg_capture. split_ifs; reflexivity. }
  destruct raw; [apply C|].
  rewrite <- (C s) in H |- *.
  generalize dependent (print_reg_capture reg words try s).
  intros x H. unfold print_reg_decode.
  destruct (reg =? 0); [reflexivity|].
  destruct (reg =? 2).
  { clear H. unfold print_reg_leaf2. generalize (seq 0 4) as ws.
    intros ws; revert x.
    induction ws as [|w ws IH]; intros x; cbn [fold_left]; [reflexivity|].
    rewrite IH.
    destruct (Z.land (word words w) 2147483648 =? 0); [|reflexivity].
    generalize (skipn (if (try =? 0) && Nat.eqb w WORD_EAX
                       then 1%nat else 0%nat)
                      (bytes_of_word (word words w))) as bytes.
    intros bytes; revert x.
    induction bytes as [|b bytes IHb]; intros x; cbn [fold_left];
      [reflexivity|].
    rewrite IHb. apply transmeta_proc_rev_stash_intel_cache. }
  unfold print_80000006_ecx, print_80860002_eax.
  apply Z.eqb_neq in H. rewrite H.
  split_ifs; reflexivity.
Qed.

Lemma transmeta_proc_rev_stash_pass raw obs s :
  transmeta_proc_rev s <> 0x02000000 ->
  transmeta_proc_rev (stash_pass raw obs s) = transmeta_proc_rev s.
Proof.
  unfold stash_pass. revert s.
  induction obs as [|o obs IH]; intros s H; cbn [fold_left]; [reflexivity|].
  rewrite IH; rewrite transmeta_proc_rev_print_reg; auto.
Qed.

Lemma transmeta_meaning_never_TM5600_witness :
  Z.land 0x01030200 0xffff0000 = 0x01030000
  /\ print_transmeta_proc_rev_meaning 0x01030200 = "(unknown)".
Proof.
  split; [reflexivity|].
  apply (proj2 (transmeta_meaning_never_TM5600 0x01030200)). reflexivity.
Defined.

(** X10: [transmeta_proc_rev] is written only when it already holds
    0x02000000, and it starts at 0: after any pass from the empty stash
    and [do_final] it is still 0.  So none of the Transmeta queries [t2],
    [t4], [t5], [t6] and [t8] holds, and the Transmeta table returns for
    the decoded stash what it returns without a stash. *)
Theorem transmeta_queries_never_hold
        (strregexp : cstring -> cstring -> bool)
        (raw : bool) (obs : list observation)
        (stash' : code_stash_t) (val : Z) :
  do_final strregexp false (stash_pass raw obs NIL_STASH) = Some stash' ->
  transmeta_proc_rev stash' = 0
  /\ t2 stash' = false /\ t4 stash' = false /\ t5 stash' = false
  /\ t6 stash' = false /\ t8 stash' = false
  /\ decode_synth_transmeta val (Some stash')
     = decode_synth_transmeta val None.
Proof.
  intros H. destruct (do_final_frame _ _ _ H) as (m & o & b & r & ->).
  assert (Z0 : transmeta_proc_rev
                 (set_br r (set_bri b (set_override_brand o
                    (set_mp m (stash_pass raw obs NIL_STASH))))) = 0).
  { cbn [transmeta_proc_rev set_br set_bri set_override_brand set_mp].
    rewrite transmeta_proc_rev_stash_pass; [reflexivity | discriminate]. }
  generalize dependent
    (set_br r (set_bri b (set_override_brand o
       (set_mp m (stash_pass raw obs NIL_STASH))))).
  intros s _ Z0.
  assert (T : forall rev, rev <> 0 -> tm_rev s rev = false).
  { intros rev Hr. unfold tm_rev. rewrite Z0. cbn [Z.land].
    destruct (Z.eqb_spec 0 rev); [congruence | apply andb_false_r]. }
  assert (T2 : t2 s = false) by (unfold t2; apply T; discriminate).
  assert (T4 : t4 s = false)
    by (unfold t4; rewrite !T by discriminate; reflexivity).
  assert (T5 : t5 s = false)
    by (unfold t5; rewrite !T by discriminate; reflexivity).
  assert (T6 : t6 s = false)
    by (unfold t6; rewrite !T by discriminate; reflexivity).
  assert (T8 : t8 s = false)
    by (unfold t8; rewrite !T by discriminate; reflexivity).
  repeat (split; [assumption|]).
  unfold decode_synth_transmeta, first_match, decode_synth_transmeta_rules.
  cbn [cascade]. unfold rule_fires, query_holds.
  cbn [r_query FMSQ FMS FM F]. rewrite T2, T4, T5, T6, T8. reflexivity.
Qed.

(** A Crusoe whose leaf 0x80860002 reports the revision of a TM3200:
    the rule gated by [t2] is passed over. *)
Lemma transmeta_queries_never_hold_witness :
  let stash := stash_pass false dump_transmeta_crusoe NIL_STASH in
  vendor stash = VENDOR_TRANSMETA
  /\ exists stash',
       do_final no_regexp false stash = Some stash'
       /\ t2 stash' = false
       /\ decode_synth_transmeta (val_1_eax stash') (Some stash')
          = "Transmeta Crusoe TM3x00 (unknown model)".
Proof.
  intros stash. split; [vm_compute; reflexivity|].
  destruct (do_final no_regexp false stash) as [s'|] eqn:E;
    [|vm_compute in E; discriminate E].
  exists s'. split; [reflexivity|].
  destruct (transmeta_queries_never_hold no_regexp false
              dump_transmeta_crusoe s' (val_1_eax s') E)
    as (_ & T2 & _ & _ & _ & _ & D).
  split; [exact T2|]. rewrite D.
  vm_compute in E. injection E as <-. vm_compute. reflexivity.
Defined.

(** *** The leaf-2 descriptors *)

Ltac known_byte v :=
  repeat match goal with
         | |- context [v =? ?c] =>
             destruct (Z.eqb_spec v c) as [->|];
             [cbn; rewrite ?orb_true_r, ?orb_false_r; reflexivity|]
         end.

Lemma stash_intel_cache_flag fl s v :
  flag fl (stash_intel_cache s v)
  = flag fl s || existsb (Z.eqb v) (descriptors fl).
Proof.
  unfold stash_intel_cache. cbv zeta. cbn [switch case existsb].
  destruct fl; cbn [flag descriptors existsb]; known_byte v;
    cbn; rewrite ?orb_false_r; reflexivity.
Qed.

(** X11: the descriptor table is complete for the eleven flags: after any
    sequence of leaf-2 descriptor bytes a flag is set exactly when it was
    set before or one of the bytes is among the [case] labels of the flag
    ([descriptors]).  The order of the bytes and their repetition do not
    matter, and a byte under no label (0x00 and 0xff among them) changes
    no flag. *)
Theorem descriptor_table_complete (fl : cache_flag) (bytes : list Z)
        (stash : code_stash_t) :
  flag fl (fold_left stash_intel_cache bytes stash)
  = flag fl stash
    || existsb (fun byte => existsb (Z.eqb byte) (descriptors fl)) bytes.
Proof.
  revert stash. induction bytes as [|b bytes IH]; intros s;
    cbn [fold_left existsb].
  - rewrite orb_false_r. reflexivity.
  - rewrite IH, stash_intel_cache_flag, orb_assoc. reflexivity.
Qed.




(** *** Buffers *)

Lemma length_append (a b : string) :
  String.length (a ++ b) = (String.length a + String.length b)%nat.
Proof. induction a as [|c a IH]; cbn; [reflexivity | rewrite IH; reflexivity]. Qed.

Lemma as_int_u32 (x : Z) : - 2 ^ 31 <= x < 2 ^ 31 -> as_int (u32 x) = x.
Proof.
  intros Hx. unfold as_int, u32. rewrite Z.mod_mod by lia.
  destruct (Z.ltb_spec (x mod 2 ^ 32) (2 ^ 31)) as [L|L].
  - destruct (Z_lt_ge_dec x 0) as [N|N].
    + exfalso. rewrite <- (Z_mod_plus_full x 1 (2 ^ 32)) in L.
      rewrite Z.mod_small in L by lia. lia.
    + apply Z.mod_small. lia.
  - destruct (Z_lt_ge_dec x 0) as [N|N].
    + rewrite <- (Z_mod_plus_full x 1 (2 ^ 32)).
      rewrite Z.mod_small by lia. lia.
    + exfalso. rewrite Z.mod_small in L by lia. lia.
Qed.

Lemma as_int_small (x : Z) : 0 <= x < 2 ^ 31 -> as_int x = x.
Proof.
  intros Hx. rewrite <- (as_int_u32 x) at 2 by lia.
  unfold u32. rewrite Z.mod_small by lia. reflexivity.
Qed.

(** [%02d] of a number from -9 to 999 takes at most three characters. *)
Lemma fmt_02d_small (v : Z) :
  -9 <= as_int v <= 999 -> (String.length (fmt_02d v) <= 3)%nat.
Proof.
  intros R. unfold fmt_02d. cbv zeta.
  set (i := as_int v) in *. clearbody i.
  assert (A : forallb
                (fun k => let i := Z.of_nat k - 9 in
                   Nat.leb (String.length
                     (if i <? 0 then "-" ++ decimal (- i)
                      else if i <? 10 then "0" ++ decimal i
                      else decimal i)) 3)
                (seq 0 1009) = true) by (vm_compute; reflexivity).
  rewrite forallb_forall in A.
  specialize (A (Z.to_nat (i + 9))).
  cbv zeta in A. rewrite Z2Nat.id in A by lia.
  replace (i + 9 - 9) with i in A by lia.
  apply Nat.leb_le, A, in_seq. lia.
Qed.

Ltac constant_length := apply Nat.leb_le; reflexivity.

Ltac number_length :=
  cbn [sprintf String.length]; rewrite ?length_append;
  cbn [String.length];
  match goal with
  | |- context [String.length (fmt_02d ?a)] =>
      let L := fresh "L" in
      assert (L : (String.length (fmt_02d a) <= 3)%nat);
      [ apply fmt_02d_small;
        unfold K8.XX, K8.YY, K8.ZZ, K8.TT, K8.RR, K8.EE,
               NPT.RR, NPT.PP, NPT.TT, NPT.ZZ, NPT.YY;
        rewrite as_int_u32 by lia; lia
      | lia ]
  end.

Ltac model_case :=
  cbn [snd case]; unfold model_fits, name_string;
  cbn [proc brand_pre brand_post opt_length];
  split; [number_length | split; constant_length].

Lemma no_model_fits : model_fits no_model.
Proof. unfold model_fits; cbn; lia. Qed.

Lemma decode_amd_model_K8_fits stash : model_fits (decode_amd_model_K8 stash).
Proof.
  unfold decode_amd_model_K8. cbv zeta.
  pose proof (BIT_EXTRACT_LE_range (__B (val_1_ebx stash)) 0 5
                ltac:(lia) ltac:(lia)) as R1.
  pose proof (BIT_EXTRACT_LE_range (val_80000001_ebx stash) 0 6
                ltac:(lia) ltac:(lia)) as R2.
  destruct (negb (__B (val_1_ebx stash) =? 0)).
  - generalize dependent (BIT_EXTRACT_LE (__B (val_1_ebx stash)) 0 5).
    intros NN R. clear R2.
    apply switch_ind; [|apply no_model_fits].
    repeat (apply Forall_cons; [model_case|]). apply Forall_nil.
  - destruct (negb (BIT_EXTRACT_LE (val_80000001_ebx stash) 0 12 =? 0));
      [|apply no_model_fits].
    generalize dependent (BIT_EXTRACT_LE (val_80000001_ebx stash) 0 6).
    intros NN R. clear R1.
    apply switch_ind; [|apply no_model_fits].
    repeat (apply Forall_cons; [model_case|]). apply Forall_nil.
Qed.

Lemma decode_amd_model_NPT_fits stash : model_fits (decode_amd_model_NPT stash).
Proof.
  unfold decode_amd_model_NPT. cbv zeta.
  pose proof (BIT_EXTRACT_LE_range (val_80000001_ebx stash) 15 16
                ltac:(lia) ltac:(lia)) as R1.
  pose proof (BIT_EXTRACT_LE_range (val_80000001_ebx stash) 0 5
                ltac:(lia) ltac:(lia)) as R2.
  assert (R : 0 <= Z.shiftl (BIT_EXTRACT_LE (val_80000001_ebx stash) 15 16) 5
                   + BIT_EXTRACT_LE (val_80000001_ebx stash) 0 5 < 64).
  { rewrite Z.shiftl_mul_pow2 by lia. change (2 ^ (16 - 15)) with 2 in R1.
    change (2 ^ (5 - 0)) with 32 in R2. change (2 ^ 5) with 32. lia. }
  generalize dependent
    (Z.shiftl (BIT_EXTRACT_LE (val_80000001_ebx stash) 15 16) 5
     + BIT_EXTRACT_LE (val_80000001_ebx stash) 0 5).
  intros NN R. clear R1 R2.
  assert (C : 0 <= (if BIT_EXTRACT_LE (val_80000008_ecx stash) 0 8 >? 0
                    then 1 else 0) <= 1)
    by (destruct (_ >? 0); lia).
  generalize dependent
    (if BIT_EXTRACT_LE (val_80000008_ecx stash) 0 8 >? 0 then 1 else 0).
  intros cmpcap C.
  apply switch_ind; [|apply no_model_fits].
  repeat (apply Forall_cons; [model_case|]). apply Forall_nil.
Qed.

Ltac string1_case :=
  cbn [snd fst case opt_length]; split; constant_length.
Ltac string2_case := cbn [snd fst case opt_length]; constant_length.

Lemma family_tables_fit (pkgtype : Z)
      (tables : list (list Z * ((option cstring * option cstring)
                                * option cstring))) :
  Forall (fun c => strings_fit (snd c)) tables ->
  strings_fit (switch pkgtype tables ((None, None), None)).
Proof.
  intros H. apply switch_ind; [exact H|].
  unfold strings_fit; cbn; lia.
Qed.

Lemma table_pair_fits (key1 key2 : Z)
      (t1 : list (list Z * (option cstring * option cstring)))
      (t2 : list (list Z * option cstring)) :
  Forall (fun c => (opt_length (fst (snd c)) <= 40)%nat
                   /\ (opt_length (snd (snd c)) <= 13)%nat) t1 ->
  Forall (fun c => (opt_length (snd c) <= 32)%nat) t2 ->
  strings_fit (switch key1 t1 (None, None), switch key2 t2 None).
Proof.
  intros H1 H2. unfold strings_fit. cbn [fst snd].
  assert (A : (opt_length (fst (switch key1 t1 (None, None))) <= 40)%nat
              /\ (opt_length (snd (switch key1 t1 (None, None))) <= 13)%nat).
  { apply (switch_ind
             (fun p => (opt_length (fst p) <= 40)%nat
                       /\ (opt_length (snd p) <= 13)%nat));
      [exact H1 | cbn; lia]. }
  assert (B : (opt_length (switch key2 t2 None) <= 32)%nat).
  { apply (switch_ind (fun p => (opt_length p <= 32)%nat));
      [exact H2 | cbn; lia]. }
  tauto.
Qed.

Ltac tables_fit :=
  apply family_tables_fit;
  repeat (apply Forall_cons;
          [cbn [snd case]; apply table_pair_fits;
           [ repeat (apply Forall_cons; [string1_case|]); apply Forall_nil
           | repeat (apply Forall_cons; [string2_case|]); apply Forall_nil ]
          |]);
  apply Forall_nil.

Lemma decode_amd_model_10h_fits stash :
  model_fits_10h (decode_amd_model_10h stash).
Proof.
  unfold decode_amd_model_10h. cbv zeta.
  pose proof (BIT_EXTRACT_LE_range (val_80000001_ebx stash) 4 11
                ltac:(lia) ltac:(lia)) as R.
  change (2 ^ (11 - 4)) with 128 in R.
  generalize dependent (BIT_EXTRACT_LE (val_80000001_ebx stash) 4 11).
  intros pm R.
  assert (G : forall (partialmodel : Z)
                (x : (option cstring * option cstring) * option cstring),
             -1 <= as_int partialmodel <= 127 ->
             strings_fit x ->
             model_fits_10h
               (let '(partialmodel, (pre, s1, s2)) := (partialmodel, x) in
                match s1 with
                | Some s1 =>
                    let p := sprintf "%s%02d" [ArgS s1; ArgD partialmodel] in
                    {| brand_pre := pre;
                       brand_post := None;
                       proc := match s2 with
                               | Some s2 => p ++ sprintf "%s" [ArgS s2]
                               | None => p
                               end |}
                | None => {| brand_pre := pre; brand_post := None;
                             proc := EmptyString |}
                end)).
  { intros partialmodel [[pre s1] s2] Rp (F1 & F2 & F3). cbn [fst snd] in *.
    cbv zeta beta iota.
    pose proof (fmt_02d_small partialmodel ltac:(lia)) as L.
    unfold model_fits_10h.
    destruct s1 as [s1|];
      cbn [proc brand_pre brand_post opt_length String.length] in *;
      [|repeat split; lia].
    split; [|split; [lia | reflexivity]].
    destruct s2 as [s2|]; cbn [sprintf opt_length] in *;
      rewrite ?length_append, ?append_empty_r; cbn [String.length]; lia. }
  assert (P0 : -1 <= as_int pm <= 127) by (rewrite as_int_small; lia).
  assert (P1 : -1 <= as_int (u32 (pm - 1)) <= 127)
    by (rewrite as_int_u32; lia).
  destruct (__F (val_1_eax stash) =? _XF 1 + _F 15).
  { apply G; [destruct (_ >=? 2); assumption | tables_fit]. }
  destruct (__F (val_1_eax stash) =? _XF 2 + _F 15).
  { apply G; [assumption | tables_fit]. }
  destruct (__F (val_1_eax stash) =? _XF 3 + _F 15).
  { apply G; [assumption | tables_fit]. }
  destruct (__F (val_1_eax stash) =? _XF 5 + _F 15).
  { apply G; [assumption | tables_fit]. }
  apply (G pm (None, None, None) P0). unfold strings_fit; cbn; lia.
Qed.

Lemma decode_amd_model_fits stash : model_fits_buffers (decode_amd_model stash).
Proof.
  assert (A : forall m, model_fits m -> model_fits_buffers m).
  { intros m (H1 & H2 & H3). unfold model_fits_buffers.
    destruct (brand_post m); cbn [opt_length] in H3; lia. }
  assert (B : forall m, model_fits_10h m -> model_fits_buffers m).
  { intros m (H1 & H2 & H3). unfold model_fits_buffers. rewrite H3. lia. }
  unfold decode_amd_model.
  destruct stash as [s|]; [|apply A, no_model_fits].
  destruct (_ && _); [apply A, decode_amd_model_K8_fits|].
  destruct (_ && _); [apply A, decode_amd_model_NPT_fits|].
  destruct (_ || _);
    [apply B, decode_amd_model_10h_fits | apply A, no_model_fits].
Qed.

(** X13: whatever the stash, the processor number [decode_amd_model]
    writes is shorter than the 96 bytes of the [proc] buffer its two
    callers give it. *)
Theorem decode_amd_model_proc_fits (stash : option code_stash_t) :
  (String.length (proc (decode_amd_model stash)) < 96)%nat.
Proof. exact (proj1 (decode_amd_model_fits stash)). Qed.

(** X14: [decode_override_brand] never overruns [override_brand]: when
    the Override Brand is shorter than the 97 bytes of the array before
    the call, it is so after it. *)
Theorem override_brand_fits (stash : code_stash_t) :
  (String.length (override_brand stash) < 97)%nat ->
  (String.length (override_brand (decode_override_brand stash)) < 97)%nat.
Proof.
  intros H. unfold decode_override_brand.
  destruct (_ && _); [|exact H]. cbv zeta.
  destruct (decode_amd_model_fits (Some stash)) as [_ F].
  destruct (brand_pre (decode_amd_model (Some stash))) as [pre|]; [|exact H].
  cbn [opt_length] in F.
  destruct (brand_post (decode_amd_model (Some stash))) as [post|];
    cbn [override_brand set_override_brand];
    rewrite ?sprintf_s_s, ?sprintf_sp_s, ?length_append;
    cbn [String.length]; lia.
Qed.

Lemma override_brand_fits_witness :
  let stash := stash_pass false dump_amd_0Fh_athlon_64 NIL_STASH in
  override_brand (decode_override_brand stash)
  = "AMD Athlon(tm) 64 Processor 3200+"
  /\ (String.length (override_brand (decode_override_brand stash)) < 97)%nat.
Proof.
  intros stash. split; [vm_compute; reflexivity|].
  apply override_brand_fits. vm_compute. lia.
Defined.

Lemma cascade_within n rules val stash str :
  acts_within n rules = true ->
  cascade rules val stash = Some str -> (String.length str <= n)%nat.
Proof.
  induction rules as [|r rules IH]; cbn [acts_within forallb cascade];
    [discriminate|].
  intros H. apply andb_true_iff in H. destruct H as [H1 H2].
  destruct (rule_fires val stash r).
  - intros E; injection E as <-. apply Nat.leb_le, H1.
  - apply IH, H2.
Qed.

Lemma first_match_within n rules default val stash :
  acts_within n rules = true ->
  (String.length default <= n)%nat ->
  (String.length (first_match rules default val stash) <= n)%nat.
Proof.
  intros H Hd. unfold first_match.
  destruct (cascade rules val stash) as [str|] eqn:E; [|exact Hd].
  exact (cascade_within _ _ _ _ _ H E).
Qed.

Ltac table_within :=
  apply first_match_within; [vm_compute; reflexivity | cbn; lia].

Lemma decode_synth_amd_within val stash :
  (String.length (decode_synth_amd val stash) <= 246)%nat.
Proof.
  unfold decode_synth_amd. cbv zeta.
  assert (B : (String.length (first_match decode_synth_amd_rules
                                (DEFAULT "unknown") val stash) <= 150)%nat)
    by table_within.
  pose proof (proj1 (decode_amd_model_fits stash)) as P.
  destruct (negb _); [|lia].
  rewrite sprintf_s_s, !length_append. cbn [String.length]. lia.
Qed.

Lemma uarch_cascade_within n rules val :
  forallb (fun r => arch_within n (Uarch.ACT (Uarch.r_act r) init_arch)) rules
  = true ->
  arch_within n (Uarch.cascade rules val init_arch) = true.
Proof.
  induction rules as [|r rules IH]; cbn [forallb Uarch.cascade];
    [reflexivity|].
  intros H. apply andb_true_iff in H. destruct H as [H1 H2].
  destruct (Uarch.key_matches val r); [exact H1 | exact (IH H2)].
Qed.

Lemma decode_uarch_within val vendor :
  arch_within 23 (decode_uarch val vendor) = true.
Proof.
  unfold decode_uarch. cbv zeta.
  destruct vendor; try reflexivity;
    apply uarch_cascade_within; vm_compute; reflexivity.
Qed.

Lemma append_uarch_within n synth val vendor :
  (opt_length synth <= n)%nat ->
  (opt_length (append_uarch synth val vendor) <= n + 79)%nat.
Proof.
  intros H. unfold append_uarch.
  destruct synth as [str|]; [|cbn; lia].
  cbv zeta.
  pose proof (decode_uarch_within val vendor) as W.
  unfold arch_within in W.
  apply andb_true_iff in W. destruct W as [W W3].
  apply andb_true_iff in W. destruct W as [W1 W2].
  apply Nat.leb_le in W1, W2, W3.
  destruct (_ || _); [|cbn [opt_length] in *; lia].
  cbn [opt_length] in *.
  destruct (uarch (decode_uarch val vendor)) as [u|];
    destruct (family (decode_uarch val vendor)) as [f|];
    destruct (phys (decode_uarch val vendor)) as [p|];
    destruct (negb (core_is_uarch (decode_uarch val vendor)));
    cbn [sprintf opt_length] in *;
    rewrite ?length_append, ?append_empty_r; cbn [String.length];
    rewrite ?length_append; cbn [String.length]; lia.
Qed.

(** X15: the two static buffers of 1024 bytes are never overrun:
    whatever the signature, the vendor and the stash, the string
    [decode_synth_amd] builds and the strings [append_uarch] builds for
    [decode_synth] and the three [decode_x_synth] functions are shorter
    than 1024 bytes. *)
Theorem synth_fits_buffers (val : Z) (vendor : vendor_t)
        (stash : option code_stash_t) :
  (String.length (decode_synth_amd val stash) < 1024)%nat
  /\ (opt_length (decode_synth val vendor stash) < 1024)%nat
  /\ (opt_length (decode_x_synth_amd val) < 1024)%nat
  /\ (opt_length (decode_x_synth_hygon val) < 1024)%nat
  /\ (opt_length (decode_x_synth_via val) < 1024)%nat.
Proof.
  pose proof (decode_synth_amd_within val stash) as A.
  pose proof (decode_synth_amd_within val None) as A0.
  split; [lia|]. split; [|split; [|split]].
  - unfold decode_synth.
    assert (S : (opt_length
                   match vendor with
                   | VENDOR_INTEL => Some (decode_synth_intel val stash)
                   | VENDOR_AMD => Some (decode_synth_amd val stash)
                   | VENDOR_CYRIX => Some (decode_synth_cyrix val stash)
                   | VENDOR_VIA => Some (decode_synth_via val)
                   | VENDOR_TRANSMETA => Some (decode_synth_transmeta val stash)
                   | VENDOR_UMC => Some (decode_synth_umc val)
                   | VENDOR_NEXGEN => Some (decode_synth_nexgen val)
                   | VENDOR_RISE => Some (decode_synth_rise val)
                   | VENDOR_SIS => Some (decode_synth_sis val)
                   | VENDOR_NSC => Some (decode_synth_nsc val)
                   | VENDOR_VORTEX => Some (decode_synth_vortex val)
                   | VENDOR_RDC => Some (decode_synth_rdc val)
                   | VENDOR_HYGON => Some (decode_synth_hygon val)
                   | VENDOR_ZHAOXIN => Some (decode_synth_zhaoxin val)
                   | VENDOR_UNKNOWN => None
                   end <= 246)%nat).
    { destruct vendor; cbn [opt_length]; try lia;
        match goal with
        | |- (String.length (?f val stash) <= _)%nat =>
            unfold f; apply Nat.le_trans with (m := 150%nat); [table_within | lia]
        | |- (String.length (?f val) <= _)%nat =>
            unfold f; apply Nat.le_trans with (m := 150%nat); [table_within | lia]
        end. }
    cbv zeta.
    pose proof (append_uarch_within 246 _ val vendor S). lia.
  - unfold decode_x_synth_amd.
    destruct (cascade decode_x_synth_amd_rules val None) as [str|] eqn:E.
    + assert (W : acts_within 150 decode_x_synth_amd_rules = true)
        by (vm_compute; reflexivity).
      pose proof (cascade_within _ _ _ _ _ W E).
      cbn [opt_length]. lia.
    + pose proof (append_uarch_within 246 (Some (decode_synth_amd val None))
                    val VENDOR_AMD A0). lia.
  - unfold decode_x_synth_hygon. cbn [cascade decode_x_synth_hygon_rules].
    assert (S : (opt_length (Some (decode_synth_hygon val)) <= 246)%nat).
    { cbn [opt_length]. unfold decode_synth_hygon.
      apply Nat.le_trans with (m := 150%nat); [table_within | lia]. }
    pose proof (append_uarch_within 246 _ val VENDOR_HYGON S). lia.
  - unfold decode_x_synth_via. cbv zeta.
    assert (S : (opt_length (Some (first_match decode_x_synth_via_rules
                                     (DEFAULT "unknown") val None))
                 <= 246)%nat).
    { cbn [opt_length].
      apply Nat.le_trans with (m := 150%nat); [table_within | lia]. }
    pose proof (append_uarch_within 246 _ val VENDOR_VIA S). lia.
Qed.

(** *** The synth dispatch *)

Lemma sprintf_s (a : cstring) : sprintf "%s" [ArgS a] = a.
Proof. cbn. apply append_empty_r. Qed.

Lemma append_uarch_some (val : Z) (vendor : vendor_t) (str : cstring) :
  append_uarch (Some str) val vendor = Some (str ++ uarch_suffix val vendor).
Proof.
  unfold append_uarch, uarch_suffix. cbv zeta.
  destruct (uarch (decode_uarch val vendor)) as [u|];
    destruct (core_is_uarch (decode_uarch val vendor));
    destruct (family (decode_uarch val vendor)) as [f|];
    destruct (phys (decode_uarch val vendor)) as [p|];
    cbn [not_null negb andb orb];
    rewrite ?sprintf_s; cbn [sprintf];
    rewrite ?append_empty_r, ?append_assoc; cbn [append];
    rewrite ?append_empty_r, ?append_assoc; reflexivity.
Qed.


(** X17: [decode_synth] returns NULL for the unknown vendor and for no
    other: every vendor table ends in a default string. *)
Theorem decode_synth_null_iff_unknown_vendor (val : Z) (vendor : vendor_t)
        (stash : option code_stash_t) :
  decode_synth val vendor stash = None <-> vendor = VENDOR_UNKNOWN.
Proof.
  unfold decode_synth. cbv zeta.
  destruct vendor;
    try (rewrite append_uarch_some; split; discriminate).
  split; reflexivity.
Qed.

Lemma uarch_cascade_sig rules val arch :
  forallb uarch_mask_in_sig rules = true ->
  Uarch.cascade rules (sig_bits val) arch = Uarch.cascade rules val arch.
Proof.
  induction rules as [|r rules IH]; cbn [forallb Uarch.cascade]; intros H.
  - reflexivity.
  - apply andb_true_iff in H. destruct H as [H1 H2].
    rewrite (IH H2).
    replace (Uarch.key_matches (sig_bits val) r) with (Uarch.key_matches val r);
      [reflexivity|].
    unfold uarch_mask_in_sig, Uarch.key_matches, sig_bits in *.
    apply Z.eqb_eq in H1.
    rewrite <- Z.land_assoc, (Z.land_comm 0x0fff3fff), H1. reflexivity.
Qed.

Lemma decode_uarch_sig val vendor :
  decode_uarch (sig_bits val) vendor = decode_uarch val vendor.
Proof.
  unfold decode_uarch. cbv zeta.
  destruct vendor; try reflexivity;
    apply uarch_cascade_sig; vm_compute; reflexivity.
Qed.

Lemma append_uarch_sig synth val vendor :
  append_uarch synth (sig_bits val) vendor = append_uarch synth val vendor.
Proof. unfold append_uarch. rewrite decode_uarch_sig. reflexivity. Qed.

Lemma first_match_sig rules default val stash :
  forallb mask_in_sig rules = true ->
  first_match rules default (sig_bits val) stash
  = first_match rules default val stash.
Proof. intros H. unfold first_match. rewrite cascade_sig by exact H. reflexivity. Qed.

Ltac table_sig := apply first_match_sig; vm_compute; reflexivity.

(** X18: the synth string depends on the signature through its type,
    family, model and stepping fields only: bits 14, 15 and 28 to 31 of
    [val_eax] never change what [decode_synth] returns. *)
Theorem decode_synth_ignores_reserved_bits (val : Z) (vendor : vendor_t)
        (stash : option code_stash_t) :
  decode_synth (Z.land val 0x0fff3fff) vendor stash
  = decode_synth val vendor stash.
Proof.
  change (Z.land val 0x0fff3fff) with (sig_bits val).
  unfold decode_synth. cbv zeta. rewrite append_uarch_sig.
  f_equal.
  destruct vendor; try reflexivity; f_equal;
    try (match goal with
         | |- ?f (sig_bits val) stash = _ => unfold f
         | |- ?f (sig_bits val) = _ => unfold f
         end; table_sig).
  unfold decode_synth_amd. cbv zeta.
  rewrite first_match_sig by (vm_compute; reflexivity). reflexivity.
Qed.

(** X19: without a stash (the simple synth) a table behaves as if its
    query rules were not there: the result is that of the table with the
    [FQ], [FMQ] and [FMSQ] rules removed. *)
Theorem null_stash_skips_query_rules (rules : list rule) (default : cstring)
        (val : Z) :
  first_match rules default val None
  = first_match (filter unqualified rules) default val None.
Proof.
  unfold first_match.
  assert (C : cascade rules val None
              = cascade (filter unqualified rules) val None).
  { induction rules as [|r rules IH]; cbn [filter cascade]; [reflexivity|].
    unfold rule_fires at 1, query_holds, unqualified at 1.
    destruct (r_query r) as [q|] eqn:Q; cbn [not_null negb].
    - rewrite andb_false_r. exact IH.
    - cbn [cascade]. unfold rule_fires, query_holds. rewrite Q, IH.
      reflexivity. }
  rewrite C. reflexivity.
Qed.

Lemma family_rule_matches families r val :
  family_rule families r = true ->
  key_matches val r = true ->
  existsb (Z.eqb (__F val)) families = true.
Proof.
  unfold family_rule, key_matches, __F. intros H K.
  apply andb_true_iff in H. destruct H as [M E].
  apply Z.eqb_eq in M, K.
  rewrite <- K in E. rewrite <- Z.land_assoc, M in E. exact E.
Qed.

Lemma cascade_no_family families rules val stash :
  forallb (family_rule families) rules = true ->
  existsb (Z.eqb (__F val)) families = false ->
  cascade rules val stash = None.
Proof.
  intros H N. induction rules as [|r rules IH]; cbn [cascade forallb] in *;
    [reflexivity|].
  apply andb_true_iff in H. destruct H as [H1 H2].
  unfold rule_fires.
  destruct (key_matches val r) eqn:K.
  - rewrite (family_rule_matches _ _ _ H1 K) in N. discriminate.
  - exact (IH H2).
Qed.

Lemma cascade_some_in rules val stash :
  existsb (rule_fires val stash) rules = true ->
  exists str, cascade rules val stash = Some str /\ In str (map r_act rules).
Proof.
  induction rules as [|r rules IH]; cbn [existsb cascade map]; [discriminate|].
  destruct (rule_fires val stash r).
  - intros _. exists (r_act r). split; [reflexivity | left; reflexivity].
  - cbn [orb]. intros H. destruct (IH H) as (str & E & I).
    exists str. split; [exact E | right; exact I].
Qed.

Ltac fires E :=
  unfold rule_fires, key_matches, query_holds, F;
  cbn [r_mask r_key r_query]; rewrite andb_true_r; exact E.

(** X20: [decode_x_synth_amd] answers from its own table exactly for the
    families 5, 6 and 7 (extended family 0), with one of the table's
    strings and no uarch suffix; for every other family it falls back to
    the simple synth of [decode_synth_amd] with the uarch appended. *)
Theorem decode_x_synth_amd_fallback (val : Z) :
  let legacy := existsb (Z.eqb (__F val))
                        [_XF 0 + _F 5; _XF 0 + _F 6; _XF 0 + _F 7] in
  (legacy = false ->
   decode_x_synth_amd val
   = append_uarch (Some (decode_synth_amd val None)) val VENDOR_AMD)
  /\ (legacy = true ->
      exists str, decode_x_synth_amd val = Some str
                  /\ In str (map r_act decode_x_synth_amd_rules)).
Proof.
  intros legacy. unfold decode_x_synth_amd. split; intros L.
  - rewrite (cascade_no_family
               [_XF 0 + _F 5; _XF 0 + _F 6; _XF 0 + _F 7]
               decode_x_synth_amd_rules val None);
      [reflexivity | vm_compute; reflexivity | exact L].
  - destruct (cascade_some_in decode_x_synth_amd_rules val None)
      as (str & E & I).
    + unfold legacy in L. cbn [existsb] in L.
      apply existsb_exists.
      destruct (__F val =? _XF 0 + _F 5) eqn:E5.
      { exists (F 0 5 "AMD 5k86 (unknown model)").
        split; [apply (nth_error_In _ 4); reflexivity | fires E5]. }
      destruct (__F val =? _XF 0 + _F 6) eqn:E6.
      { exists (F 0 6 "AMD K6 (unknown model)").
        split; [apply (nth_error_In _ 13); reflexivity | fires E6]. }
      destruct (__F val =? _XF 0 + _F 7) eqn:E7; [|discriminate].
      exists (F 0 7 "AMD Athlon XP / Athlon MP / Sempron / Duron / Duron MP / mobile Athlon / mobile Athlon XP-M / mobile Athlon XP-M (LV) / mobile Duron (unknown model)").
      split; [apply (nth_error_In _ 34); reflexivity | fires E7].
    + rewrite E. exists str. split; [reflexivity | exact I].
Qed.

Lemma decode_x_synth_amd_fallback_witness :
  decode_x_synth_amd 0x00100f42
  = append_uarch (Some (decode_synth_amd 0x00100f42 None))
                 0x00100f42 VENDOR_AMD
  /\ exists str, decode_x_synth_amd 0x00000662 = Some str
                 /\ In str (map r_act decode_x_synth_amd_rules).
Proof.
  split.
  - apply (proj1 (decode_x_synth_amd_fallback 0x00100f42)). reflexivity.
  - apply (proj2 (decode_x_synth_amd_fallback 0x00000662)). reflexivity.
Defined.

(** *** The brand string *)

Lemma brand_stash_intel_cache s v :
  brand (stash_intel_cache s v) = brand s.
Proof.
  unfold stash_intel_cache. cbv zeta. cbn [switch case].
  split_ifs; reflexivity.
Qed.

Lemma brand_print_reg reg words raw try s :
  brand (print_reg reg words raw try s)
  = if raw then brand s
    else if reg =? 0x80000002 then memcpy_words (brand s) 0 words
    else if reg =? 0x80000003 then memcpy_words (brand s) 16 words
    else if reg =? 0x80000004 then memcpy_words (brand s) 32 words
    else brand s.
Proof.
  unfold print_reg.
  assert (C : forall x, brand (print_reg_capture reg words try x) = brand x).
  { intros x. unfold print_reg_capture. split_ifs; reflexivity. }
  destruct raw; [apply C|].
  rewrite <- (C s).
  generalize (print_reg_capture reg words try s) as x.
  intros x. unfold print_reg_decode.
  destruct (Z.eqb_spec reg 0) as [->|_]; [reflexivity|].
  destruct (Z.eqb_spec reg 2) as [->|_].
  { cbn [Z.eqb Pos.eqb].
    unfold print_reg_leaf2. generalize (seq 0 4) as ws.
    intros ws; revert x.
    induction ws as [|w ws IH]; intros x; cbn [fold_left]; [reflexivity|].
    rewrite IH.
    destruct (Z.land (word words w) 2147483648 =? 0); [|reflexivity].
    generalize (skipn (if (try =? 0) && Nat.eqb w WORD_EAX
                       then 1%nat else 0%nat)
                      (bytes_of_word (word words w))) as bytes.
    intros bytes; revert x.
    induction bytes as [|b bytes IHb]; intros x; cbn [fold_left];
      [reflexivity|].
    rewrite IHb. apply brand_stash_intel_cache. }
  destruct (Z.eqb_spec reg 0x17) as [->|_].
  { cbn [Z.eqb Pos.eqb]. split_ifs; reflexivity. }
  destruct (Z.eqb_spec reg 0x80000001) as [->|_]; [reflexivity|].
  destruct (reg =? 0x80000002); [reflexivity|].
  destruct (reg =? 0x80000003); [reflexivity|].
  destruct (reg =? 0x80000004); [reflexivity|].
  unfold print_80000006_ecx, print_80860002_eax.
  split_ifs; reflexivity.
Qed.

Lemma block_memcpy_words (k j : nat) (buf : list ascii) (words : list Z) :
  length buf = 49%nat -> (k < 3)%nat -> (j < 3)%nat ->
  block k (memcpy_words buf (16 * j) words)
  = if Nat.eqb k j then register_chars words else block k buf.
Proof.
  intros L Hk Hj. unfold memcpy_words, block. fold (register_chars words).
  assert (Lb : length (register_chars words) = 16%nat) by reflexivity.
  generalize dependent (register_chars words). intros bytes Lb.
  do 17 (destruct bytes as [|? bytes]; try discriminate Lb).
  do 50 (destruct buf as [|? buf]; try discriminate L).
  destruct k as [|[|[|k]]]; [| | |lia];
    (destruct j as [|[|[|j]]]; [| | |lia]); reflexivity.
Qed.

(** X21: the brand string is assembled from leaves 0x80000002 to
    0x80000004 whatever their order: after a decoding pass over a stash
    with arrays of the declared sizes, each of the three 16-byte blocks
    of [brand] holds the register bytes, in memory order, of the last
    observation of its leaf, and is as it was when the leaf was not
    observed.  A raw pass does not touch [brand]. *)
Theorem brand_holds_last_leaves (obs : list observation)
        (stash : code_stash_t) (k : nat) :
  sized stash -> (k < 3)%nat ->
  block k (brand (stash_pass false obs stash))
  = match last_words (0x80000002 + Z.of_nat k) obs with
    | Some words => register_chars words
    | None => block k (brand stash)
    end
  /\ brand (stash_pass true obs stash) = brand stash.
Proof.
  intros H Hk. split.
  - unfold stash_pass. revert stash H.
    induction obs as [|o obs IH]; intros stash H; cbn [fold_left last_words];
      [reflexivity|].
    assert (H1 : sized (print_reg (o_reg o) (o_words o) false (o_try o) stash)).
    { unfold print_reg.
      apply sized_print_reg_decode, sized_print_reg_capture, H. }
    rewrite (IH _ H1).
    destruct (last_words (0x80000002 + Z.of_nat k) obs) as [words|];
      [reflexivity|].
    rewrite brand_print_reg.
    assert (L : length (brand stash) = 49%nat) by apply H.
    pose proof (block_memcpy_words k 0 (brand stash) (o_words o) L Hk) as B0.
    pose proof (block_memcpy_words k 1 (brand stash) (o_words o) L Hk) as B1.
    pose proof (block_memcpy_words k 2 (brand stash) (o_words o) L Hk) as B2.
    change (16 * 0)%nat with 0%nat in B0.
    change (16 * 1)%nat with 16%nat in B1.
    change (16 * 2)%nat with 32%nat in B2.
    destruct k as [|[|[|k]]]; [| | |lia]; cbn [Z.of_nat Pos.of_succ_nat Pos.succ Z.add Pos.add Pos.add_carry] in *;
      cbn [Nat.eqb] in B0, B1, B2;
      destruct (Z.eqb_spec (o_reg o) 0x80000002) as [E|N2];
      try (rewrite E; cbn [Z.eqb Pos.eqb]);
      try (rewrite B0 by lia; reflexivity);
      destruct (Z.eqb_spec (o_reg o) 0x80000003) as [E|N3];
      try (rewrite E; cbn [Z.eqb Pos.eqb]);
      try (rewrite B1 by lia; reflexivity);
      destruct (Z.eqb_spec (o_reg o) 0x80000004) as [E|N4];
      try (rewrite E; cbn [Z.eqb Pos.eqb]);
      try (rewrite B2 by lia; reflexivity);
      try reflexivity; try lia.
  - clear H Hk. unfold stash_pass. revert stash.
    induction obs as [|o obs IH]; intros stash; cbn [fold_left];
      [reflexivity|].
    rewrite IH. apply brand_print_reg.
Qed.

Lemma brand_holds_last_leaves_witness :
  sized NIL_STASH /\ (0 < 3)%nat
  /\ block 0 (brand (stash_pass false dump_amd_0Fh_athlon_64 NIL_STASH))
     = list_ascii_of_string "AMD Processor mo".
Proof.
  split; [apply sized_NIL|]. split; [lia|].
  rewrite (proj1 (brand_holds_last_leaves dump_amd_0Fh_athlon_64 NIL_STASH 0
                    sized_NIL ltac:(lia))).
  vm_compute. reflexivity.
Defined.
